(** * IntelliMeet: room coordination, host authority, chat buffer and
      fan-out hub

    A shallow embedding of the Express/SQLite backend
    ([routes/rooms.ts], [routes/participants.ts], [routes/chat.ts],
    [middleware/validation.ts], [middleware/rateLimiter.ts],
    [services/websocket.ts], [database/sqlite.ts]) and the proofs of its
    properties.

    Conventions of the embedding.
    - A JavaScript string is a [string]; every [ascii] stands for one
      UTF-16 code unit below 256, so [String.length] is the [.length] of
      the source.
    - SQL tables are lists of rows in insertion order; a [PRIMARY KEY]
      makes an [INSERT] of a taken id fail.
    - [Date.now()] is a number of milliseconds; SQLite's [datetime('now')]
      is the same clock cut to whole seconds.
    - Values drawn from [Math.random] (room, participant and message ids)
      are inputs of the handlers.
    - A route handler is given twice. As a function of type [M] it runs
      from its first query to its response with no other request in
      between: what one request does to a store. In [Async] it is the same
      handler statement by statement, suspended at every [await]; the
      statements of the requests in flight run in any order, and
      [reachable] is what the database can hold then.
    - The handlers of the chat buffer, the hub and the rate limiter are
      synchronous: each runs to its end before the next event. *)

From Stdlib Require Import ZArith Lia Bool List Ascii String Sorted.
From stdpp Require Import base option list strings pretty gmap.

Local Open Scope Z_scope.

(* ===================================================================== *)
(** ** Strings of the validation layer *)
(* ===================================================================== *)

Module Str.

(** White space of ECMAScript ([String.prototype.trim] and the regex
    class [\s]) among the code units below 256: TAB, LF, VT, FF, CR,
    SPACE and NBSP. *)
Definition isSpace (c : ascii) : bool :=
  let n := N_of_ascii c in
  (((9 <=? n) && (n <=? 13)) || (n =? 32) || (n =? 160))%N.

Definition isLower (c : ascii) : bool :=
  let n := N_of_ascii c in ((97 <=? n) && (n <=? 122))%N.

Definition isUpper (c : ascii) : bool :=
  let n := N_of_ascii c in ((65 <=? n) && (n <=? 90))%N.

Definition isDigit (c : ascii) : bool :=
  let n := N_of_ascii c in ((48 <=? n) && (n <=? 57))%N.

(** [<] is 60 and [>] is 62. *)
Definition isAngle (c : ascii) : bool :=
  let n := N_of_ascii c in ((n =? 60) || (n =? 62))%N.

(** The class [[a-z0-9]]. *)
Definition isRoomIdChar (c : ascii) : bool := isLower c || isDigit c.

(** The class [[a-zA-Z0-9\s\-_]]: [-] is 45 and [_] is 95. *)
Definition isNameChar (c : ascii) : bool :=
  let n := N_of_ascii c in
  isLower c || isUpper c || isDigit c || isSpace c
  || (n =? 45)%N || (n =? 95)%N.

Fixpoint trimStart (l : list ascii) : list ascii :=
  match l with
  | [] => []
  | c :: l' => if isSpace c then trimStart l' else l
  end.

Fixpoint trimEnd (l : list ascii) : list ascii :=
  match l with
  | [] => []
  | c :: l' =>
      match trimEnd l' with
      | [] => if isSpace c then [] else [c]
      | t => c :: t
      end
  end.

(** [s.trim()] *)
Definition trimL (l : list ascii) : list ascii := trimEnd (trimStart l).

(** [s.replace(/[<>]/g, '')] *)
Definition stripAngles (l : list ascii) : list ascii :=
  List.filter (fun c => negb (isAngle c)) l.

(** [s.replace(/\s+/g, ' ')]: [inRun] tells that the previous code unit
    was white space, whose run has already been replaced. *)
Fixpoint collapseSpaces (inRun : bool) (l : list ascii) : list ascii :=
  match l with
  | [] => []
  | c :: l' =>
      if isSpace c
      then (if inRun then collapseSpaces true l'
            else " "%char :: collapseSpaces true l')
      else c :: collapseSpaces false l'
  end.

(** [s.toLowerCase()] on code units below 256: A-Z, and the accented
    capitals 192-222 except the multiplication sign 215. *)
Definition toLower (c : ascii) : ascii :=
  let n := N_of_ascii c in
  if (isUpper c || ((192 <=? n) && (n <=? 222) && negb (n =? 215)))%N
  then ascii_of_N (n + 32) else c.

Definition trim (s : string) : string :=
  string_of_list_ascii (trimL (list_ascii_of_string s)).

(** [/^[a-z0-9]+$/.test(s)] *)
Definition matchesRoomId (s : string) : bool :=
  let l := list_ascii_of_string s in
  negb (Nat.eqb (List.length l) 0) && forallb isRoomIdChar l.

(** [/^[a-zA-Z0-9\s\-_]+$/.test(s)] *)
Definition matchesName (s : string) : bool :=
  let l := list_ascii_of_string s in
  negb (Nat.eqb (List.length l) 0) && forallb isNameChar l.

(** No code unit of [l] is [<] or [>]. *)
Definition noAngles (l : list ascii) : bool :=
  forallb (fun c => negb (isAngle c)) l.

(** JavaScript truthiness of a string: the empty string is falsy. *)
Definition truthy (s : string) : bool :=
  negb (Nat.eqb (String.length s) 0).

End Str.

(** [sanitizeString] of [middleware/validation.ts]. *)
Definition sanitizeString (input : string) : string :=
  string_of_list_ascii
    (Str.collapseSpaces false
       (Str.stripAngles (Str.trimL (list_ascii_of_string input)))).

(** [sanitizeRoomId] of [middleware/validation.ts]. *)
Definition sanitizeRoomId (roomId : string) : string :=
  string_of_list_ascii
    (List.filter Str.isRoomIdChar
       (List.map Str.toLower (list_ascii_of_string roomId))).

(** Truthiness of an optional string ([undefined], [null] and the empty
    string are falsy). *)
Definition truthyOpt (o : option string) : bool :=
  match o with Some s => Str.truthy s | None => false end.

(* ===================================================================== *)
(** ** Errors and results *)
(* ===================================================================== *)

(** [AppError] carries a status code; the message text is not modelled. *)
Inductive AppError : Type :=
| BadRequest | Forbidden | NotFound | Conflict | Gone | Internal.

Definition statusCode (e : AppError) : Z :=
  match e with
  | BadRequest => 400
  | Forbidden => 403
  | NotFound => 404
  | Conflict => 409
  | Gone => 410
  | Internal => 500
  end.

Inductive result (A : Type) : Type :=
| Ok (a : A)
| Err (e : AppError).
Arguments Ok {A} a.
Arguments Err {A} e.

Definition isOk {A} (r : result A) : bool :=
  match r with Ok _ => true | Err _ => false end.

(* ===================================================================== *)
(** ** The state store: tables [rooms] and [participants] *)
(* ===================================================================== *)

Module Room.
Record row : Type := mk {
  id : string;
  title : string;
  description : option string;
  password : option string;
  is_recording_enabled : bool;
  max_participants : Z;
  created_at : Z;            (* seconds *)
  is_active : bool;
  creator_id : string
}.

Definition set_is_active (b : bool) (r : row) : row :=
  mk (id r) (title r) (description r) (password r)
     (is_recording_enabled r) (max_participants r) (created_at r)
     b (creator_id r).
End Room.

Module Participant.
Record row : Type := mk {
  id : string;
  room_id : string;
  name : string;
  joined_at : Z;             (* seconds *)
  left_at : option Z;        (* NULL while present *)
  is_audio_enabled : bool;
  is_video_enabled : bool;
  is_screen_sharing : bool;
  is_host : bool
}.

Definition set_left_at (t : option Z) (p : row) : row :=
  mk (id p) (room_id p) (name p) (joined_at p) t
     (is_audio_enabled p) (is_video_enabled p) (is_screen_sharing p)
     (is_host p).

Definition set_is_audio_enabled (b : bool) (p : row) : row :=
  mk (id p) (room_id p) (name p) (joined_at p) (left_at p)
     b (is_video_enabled p) (is_screen_sharing p) (is_host p).

Definition set_is_video_enabled (b : bool) (p : row) : row :=
  mk (id p) (room_id p) (name p) (joined_at p) (left_at p)
     (is_audio_enabled p) b (is_screen_sharing p) (is_host p).

Definition set_is_screen_sharing (b : bool) (p : row) : row :=
  mk (id p) (room_id p) (name p) (joined_at p) (left_at p)
     (is_audio_enabled p) (is_video_enabled p) b (is_host p).

(** [left_at IS NULL] *)
Definition present (p : row) : bool :=
  match left_at p with None => true | Some _ => false end.
End Participant.

Record Store : Type := mkStore {
  rooms : list Room.row;
  participants : list Participant.row
}.

Definition emptyStore : Store := mkStore [] [].

(** The clock: [Date.now()] in milliseconds and [datetime('now')] in
    seconds. *)
Definition datetimeNow (now : Z) : Z := now / 1000.

(* ===================================================================== *)
(** ** SQL statements of the handlers *)
(* ===================================================================== *)

Module Sql.

(** [SELECT ... FROM rooms WHERE id = ?], first row. *)
Definition roomById (id : string) (s : Store) : option Room.row :=
  List.find (fun r => String.eqb (Room.id r) id) (rooms s).

(** [SELECT created_at FROM rooms WHERE id = ? AND is_active = 1] *)
Definition activeRoomById (id : string) (s : Store) : option Room.row :=
  List.find (fun r => String.eqb (Room.id r) id && Room.is_active r)
    (rooms s).

(** [WHERE room_id = ? AND left_at IS NULL] *)
Definition presentIn (roomId : string) (p : Participant.row) : bool :=
  String.eqb (Participant.room_id p) roomId && Participant.present p.

(** [WHERE room_id = ? AND name = ? AND left_at IS NULL] *)
Definition presentNamed (roomId name : string) (p : Participant.row)
  : bool :=
  String.eqb (Participant.room_id p) roomId
  && String.eqb (Participant.name p) name
  && Participant.present p.

(** [WHERE room_id = ? AND is_host = 1 AND left_at IS NULL] *)
Definition presentHostIn (roomId : string) (p : Participant.row) : bool :=
  String.eqb (Participant.room_id p) roomId
  && Participant.is_host p
  && Participant.present p.

(** [WHERE id = ? AND left_at IS NULL] *)
Definition presentWithId (id : string) (p : Participant.row) : bool :=
  String.eqb (Participant.id p) id && Participant.present p.

(** [SELECT COUNT( * ) ... WHERE room_id = ? AND left_at IS NULL] *)
Definition countPresent (roomId : string) (s : Store) : Z :=
  Z.of_nat (List.length (List.filter (presentIn roomId) (participants s))).

(** [SELECT COUNT( * ) ... WHERE room_id = ? AND is_host = 1
    AND left_at IS NULL] *)
Definition countPresentHosts (roomId : string) (s : Store) : Z :=
  Z.of_nat
    (List.length (List.filter (presentHostIn roomId) (participants s))).

Definition selectPresentNamed (roomId name : string) (s : Store)
  : list Participant.row :=
  List.filter (presentNamed roomId name) (participants s).

Definition selectPresentWithId (id : string) (s : Store)
  : list Participant.row :=
  List.filter (presentWithId id) (participants s).

(** [INSERT INTO rooms ...]: [None] when the primary key is taken. *)
Definition insertRoom (r : Room.row) (s : Store) : option Store :=
  if existsb (fun r' => String.eqb (Room.id r') (Room.id r)) (rooms s)
  then None
  else Some (mkStore (rooms s ++ [r]) (participants s)).

(** [INSERT INTO participants ...]: [None] when the primary key is
    taken. *)
Definition insertParticipant (p : Participant.row) (s : Store)
  : option Store :=
  if existsb (fun p' => String.eqb (Participant.id p') (Participant.id p))
       (participants s)
  then None
  else Some (mkStore (rooms s) (participants s ++ [p])).

(** What an [UPDATE participants SET ... WHERE <cond>] does to one row. *)
Definition rewriteRow (cond : Participant.row -> bool)
    (f : Participant.row -> Participant.row) (p : Participant.row)
  : Participant.row :=
  if cond p then f p else p.

(** [UPDATE participants SET ... WHERE <cond>]: every matching row is
    rewritten. *)
Definition updateParticipants (cond : Participant.row -> bool)
    (f : Participant.row -> Participant.row) (s : Store) : Store :=
  mkStore (rooms s) (List.map (rewriteRow cond f) (participants s)).

(** [this.changes] after such an update: the number of matching rows. *)
Definition changes (cond : Participant.row -> bool) (s : Store) : Z :=
  Z.of_nat (List.length (List.filter cond (participants s))).

(** [UPDATE rooms SET is_active = 0 WHERE id = ?] *)
Definition deactivateRoom (id : string) (s : Store) : Store :=
  mkStore
    (List.map (fun r => if String.eqb (Room.id r) id
                        then Room.set_is_active false r else r) (rooms s))
    (participants s).

(** [UPDATE participants SET left_at = datetime('now')
     WHERE room_id = ? AND left_at IS NULL] *)
Definition markAllLeft (roomId : string) (t : Z) (s : Store) : Store :=
  updateParticipants (presentIn roomId)
    (Participant.set_left_at (Some t)) s.

(** [UPDATE participants SET left_at = datetime('now')
     WHERE id = ? AND left_at IS NULL] *)
Definition markLeft (id : string) (t : Z) (s : Store) : Store :=
  updateParticipants (presentWithId id)
    (Participant.set_left_at (Some t)) s.

End Sql.

(* ===================================================================== *)
(** ** Handlers as store transformers that may throw *)
(* ===================================================================== *)

(** A handler reads and writes the store and either answers or throws an
    [AppError]; writes made before a throw stay (no transaction). A handler
    of type [M] is run on a store with no statement of another request
    between its own. *)
Definition M (A : Type) : Type := Store -> result A * Store.

Definition ret {A} (a : A) : M A := fun s => (Ok a, s).
Definition throw {A} (e : AppError) : M A := fun s => (Err e, s).
Definition bind {A B} (m : M A) (k : A -> M B) : M B :=
  fun s => match m s with
           | (Ok a, s') => k a s'
           | (Err e, s') => (Err e, s')
           end.

Notation "x <- m ;; k" := (bind m (fun x => k))
  (at level 100, m at next level, right associativity).
Notation "m ;;; k" := (bind m (fun _ => k))
  (at level 100, right associativity).

(** [await pool.query(SELECT ...)] *)
Definition query {A} (q : Store -> A) : M A := fun s => (Ok (q s), s).
(** [await pool.query(UPDATE ...)] *)
Definition exec (u : Store -> Store) : M unit := fun s => (Ok tt, u s).
(** An [INSERT]; a constraint failure rejects the promise, which the error
    handler answers with status 500. *)
Definition execInsert (u : Store -> option Store) : M unit :=
  fun s => match u s with
           | Some s' => (Ok tt, s')
           | None => (Err Internal, s)
           end.
(** [if (b) throw new AppError(_, e)] *)
Definition throwIf (b : bool) (e : AppError) : M unit :=
  if b then throw e else ret tt.
(** Reading a property of [undefined] is a [TypeError], answered with
    status 500. *)
Definition defined {A} (o : option A) : M A :=
  match o with Some a => ret a | None => throw Internal end.

(** [SQLiteWrapper.insertAndReturn]: run the insert, then read the row back
    under [customId || this.lastID]; [lastID] is the rowid of the new row,
    the number of rows of a table nothing is ever deleted from. *)
Definition idToUse (customId : string) (rows : nat) : string :=
  if Str.truthy customId then customId else pretty (Z.of_nat rows).

Definition insertAndReturnRoom (r : Room.row) : M (option Room.row) :=
  execInsert (Sql.insertRoom r) ;;;
  query (fun s =>
           Sql.roomById (idToUse (Room.id r) (List.length (rooms s))) s).

Definition insertAndReturnParticipant (p : Participant.row)
  : M (option Participant.row) :=
  execInsert (Sql.insertParticipant p) ;;;
  query (fun s =>
           List.find (fun p' => String.eqb (Participant.id p')
                        (idToUse (Participant.id p)
                                 (List.length (participants s))))
             (participants s)).

(* ===================================================================== *)
(** ** Request bodies and the zod schemas ([middleware/validation.ts]) *)
(* ===================================================================== *)

(** A body is represented with its required fields present and every field
    of its declared type: zod answers a body that lacks a required field,
    or carries a field of another type (a non-integer [maxParticipants]
    among them), with status 400 before any handler runs. *)

Module CreateRoomRequest.
Record t : Type := mk {
  title : string;
  description : option string;
  password : option string;
  isRecordingEnabled : option bool;
  maxParticipants : option Z
}.
End CreateRoomRequest.

Module JoinRoomRequest.
Record t : Type := mk {
  roomId : string;
  participantName : string;
  password : option string
}.
End JoinRoomRequest.

Definition lengthBetween (lo hi : nat) (s : string) : bool :=
  (Nat.leb lo (String.length s)) && (Nat.leb (String.length s) hi).

Definition optional {A} (check : A -> bool) (o : option A) : bool :=
  match o with Some a => check a | None => true end.

(** [createRoomSchema]: the checks of a string run in the order written, so
    [min] and [max] see the text as sent and [trim] rewrites it after. *)
Definition createRoomSchema (b : CreateRoomRequest.t)
  : option CreateRoomRequest.t :=
  let title := CreateRoomRequest.title b in
  if lengthBetween 1 100 title
     && optional (lengthBetween 0 500) (CreateRoomRequest.description b)
     && optional (fun p => lengthBetween 0 50 p
                           && (negb (Str.truthy p)
                               || Nat.leb 4 (String.length p)))
          (CreateRoomRequest.password b)
     && optional (fun n => (2 <=? n) && (n <=? 10))
          (CreateRoomRequest.maxParticipants b)
  then Some (CreateRoomRequest.mk
               (Str.trim title)
               (Str.trim <$> CreateRoomRequest.description b)
               (CreateRoomRequest.password b)
               (Some (default false (CreateRoomRequest.isRecordingEnabled b)))
               (Some (default 10 (CreateRoomRequest.maxParticipants b))))
  else None.

(** [joinRoomSchema]: the name is trimmed before its regex is tried. *)
Definition joinRoomSchema (b : JoinRoomRequest.t)
  : option JoinRoomRequest.t :=
  let name := Str.trim (JoinRoomRequest.participantName b) in
  if lengthBetween 1 20 (JoinRoomRequest.roomId b)
     && Str.matchesRoomId (JoinRoomRequest.roomId b)
     && lengthBetween 1 50 (JoinRoomRequest.participantName b)
     && Str.matchesName name
     && optional (lengthBetween 0 50) (JoinRoomRequest.password b)
  then Some (JoinRoomRequest.mk (JoinRoomRequest.roomId b) name
               (JoinRoomRequest.password b))
  else None.

(** [validateBody(schema)] in front of a handler. *)
Definition validateBody {A B} (schema : A -> option A) (handler : A -> M B)
    (body : A) : M B :=
  match schema body with
  | Some validated => handler validated
  | None => throw BadRequest
  end.

(* ===================================================================== *)
(** ** Room Lifecycle Manager ([routes/rooms.ts]) *)
(* ===================================================================== *)

Record RoomResponse : Type := mkRoomResponse {
  resId : string;
  resTitle : string;
  resDescription : option string;
  hasPassword : bool;
  resIsRecordingEnabled : bool;
  resMaxParticipants : Z;
  resCreatedAt : Z;
  resIsActive : bool;
  creatorId : string
}.

Record ParticipantResponse : Type := mkParticipantResponse {
  partId : string;
  partName : string;
  partJoinedAt : Z;
  partIsHost : bool
}.

Record JoinRoomResponse : Type := mkJoinRoomResponse {
  joinedRoom : string;
  joinedMaxParticipants : Z;
  participant : ParticipantResponse
}.

Record CheckTimeoutResponse : Type := mkCheckTimeoutResponse {
  shouldClose : bool;
  remainingMinutes : Z
}.

(** [x || d] on a number: [undefined] and [0] are falsy. *)
Definition orNumber (x : option Z) (d : Z) : Z :=
  match x with
  | Some n => if n =? 0 then d else n
  | None => d
  end.

(** [x || null] on a string. *)
Definition orNull (x : option string) : option string :=
  if truthyOpt x then x else None.

(** A row as [INSERT INTO participants (id, room_id, name, joined_at,
    is_host)] leaves it: the other columns take their defaults. *)
Definition newParticipant (id roomId name : string) (t : Z) (host : bool)
  : Participant.row :=
  Participant.mk id roomId name t None true true false host.

(** [generateRoomId]: twelve characters of the alphabet, the [i]-th picked
    by the [i]-th value of [Math.floor(Math.random() * chars.length)]. *)
Definition roomIdAlphabet : string := "abcdefghijklmnopqrstuvwxyz0123456789".

Fixpoint generateRoomIdLoop (rounds : nat) (draws : list nat) : string :=
  match rounds, draws with
  | S rounds', d :: draws' =>
      match String.get d roomIdAlphabet with
      | Some c => String c (generateRoomIdLoop rounds' draws')
      | None => generateRoomIdLoop rounds' draws'
      end
  | _, _ => EmptyString
  end.

Definition generateRoomIdFrom (draws : list nat) : string :=
  generateRoomIdLoop 12 draws.

(** Handler of [POST /api/rooms]. [roomId] is [generateRoomId()],
    [creatorId] is [generateParticipantId()]. *)
Definition createRoom (roomId creatorId : string) (now : Z)
    (body : CreateRoomRequest.t) : M RoomResponse :=
  let sanitizedTitle := sanitizeString (CreateRoomRequest.title body) in
  let sanitizedDescription :=
    sanitizeString <$> orNull (CreateRoomRequest.description body) in
  let cappedMaxParticipants :=
    Z.min (orNumber (CreateRoomRequest.maxParticipants body) 10) 10 in
  room <- insertAndReturnRoom
            (Room.mk roomId sanitizedTitle sanitizedDescription
               (orNull (CreateRoomRequest.password body))
               (default false (CreateRoomRequest.isRecordingEnabled body))
               cappedMaxParticipants (datetimeNow now) true creatorId) ;;
  execInsert
    (Sql.insertParticipant
       (newParticipant creatorId roomId "Host" (datetimeNow now) true)) ;;;
  room <- defined room ;;
  ret (mkRoomResponse (Room.id room) (Room.title room)
         (Room.description room) (truthyOpt (Room.password room))
         (Room.is_recording_enabled room) (Room.max_participants room)
         (Room.created_at room) (Room.is_active room) creatorId).

Definition createRoomRoute (roomId creatorId : string) (now : Z)
  : CreateRoomRequest.t -> M RoomResponse :=
  validateBody createRoomSchema (createRoom roomId creatorId now).

(** [room.password && room.password !== password] *)
Definition passwordRejected (stored supplied : option string) : bool :=
  match stored with
  | Some pw =>
      Str.truthy pw
      && negb (match supplied with
               | Some given => String.eqb pw given
               | None => false
               end)
  | None => false
  end.

(** The body of a successful join answer. *)
Definition joinResponse (room : Room.row) (p : Participant.row)
  : JoinRoomResponse :=
  mkJoinRoomResponse (Room.id room) (Room.max_participants room)
    (mkParticipantResponse (Participant.id p) (Participant.name p)
       (Participant.joined_at p) (Participant.is_host p)).

(** Handler of [POST /api/rooms/join]. [participantId] is
    [generateParticipantId()]. *)
Definition joinRoom (participantId : string) (now : Z)
    (body : JoinRoomRequest.t) : M JoinRoomResponse :=
  let sanitizedRoomId := sanitizeRoomId (JoinRoomRequest.roomId body) in
  let sanitizedParticipantName :=
    sanitizeString (JoinRoomRequest.participantName body) in
  roomResult <- query (Sql.roomById sanitizedRoomId) ;;
  match roomResult with
  | None => throw NotFound
  | Some room =>
      throwIf (negb (Room.is_active room)) Gone ;;;
      throwIf (passwordRejected (Room.password room)
                 (JoinRoomRequest.password body)) Forbidden ;;;
      participantCount <- query (Sql.countPresent sanitizedRoomId) ;;
      throwIf (Room.max_participants room <=? participantCount) Conflict ;;;
      existingResult <-
        query (Sql.selectPresentNamed sanitizedRoomId
                 sanitizedParticipantName) ;;
      p <- match existingResult with
           | existing :: _ => ret existing
           | [] =>
               hostCount <- query (Sql.countPresentHosts sanitizedRoomId) ;;
               let shouldBeHost := hostCount =? 0 in
               inserted <- insertAndReturnParticipant
                             (newParticipant participantId sanitizedRoomId
                                sanitizedParticipantName (datetimeNow now)
                                shouldBeHost) ;;
               defined inserted
           end ;;
      ret (joinResponse room p)
  end.

Definition joinRoomRoute (participantId : string) (now : Z)
  : JoinRoomRequest.t -> M JoinRoomResponse :=
  validateBody joinRoomSchema (joinRoom participantId now).

(** Handler of [POST /api/rooms/leave]. *)
Definition leaveRoom (now : Z) (participantId : option string) : M unit :=
  throwIf (negb (truthyOpt participantId)) BadRequest ;;;
  exec (Sql.markLeft (default EmptyString participantId) (datetimeNow now)).

(** Handler of [GET /api/rooms/:roomId/timeout]; a route parameter is never
    empty, which is all its schema asks. *)
Definition checkTimeout (now : Z) (roomId : string)
  : M CheckTimeoutResponse :=
  roomResult <- query (Sql.activeRoomById roomId) ;;
  match roomResult with
  | None => ret (mkCheckTimeoutResponse true 0)
  | Some room =>
      let createdAt := Room.created_at room * 1000 in
      let minutesElapsed := (now - createdAt) / (1000 * 60) in
      let remainingMinutes := Z.max 0 (30 - minutesElapsed) in
      if 30 <=? minutesElapsed
      then
        exec (Sql.deactivateRoom roomId) ;;;
        exec (Sql.markAllLeft roomId (datetimeNow now)) ;;;
        ret (mkCheckTimeoutResponse true 0)
      else ret (mkCheckTimeoutResponse false remainingMinutes)
  end.

(** Handler of [POST /api/rooms/:roomId/end], its body schema
    [participantId: z.string().min(1)] included. *)
Definition endMeeting (now : Z) (roomId : string)
    (participantId : option string) : M unit :=
  throwIf (negb (truthyOpt participantId)) BadRequest ;;;
  let pid := default EmptyString participantId in
  hostResult <-
    query (fun s => List.filter
                      (fun p => Sql.presentWithId pid p
                                && String.eqb (Participant.room_id p) roomId)
                      (participants s)) ;;
  match hostResult with
  | [] => throw NotFound
  | h :: _ =>
      throwIf (negb (Participant.is_host h)) Forbidden ;;;
      exec (Sql.deactivateRoom roomId) ;;;
      exec (Sql.markAllLeft roomId (datetimeNow now))
  end.

(* ===================================================================== *)
(** ** Authority and Control Engine ([routes/participants.ts]) *)
(* ===================================================================== *)

Module UpdateParticipantRequest.
Record t : Type := mk {
  isAudioEnabled : option bool;
  isVideoEnabled : option bool;
  isScreenSharing : option bool
}.
End UpdateParticipantRequest.

(** The [SET] list built by the handler: a field that is not [undefined]
    is overwritten. *)
Definition applyUpdates (u : UpdateParticipantRequest.t)
    (p : Participant.row) : Participant.row :=
  let p1 := match UpdateParticipantRequest.isAudioEnabled u with
            | Some b => Participant.set_is_audio_enabled b p
            | None => p
            end in
  let p2 := match UpdateParticipantRequest.isVideoEnabled u with
            | Some b => Participant.set_is_video_enabled b p1
            | None => p1
            end in
  match UpdateParticipantRequest.isScreenSharing u with
  | Some b => Participant.set_is_screen_sharing b p2
  | None => p2
  end.

Definition noUpdates (u : UpdateParticipantRequest.t) : bool :=
  match UpdateParticipantRequest.isAudioEnabled u,
        UpdateParticipantRequest.isVideoEnabled u,
        UpdateParticipantRequest.isScreenSharing u with
  | None, None, None => true
  | _, _, _ => false
  end.

(** Handler of [PUT /api/participants/:participantId]: the statement is
    [UPDATE participants SET ... WHERE id = ?]. *)
Definition updateParticipant (participantId : string)
    (u : UpdateParticipantRequest.t) : M unit :=
  throwIf (noUpdates u) BadRequest ;;;
  let cond := fun p => String.eqb (Participant.id p) participantId in
  rowCount <- query (Sql.changes cond) ;;
  exec (Sql.updateParticipants cond (applyUpdates u)) ;;;
  throwIf (rowCount =? 0) NotFound.

(** The admission steps the four host-only handlers repeat word for word:
    the requester must be present and a host, the target present, in the
    requester's room, and not a host. *)
Definition admitHostAction (hostId participantId : string) : M unit :=
  hostResult <- query (Sql.selectPresentWithId hostId) ;;
  match hostResult with
  | [] => throw NotFound
  | h :: _ =>
      throwIf (negb (Participant.is_host h)) Forbidden ;;;
      let roomId := Participant.room_id h in
      participantResult <- query (Sql.selectPresentWithId participantId) ;;
      match participantResult with
      | [] => throw NotFound
      | target :: _ =>
          throwIf (negb (String.eqb (Participant.room_id target) roomId))
            BadRequest ;;;
          throwIf (Participant.is_host target) Forbidden
      end
  end.

(** Handler of [POST /api/participants/:participantId/kick]. *)
Definition kick (now : Z) (participantId : string) (hostId : option string)
  : M unit :=
  throwIf (negb (truthyOpt hostId)) BadRequest ;;;
  admitHostAction (default EmptyString hostId) participantId ;;;
  exec (Sql.markLeft participantId (datetimeNow now)).

(** The statement [UPDATE participants SET <flag> = ? WHERE id = ? AND
    left_at IS NULL] of the three flag controls. *)
Definition setFlag (participantId : string)
    (f : Participant.row -> Participant.row) : M unit :=
  exec (Sql.updateParticipants (Sql.presentWithId participantId) f).

(** Handler of [POST /api/participants/:participantId/mute]; [mute] is
    [None] when the body's field is not a boolean. *)
Definition mute (participantId : string) (hostId : option string)
    (mute : option bool) : M unit :=
  throwIf (negb (truthyOpt hostId)) BadRequest ;;;
  match mute with
  | None => throw BadRequest
  | Some m =>
      admitHostAction (default EmptyString hostId) participantId ;;;
      setFlag participantId (Participant.set_is_audio_enabled (negb m))
  end.

(** Handler of [POST /api/participants/:participantId/video]. *)
Definition video (participantId : string) (hostId : option string)
    (enable : option bool) : M unit :=
  throwIf (negb (truthyOpt hostId)) BadRequest ;;;
  match enable with
  | None => throw BadRequest
  | Some e =>
      admitHostAction (default EmptyString hostId) participantId ;;;
      setFlag participantId (Participant.set_is_video_enabled e)
  end.

(** Handler of [POST /api/participants/:participantId/screenshare]. *)
Definition screenshare (participantId : string) (hostId : option string)
    (enable : option bool) : M unit :=
  throwIf (negb (truthyOpt hostId)) BadRequest ;;;
  match enable with
  | None => throw BadRequest
  | Some e =>
      admitHostAction (default EmptyString hostId) participantId ;;;
      setFlag participantId (Participant.set_is_screen_sharing e)
  end.

(** The four host-only controls behind one name. *)
Inductive HostAction : Type :=
| DoKick
| DoMute (mute : option bool)
| DoVideo (enable : option bool)
| DoScreenshare (enable : option bool).

Definition hostAction (now : Z) (a : HostAction) (participantId : string)
    (hostId : option string) : M unit :=
  match a with
  | DoKick => kick now participantId hostId
  | DoMute m => mute participantId hostId m
  | DoVideo en => video participantId hostId en
  | DoScreenshare en => screenshare participantId hostId en
  end.

(** The argument of a flag control is a boolean, as its handler demands. *)
Definition wellTyped (a : HostAction) : Prop :=
  match a with
  | DoKick => True
  | DoMute m => m <> None
  | DoVideo en => en <> None
  | DoScreenshare en => en <> None
  end.

(* ===================================================================== *)
(** ** The request/response surface as one transition function *)
(* ===================================================================== *)

(** What the environment supplies to one request: the clock and the two
    random identifiers a handler may draw. *)
Record Env : Type := mkEnv {
  now : Z;
  generateRoomId : string;
  generateParticipantId : string
}.

Inductive Request : Type :=
| CreateRoom (body : CreateRoomRequest.t)
| JoinRoom (body : JoinRoomRequest.t)
| LeaveRoom (participantId : option string)
| CheckTimeout (roomId : string)
| EndMeeting (roomId : string) (participantId : option string)
| UpdateParticipant (participantId : string)
    (body : UpdateParticipantRequest.t)
| Kick (participantId : string) (hostId : option string)
| Mute (participantId : string) (hostId : option string)
    (mute : option bool)
| Video (participantId : string) (hostId : option string)
    (enable : option bool)
| Screenshare (participantId : string) (hostId : option string)
    (enable : option bool).

(** The store after a request; the response is dropped. *)
Definition after {A} (m : M A) (s : Store) : Store := snd (m s).
Definition answer {A} (m : M A) (s : Store) : result A := fst (m s).

Definition serve (e : Env) (rq : Request) (s : Store) : Store :=
  match rq with
  | CreateRoom body =>
      after (createRoomRoute (generateRoomId e) (generateParticipantId e)
               (now e) body) s
  | JoinRoom body =>
      after (joinRoomRoute (generateParticipantId e) (now e) body) s
  | LeaveRoom pid => after (leaveRoom (now e) pid) s
  | CheckTimeout rid => after (checkTimeout (now e) rid) s
  | EndMeeting rid pid => after (endMeeting (now e) rid pid) s
  | UpdateParticipant pid body => after (updateParticipant pid body) s
  | Kick pid hid => after (kick (now e) pid hid) s
  | Mute pid hid m => after (mute pid hid m) s
  | Video pid hid en => after (video pid hid en) s
  | Screenshare pid hid en => after (screenshare pid hid en) s
  end.

(** The stores reached when the requests are served one at a time, each
    answered before the next one arrives, under any clock and any
    identifiers drawn. The server does not wait so: see [Async] and
    [reachable] below. *)
Inductive inTurn : Store -> Prop :=
| inTurn_empty : inTurn emptyStore
| inTurn_serve e rq s : inTurn s -> inTurn (serve e rq s).

(* ===================================================================== *)
(** ** Chat buffer ([routes/chat.ts]) *)
(* ===================================================================== *)

Record ChatMessage : Type := mkChatMessage {
  msgId : string;
  msgRoomId : string;
  sender : string;
  content : string;
  timestamp : Z
}.

Module SendMessageRequest.
Record t : Type := mk {
  roomId : option string;
  sender : option string;
  content : option string
}.
End SendMessageRequest.

(** The process holds the database handle and, beside it, the module-level
    [roomMessages] map of [chat.ts]. *)
Record Server : Type := mkServer {
  database : Store;
  roomMessages : gmap string (list ChatMessage)
}.

(** [messages.splice(0, messages.length - 100)] under
    [messages.length > 100]. *)
Definition keepLast100 (messages : list ChatMessage) : list ChatMessage :=
  if Nat.ltb 100 (List.length messages)
  then drop (List.length messages - 100) messages
  else messages.

(** Handler of [POST /api/chat/send]. [now] is [Date.now()] and [suffix] is
    [Math.random().toString(36).substring(2)]. *)
Definition sendMessage (now : Z) (suffix : string)
    (rq : SendMessageRequest.t) (sv : Server)
  : result ChatMessage * Server :=
  if negb (truthyOpt (SendMessageRequest.roomId rq))
     || negb (truthyOpt (SendMessageRequest.sender rq))
     || negb (truthyOpt (SendMessageRequest.content rq))
  then (Err BadRequest, sv)
  else
    let roomId := default EmptyString (SendMessageRequest.roomId rq) in
    let message :=
      mkChatMessage (String.append (pretty now) suffix) roomId
        (default EmptyString (SendMessageRequest.sender rq))
        (default EmptyString (SendMessageRequest.content rq)) now in
    let messages := default [] (roomMessages sv !! roomId) ++ [message] in
    (Ok message,
     mkServer (database sv)
       (<[roomId := keepLast100 messages]> (roomMessages sv))).

(** What the handler answered. *)
Definition answer_of {A S} (r : result A * S) : result A := fst r.

(** Handler of [GET /api/chat/:roomId/messages]. *)
Definition listMessages (roomId : string) (sv : Server) : list ChatMessage :=
  default [] (roomMessages sv !! roomId).

(** Handler of [DELETE /api/chat/:roomId/clear]. *)
Definition clearMessages (roomId : string) (sv : Server) : Server :=
  mkServer (database sv) (delete roomId (roomMessages sv)).

(** The last [n] elements of a list, in their order. *)
Definition lastN {A} (n : nat) (l : list A) : list A :=
  drop (List.length l - n) l.

(** One call of [POST /api/chat/send] with what the clock and the random
    source gave it. *)
Record Send : Type := mkSend {
  sendNow : Z;
  sendSuffix : string;
  sendBody : SendMessageRequest.t
}.

(** A run of sends; the messages the handler answered with are collected
    in the order of their appends. *)
Fixpoint sendAll (sends : list Send) (sv : Server)
  : list ChatMessage * Server :=
  match sends with
  | [] => ([], sv)
  | x :: later =>
      let (r, sv1) := sendMessage (sendNow x) (sendSuffix x) (sendBody x) sv in
      let (ms, sv2) := sendAll later sv1 in
      (match r with Ok m => m :: ms | Err _ => ms end, sv2)
  end.

(** Messages of one room among those appended. *)
Definition ofRoom (roomId : string) (ms : list ChatMessage)
  : list ChatMessage :=
  List.filter (fun m => String.eqb (msgRoomId m) roomId) ms.

(** The three fields of a send are present and non-empty. *)
Definition sendable (rq : SendMessageRequest.t) : bool :=
  truthyOpt (SendMessageRequest.roomId rq)
  && truthyOpt (SendMessageRequest.sender rq)
  && truthyOpt (SendMessageRequest.content rq).

(* ===================================================================== *)
(** ** Realtime fan-out hub ([services/websocket.ts]) *)
(* ===================================================================== *)

Module Hub.

Record ConnectedClient : Type := mkClient {
  isOpen : bool;            (* ws.readyState === WebSocket.OPEN *)
  roomId : option string;
  participantId : option string;
  lastPing : Z;
  isAlive : bool
}.

(** Server-to-client frames the join and leave paths emit. *)
Inductive Frame : Type :=
| ErrorFrame (message : string)
| ParticipantJoined (participantId roomId : string)
| ParticipantLeft (participantId : option string) (roomId : string).

(** [connectedClients] in insertion order, [roomClientCount], and the
    frames handed to [ws.send], oldest first, each with the id of the
    connection it went to. *)
Record t : Type := mk {
  connectedClients : list (string * ConnectedClient);
  roomClientCount : gmap string Z;
  sent : list (string * Frame)
}.

Definition MAX_CLIENTS_PER_ROOM : Z := 10.

Definition get (clientId : string) (h : t) : option ConnectedClient :=
  snd <$> List.find (fun kc => String.eqb (fst kc) clientId)
            (connectedClients h).

(** Assignment to the fields of the client object held in the map. *)
Definition setBinding (clientId : string) (room pid : option string)
    (h : t) : t :=
  mk (List.map (fun kc =>
                  if String.eqb (fst kc) clientId
                  then (fst kc,
                        mkClient (isOpen (snd kc)) room pid
                          (lastPing (snd kc)) (isAlive (snd kc)))
                  else kc) (connectedClients h))
     (roomClientCount h) (sent h).

Definition boundTo (room : string) (c : ConnectedClient) : bool :=
  match roomId c with Some r => String.eqb r room | None => false end.

(** The connections [broadcastToRoom] writes to. *)
Definition audience (room : string) (excludeClientId : option string)
    (h : t) : list string :=
  List.map fst
    (List.filter
       (fun kc => boundTo room (snd kc)
                  && negb (match excludeClientId with
                           | Some x => String.eqb (fst kc) x
                           | None => false
                           end)
                  && isOpen (snd kc))
       (connectedClients h)).

(** [broadcastToRoom]; a [send] on an open socket is taken to succeed. *)
Definition broadcastToRoom (room : string) (frame : Frame)
    (excludeClientId : option string) (h : t) : t :=
  mk (connectedClients h) (roomClientCount h)
     (sent h
      ++ List.map (fun c => (c, frame)) (audience room excludeClientId h)).

Definition send (clientId : string) (frame : Frame) (h : t) : t :=
  mk (connectedClients h) (roomClientCount h)
     (sent h ++ [(clientId, frame)]).

(** [roomClientCount.get(roomId) || 0] *)
Definition countOf (room : string) (h : t) : Z :=
  default 0 (roomClientCount h !! room).

Definition setCount (room : string) (n : Z) (h : t) : t :=
  mk (connectedClients h) (<[room := n]> (roomClientCount h)) (sent h).

(** [leaveRoomInternal] *)
Definition leaveRoomInternal (clientId room : string) (h : t) : t :=
  match get clientId h with
  | None => h
  | Some client =>
      let h1 := broadcastToRoom room
                  (ParticipantLeft (participantId client) room)
                  (Some clientId) h in
      let currentRoomCount := countOf room h1 in
      let h2 := if 0 <? currentRoomCount
                then setCount room (currentRoomCount - 1) h1 else h1 in
      setBinding clientId None None h2
  end.

(** [handleJoinRoom] on a [join-room] message whose data carries the two
    strings [room] and [pid]. *)
Definition handleJoinRoom (clientId room pid : string) (h : t) : t :=
  match get clientId h with
  | None => h
  | Some client =>
      let currentRoomCount := countOf room h in
      if MAX_CLIENTS_PER_ROOM <=? currentRoomCount
      then send clientId (ErrorFrame "Room is full") h
      else
        let h1 := if truthyOpt (roomId client)
                  then leaveRoomInternal clientId
                         (default EmptyString (roomId client)) h
                  else h in
        let h2 := setBinding clientId (Some room) (Some pid) h1 in
        let h3 := setCount room (currentRoomCount + 1) h2 in
        broadcastToRoom room (ParticipantJoined pid room)
          (Some clientId) h3
  end.

(** Whether the handler turned the request down: its one answer is the
    error frame, and nothing else changes. *)
Definition rejects (clientId room pid : string) (h : t) : Prop :=
  handleJoinRoom clientId room pid h
  = send clientId (ErrorFrame "Room is full") h.

(** The frames [leaveRoomInternal] emits when [handleJoinRoom] first takes
    the client out of the room it was bound to. *)
Definition leftFrames (clientId : string) (client : ConnectedClient) (h : t)
  : list (string * Frame) :=
  if truthyOpt (roomId client)
  then List.map
         (fun c => (c, ParticipantLeft (participantId client)
                         (default EmptyString (roomId client))))
         (audience (default EmptyString (roomId client)) (Some clientId) h)
  else [].

End Hub.

(* ===================================================================== *)
(** ** Writes and store invariants *)
(* ===================================================================== *)

(** What an [UPDATE participants] of the handlers may do to a row: identity,
    room, name and host flag stay, and a departed row stays departed. *)
Definition keepsIdentity (f : Participant.row -> Participant.row) : Prop :=
  forall p,
    Participant.id (f p) = Participant.id p
    /\ Participant.room_id (f p) = Participant.room_id p
    /\ Participant.name (f p) = Participant.name p
    /\ Participant.is_host (f p) = Participant.is_host p
    /\ (Participant.present (f p) = true -> Participant.present p = true).

(** A name as the join handler stores it: sanitizing it again, trimmed or
    not, gives it back. *)
Definition storedName (n : string) : Prop :=
  sanitizeString (Str.trim n) = n /\ Str.trim n = n.

(** The single statements by which the handlers change the store, each
    with what its handler has checked before issuing it. *)
Inductive write : Store -> Store -> Prop :=
| write_room r s s' :
    Sql.insertRoom r s = Some s' ->
    2 <= Room.max_participants r <= 10 ->
    write s s'
| write_creator creatorId roomId t s s' :
    Sql.roomById roomId s <> None ->
    (forall p, In p (participants s) -> Participant.room_id p <> roomId) ->
    Sql.insertParticipant (newParticipant creatorId roomId "Host" t true) s
    = Some s' ->
    write s s'
| write_join participantId roomId name t s s' :
    Sql.roomById roomId s <> None ->
    Sql.selectPresentNamed roomId name s = [] ->
    storedName name ->
    Sql.insertParticipant
      (newParticipant participantId roomId name t
         (Sql.countPresentHosts roomId s =? 0)) s = Some s' ->
    write s s'
| write_update cond f s :
    keepsIdentity f ->
    write s (Sql.updateParticipants cond f s)
| write_deactivate roomId s :
    write s (Sql.deactivateRoom roomId s).

(** Every participant row belongs to a room of the store. *)
Definition roomsKnown (s : Store) : Prop :=
  forall p, In p (participants s) ->
            Sql.roomById (Participant.room_id p) s <> None.

(** At most one present host per room. *)
Definition singleHost (s : Store) : Prop :=
  forall roomId, Sql.countPresentHosts roomId s <= 1.

(** Present participants of one room carry distinct names. *)
Definition distinctNames (s : Store) : Prop :=
  forall roomId name,
    (List.length (Sql.selectPresentNamed roomId name s) <= 1)%nat.

Definition namesStored (s : Store) : Prop :=
  forall p, In p (participants s) -> storedName (Participant.name p).

Definition capsInRange (s : Store) : Prop :=
  forall r, In r (rooms s) -> 2 <= Room.max_participants r <= 10.

Record invariant (s : Store) : Prop := mkInvariant {
  inv_roomsKnown : roomsKnown s;
  inv_singleHost : singleHost s;
  inv_distinctNames : distinctNames s;
  inv_namesStored : namesStored s;
  inv_capsInRange : capsInRange s
}.

(** The row [createRoom] inserts for a validated body. *)
Definition createdRoom (roomId creatorId : string) (now : Z)
    (v : CreateRoomRequest.t) : Room.row :=
  Room.mk roomId (sanitizeString (CreateRoomRequest.title v))
    (sanitizeString <$> orNull (CreateRoomRequest.description v))
    (orNull (CreateRoomRequest.password v))
    (default false (CreateRoomRequest.isRecordingEnabled v))
    (Z.min (orNumber (CreateRoomRequest.maxParticipants v) 10) 10)
    (datetimeNow now) true creatorId.

(** Minutes since creation as [checkTimeout] computes them. *)
Definition minutesElapsed (now : Z) (room : Room.row) : Z :=
  (now - Room.created_at room * 1000) / (1000 * 60).

(** No active room carries the id: the room is unknown or inactive. *)
Definition noActiveRoom (roomId : string) (s : Store) : Prop :=
  forall r, In r (rooms s) -> Room.id r = roomId -> Room.is_active r = false.


(** The hub's cap read as the room's own: a bind request is turned down
    once the room's counter has reached the [maxParticipants] of the room's
    row. *)
Definition hubCapIsRoomCap : Prop :=
  forall (s : Store) (h : Hub.t) (clientId roomId pid : string)
         (room : Room.row),
    Sql.roomById roomId s = Some room ->
    Hub.get clientId h <> None ->
    Room.max_participants room <= Hub.countOf roomId h ->
    Hub.rejects clientId roomId pid h.

(* ===================================================================== *)
(** ** Reading endpoints: room details and the list of participants *)
(* ===================================================================== *)

(** The answer of [GET /api/rooms/:id]. *)
Record RoomInfo : Type := mkRoomInfo {
  infoId : string;
  infoTitle : string;
  infoDescription : option string;
  infoHasPassword : bool;
  infoIsRecordingEnabled : bool;
  infoMaxParticipants : Z;
  infoCreatedAt : Z;
  infoIsActive : bool;
  participantCount : Z
}.

(** [roomIdParamSchema] *)
Definition roomIdParamSchema (id : string) : bool :=
  lengthBetween 1 20 id && Str.matchesRoomId id.

(** Handler of [GET /api/rooms/:id]. *)
Definition getRoom (id : string) : M RoomInfo :=
  roomResult <- query (Sql.roomById id) ;;
  match roomResult with
  | None => throw NotFound
  | Some room =>
      participantCount <- query (Sql.countPresent id) ;;
      ret (mkRoomInfo (Room.id room) (Room.title room)
             (Room.description room) (truthyOpt (Room.password room))
             (Room.is_recording_enabled room) (Room.max_participants room)
             (Room.created_at room) (Room.is_active room) participantCount)
  end.

(** [validateParams(roomIdParamSchema)] in front of it. *)
Definition getRoomRoute (id : string) : M RoomInfo :=
  if roomIdParamSchema id then getRoom id else throw BadRequest.

(** One element of the answer of [GET /api/participants/room/:roomId]. *)
Record ParticipantView : Type := mkParticipantView {
  viewId : string;
  viewName : string;
  viewJoinedAt : Z;
  viewIsAudioEnabled : bool;
  viewIsVideoEnabled : bool;
  viewIsScreenSharing : bool;
  viewIsHost : bool
}.

Definition viewOf (p : Participant.row) : ParticipantView :=
  mkParticipantView (Participant.id p) (Participant.name p)
    (Participant.joined_at p) (Participant.is_audio_enabled p)
    (Participant.is_video_enabled p) (Participant.is_screen_sharing p)
    (Participant.is_host p).

(** [ORDER BY joined_at ASC]. SQL leaves the order of rows with the same
    [joined_at] open; here they keep the order of the table. *)
Fixpoint insertByJoinedAt (p : Participant.row) (l : list Participant.row)
  : list Participant.row :=
  match l with
  | [] => [p]
  | q :: l' =>
      if Participant.joined_at p <=? Participant.joined_at q
      then p :: l
      else q :: insertByJoinedAt p l'
  end.

Definition orderByJoinedAt (l : list Participant.row)
  : list Participant.row :=
  List.fold_right insertByJoinedAt [] l.

(** Handler of [GET /api/participants/room/:roomId]. *)
Definition listParticipants (roomId : string) : M (list ParticipantView) :=
  result <- query (fun s =>
                     orderByJoinedAt
                       (List.filter (Sql.presentIn roomId) (participants s))) ;;
  ret (List.map viewOf result).

(* ===================================================================== *)
(** ** What one request does to the two tables *)
(* ===================================================================== *)

(** Text free of [<] and [>]. *)
Definition cleanText (t : string) : Prop :=
  Str.noAngles (list_ascii_of_string t) = true.

Definition cleanRoom (r : Room.row) : Prop :=
  cleanText (Room.title r)
  /\ match Room.description r with
     | Some d => cleanText d
     | None => True
     end.

(** No row carries the id. *)
Definition idFree (id : string) (s : Store) : Prop :=
  forall p, In p (participants s) -> Participant.id p <> id.

(** The shapes the store after a request can have, with what the handler
    had checked before it wrote. *)
Inductive effect (s : Store) : Store -> Prop :=
| effect_none : effect s s
| effect_room r :
    Sql.roomById (Room.id r) s = None ->
    cleanRoom r -> Room.is_active r = true ->
    2 <= Room.max_participants r <= 10 ->
    effect s (mkStore (rooms s ++ [r]) (participants s))
| effect_create r creatorId t :
    Sql.roomById (Room.id r) s = None ->
    cleanRoom r -> Room.is_active r = true ->
    2 <= Room.max_participants r <= 10 ->
    idFree creatorId s ->
    effect s
      (mkStore (rooms s ++ [r])
         (participants s
          ++ [newParticipant creatorId (Room.id r) "Host" t true]))
| effect_join room participantId name t :
    Sql.roomById (Room.id room) s = Some room ->
    Room.is_active room = true ->
    Sql.countPresent (Room.id room) s < Room.max_participants room ->
    Sql.selectPresentNamed (Room.id room) name s = [] ->
    Str.matchesName name = true ->
    idFree participantId s ->
    effect s
      (mkStore (rooms s)
         (participants s
          ++ [newParticipant participantId (Room.id room) name t
                (Sql.countPresentHosts (Room.id room) s =? 0)]))
| effect_update cond f :
    keepsIdentity f ->
    effect s (Sql.updateParticipants cond f s)
| effect_close roomId t :
    effect s (Sql.markAllLeft roomId t (Sql.deactivateRoom roomId s)).

(** Present participants never outnumber the room's [max_participants]. *)
Definition withinCapacity (s : Store) : Prop :=
  forall roomId room,
    Sql.roomById roomId s = Some room ->
    Sql.countPresent roomId s <= Room.max_participants room.

(** Primary keys: no id twice in a table. *)
Definition uniqueIds (s : Store) : Prop :=
  NoDup (List.map Room.id (rooms s))
  /\ NoDup (List.map Participant.id (participants s)).

(** No stored room text carries [<] or [>]. *)
Definition cleanRooms (s : Store) : Prop :=
  forall r, In r (rooms s) -> cleanRoom r.

(** Every stored name is made of the characters the join schema admits. *)
Definition namesMatch (s : Store) : Prop :=
  forall p, In p (participants s) ->
            Str.matchesName (Participant.name p) = true.

(** What a flag control writes to its target; a kick, or a control whose
    argument is not a boolean, writes no flag. *)
Definition controlEffect (a : HostAction)
  : option (Participant.row -> Participant.row) :=
  match a with
  | DoKick => None
  | DoMute (Some m) => Some (Participant.set_is_audio_enabled (negb m))
  | DoVideo (Some en) => Some (Participant.set_is_video_enabled en)
  | DoScreenshare (Some en) => Some (Participant.set_is_screen_sharing en)
  | _ => None
  end.

(** The admission template passes: the requester resolves to a present
    host, the target to a present participant of the requester's room that
    is not a host. *)
Definition passesAdmission (hostId participantId : string) (s : Store)
    (host target : Participant.row) : Prop :=
  Str.truthy hostId = true
  /\ hd_error (Sql.selectPresentWithId hostId s) = Some host
  /\ Participant.is_host host = true
  /\ hd_error (Sql.selectPresentWithId participantId s) = Some target
  /\ Participant.room_id target = Participant.room_id host
  /\ Participant.is_host target = false.

(** White space occurs in [l] only as single plain spaces; [afterSpace]
    tells that the code unit before [l] was one. *)
Fixpoint singleSpaced (afterSpace : bool) (l : list ascii) : bool :=
  match l with
  | [] => true
  | c :: l' =>
      if Str.isSpace c
      then negb afterSpace && Ascii.eqb c " " && singleSpaced true l'
      else singleSpaced false l'
  end.

(* ===================================================================== *)
(** ** The socket server around the hub ([services/websocket.ts]) *)
(* ===================================================================== *)

Module Ws.

Definition PING_INTERVAL : Z := 30000.
Definition CLIENT_TIMEOUT : Z := 60000.
Definition RATE_LIMIT_WINDOW : Z := 60000.
Definition RATE_LIMIT_MAX_MESSAGES : Z := 100.

(** The hub with [clientMessageCounts]: per connection, the messages
    counted in the running window and the time the window ends. *)
Record t : Type := mk {
  hub : Hub.t;
  clientMessageCounts : gmap string (Z * Z)
}.

Definition init : t := mk (Hub.mk [] ∅ []) ∅.

Definition withClients (l : list (string * Hub.ConnectedClient))
    (h : Hub.t) : Hub.t :=
  Hub.mk l (Hub.roomClientCount h) (Hub.sent h).

(** [connectedClients.set(clientId, client)]: a key the [Map] already
    holds keeps its place. *)
Definition mapSet (clientId : string) (c : Hub.ConnectedClient)
    (l : list (string * Hub.ConnectedClient))
  : list (string * Hub.ConnectedClient) :=
  if existsb (fun kc => String.eqb (fst kc) clientId) l
  then List.map (fun kc => if String.eqb (fst kc) clientId
                           then (clientId, c) else kc) l
  else l ++ [(clientId, c)].

(** [connectedClients.delete(clientId)] *)
Definition mapDelete (clientId : string)
    (l : list (string * Hub.ConnectedClient))
  : list (string * Hub.ConnectedClient) :=
  List.filter (fun kc => negb (String.eqb (fst kc) clientId)) l.

(** The [connection] handler: the new client is open, alive and unbound.
    Its welcome frame is none of [Hub.Frame] and is not recorded. *)
Definition onConnection (clientId : string) (now : Z) (w : t) : t :=
  mk (withClients
        (mapSet clientId (Hub.mkClient true None None now true)
           (Hub.connectedClients (hub w)))
        (hub w))
     (clientMessageCounts w).

(** Assignment to [isAlive] and, when given, [lastPing] of the client
    object held in the map. *)
Definition setHeartbeat (clientId : string) (alive : bool)
    (ping : option Z) (h : Hub.t) : Hub.t :=
  withClients
    (List.map (fun kc =>
                 if String.eqb (fst kc) clientId
                 then (fst kc,
                       Hub.mkClient (Hub.isOpen (snd kc))
                         (Hub.roomId (snd kc)) (Hub.participantId (snd kc))
                         (default (Hub.lastPing (snd kc)) ping) alive)
                 else kc) (Hub.connectedClients h))
    h.

(** The [pong] handler. *)
Definition onPong (clientId : string) (now : Z) (w : t) : t :=
  mk (setHeartbeat clientId true (Some now) (hub w))
     (clientMessageCounts w).

(** The socket's [readyState] leaves [OPEN]; its [close] event has not
    been handled yet. *)
Definition onDrop (clientId : string) (w : t) : t :=
  mk (withClients
        (List.map (fun kc =>
                     if String.eqb (fst kc) clientId
                     then (fst kc,
                           Hub.mkClient false
                             (Hub.roomId (snd kc))
                             (Hub.participantId (snd kc))
                             (Hub.lastPing (snd kc)) (Hub.isAlive (snd kc)))
                     else kc) (Hub.connectedClients (hub w)))
        (hub w))
     (clientMessageCounts w).

(** [handleLeaveRoom] *)
Definition handleLeaveRoom (clientId : string) (h : Hub.t) : Hub.t :=
  match Hub.get clientId h with
  | None => h
  | Some client =>
      if negb (truthyOpt (Hub.roomId client)) then h
      else Hub.leaveRoomInternal clientId
             (default EmptyString (Hub.roomId client)) h
  end.

(** [cleanupClient] *)
Definition cleanupClient (clientId : string) (w : t) : t :=
  let h := hub w in
  let h1 := match Hub.get clientId h with
            | Some client =>
                if truthyOpt (Hub.roomId client)
                then Hub.leaveRoomInternal clientId
                       (default EmptyString (Hub.roomId client)) h
                else h
            | None => h
            end in
  mk (withClients (mapDelete clientId (Hub.connectedClients h1)) h1)
     (delete clientId (clientMessageCounts w)).

(** [cleanupDeadConnections]: the dead are collected first, then cleaned
    up one by one. *)
Definition isDead (now : Z) (c : Hub.ConnectedClient) : bool :=
  negb (Hub.isAlive c) || (CLIENT_TIMEOUT <? now - Hub.lastPing c).

Definition cleanupDeadConnections (now : Z) (w : t) : t :=
  let deadClients :=
    List.map fst
      (List.filter (fun kc => isDead now (snd kc))
         (Hub.connectedClients (hub w))) in
  List.fold_left (fun w' clientId => cleanupClient clientId w')
    deadClients w.

(** [pingConnections]: an entry removed while the [Map] is walked is not
    visited; a [ping] on an open socket is taken to succeed. *)
Definition pingOne (w : t) (clientId : string) : t :=
  match Hub.get clientId (hub w) with
  | None => w
  | Some client =>
      if Hub.isOpen client
      then mk (setHeartbeat clientId false None (hub w))
              (clientMessageCounts w)
      else cleanupClient clientId w
  end.

Definition pingConnections (w : t) : t :=
  List.fold_left pingOne
    (List.map fst (Hub.connectedClients (hub w))) w.

(** The body of the heartbeat interval. *)
Definition heartbeat (now : Z) (w : t) : t :=
  pingConnections (cleanupDeadConnections now w).

(** [rateLimitCheck] *)
Definition rateLimitCheck (clientId : string) (now : Z)
    (counts : gmap string (Z * Z)) : bool * gmap string (Z * Z) :=
  match counts !! clientId with
  | Some (count, resetTime) =>
      if resetTime <? now
      then (true, <[clientId := (1, now + RATE_LIMIT_WINDOW)]> counts)
      else if RATE_LIMIT_MAX_MESSAGES <=? count
      then (false, counts)
      else (true, <[clientId := (count + 1, resetTime)]> counts)
  | None => (true, <[clientId := (1, now + RATE_LIMIT_WINDOW)]> counts)
  end.

(** The verdicts of [rateLimitCheck] on the messages of one connection
    that arrive at the given times. *)
Fixpoint verdicts (clientId : string) (times : list Z)
    (counts : gmap string (Z * Z)) : list bool :=
  match times with
  | [] => []
  | now :: later =>
      let (ok, counts') := rateLimitCheck clientId now counts in
      ok :: verdicts clientId later counts'
  end.

(** A parsed client message; payloads the server only passes on are kept
    as text. *)
Inductive Message : Type :=
| MsgJoinRoom (roomId participantId : string)
| MsgLeaveRoom
| MsgChat (data : string)
| MsgSignal (targetParticipantId : option string) (signal : string)
| MsgParticipantUpdate (data : string)
| MsgParticipantControl (data : string)
| MsgParticipantKicked (participantId : option string)
| MsgOther.

(** The frames of the relaying handlers. *)
Inductive Relay : Type :=
| RelayChat (data : string)
| RelaySignal (signal : string) (fromParticipantId : option string)
| RelayUpdate (data : string) (participantId : option string)
| RelayControl (data : string) (fromParticipantId : option string)
| RelayKicked
| RelayLeftKicked (participantId : option string) (roomId : string).

(** [a === b] on two optional strings. *)
Definition sameId (a b : option string) : bool :=
  match a, b with
  | Some x, Some y => String.eqb x y
  | None, None => true
  | _, _ => false
  end.

(** [broadcastToRoom] for a relayed frame: who gets it. *)
Definition relayToRoom (room : string) (frame : Relay)
    (excludeClientId : option string) (h : Hub.t)
  : list (string * Relay) :=
  List.map (fun c => (c, frame)) (Hub.audience room excludeClientId h).

(** [sendToParticipant]: the first open connection carrying the id. *)
Definition sendToParticipant (participantId : option string)
    (frame : Relay) (h : Hub.t) : list (string * Relay) :=
  match List.find (fun kc => sameId (Hub.participantId (snd kc))
                               participantId
                             && Hub.isOpen (snd kc))
          (Hub.connectedClients h) with
  | Some kc => [(fst kc, frame)]
  | None => []
  end.

(** The relaying handlers write no state; each is given by the frames it
    hands to [ws.send], oldest first. *)
Definition handleChatMessage (clientId data : string) (h : Hub.t)
  : list (string * Relay) :=
  match Hub.get clientId h with
  | None => []
  | Some client =>
      if negb (truthyOpt (Hub.roomId client)) then []
      else relayToRoom (default EmptyString (Hub.roomId client))
             (RelayChat data) None h
  end.

Definition handleSignaling (clientId : string)
    (targetParticipantId : option string) (signal : string) (h : Hub.t)
  : list (string * Relay) :=
  match Hub.get clientId h with
  | None => []
  | Some client =>
      if negb (truthyOpt (Hub.roomId client)) then []
      else if truthyOpt targetParticipantId
      then sendToParticipant targetParticipantId
             (RelaySignal signal (Hub.participantId client)) h
      else relayToRoom (default EmptyString (Hub.roomId client))
             (RelaySignal signal (Hub.participantId client))
             (Some clientId) h
  end.

Definition handleParticipantUpdate (clientId data : string) (h : Hub.t)
  : list (string * Relay) :=
  match Hub.get clientId h with
  | None => []
  | Some client =>
      if negb (truthyOpt (Hub.roomId client)) then []
      else relayToRoom (default EmptyString (Hub.roomId client))
             (RelayUpdate data (Hub.participantId client))
             (Some clientId) h
  end.

Definition handleParticipantControl (clientId data : string) (h : Hub.t)
  : list (string * Relay) :=
  match Hub.get clientId h with
  | None => []
  | Some client =>
      if negb (truthyOpt (Hub.roomId client)) then []
      else relayToRoom (default EmptyString (Hub.roomId client))
             (RelayControl data (Hub.participantId client)) None h
  end.

Definition handleParticipantKicked (clientId : string)
    (participantId : option string) (h : Hub.t) : list (string * Relay) :=
  match Hub.get clientId h with
  | None => []
  | Some client =>
      if negb (truthyOpt (Hub.roomId client)) then []
      else
        let room := default EmptyString (Hub.roomId client) in
        sendToParticipant participantId RelayKicked h
        ++ relayToRoom room (RelayLeftKicked participantId room)
             (Some clientId) h
  end.

(** [handleWebSocketMessage]: the hub afterwards and the relayed frames. *)
Definition handleWebSocketMessage (clientId : string) (m : Message)
    (h : Hub.t) : Hub.t * list (string * Relay) :=
  match Hub.get clientId h with
  | None => (h, [])
  | Some _ =>
      match m with
      | MsgJoinRoom roomId participantId =>
          (Hub.handleJoinRoom clientId roomId participantId h, [])
      | MsgLeaveRoom => (handleLeaveRoom clientId h, [])
      | MsgChat data => (h, handleChatMessage clientId data h)
      | MsgSignal target signal =>
          (h, handleSignaling clientId target signal h)
      | MsgParticipantUpdate data =>
          (h, handleParticipantUpdate clientId data h)
      | MsgParticipantControl data =>
          (h, handleParticipantControl clientId data h)
      | MsgParticipantKicked participantId =>
          (h, handleParticipantKicked clientId participantId h)
      | MsgOther => (h, [])
      end
  end.

(** The [message] handler: [data] is [None] when [JSON.parse] throws,
    which happens before the rate limit is consulted. *)
Definition onMessage (clientId : string) (now : Z) (data : option Message)
    (w : t) : t * list (string * Relay) :=
  match data with
  | None =>
      (mk (Hub.send clientId (Hub.ErrorFrame "Invalid message format")
             (hub w))
          (clientMessageCounts w), [])
  | Some message =>
      let (ok, counts) :=
        rateLimitCheck clientId now (clientMessageCounts w) in
      if ok
      then let (h, out) := handleWebSocketMessage clientId message (hub w) in
           (mk h counts, out)
      else (mk (Hub.send clientId (Hub.ErrorFrame "Rate limit exceeded")
                  (hub w))
               counts, [])
  end.

(** What the server reacts to. *)
Inductive Event : Type :=
| Connection (clientId : string) (now : Z)
| Incoming (clientId : string) (now : Z) (data : option Message)
| Pong (clientId : string) (now : Z)
| Dropped (clientId : string)
| Closed (clientId : string)
| Heartbeat (now : Z).

Definition step (e : Event) (w : t) : t :=
  match e with
  | Connection clientId now => onConnection clientId now w
  | Incoming clientId now data => fst (onMessage clientId now data w)
  | Pong clientId now => onPong clientId now w
  | Dropped clientId => onDrop clientId w
  | Closed clientId => cleanupClient clientId w
  | Heartbeat now => heartbeat now w
  end.

(** The states the socket server can be in. *)
Inductive attainable : t -> Prop :=
| attainable_init : attainable init
| attainable_step e w : attainable w -> attainable (step e w).

(** The connections bound to a room, open or not. *)
Definition boundCount (room : string) (h : Hub.t) : Z :=
  Z.of_nat
    (List.length
       (List.filter (fun kc => Hub.boundTo room (snd kc))
          (Hub.connectedClients h))).

(** Client ids are keys, and no counter is below the connections bound to
    its room or above the maximum. *)
Definition consistent (h : Hub.t) : Prop :=
  NoDup (List.map fst (Hub.connectedClients h))
  /\ forall room,
       boundCount room h <= Hub.countOf room h <= Hub.MAX_CLIENTS_PER_ROOM.

End Ws.

(* ===================================================================== *)
(** ** Request rate limiting ([middleware/rateLimiter.ts]) *)
(* ===================================================================== *)

Module RateLimit.

Record Entry : Type := mkEntry {
  count : Z;
  resetTime : Z
}.

Record RateLimitConfig : Type := mkConfig {
  windowMs : Z;
  maxRequests : Z;
  skipSuccessfulRequests : bool;
  skipFailedRequests : bool
}.

(** [MemoryStore.increment]; [store] is the one [defaultStore] every
    limiter shares. *)
Definition increment (key : string) (windowMs now : Z)
    (store : gmap string Entry) : Entry * gmap string Entry :=
  let fresh := mkEntry 1 (now + windowMs) in
  match store !! key with
  | Some entry =>
      if resetTime entry <? now
      then (fresh, <[key := fresh]> store)
      else let entry' := mkEntry (count entry + 1) (resetTime entry) in
           (entry', <[key := entry']> store)
  | None => (fresh, <[key := fresh]> store)
  end.

(** [MemoryStore.reset] *)
Definition reset (key : string) (store : gmap string Entry)
  : gmap string Entry :=
  delete key store.

(** [MemoryStore.cleanup]: entries whose window is over are deleted. *)
Definition cleanup (now : Z) (store : gmap string Entry)
  : gmap string Entry :=
  filter (fun kv => now <= resetTime (snd kv)) store.

(** What the middleware does with a request: it answers 429 itself or
    calls [next()], having set the [X-RateLimit-Remaining] header. *)
Inductive Verdict : Type :=
| Next (remaining : Z)
| TooManyRequests (retryAfter : Z).

(** The middleware [createRateLimit(config)] returns; [key] is the
    address of the requester. [Math.ceil(x / 1000)] is [- ((- x) / 1000)]. *)
Definition createRateLimit (config : RateLimitConfig) (key : string)
    (now : Z) (store : gmap string Entry) : Verdict * gmap string Entry :=
  let (result, store') := increment key (windowMs config) now store in
  if maxRequests config <? count result
  then (TooManyRequests (- ((now - resetTime result) / 1000)), store')
  else (Next (Z.max 0 (maxRequests config - count result)), store').

(** The wrapper the middleware puts around [res.send] once it has called
    [next()]. *)
Definition onSend (config : RateLimitConfig) (key : string)
    (statusCode : Z) (store : gmap string Entry) : gmap string Entry :=
  if (skipSuccessfulRequests config
      && (200 <=? statusCode) && (statusCode <? 300))
     || (skipFailedRequests config && (400 <=? statusCode))
  then match store !! key with
       | Some entry =>
           <[key := mkEntry (Z.max 0 (count entry - 1)) (resetTime entry)]>
             store
       | None => store
       end
  else store.

Definition generalLimiter : RateLimitConfig :=
  mkConfig (15 * 60 * 1000) 100 false false.
Definition strictLimiter : RateLimitConfig :=
  mkConfig (15 * 60 * 1000) 50 false false.
Definition apiLimiter : RateLimitConfig :=
  mkConfig (1 * 60 * 1000) 60 false false.
Definition authLimiter : RateLimitConfig :=
  mkConfig (15 * 60 * 1000) 5 true false.
Definition pollingLimiter : RateLimitConfig :=
  mkConfig (1 * 60 * 1000) 100 false false.

(** A request passing the limiters mounted on its path, in the order of
    [app.use]: the first that answers 429 ends the request. *)
Fixpoint through (chain : list RateLimitConfig) (key : string) (now : Z)
    (store : gmap string Entry) : bool * gmap string Entry :=
  match chain with
  | [] => (true, store)
  | config :: rest =>
      match createRateLimit config key now store with
      | (Next _, store') => through rest key now store'
      | (TooManyRequests _, store') => (false, store')
      end
  end.

End RateLimit.

(* ===================================================================== *)
(** ** Requests in flight *)
(* ===================================================================== *)

(** Every [await pool.query(...)] is a point where a handler is suspended
    and the statements of other requests may run: [sqlite.ts] opens no
    transaction. [Proc A] is a handler at such a point: it has answered, or
    it waits for one statement; when the database runs the statement on
    the store [s], the store becomes [statement s] and the handler goes on
    as [next s]. *)

Module Async.

Inductive Proc (A : Type) : Type :=
| Return (r : result A)
| Await (statement : Store -> Store) (next : Store -> Proc A).
Arguments Return {A} r.
Arguments Await {A} statement next.

Definition ret {A} (a : A) : Proc A := Return (Ok a).
Definition throw {A} (e : AppError) : Proc A := Return (Err e).

Fixpoint bind {A B} (p : Proc A) (k : A -> Proc B) : Proc B :=
  match p with
  | Return (Ok a) => k a
  | Return (Err e) => Return (Err e)
  | Await statement next => Await statement (fun s => bind (next s) k)
  end.

Notation "x <~ m ;; k" := (bind m (fun x => k))
  (at level 100, m at next level, right associativity).
Notation "m ;;~ k" := (bind m (fun _ => k))
  (at level 100, right associativity).

(** [await pool.query(SELECT ...)] *)
Definition query {A} (q : Store -> A) : Proc A :=
  Await (fun s => s) (fun s => ret (q s)).
(** [await pool.query(UPDATE ...)] *)
Definition exec (u : Store -> Store) : Proc unit :=
  Await u (fun _ => ret tt).
(** [await pool.update(UPDATE participants ...)]: one statement, whose
    [rowCount] is the number of rows it matched. *)
Definition update (cond : Participant.row -> bool)
    (f : Participant.row -> Participant.row) : Proc Z :=
  Await (Sql.updateParticipants cond f) (fun s => ret (Sql.changes cond s)).
(** An [INSERT]; a constraint failure leaves the store and rejects the
    promise. *)
Definition execInsert (u : Store -> option Store) : Proc unit :=
  Await (fun s => default s (u s))
    (fun s => match u s with
              | Some _ => ret tt
              | None => throw Internal
              end).
Definition throwIf (b : bool) (e : AppError) : Proc unit :=
  if b then throw e else ret tt.
Definition defined {A} (o : option A) : Proc A :=
  match o with Some a => ret a | None => throw Internal end.

(** [SQLiteWrapper.insertAndReturn]: [db.run], then [db.get] from its
    callback. *)
Definition insertAndReturnRoom (r : Room.row) : Proc (option Room.row) :=
  execInsert (Sql.insertRoom r) ;;~
  query (fun s =>
           Sql.roomById (idToUse (Room.id r) (List.length (rooms s))) s).

Definition insertAndReturnParticipant (p : Participant.row)
  : Proc (option Participant.row) :=
  execInsert (Sql.insertParticipant p) ;;~
  query (fun s =>
           List.find (fun p' => String.eqb (Participant.id p')
                        (idToUse (Participant.id p)
                                 (List.length (participants s))))
             (participants s)).

Definition validateBody {A B} (schema : A -> option A)
    (handler : A -> Proc B) (body : A) : Proc B :=
  match schema body with
  | Some validated => handler validated
  | None => throw BadRequest
  end.

(** Handler of [POST /api/rooms]. *)
Definition createRoom (roomId creatorId : string) (now : Z)
    (body : CreateRoomRequest.t) : Proc RoomResponse :=
  let sanitizedTitle := sanitizeString (CreateRoomRequest.title body) in
  let sanitizedDescription :=
    sanitizeString <$> orNull (CreateRoomRequest.description body) in
  let cappedMaxParticipants :=
    Z.min (orNumber (CreateRoomRequest.maxParticipants body) 10) 10 in
  room <~ insertAndReturnRoom
            (Room.mk roomId sanitizedTitle sanitizedDescription
               (orNull (CreateRoomRequest.password body))
               (default false (CreateRoomRequest.isRecordingEnabled body))
               cappedMaxParticipants (datetimeNow now) true creatorId) ;;
  execInsert
    (Sql.insertParticipant
       (newParticipant creatorId roomId "Host" (datetimeNow now) true)) ;;~
  room <~ defined room ;;
  ret (mkRoomResponse (Room.id room) (Room.title room)
         (Room.description room) (truthyOpt (Room.password room))
         (Room.is_recording_enabled room) (Room.max_participants room)
         (Room.created_at room) (Room.is_active room) creatorId).

Definition createRoomRoute (roomId creatorId : string) (now : Z)
  : CreateRoomRequest.t -> Proc RoomResponse :=
  validateBody createRoomSchema (createRoom roomId creatorId now).

(** Handler of [POST /api/rooms/join]: four [SELECT]s, then the [INSERT]
    and the [SELECT] of [insertAndReturn], each awaited on its own. *)
Definition joinRoom (participantId : string) (now : Z)
    (body : JoinRoomRequest.t) : Proc JoinRoomResponse :=
  let sanitizedRoomId := sanitizeRoomId (JoinRoomRequest.roomId body) in
  let sanitizedParticipantName :=
    sanitizeString (JoinRoomRequest.participantName body) in
  roomResult <~ query (Sql.roomById sanitizedRoomId) ;;
  match roomResult with
  | None => throw NotFound
  | Some room =>
      throwIf (negb (Room.is_active room)) Gone ;;~
      throwIf (passwordRejected (Room.password room)
                 (JoinRoomRequest.password body)) Forbidden ;;~
      participantCount <~ query (Sql.countPresent sanitizedRoomId) ;;
      throwIf (Room.max_participants room <=? participantCount) Conflict ;;~
      existingResult <~
        query (Sql.selectPresentNamed sanitizedRoomId
                 sanitizedParticipantName) ;;
      p <~ match existingResult with
           | existing :: _ => ret existing
           | [] =>
               hostCount <~ query (Sql.countPresentHosts sanitizedRoomId) ;;
               let shouldBeHost := hostCount =? 0 in
               inserted <~ insertAndReturnParticipant
                             (newParticipant participantId sanitizedRoomId
                                sanitizedParticipantName (datetimeNow now)
                                shouldBeHost) ;;
               defined inserted
           end ;;
      ret (joinResponse room p)
  end.

Definition joinRoomRoute (participantId : string) (now : Z)
  : JoinRoomRequest.t -> Proc JoinRoomResponse :=
  validateBody joinRoomSchema (joinRoom participantId now).

(** Handler of [POST /api/rooms/leave]. *)
Definition leaveRoom (now : Z) (participantId : option string)
  : Proc unit :=
  throwIf (negb (truthyOpt participantId)) BadRequest ;;~
  exec (Sql.markLeft (default EmptyString participantId) (datetimeNow now)).

(** Handler of [GET /api/rooms/:roomId/timeout]. *)
Definition checkTimeout (now : Z) (roomId : string)
  : Proc CheckTimeoutResponse :=
  roomResult <~ query (Sql.activeRoomById roomId) ;;
  match roomResult with
  | None => ret (mkCheckTimeoutResponse true 0)
  | Some room =>
      let createdAt := Room.created_at room * 1000 in
      let minutesElapsed := (now - createdAt) / (1000 * 60) in
      let remainingMinutes := Z.max 0 (30 - minutesElapsed) in
      if 30 <=? minutesElapsed
      then
        exec (Sql.deactivateRoom roomId) ;;~
        exec (Sql.markAllLeft roomId (datetimeNow now)) ;;~
        ret (mkCheckTimeoutResponse true 0)
      else ret (mkCheckTimeoutResponse false remainingMinutes)
  end.

(** Handler of [POST /api/rooms/:roomId/end]. *)
Definition endMeeting (now : Z) (roomId : string)
    (participantId : option string) : Proc unit :=
  throwIf (negb (truthyOpt participantId)) BadRequest ;;~
  let pid := default EmptyString participantId in
  hostResult <~
    query (fun s => List.filter
                      (fun p => Sql.presentWithId pid p
                                && String.eqb (Participant.room_id p) roomId)
                      (participants s)) ;;
  match hostResult with
  | [] => throw NotFound
  | h :: _ =>
      throwIf (negb (Participant.is_host h)) Forbidden ;;~
      exec (Sql.deactivateRoom roomId) ;;~
      exec (Sql.markAllLeft roomId (datetimeNow now))
  end.

(** Handler of [PUT /api/participants/:participantId]. *)
Definition updateParticipant (participantId : string)
    (u : UpdateParticipantRequest.t) : Proc unit :=
  throwIf (noUpdates u) BadRequest ;;~
  let cond := fun p => String.eqb (Participant.id p) participantId in
  rowCount <~ update cond (applyUpdates u) ;;
  throwIf (rowCount =? 0) NotFound.

(** The admission steps of the host-only handlers: two [SELECT]s. *)
Definition admitHostAction (hostId participantId : string) : Proc unit :=
  hostResult <~ query (Sql.selectPresentWithId hostId) ;;
  match hostResult with
  | [] => throw NotFound
  | h :: _ =>
      throwIf (negb (Participant.is_host h)) Forbidden ;;~
      let roomId := Participant.room_id h in
      participantResult <~ query (Sql.selectPresentWithId participantId) ;;
      match participantResult with
      | [] => throw NotFound
      | target :: _ =>
          throwIf (negb (String.eqb (Participant.room_id target) roomId))
            BadRequest ;;~
          throwIf (Participant.is_host target) Forbidden
      end
  end.

Definition kick (now : Z) (participantId : string) (hostId : option string)
  : Proc unit :=
  throwIf (negb (truthyOpt hostId)) BadRequest ;;~
  admitHostAction (default EmptyString hostId) participantId ;;~
  exec (Sql.markLeft participantId (datetimeNow now)).

Definition setFlag (participantId : string)
    (f : Participant.row -> Participant.row) : Proc unit :=
  exec (Sql.updateParticipants (Sql.presentWithId participantId) f).

Definition mute (participantId : string) (hostId : option string)
    (mute : option bool) : Proc unit :=
  throwIf (negb (truthyOpt hostId)) BadRequest ;;~
  match mute with
  | None => throw BadRequest
  | Some m =>
      admitHostAction (default EmptyString hostId) participantId ;;~
      setFlag participantId (Participant.set_is_audio_enabled (negb m))
  end.

Definition video (participantId : string) (hostId : option string)
    (enable : option bool) : Proc unit :=
  throwIf (negb (truthyOpt hostId)) BadRequest ;;~
  match enable with
  | None => throw BadRequest
  | Some e =>
      admitHostAction (default EmptyString hostId) participantId ;;~
      setFlag participantId (Participant.set_is_video_enabled e)
  end.

Definition screenshare (participantId : string) (hostId : option string)
    (enable : option bool) : Proc unit :=
  throwIf (negb (truthyOpt hostId)) BadRequest ;;~
  match enable with
  | None => throw BadRequest
  | Some e =>
      admitHostAction (default EmptyString hostId) participantId ;;~
      setFlag participantId (Participant.set_is_screen_sharing e)
  end.

(** A handler run with no other request in between. *)
Fixpoint run {A} (p : Proc A) (s : Store) : result A * Store :=
  match p with
  | Return r => (r, s)
  | Await statement next => run (next s) (statement s)
  end.

(** A request in flight; its answer is of no concern to the store. *)
Definition Thread : Type := Proc unit.

Fixpoint forget {A} (p : Proc A) : Thread :=
  match p with
  | Return (Ok _) => Return (Ok tt)
  | Return (Err e) => Return (Err e)
  | Await statement next => Await statement (fun s => forget (next s))
  end.

Definition handle (e : Env) (rq : Request) : Thread :=
  match rq with
  | CreateRoom body =>
      forget (createRoomRoute (generateRoomId e) (generateParticipantId e)
                (now e) body)
  | JoinRoom body =>
      forget (joinRoomRoute (generateParticipantId e) (now e) body)
  | LeaveRoom pid => leaveRoom (now e) pid
  | CheckTimeout rid => forget (checkTimeout (now e) rid)
  | EndMeeting rid pid => endMeeting (now e) rid pid
  | UpdateParticipant pid body => updateParticipant pid body
  | Kick pid hid => kick (now e) pid hid
  | Mute pid hid m => mute pid hid m
  | Video pid hid en => video pid hid en
  | Screenshare pid hid en => screenshare pid hid en
  end.

(** The database and the requests in flight, in order of arrival. *)
Record World : Type := mkWorld {
  db : Store;
  inFlight : list Thread
}.

Definition start : World := mkWorld emptyStore [].

(** A request arrives, or the database runs the statement the [i]-th
    request waits for. *)
Inductive Event : Type :=
| Arrives (e : Env) (rq : Request)
| Runs (i : nat).

Definition step (ev : Event) (w : World) : World :=
  match ev with
  | Arrives e rq => mkWorld (db w) (inFlight w ++ [handle e rq])
  | Runs i =>
      match inFlight w !! i with
      | Some (Await statement next) =>
          mkWorld (statement (db w)) (<[i := next (db w)]> (inFlight w))
      | _ => w
      end
  end.

Definition steps (evs : list Event) (w : World) : World :=
  List.fold_left (fun w' ev => step ev w') evs w.

(** The states of the server: requests arrive at any time and their
    statements run in any order that keeps the order within a request. *)
Inductive attained : World -> Prop :=
| attained_start : attained start
| attained_step ev w : attained w -> attained (step ev w).

(** Two joins arrive when [n] requests have arrived before them, and each
    has run its four [SELECT]s before the other runs its [INSERT]. *)
Definition racingJoins (eA eB : Env) (bodyA bodyB : JoinRoomRequest.t)
    (n : nat) : list Event :=
  [Arrives eA (JoinRoom bodyA); Arrives eB (JoinRoom bodyB);
   Runs n; Runs n; Runs n; Runs n;
   Runs (S n); Runs (S n); Runs (S n); Runs (S n);
   Runs n; Runs n; Runs (S n); Runs (S n)].

End Async.

(** The stores the server can be in: the tables of a state it attains,
    with whatever requests are still in flight. *)
Definition reachable (s : Store) : Prop :=
  exists inFlight, Async.attained (Async.mkWorld s inFlight).

(** What one statement of a handler does to the tables, with what is
    known of the store it runs on whatever has run since the handler last
    read: the primary keys the statement itself enforces, the values the
    handler computed from its request, and that a room the handler has
    read is still stored, since no statement deletes a room. *)
Inductive statement (s : Store) : Store -> Prop :=
| statement_select : statement s s
| statement_insertRoom r :
    Sql.roomById (Room.id r) s = None ->
    cleanRoom r ->
    2 <= Room.max_participants r <= 10 ->
    statement s (mkStore (rooms s ++ [r]) (participants s))
| statement_insertParticipant p :
    idFree (Participant.id p) s ->
    Sql.roomById (Participant.room_id p) s <> None ->
    storedName (Participant.name p) ->
    Str.matchesName (Participant.name p) = true ->
    statement s (mkStore (rooms s) (participants s ++ [p]))
| statement_update cond f :
    keepsIdentity f ->
    statement s (Sql.updateParticipants cond f s)
| statement_deactivate roomId :
    statement s (Sql.deactivateRoom roomId s).

(** Every room stored in [s] is stored in [s']. *)
Definition keepsRooms (s s' : Store) : Prop :=
  forall id, Sql.roomById id s <> None -> Sql.roomById id s' <> None.

(** A handler that has last seen the store [s]: whatever runs before its
    next statement, as long as the rooms of [s] stay, that statement is one
    of [statement], and so on to its answer. *)
Fixpoint sound {A} (p : Async.Proc A) (s : Store) : Prop :=
  match p with
  | Async.Return _ => True
  | Async.Await st next =>
      forall s', keepsRooms s s' ->
                 statement s' (st s') /\ sound (next s') (st s')
  end.

(** What every statement keeps, in whatever order the statements of the
    requests run. *)
Record stable (s : Store) : Prop := mkStable {
  stable_uniqueIds : uniqueIds s;
  stable_roomsKnown : roomsKnown s;
  stable_namesStored : namesStored s;
  stable_namesMatch : namesMatch s;
  stable_capsInRange : capsInRange s;
  stable_cleanRooms : cleanRooms s
}.

(* ===================================================================== *)
(** ** A session used in the examples *)
(* ===================================================================== *)

Module Scenario.

Definition t0 : Z := 1700000000000.
Definition minute : Z := 60000.

Definition standup : CreateRoomRequest.t :=
  CreateRoomRequest.mk "Standup" None None None (Some 2).

Definition joinAs (name : string) : JoinRoomRequest.t :=
  JoinRoomRequest.mk "abcdefghijkl" name None.

(** The room "Standup" for two, just created. *)
Definition created : Store :=
  after (createRoomRoute "abcdefghijkl" "k3j9x0a7bq1" t0 standup)
    emptyStore.

(** Bob has joined: the room is full. *)
Definition withBob : Store :=
  after (joinRoomRoute "m2c8v5n1zs4" (t0 + minute) (joinAs "Bob")) created.

(** Bob has left again. *)
Definition bobGone : Store :=
  after (leaveRoom (t0 + 2 * minute) (Some "m2c8v5n1zs4")) withBob.

(** The host has ended the meeting, five minutes in. *)
Definition ended : Store :=
  after (endMeeting (t0 + 5 * minute) "abcdefghijkl" (Some "k3j9x0a7bq1"))
    withBob.


(** Bob's row, and Bob switching his microphone off himself. *)
Definition bob (s : Store) : option Participant.row :=
  List.find (fun p => String.eqb (Participant.id p) "m2c8v5n1zs4")
    (participants s).

Definition bobMutesHimself : M unit :=
  updateParticipant "m2c8v5n1zs4"
    (UpdateParticipantRequest.mk (Some false) None None).

(** A server whose database holds the ended meeting and whose chat map is
    empty, and 101 chat lines sent to that room one millisecond apart. *)
Definition quiet : Server := mkServer ended ∅.

Definition line (i : nat) : Send :=
  mkSend (t0 + Z.of_nat i) "x7f3"
    (SendMessageRequest.mk (Some "abcdefghijkl") (Some "Bob") (Some "hi")).

Definition chatter : list Send := List.map line (List.seq 0 101).

(** Two sockets bound to the room for two, and a third, unbound one. *)
Definition socket (room pid : option string) : Hub.ConnectedClient :=
  Hub.mkClient true room pid t0 true.

Definition hubOfTwo : Hub.t :=
  Hub.mk
    [("c1", socket (Some "abcdefghijkl") (Some "k3j9x0a7bq1"));
     ("c2", socket (Some "abcdefghijkl") (Some "m2c8v5n1zs4"));
     ("c3", socket None None)]
    {[ "abcdefghijkl" := 2 ]} [].

(** The requests of the session, and the statements of each run as soon
    as it has arrived. *)
Definition creates : list Async.Event :=
  [Async.Arrives (mkEnv t0 "abcdefghijkl" "k3j9x0a7bq1") (CreateRoom standup);
   Async.Runs 0; Async.Runs 0; Async.Runs 0].

Definition bobJoins : list Async.Event :=
  [Async.Arrives (mkEnv (t0 + minute) "zzzzzzzzzzzz" "m2c8v5n1zs4")
     (JoinRoom (joinAs "Bob"));
   Async.Runs 1; Async.Runs 1; Async.Runs 1; Async.Runs 1; Async.Runs 1;
   Async.Runs 1].

Definition bobLeaves : list Async.Event :=
  [Async.Arrives (mkEnv (t0 + 2 * minute) "zzzzzzzzzzzz" "unused")
     (LeaveRoom (Some "m2c8v5n1zs4"));
   Async.Runs 2].

Definition hostEnds : list Async.Event :=
  [Async.Arrives (mkEnv (t0 + 5 * minute) "zzzzzzzzzzzz" "unused")
     (EndMeeting "abcdefghijkl" (Some "k3j9x0a7bq1"));
   Async.Runs 2; Async.Runs 2; Async.Runs 2].

Lemma created_reachable : reachable created.
Proof.
  exists [Async.Return (Ok tt)].
  replace (Async.mkWorld created [Async.Return (Ok tt)])
    with (Async.steps creates Async.start) by (vm_compute; reflexivity).
  unfold Async.steps, creates. cbn [List.fold_left].
  repeat apply Async.attained_step. apply Async.attained_start.
Defined.

Lemma withBob_reachable : reachable withBob.
Proof.
  exists [Async.Return (Ok tt); Async.Return (Ok tt)].
  replace (Async.mkWorld withBob [Async.Return (Ok tt); Async.Return (Ok tt)])
    with (Async.steps (creates ++ bobJoins) Async.start)
    by (vm_compute; reflexivity).
  unfold Async.steps, creates, bobJoins. cbn [List.fold_left List.app].
  repeat apply Async.attained_step. apply Async.attained_start.
Defined.

Lemma bobGone_reachable : reachable bobGone.
Proof.
  exists [Async.Return (Ok tt); Async.Return (Ok tt); Async.Return (Ok tt)].
  replace (Async.mkWorld bobGone
             [Async.Return (Ok tt); Async.Return (Ok tt);
              Async.Return (Ok tt)])
    with (Async.steps (creates ++ bobJoins ++ bobLeaves) Async.start)
    by (vm_compute; reflexivity).
  unfold Async.steps, creates, bobJoins, bobLeaves.
  cbn [List.fold_left List.app].
  repeat apply Async.attained_step. apply Async.attained_start.
Defined.

Lemma ended_reachable : reachable ended.
Proof.
  exists [Async.Return (Ok tt); Async.Return (Ok tt); Async.Return (Ok tt)].
  replace (Async.mkWorld ended
             [Async.Return (Ok tt); Async.Return (Ok tt);
              Async.Return (Ok tt)])
    with (Async.steps (creates ++ bobJoins ++ hostEnds) Async.start)
    by (vm_compute; reflexivity).
  unfold Async.steps, creates, bobJoins, hostEnds.
  cbn [List.fold_left List.app].
  repeat apply Async.attained_step. apply Async.attained_start.
Defined.

End Scenario.

(** ** Sockets used in the examples *)

Module Sockets.

Definition t0 : Z := 1700000000000.

(** One connection, bound to the room of the standing session. *)
Definition alone : Ws.t :=
  Ws.step (Ws.Incoming "c1" t0
             (Some (Ws.MsgJoinRoom "abcdefghijkl" "k3j9x0a7bq1")))
    (Ws.step (Ws.Connection "c1" t0) Ws.init).

(** A second connection in the same room and a third in another. *)
Definition three : Ws.t :=
  Ws.step (Ws.Incoming "c3" (t0 + 2000)
             (Some (Ws.MsgJoinRoom "zyxwvutsrqpo" "q7w1e4r9t2y")))
    (Ws.step (Ws.Connection "c3" (t0 + 2000))
       (Ws.step (Ws.Incoming "c2" (t0 + 1000)
                   (Some (Ws.MsgJoinRoom "abcdefghijkl" "m2c8v5n1zs4")))
          (Ws.step (Ws.Connection "c2" (t0 + 1000)) alone))).

Lemma alone_attainable : Ws.attainable alone.
Proof. repeat constructor. Defined.

Lemma three_attainable : Ws.attainable three.
Proof.
  unfold three. do 4 apply Ws.attainable_step. exact alone_attainable.
Defined.

End Sockets.

(** ** Two joins at once *)

Module Race.

Definition t0 : Z := 1700000000000.

(** The room "Standup" for two has been created; its creator is present. *)
Definition created : Async.World :=
  Async.steps
    [Async.Arrives (mkEnv t0 "abcdefghijkl" "k3j9x0a7bq1")
       (CreateRoom (CreateRoomRequest.mk "Standup" None None None (Some 2)));
     Async.Runs 0; Async.Runs 0; Async.Runs 0]
    Async.start.

(** The creator has left: the room is active and has no host. *)
Definition hostless : Async.World :=
  Async.steps
    [Async.Arrives (mkEnv (t0 + 60000) "unused" "unused")
       (LeaveRoom (Some "k3j9x0a7bq1"));
     Async.Runs 1]
    created.

Definition bob : JoinRoomRequest.t :=
  JoinRoomRequest.mk "abcdefghijkl" "Bob" None.
Definition carol : JoinRoomRequest.t :=
  JoinRoomRequest.mk "abcdefghijkl" "Carol" None.
Definition envBob : Env := mkEnv (t0 + 120000) "unused" "m2c8v5n1zs4".
Definition envCarol : Env := mkEnv (t0 + 120000) "unused" "q7w1e4r9t2y".

(** Bob and Carol join the hostless room at once. *)
Definition twoHosts : Async.World :=
  Async.steps (Async.racingJoins envBob envCarol bob carol 2) hostless.

End Race.

(* ===================================================================== *)
(** * Properties *)
(* ===================================================================== *)

(** ** Evaluation of the handler monad *)

Lemma bind_ok {A B} (m : M A) (k : A -> M B) s a s' :
  m s = (Ok a, s') -> bind m k s = k a s'.
Proof. intros H. unfold bind. rewrite H. reflexivity. Qed.

Lemma bind_err {A B} (m : M A) (k : A -> M B) s e s' :
  m s = (Err e, s') -> bind m k s = (Err e, s').
Proof. intros H. unfold bind. rewrite H. reflexivity. Qed.

Lemma throwIf_true {B} e (k : unit -> M B) s :
  bind (throwIf true e) k s = (Err e, s).
Proof. reflexivity. Qed.

Lemma throwIf_false {B} e (k : unit -> M B) s :
  bind (throwIf false e) k s = k tt s.
Proof. reflexivity. Qed.

(** ** String helpers *)

Lemma eqb_refl_true (a : string) : String.eqb a a = true.
Proof. apply String.eqb_refl. Qed.

Section TrimCollapse.
Import Str.

Lemma trimStart_length l : (List.length (trimStart l) <= List.length l)%nat.
Proof.
  induction l as [|c l IH]; simpl; [lia|].
  destruct (isSpace c); simpl; lia.
Qed.

Lemma trimStart_fixed l :
  trimStart l = l ->
  l = [] \/ exists c l', l = c :: l' /\ isSpace c = false.
Proof.
  destruct l as [|c l']; [now left|]. simpl.
  destruct (isSpace c) eqn:Hc; intros H.
  - pose proof (trimStart_length l') as Hlen.
    rewrite H in Hlen. simpl in Hlen. lia.
  - right. eauto.
Qed.

Lemma trimStart_idem l : trimStart (trimStart l) = trimStart l.
Proof.
  induction l as [|c l IH]; simpl; [reflexivity|].
  destruct (isSpace c) eqn:Hc; [exact IH|].
  simpl. now rewrite Hc.
Qed.

Lemma trimEnd_cons c l :
  trimEnd (c :: l)
  = match trimEnd l with
    | [] => if isSpace c then [] else [c]
    | t => c :: t
    end.
Proof. reflexivity. Qed.

Lemma trimEnd_idem l : trimEnd (trimEnd l) = trimEnd l.
Proof.
  induction l as [|c l IH]; [reflexivity|].
  rewrite trimEnd_cons.
  destruct (trimEnd l) as [|d t] eqn:Ht.
  - destruct (isSpace c) eqn:Hc; [reflexivity|].
    simpl. now rewrite Hc.
  - rewrite trimEnd_cons, IH. reflexivity.
Qed.

Lemma trimEnd_fixed_cons c l :
  trimEnd (c :: l) = c :: l ->
  (l = [] /\ isSpace c = false) \/ (l <> [] /\ trimEnd l = l).
Proof.
  rewrite trimEnd_cons.
  destruct (trimEnd l) as [|d t] eqn:Ht.
  - destruct (isSpace c) eqn:Hc; intros H; [discriminate|].
    injection H as H. left. split; [now symmetry|reflexivity].
  - intros H. injection H as H. right. split; [|exact H].
    rewrite <- H. discriminate.
Qed.

Lemma trimStart_trimEnd l :
  trimStart l = l -> trimStart (trimEnd l) = trimEnd l.
Proof.
  intros H. destruct (trimStart_fixed l H) as [->|(c & l' & -> & Hc)];
    [reflexivity|].
  rewrite trimEnd_cons.
  destruct (trimEnd l'); rewrite ?Hc; simpl; now rewrite Hc.
Qed.

Lemma trimL_idem l : trimL (trimL l) = trimL l.
Proof.
  unfold trimL.
  rewrite (trimStart_trimEnd (trimStart l) (trimStart_idem l)).
  apply trimEnd_idem.
Qed.

Lemma trimL_fixed l :
  trimL l = l -> trimStart l = l /\ trimEnd l = l.
Proof.
  intros H. assert (Hs : trimStart l = l).
  { rewrite <- H at 1. unfold trimL.
    rewrite (trimStart_trimEnd (trimStart l) (trimStart_idem l)).
    exact H. }
  split; [exact Hs|]. unfold trimL in H. now rewrite Hs in H.
Qed.

Lemma collapse_nonempty l :
  trimEnd l = l -> l <> [] -> forall b, collapseSpaces b l <> [].
Proof.
  induction l as [|c l IH]; intros Hfix Hne b; [congruence|].
  destruct (trimEnd_fixed_cons c l Hfix) as [[-> Hc]|[Hl Hl']].
  - simpl. rewrite Hc. discriminate.
  - simpl. destruct (isSpace c); [destruct b|]; try discriminate.
    now apply IH.
Qed.

Lemma trimEnd_collapse l :
  trimEnd l = l -> forall b, trimEnd (collapseSpaces b l) = collapseSpaces b l.
Proof.
  induction l as [|c l IH]; intros Hfix b; [reflexivity|].
  destruct (trimEnd_fixed_cons c l Hfix) as [[-> Hc]|[Hl Hl']].
  - simpl. rewrite Hc. simpl. now rewrite Hc.
  - assert (Hcons : forall x b', trimEnd (x :: collapseSpaces b' l)
                                 = x :: collapseSpaces b' l).
    { intros x b'. rewrite trimEnd_cons, (IH Hl' b').
      pose proof (collapse_nonempty l Hl' Hl b') as Hne.
      destruct (collapseSpaces b' l); [congruence|reflexivity]. }
    simpl. destruct (isSpace c); [destruct b|]; auto.
Qed.

Lemma trimStart_collapse l :
  trimStart l = l ->
  trimStart (collapseSpaces false l) = collapseSpaces false l.
Proof.
  intros H. destruct (trimStart_fixed l H) as [->|(c & l' & -> & Hc)];
    [reflexivity|].
  simpl. rewrite Hc. simpl. now rewrite Hc.
Qed.

Lemma collapse_true_head l :
  trimStart (collapseSpaces true l) = collapseSpaces true l.
Proof.
  induction l as [|c l IH]; [reflexivity|].
  simpl. destruct (isSpace c) eqn:Hc; [exact IH|].
  simpl. now rewrite Hc.
Qed.

Lemma collapse_true_false l :
  trimStart l = l -> collapseSpaces true l = collapseSpaces false l.
Proof.
  intros H. destruct (trimStart_fixed l H) as [->|(c & l' & -> & Hc)];
    [reflexivity|].
  simpl. now rewrite Hc.
Qed.

Lemma collapse_idem l b :
  collapseSpaces false (collapseSpaces b l) = collapseSpaces b l.
Proof.
  revert b. induction l as [|c l IH]; intros b; [reflexivity|].
  simpl. destruct (isSpace c) eqn:Hc.
  - destruct b; [apply IH|].
    change (collapseSpaces false (" "%char :: collapseSpaces true l))
      with (" "%char :: collapseSpaces true (collapseSpaces true l)).
    f_equal.
    rewrite (collapse_true_false _ (collapse_true_head l)). apply IH.
  - simpl. rewrite Hc. f_equal. apply IH.
Qed.

Lemma stripAngles_noAngles l : noAngles l = true -> stripAngles l = l.
Proof.
  unfold stripAngles, noAngles.
  induction l as [|c l IH]; simpl; [reflexivity|].
  intros H. apply andb_prop in H as [Hc Hl]. rewrite Hc.
  f_equal. now apply IH.
Qed.

Lemma collapse_noAngles l b :
  noAngles l = true -> noAngles (collapseSpaces b l) = true.
Proof.
  unfold noAngles. revert b.
  induction l as [|c l IH]; intros b; simpl; [reflexivity|].
  intros H. apply andb_prop in H as [Hc Hl].
  destruct (isSpace c); [destruct b|]; simpl; auto.
  rewrite Hc. simpl. auto.
Qed.

Lemma nameChar_noAngle c : isNameChar c = true -> negb (isAngle c) = true.
Proof.
  destruct c as [[] [] [] [] [] [] [] []]; vm_compute; congruence.
Qed.

Lemma nameChars_noAngles l : forallb isNameChar l = true -> noAngles l = true.
Proof.
  unfold noAngles. induction l as [|c l IH]; simpl; [reflexivity|].
  intros H. apply andb_prop in H as [Hc Hl].
  rewrite (nameChar_noAngle c Hc). simpl. auto.
Qed.

End TrimCollapse.

Lemma sanitize_trim_stored (raw : string) :
  Str.matchesName (Str.trim raw) = true ->
  storedName (sanitizeString (Str.trim raw)).
Proof.
  unfold Str.matchesName, Str.trim. rewrite list_ascii_of_string_of_list_ascii.
  set (l0 := Str.trimL (list_ascii_of_string raw)).
  intros H. apply andb_prop in H as [_ Hchars].
  assert (Hfix : Str.trimL l0 = l0) by apply trimL_idem.
  destruct (trimL_fixed l0 Hfix) as [Hs He].
  pose proof (nameChars_noAngles l0 Hchars) as Hna.
  assert (Hsan : sanitizeString (string_of_list_ascii l0)
                 = string_of_list_ascii (Str.collapseSpaces false l0)).
  { unfold sanitizeString. rewrite list_ascii_of_string_of_list_ascii.
    rewrite Hfix, (stripAngles_noAngles l0 Hna). reflexivity. }
  rewrite Hsan.
  assert (Htrim : Str.trimL (Str.collapseSpaces false l0)
                  = Str.collapseSpaces false l0).
  { unfold Str.trimL. rewrite (trimStart_collapse l0 Hs).
    apply trimEnd_collapse, He. }
  unfold storedName, Str.trim, sanitizeString.
  rewrite !list_ascii_of_string_of_list_ascii, !Htrim.
  rewrite (stripAngles_noAngles _ (collapse_noAngles l0 false Hna)).
  now rewrite collapse_idem.
Qed.

Lemma storedName_Host : storedName "Host".
Proof. split; reflexivity. Qed.

Lemma roomIdChar_lower c : Str.isRoomIdChar c = true -> Str.toLower c = c.
Proof.
  destruct c as [[] [] [] [] [] [] [] []]; vm_compute; congruence.
Qed.

Lemma sanitizeRoomId_valid (roomId : string) :
  Str.matchesRoomId roomId = true -> sanitizeRoomId roomId = roomId.
Proof.
  unfold Str.matchesRoomId, sanitizeRoomId. intros H.
  apply andb_prop in H as [_ H].
  rewrite <- (string_of_list_ascii_of_string roomId) at 2. f_equal.
  induction (list_ascii_of_string roomId) as [|c l IH]; [reflexivity|].
  simpl in H. apply andb_prop in H as [Hc Hl]. simpl.
  rewrite (roomIdChar_lower c Hc), Hc. f_equal. now apply IH.
Qed.

(** ** The store under single writes *)

Lemma roomById_known roomId s :
  Sql.roomById roomId s <> None
  <-> existsb (fun r => String.eqb (Room.id r) roomId) (rooms s) = true.
Proof.
  unfold Sql.roomById. induction (rooms s) as [|r l IH]; simpl.
  - split; [congruence|discriminate].
  - destruct (String.eqb (Room.id r) roomId); simpl; [|exact IH].
    split; [reflexivity|discriminate].
Qed.

Lemma roomById_unknown roomId s :
  Sql.roomById roomId s = None
  <-> existsb (fun r => String.eqb (Room.id r) roomId) (rooms s) = false.
Proof.
  pose proof (roomById_known roomId s) as H.
  destruct (Sql.roomById roomId s), (existsb _ (rooms s));
    intuition congruence.
Qed.

Lemma insertRoom_inv r s s' :
  Sql.insertRoom r s = Some s' ->
  Sql.roomById (Room.id r) s = None
  /\ s' = mkStore (rooms s ++ [r]) (participants s).
Proof.
  unfold Sql.insertRoom.
  destruct (existsb _ (rooms s)) eqn:E; [discriminate|].
  intros [= <-]. split; [now apply roomById_unknown|reflexivity].
Qed.

Lemma insertParticipant_inv p s s' :
  Sql.insertParticipant p s = Some s' ->
  s' = mkStore (rooms s) (participants s ++ [p]).
Proof.
  unfold Sql.insertParticipant.
  destruct (existsb _ (participants s)); [discriminate|].
  now intros [= <-].
Qed.

Lemma roomById_app_known roomId rs ps r :
  Sql.roomById roomId (mkStore rs ps) <> None ->
  Sql.roomById roomId (mkStore (rs ++ [r]) ps) <> None.
Proof.
  rewrite !roomById_known. simpl. rewrite existsb_app.
  intros ->. reflexivity.
Qed.

Lemma roomById_app_new rs ps r :
  Sql.roomById (Room.id r) (mkStore rs ps) = None ->
  Sql.roomById (Room.id r) (mkStore (rs ++ [r]) ps) = Some r.
Proof.
  unfold Sql.roomById. simpl. induction rs as [|r' rs IH]; simpl.
  - now rewrite String.eqb_refl.
  - destruct (String.eqb (Room.id r') (Room.id r)); [discriminate|exact IH].
Qed.

Lemma roomById_deactivate roomId roomId' s :
  Sql.roomById roomId (Sql.deactivateRoom roomId' s) <> None
  <-> Sql.roomById roomId s <> None.
Proof.
  rewrite !roomById_known. unfold Sql.deactivateRoom. simpl.
  induction (rooms s) as [|r l IH]; simpl; [reflexivity|].
  assert (E : Room.id (if String.eqb (Room.id r) roomId'
                       then Room.set_is_active false r else r) = Room.id r)
    by (destruct (String.eqb (Room.id r) roomId'); reflexivity).
  rewrite E. destruct (String.eqb (Room.id r) roomId); simpl;
    [reflexivity|exact IH].
Qed.

Lemma filter_map_shrinks {A} (P : A -> bool) (g : A -> A) (l : list A) :
  (forall x, P (g x) = true -> P x = true) ->
  (List.length (List.filter P (List.map g l))
   <= List.length (List.filter P l))%nat.
Proof.
  intros H. induction l as [|x l IH]; simpl; [lia|].
  destruct (P (g x)) eqn:E.
  - rewrite (H x E). simpl. lia.
  - destruct (P x); simpl; lia.
Qed.

Section Update.
Variables (cond : Participant.row -> bool)
          (f : Participant.row -> Participant.row).
Hypothesis Hf : keepsIdentity f.

Lemma updated_room p :
  Participant.room_id (Sql.rewriteRow cond f p) = Participant.room_id p.
Proof.
  unfold Sql.rewriteRow. destruct (cond p); [apply Hf|reflexivity].
Qed.

Lemma updated_name p :
  Participant.name (Sql.rewriteRow cond f p) = Participant.name p.
Proof.
  unfold Sql.rewriteRow. destruct (cond p); [apply Hf|reflexivity].
Qed.

Lemma updated_host p :
  Participant.is_host (Sql.rewriteRow cond f p) = Participant.is_host p.
Proof.
  unfold Sql.rewriteRow. destruct (cond p); [apply Hf|reflexivity].
Qed.

Lemma updated_present p :
  Participant.present (Sql.rewriteRow cond f p) = true ->
  Participant.present p = true.
Proof. unfold Sql.rewriteRow. destruct (cond p); [apply Hf|auto]. Qed.

Lemma update_presentHost roomId p :
  Sql.presentHostIn roomId (Sql.rewriteRow cond f p) = true ->
  Sql.presentHostIn roomId p = true.
Proof.
  unfold Sql.presentHostIn. rewrite updated_room, updated_host.
  intros H. apply andb_prop in H as [H1 H2].
  rewrite H1. simpl. now apply updated_present.
Qed.

Lemma update_presentNamed roomId name p :
  Sql.presentNamed roomId name (Sql.rewriteRow cond f p) = true ->
  Sql.presentNamed roomId name p = true.
Proof.
  unfold Sql.presentNamed. rewrite updated_room, updated_name.
  intros H. apply andb_prop in H as [H1 H2].
  rewrite H1. simpl. now apply updated_present.
Qed.

Lemma update_invariant s :
  invariant s -> invariant (Sql.updateParticipants cond f s).
Proof.
  intros [Hk Hh Hd Hn Hc]. split.
  - intros p Hp. simpl in Hp. apply in_map_iff in Hp as (q & <- & Hq).
    rewrite updated_room. exact (Hk q Hq).
  - intros roomId. specialize (Hh roomId).
    unfold Sql.countPresentHosts in *. simpl.
    pose proof (filter_map_shrinks (Sql.presentHostIn roomId)
                  (Sql.rewriteRow cond f) (participants s)
                  (update_presentHost roomId)).
    lia.
  - intros roomId name. specialize (Hd roomId name).
    unfold Sql.selectPresentNamed in *. simpl.
    pose proof (filter_map_shrinks (Sql.presentNamed roomId name)
                  (Sql.rewriteRow cond f) (participants s)
                  (update_presentNamed roomId name)).
    lia.
  - intros p Hp. simpl in Hp. apply in_map_iff in Hp as (q & <- & Hq).
    rewrite updated_name. exact (Hn q Hq).
  - exact Hc.
Qed.
End Update.

Lemma deactivate_invariant roomId s :
  invariant s -> invariant (Sql.deactivateRoom roomId s).
Proof.
  intros [Hk Hh Hd Hn Hc]. split; try assumption.
  - intros p Hp. apply roomById_deactivate. exact (Hk p Hp).
  - intros r Hr. simpl in Hr. apply in_map_iff in Hr as (q & <- & Hq).
    specialize (Hc q Hq).
    destruct (String.eqb (Room.id q) roomId); exact Hc.
Qed.

Lemma insertRoom_invariant r s s' :
  Sql.insertRoom r s = Some s' ->
  2 <= Room.max_participants r <= 10 ->
  invariant s -> invariant s'.
Proof.
  intros Hins Hr [Hk Hh Hd Hn Hc].
  apply insertRoom_inv in Hins as [_ ->]. split; try assumption.
  - intros p Hp. apply roomById_app_known. exact (Hk p Hp).
  - intros q Hq. simpl in Hq. apply in_app_iff in Hq as [Hq|[<-|[]]];
      [exact (Hc q Hq)|exact Hr].
Qed.

(** Appending one participant row to a store that satisfies the invariant,
    when the row's room is known, no present row of that room has its name,
    and it is a host only if the room has no present host. *)
Lemma append_invariant p s :
  invariant s ->
  Sql.roomById (Participant.room_id p) s <> None ->
  Sql.selectPresentNamed (Participant.room_id p) (Participant.name p) s = [] ->
  storedName (Participant.name p) ->
  (Participant.is_host p = true ->
   Sql.countPresentHosts (Participant.room_id p) s = 0) ->
  invariant (mkStore (rooms s) (participants s ++ [p])).
Proof.
  intros [Hk Hh Hd Hn Hc] Hroom Hname Hstored Hhost. split; try assumption.
  - intros q Hq. simpl in Hq. apply in_app_iff in Hq as [Hq|[<-|[]]].
    + exact (Hk q Hq).
    + exact Hroom.
  - intros roomId. specialize (Hh roomId).
    unfold Sql.countPresentHosts in *. simpl.
    rewrite List.filter_app, length_app. simpl.
    destruct (Sql.presentHostIn roomId p) eqn:E; simpl; [|lia].
    unfold Sql.presentHostIn in E.
    apply andb_prop in E as [E _]. apply andb_prop in E as [E1 E2].
    apply String.eqb_eq in E1. subst roomId.
    specialize (Hhost E2). lia.
  - intros roomId name. specialize (Hd roomId name).
    unfold Sql.selectPresentNamed in *. simpl.
    rewrite List.filter_app, length_app. simpl.
    destruct (Sql.presentNamed roomId name p) eqn:E; simpl; [|lia].
    unfold Sql.presentNamed in E.
    apply andb_prop in E as [E _]. apply andb_prop in E as [E1 E2].
    apply String.eqb_eq in E1, E2. subst roomId name.
    rewrite Hname. simpl. lia.
  - intros q Hq. simpl in Hq. apply in_app_iff in Hq as [Hq|[<-|[]]].
    + exact (Hn q Hq).
    + exact Hstored.
Qed.

Lemma filter_none {A} (P : A -> bool) (l : list A) :
  (forall x, In x l -> P x = false) -> List.filter P l = [].
Proof.
  induction l as [|x l IH]; intros H; simpl; [reflexivity|].
  rewrite (H x (or_introl eq_refl)). apply IH.
  intros y Hy. apply H. now right.
Qed.

Lemma empty_room_filters roomId s :
  (forall p, In p (participants s) -> Participant.room_id p <> roomId) ->
  (forall name, Sql.selectPresentNamed roomId name s = [])
  /\ List.filter (Sql.presentHostIn roomId) (participants s) = []
  /\ List.filter (Sql.presentIn roomId) (participants s) = [].
Proof.
  intros H.
  assert (E : forall p, In p (participants s) ->
                        String.eqb (Participant.room_id p) roomId = false).
  { intros p Hp. apply String.eqb_neq. now apply H. }
  repeat split; [intros name|..]; apply filter_none; intros p Hp;
    unfold Sql.presentNamed, Sql.presentHostIn, Sql.presentIn;
    now rewrite (E p Hp).
Qed.

Lemma write_invariant s s' : write s s' -> invariant s -> invariant s'.
Proof.
  intros Hw Hinv. destruct Hw as
    [r s s' Hins Hr
    |creatorId roomId t s s' Hroom Hfresh Hins
    |participantId roomId name t s s' Hroom Hnone Hname Hins
    |cond f s Hf
    |roomId s].
  - eapply insertRoom_invariant; eauto.
  - apply insertParticipant_inv in Hins as ->.
    destruct (empty_room_filters roomId s Hfresh) as (Hn & Hh & _).
    apply append_invariant; simpl; auto using storedName_Host.
    intros _. unfold Sql.countPresentHosts. now rewrite Hh.
  - apply insertParticipant_inv in Hins as ->.
    apply append_invariant; simpl; auto.
    intros H. now apply Z.eqb_eq.
  - now apply update_invariant.
  - now apply deactivate_invariant.
Qed.

Lemma writes_invariant s s' : rtc write s s' -> invariant s -> invariant s'.
Proof.
  induction 1 as [|s1 s2 s3 Hw _ IH]; [auto|].
  intros H. apply IH. eapply write_invariant; eauto.
Qed.

Lemma empty_invariant : invariant emptyStore.
Proof.
  split.
  - intros p [].
  - intros roomId. vm_compute. congruence.
  - intros roomId name. simpl. lia.
  - intros p [].
  - intros r [].
Qed.

(** ** Every request is a sequence of writes *)

Lemma createRoomSchema_cap body v :
  createRoomSchema body = Some v ->
  2 <= Z.min (orNumber (CreateRoomRequest.maxParticipants v) 10) 10 <= 10
  /\ Z.min (orNumber (CreateRoomRequest.maxParticipants v) 10) 10
     = default 10 (CreateRoomRequest.maxParticipants body).
Proof.
  unfold createRoomSchema.
  destruct (lengthBetween 1 100 _ && _ && _ && _) eqn:E; [|discriminate].
  intros [= <-]. simpl.
  apply andb_prop in E as [_ E].
  destruct (CreateRoomRequest.maxParticipants body) as [n|]; simpl in *.
  - apply andb_prop in E as [E1 E2].
    apply Z.leb_le in E1, E2.
    destruct (n =? 0) eqn:E0; [apply Z.eqb_eq in E0; lia|lia].
  - lia.
Qed.

Lemma createRoom_writes roomId creatorId now body s :
  roomsKnown s ->
  rtc write s (after (createRoomRoute roomId creatorId now body) s).
Proof.
  intros Hknown. unfold after, createRoomRoute, validateBody.
  destruct (createRoomSchema body) as [v|] eqn:Hv; [|apply rtc_refl].
  destruct (createRoomSchema_cap body v Hv) as [Hcap _].
  unfold createRoom, insertAndReturnRoom, bind, execInsert, query, defined.
  match goal with |- context [Sql.insertRoom ?r s] => set (row := r) end.
  destruct (Sql.insertRoom row s) as [s1|] eqn:Hins; [|apply rtc_refl].
  assert (Hw1 : write s s1) by (eapply write_room; eauto).
  match goal with
  | |- context [Sql.insertParticipant ?p s1] => set (host := p)
  end.
  destruct (Sql.insertParticipant host s1) as [s2|] eqn:Hins2;
    [|simpl; now apply rtc_once].
  assert (Hw2 : write s1 s2).
  { destruct (insertRoom_inv row s s1 Hins) as [Hnew ->].
    eapply write_creator; [| |exact Hins2].
    - change roomId with (Room.id row).
      rewrite (roomById_app_new _ _ row Hnew). discriminate.
    - simpl. intros p Hp E.
      apply (Hknown p Hp). rewrite E. exact Hnew. }
  assert (Hws : rtc write s s2)
    by (eapply rtc_l; [exact Hw1|now apply rtc_once]).
  destruct (Sql.roomById _ s1); simpl; exact Hws.
Qed.

Lemma joinRoomSchema_inv body v :
  joinRoomSchema body = Some v ->
  JoinRoomRequest.roomId v = JoinRoomRequest.roomId body
  /\ Str.matchesRoomId (JoinRoomRequest.roomId body) = true
  /\ JoinRoomRequest.participantName v
     = Str.trim (JoinRoomRequest.participantName body)
  /\ Str.matchesName (Str.trim (JoinRoomRequest.participantName body)) = true
  /\ JoinRoomRequest.password v = JoinRoomRequest.password body.
Proof.
  unfold joinRoomSchema.
  destruct (lengthBetween 1 20 _ && _ && _ && _ && _) eqn:E; [|discriminate].
  intros [= <-]. simpl.
  apply andb_prop in E as [E _]. apply andb_prop in E as [E E4].
  apply andb_prop in E as [E _]. apply andb_prop in E as [_ E2].
  auto.
Qed.

(** The join handler, check by check. *)
Lemma joinRoom_unfold participantId now body s :
  joinRoom participantId now body s
  = let rid := sanitizeRoomId (JoinRoomRequest.roomId body) in
    let name := sanitizeString (JoinRoomRequest.participantName body) in
    match Sql.roomById rid s with
    | None => (Err NotFound, s)
    | Some room =>
        if negb (Room.is_active room) then (Err Gone, s)
        else if passwordRejected (Room.password room)
                  (JoinRoomRequest.password body)
        then (Err Forbidden, s)
        else if Room.max_participants room <=? Sql.countPresent rid s
        then (Err Conflict, s)
        else
          match Sql.selectPresentNamed rid name s with
          | existing :: _ => (Ok (joinResponse room existing), s)
          | [] =>
              match Sql.insertParticipant
                      (newParticipant participantId rid name
                         (datetimeNow now)
                         (Sql.countPresentHosts rid s =? 0)) s with
              | None => (Err Internal, s)
              | Some s' =>
                  (match List.find
                           (fun p' =>
                              String.eqb (Participant.id p')
                                (idToUse participantId
                                   (List.length (participants s'))))
                           (participants s') with
                   | Some p => Ok (joinResponse room p)
                   | None => Err Internal
                   end, s')
              end
          end
    end.
Proof.
  unfold joinRoom, bind, query. simpl.
  destruct (Sql.roomById _ s) as [room|]; [|reflexivity].
  destruct (negb (Room.is_active room)); [reflexivity|]. simpl.
  destruct (passwordRejected _ _); [reflexivity|]. simpl.
  destruct (_ <=? _); [reflexivity|]. simpl.
  destruct (Sql.selectPresentNamed _ _ s); [|reflexivity].
  unfold insertAndReturnParticipant, bind, execInsert, query, defined. simpl.
  destruct (Sql.insertParticipant _ s) as [s'|]; [|reflexivity].
  destruct (List.find _ (participants s')); reflexivity.
Qed.

Lemma joinRoom_writes participantId now body s :
  rtc write s (after (joinRoomRoute participantId now body) s).
Proof.
  unfold after, joinRoomRoute, validateBody.
  destruct (joinRoomSchema body) as [v|] eqn:Hv; [|apply rtc_refl].
  destruct (joinRoomSchema_inv body v Hv) as (_ & _ & Hn & Hm & _).
  rewrite joinRoom_unfold. cbv zeta.
  destruct (Sql.roomById _ s) as [room|] eqn:Hroom; [|apply rtc_refl].
  destruct (negb (Room.is_active room)); [apply rtc_refl|].
  destruct (passwordRejected _ _); [apply rtc_refl|].
  destruct (_ <=? _); [apply rtc_refl|].
  destruct (Sql.selectPresentNamed _ _ s) eqn:Hnone; [|apply rtc_refl].
  destruct (Sql.insertParticipant _ s) as [s'|] eqn:Hins; [|apply rtc_refl].
  simpl. apply rtc_once. eapply write_join; [| |
    |exact Hins].
  - rewrite Hroom. discriminate.
  - exact Hnone.
  - rewrite Hn. now apply sanitize_trim_stored.
Qed.

Lemma keepsIdentity_left t : keepsIdentity (Participant.set_left_at (Some t)).
Proof. intros p. repeat split; auto. discriminate. Qed.

Lemma keepsIdentity_audio b :
  keepsIdentity (Participant.set_is_audio_enabled b).
Proof. intros p. repeat split; auto. Qed.

Lemma keepsIdentity_video b :
  keepsIdentity (Participant.set_is_video_enabled b).
Proof. intros p. repeat split; auto. Qed.

Lemma keepsIdentity_screen b :
  keepsIdentity (Participant.set_is_screen_sharing b).
Proof. intros p. repeat split; auto. Qed.

Lemma keepsIdentity_updates u : keepsIdentity (applyUpdates u).
Proof.
  intros p. unfold applyUpdates.
  destruct u as [[a|] [v|] [sc|]]; repeat split; auto.
Qed.

Lemma close_writes roomId t s :
  rtc write s (Sql.markAllLeft roomId t (Sql.deactivateRoom roomId s)).
Proof.
  eapply rtc_l; [apply write_deactivate|].
  apply rtc_once, write_update, keepsIdentity_left.
Qed.

(** The admission steps of a host action never write. *)
Lemma admitHostAction_store hostId participantId s :
  snd (admitHostAction hostId participantId s) = s.
Proof.
  unfold admitHostAction, bind, query, throwIf, throw, ret. simpl.
  destruct (Sql.selectPresentWithId hostId s) as [|h ?]; [reflexivity|].
  destruct (negb (Participant.is_host h)); [reflexivity|]. simpl.
  destruct (Sql.selectPresentWithId participantId s) as [|target ?];
    [reflexivity|].
  destruct (negb (String.eqb _ _)); [reflexivity|]. simpl.
  destruct (Participant.is_host target); reflexivity.
Qed.

Lemma hostAction_writes hostId participantId (u : Store -> Store) s :
  (forall s0, write s0 (u s0)) ->
  rtc write s
    (snd (bind (admitHostAction hostId participantId)
            (fun _ => exec u) s)).
Proof.
  intros Hu. unfold bind.
  pose proof (admitHostAction_store hostId participantId s) as E.
  destruct (admitHostAction hostId participantId s) as [[[]|e] s1];
    simpl in *; subst s1; [apply rtc_once, Hu|apply rtc_refl].
Qed.

Lemma serve_writes e rq s :
  roomsKnown s -> rtc write s (serve e rq s).
Proof.
  intros Hknown. destruct rq as
    [body|body|pid|rid|rid pid|pid body|pid hid|pid hid m|pid hid en
    |pid hid en]; simpl.
  - now apply createRoom_writes.
  - apply joinRoom_writes.
  - unfold after, leaveRoom, bind, throwIf, exec.
    destruct (negb (truthyOpt pid)); simpl; [apply rtc_refl|].
    apply rtc_once, write_update, keepsIdentity_left.
  - unfold after, checkTimeout, bind, query, exec, ret. simpl.
    destruct (Sql.activeRoomById rid s) as [room|]; [|apply rtc_refl].
    destruct (30 <=? _); simpl; [apply close_writes|apply rtc_refl].
  - unfold after, endMeeting, bind, throwIf, query, exec.
    destruct (negb (truthyOpt pid)); simpl; [apply rtc_refl|].
    destruct (List.filter _ (participants s)) as [|h ?];
      simpl; [apply rtc_refl|].
    destruct (negb (Participant.is_host h)); simpl;
      [apply rtc_refl|apply close_writes].
  - unfold after, updateParticipant, bind, throwIf, query, exec.
    destruct (noUpdates body); simpl; [apply rtc_refl|].
    destruct (_ =? 0); simpl;
      apply rtc_once, write_update, keepsIdentity_updates.
  - unfold after, kick, bind at 1, throwIf.
    destruct (negb (truthyOpt hid)); simpl; [apply rtc_refl|].
    apply hostAction_writes. intros s0.
    apply write_update, keepsIdentity_left.
  - unfold after, mute, bind at 1, throwIf.
    destruct (negb (truthyOpt hid)); simpl; [apply rtc_refl|].
    destruct m as [m|]; [|apply rtc_refl].
    apply hostAction_writes. intros s0.
    apply write_update, keepsIdentity_audio.
  - unfold after, video, bind at 1, throwIf.
    destruct (negb (truthyOpt hid)); simpl; [apply rtc_refl|].
    destruct en as [en|]; [|apply rtc_refl].
    apply hostAction_writes. intros s0.
    apply write_update, keepsIdentity_video.
  - unfold after, screenshare, bind at 1, throwIf.
    destruct (negb (truthyOpt hid)); simpl; [apply rtc_refl|].
    destruct en as [en|]; [|apply rtc_refl].
    apply hostAction_writes. intros s0.
    apply write_update, keepsIdentity_screen.
Qed.

(** Served one at a time, the requests keep the invariant. *)
Lemma inTurn_invariant s : inTurn s -> invariant s.
Proof.
  induction 1 as [|e rq s _ IH]; [apply empty_invariant|].
  eapply writes_invariant; [apply serve_writes, IH|exact IH].
Qed.

(** ** Requests in flight *)

Lemma insertParticipant_free p s s' :
  Sql.insertParticipant p s = Some s' -> idFree (Participant.id p) s.
Proof.
  unfold Sql.insertParticipant, idFree.
  destruct (existsb _ (participants s)) eqn:E; [discriminate|].
  intros _ q Hq Hid.
  assert (Hex : existsb (fun p' => String.eqb (Participant.id p')
                                      (Participant.id p)) (participants s)
                = true).
  { apply existsb_exists. exists q. split; [exact Hq|].
    rewrite Hid. apply String.eqb_refl. }
  congruence.
Qed.

Lemma stripAngles_clean l : Str.noAngles (Str.stripAngles l) = true.
Proof.
  unfold Str.noAngles, Str.stripAngles.
  induction l as [|c l IH]; simpl; [reflexivity|].
  destruct (negb (Str.isAngle c)) eqn:E; simpl; [now rewrite E|exact IH].
Qed.

Lemma sanitizeString_clean input : cleanText (sanitizeString input).
Proof.
  unfold cleanText, sanitizeString.
  rewrite list_ascii_of_string_of_list_ascii.
  apply collapse_noAngles, stripAngles_clean.
Qed.

Lemma createdRoom_clean roomId creatorId now v :
  cleanRoom (createdRoom roomId creatorId now v).
Proof.
  split; simpl; [apply sanitizeString_clean|].
  destruct (orNull (CreateRoomRequest.description v)); simpl;
    [apply sanitizeString_clean|exact I].
Qed.

Lemma sanitizeString_matchesName raw :
  Str.matchesName (Str.trim raw) = true ->
  Str.matchesName (sanitizeString (Str.trim raw)) = true.
Proof.
  unfold Str.matchesName, Str.trim, sanitizeString.
  rewrite !list_ascii_of_string_of_list_ascii.
  set (l0 := Str.trimL (list_ascii_of_string raw)).
  intros H. apply andb_prop in H as [Hne Hchars].
  assert (Hfix : Str.trimL l0 = l0) by apply trimL_idem.
  rewrite Hfix.
  rewrite (stripAngles_noAngles l0 (nameChars_noAngles l0 Hchars)).
  destruct (trimL_fixed l0 Hfix) as [Hs _].
  apply andb_true_intro. split.
  - destruct (trimStart_fixed l0 Hs) as [E|(c & l' & E & Hc)].
    + rewrite E in Hne. discriminate.
    + rewrite E. simpl. now rewrite Hc.
  - clear Hne Hfix Hs. generalize false.
    induction l0 as [|c l IH]; intros b; simpl; [reflexivity|].
    simpl in Hchars. apply andb_prop in Hchars as [Hc Hl].
    destruct (Str.isSpace c); [destruct b|].
    + now apply IH.
    + change (forallb Str.isNameChar
                (" "%char :: Str.collapseSpaces true l))
        with (true && forallb Str.isNameChar (Str.collapseSpaces true l)).
      simpl. now apply IH.
    + simpl. rewrite Hc. simpl. now apply IH.
Qed.

Lemma roomById_app roomId rs ps r :
  Sql.roomById roomId (mkStore (rs ++ [r]) ps)
  = match Sql.roomById roomId (mkStore rs ps) with
    | Some x => Some x
    | None => if String.eqb (Room.id r) roomId then Some r else None
    end.
Proof.
  unfold Sql.roomById. simpl. induction rs as [|x rs IH]; simpl.
  - reflexivity.
  - destruct (String.eqb (Room.id x) roomId); [reflexivity|exact IH].
Qed.

Lemma roomById_id roomId s room :
  Sql.roomById roomId s = Some room ->
  In room (rooms s) /\ Room.id room = roomId.
Proof.
  unfold Sql.roomById. intros H. apply find_some in H as [Hin E].
  now apply String.eqb_eq in E.
Qed.

Lemma map_id_update cond f l :
  keepsIdentity f ->
  List.map Participant.id (List.map (Sql.rewriteRow cond f) l)
  = List.map Participant.id l.
Proof.
  intros Hf. rewrite List.map_map. apply List.map_ext. intros p.
  unfold Sql.rewriteRow. destruct (cond p); [apply Hf|reflexivity].
Qed.

Lemma map_id_deactivate closed l :
  List.map Room.id
    (List.map (fun r => if String.eqb (Room.id r) closed
                        then Room.set_is_active false r else r) l)
  = List.map Room.id l.
Proof.
  rewrite List.map_map. apply List.map_ext. intros r.
  destruct (String.eqb (Room.id r) closed); reflexivity.
Qed.

Lemma NoDup_snoc {A} (l : list A) x : NoDup l -> ~ In x l -> NoDup (l ++ [x]).
Proof.
  intros Hl Hx. apply NoDup_app. repeat split.
  - exact Hl.
  - intros y Hy Hin. apply list_elem_of_In in Hy.
    apply list_elem_of_In in Hin. destruct Hin as [->|[]]. contradiction.
  - apply NoDup_singleton.
Qed.

Lemma fresh_room_id r s :
  Sql.roomById (Room.id r) s = None ->
  ~ In (Room.id r) (List.map Room.id (rooms s)).
Proof.
  intros Hnone Hin. apply in_map_iff in Hin as (x & Hid & Hx).
  apply roomById_unknown in Hnone.
  assert (E : existsb (fun r' => String.eqb (Room.id r') (Room.id r))
                (rooms s) = true).
  { apply existsb_exists. exists x. split; [exact Hx|].
    rewrite Hid. apply String.eqb_refl. }
  congruence.
Qed.

Lemma fresh_participant_id id s :
  idFree id s -> ~ In id (List.map Participant.id (participants s)).
Proof.
  intros Hfree Hin. apply in_map_iff in Hin as (x & Hid & Hx).
  exact (Hfree x Hx Hid).
Qed.

(** *** A handler that is not interrupted *)

Lemma run_bind {A B} (p : Async.Proc A) (k : A -> Async.Proc B) s :
  Async.run (Async.bind p k) s
  = match Async.run p s with
    | (Ok a, s') => Async.run (k a) s'
    | (Err e, s') => (Err e, s')
    end.
Proof.
  revert s. induction p as [[a|e]|statement next IH]; intros s;
    [reflexivity|reflexivity|].
  simpl. apply IH.
Qed.

Lemma run_forget {A} (p : Async.Proc A) s :
  snd (Async.run (Async.forget p) s) = snd (Async.run p s).
Proof.
  revert s. induction p as [[a|e]|statement next IH]; intros s;
    [reflexivity|reflexivity|].
  simpl. apply IH.
Qed.

Ltac run_handler :=
  repeat (rewrite run_bind; simpl);
  unfold bind, query, exec, execInsert, throwIf, throw, ret, defined;
  simpl.

Lemma run_admitHostAction hostId participantId s :
  Async.run (Async.admitHostAction hostId participantId) s
  = admitHostAction hostId participantId s.
Proof.
  unfold Async.admitHostAction, admitHostAction. run_handler.
  destruct (Sql.selectPresentWithId hostId s) as [|h ?]; [reflexivity|].
  unfold Async.throwIf. destruct (Participant.is_host h); simpl;
    [|reflexivity].
  destruct (Sql.selectPresentWithId participantId s) as [|t ?];
    [reflexivity|].
  simpl. destruct (String.eqb _ _); simpl; [|reflexivity].
  destruct (Participant.is_host t); reflexivity.
Qed.

Lemma run_createRoomRoute roomId creatorId now body s :
  Async.run (Async.createRoomRoute roomId creatorId now body) s
  = createRoomRoute roomId creatorId now body s.
Proof.
  unfold Async.createRoomRoute, createRoomRoute, Async.validateBody,
    validateBody.
  destruct (createRoomSchema body) as [v|]; [|reflexivity].
  unfold Async.createRoom, createRoom, Async.insertAndReturnRoom,
    insertAndReturnRoom. run_handler.
  destruct (Sql.insertRoom _ s) as [s1|]; simpl; [|reflexivity].
  destruct (Sql.insertParticipant _ s1) as [s2|]; simpl; [|reflexivity].
  destruct (Sql.roomById _ s1); reflexivity.
Qed.

Lemma run_joinRoomRoute participantId now body s :
  Async.run (Async.joinRoomRoute participantId now body) s
  = joinRoomRoute participantId now body s.
Proof.
  unfold Async.joinRoomRoute, joinRoomRoute, Async.validateBody,
    validateBody.
  destruct (joinRoomSchema body) as [v|]; [|reflexivity].
  rewrite joinRoom_unfold. cbv zeta.
  unfold Async.joinRoom, Async.insertAndReturnParticipant. run_handler.
  destruct (Sql.roomById _ s) as [room|]; [|reflexivity].
  unfold Async.throwIf.
  destruct (negb (Room.is_active room)); simpl; [reflexivity|].
  destruct (passwordRejected _ _); simpl; [reflexivity|].
  destruct (_ <=? _); simpl; [reflexivity|].
  destruct (Sql.selectPresentNamed _ _ s); simpl; [|reflexivity].
  rewrite !run_bind. simpl.
  destruct (Sql.insertParticipant _ s) as [s1|]; simpl; [|reflexivity].
  destruct (List.find _ (participants s1)); reflexivity.
Qed.

Lemma run_leaveRoom now participantId s :
  Async.run (Async.leaveRoom now participantId) s
  = leaveRoom now participantId s.
Proof.
  unfold Async.leaveRoom, leaveRoom, Async.throwIf. run_handler.
  destruct (negb (truthyOpt participantId)); reflexivity.
Qed.

Lemma run_checkTimeout now roomId s :
  Async.run (Async.checkTimeout now roomId) s = checkTimeout now roomId s.
Proof.
  unfold Async.checkTimeout, checkTimeout. run_handler.
  destruct (Sql.activeRoomById roomId s) as [room|]; [|reflexivity].
  destruct (30 <=? _); reflexivity.
Qed.

Lemma run_endMeeting now roomId participantId s :
  Async.run (Async.endMeeting now roomId participantId) s
  = endMeeting now roomId participantId s.
Proof.
  unfold Async.endMeeting, endMeeting, Async.throwIf. run_handler.
  destruct (negb (truthyOpt participantId)); simpl; [reflexivity|].
  destruct (List.filter _ (participants s)) as [|h ?]; [reflexivity|].
  simpl. destruct (negb (Participant.is_host h)); reflexivity.
Qed.

Lemma run_updateParticipant participantId u s :
  Async.run (Async.updateParticipant participantId u) s
  = updateParticipant participantId u s.
Proof.
  unfold Async.updateParticipant, updateParticipant, Async.throwIf,
    Async.update. run_handler.
  destruct (noUpdates u); simpl; [reflexivity|].
  destruct (_ =? 0); reflexivity.
Qed.

Lemma run_after_admission hostId participantId u s :
  Async.run
    (Async.bind (Async.admitHostAction hostId participantId)
       (fun _ => Async.exec u)) s
  = bind (admitHostAction hostId participantId) (fun _ => exec u) s.
Proof.
  rewrite run_bind, run_admitHostAction. unfold bind.
  destruct (admitHostAction hostId participantId s) as [[[]|e] s1];
    reflexivity.
Qed.

Lemma run_kick now participantId hostId s :
  Async.run (Async.kick now participantId hostId) s
  = kick now participantId hostId s.
Proof.
  unfold Async.kick, kick, Async.throwIf.
  destruct (negb (truthyOpt hostId)); [reflexivity|].
  exact (run_after_admission _ _ _ s).
Qed.

Lemma run_mute participantId hostId m s :
  Async.run (Async.mute participantId hostId m) s
  = mute participantId hostId m s.
Proof.
  unfold Async.mute, mute, Async.throwIf, Async.setFlag, setFlag.
  destruct (negb (truthyOpt hostId)); [reflexivity|].
  destruct m; [|reflexivity]. exact (run_after_admission _ _ _ s).
Qed.

Lemma run_video participantId hostId en s :
  Async.run (Async.video participantId hostId en) s
  = video participantId hostId en s.
Proof.
  unfold Async.video, video, Async.throwIf, Async.setFlag, setFlag.
  destruct (negb (truthyOpt hostId)); [reflexivity|].
  destruct en; [|reflexivity]. exact (run_after_admission _ _ _ s).
Qed.

Lemma run_screenshare participantId hostId en s :
  Async.run (Async.screenshare participantId hostId en) s
  = screenshare participantId hostId en s.
Proof.
  unfold Async.screenshare, screenshare, Async.throwIf, Async.setFlag,
    setFlag.
  destruct (negb (truthyOpt hostId)); [reflexivity|].
  destruct en; [|reflexivity]. exact (run_after_admission _ _ _ s).
Qed.

(** Run without interruption, a request does to the store what [serve]
    says. *)
Lemma run_handle e rq s : snd (Async.run (Async.handle e rq) s) = serve e rq s.
Proof.
  destruct rq; unfold Async.handle, serve, after; rewrite ?run_forget.
  - now rewrite run_createRoomRoute.
  - now rewrite run_joinRoomRoute.
  - now rewrite run_leaveRoom.
  - now rewrite run_checkTimeout.
  - now rewrite run_endMeeting.
  - now rewrite run_updateParticipant.
  - now rewrite run_kick.
  - now rewrite run_mute.
  - now rewrite run_video.
  - now rewrite run_screenshare.
Qed.
(** *** Statements in any order *)

Lemma keepsRooms_refl s : keepsRooms s s.
Proof. intros id H. exact H. Qed.

Lemma keepsRooms_trans s1 s2 s3 :
  keepsRooms s1 s2 -> keepsRooms s2 s3 -> keepsRooms s1 s3.
Proof. intros H12 H23 id H. apply H23, H12, H. Qed.

Lemma statement_keepsRooms s s' : statement s s' -> keepsRooms s s'.
Proof.
  intros [|r _ _ _|p _ _ _ _|cond f _|closed] id H.
  - exact H.
  - now apply roomById_app_known.
  - exact H.
  - exact H.
  - now apply roomById_deactivate.
Qed.

Lemma statement_uniqueIds s s' : statement s s' -> uniqueIds s -> uniqueIds s'.
Proof.
  intros [|r Hnew _ _|p Hfree _ _ _|cond f Hf|closed] [Hr Hp];
    split; simpl; rewrite ?List.map_app; simpl;
    rewrite ?map_id_deactivate;
    auto using NoDup_snoc, fresh_room_id, fresh_participant_id.
  rewrite map_id_update; auto.
Qed.

Lemma statement_roomsKnown s s' :
  statement s s' -> roomsKnown s -> roomsKnown s'.
Proof.
  intros Hst Hk. pose proof (statement_keepsRooms s s' Hst) as Hkeep.
  destruct Hst as [|r _ _ _|p _ Hroom _ _|cond f Hf|closed]; intros q Hq.
  - exact (Hk q Hq).
  - apply Hkeep. exact (Hk q Hq).
  - simpl in Hq. apply in_app_iff in Hq as [Hq|[<-|[]]];
      [exact (Hk q Hq)|exact Hroom].
  - simpl in Hq. apply in_map_iff in Hq as (y & <- & Hy).
    rewrite (updated_room cond f Hf). exact (Hk y Hy).
  - apply Hkeep. exact (Hk q Hq).
Qed.

Lemma statement_namesStored s s' :
  statement s s' -> namesStored s -> namesStored s'.
Proof.
  intros [|r _ _ _|p _ _ Hstored _|cond f Hf|closed] Hn q Hq;
    try exact (Hn q Hq).
  - simpl in Hq. apply in_app_iff in Hq as [Hq|[<-|[]]];
      [exact (Hn q Hq)|exact Hstored].
  - simpl in Hq. apply in_map_iff in Hq as (y & <- & Hy).
    rewrite (updated_name cond f Hf). exact (Hn y Hy).
Qed.

Lemma statement_namesMatch s s' :
  statement s s' -> namesMatch s -> namesMatch s'.
Proof.
  intros [|r _ _ _|p _ _ _ Hm|cond f Hf|closed] Hn q Hq;
    try exact (Hn q Hq).
  - simpl in Hq. apply in_app_iff in Hq as [Hq|[<-|[]]];
      [exact (Hn q Hq)|exact Hm].
  - simpl in Hq. apply in_map_iff in Hq as (y & <- & Hy).
    rewrite (updated_name cond f Hf). exact (Hn y Hy).
Qed.

Lemma statement_capsInRange s s' :
  statement s s' -> capsInRange s -> capsInRange s'.
Proof.
  intros [|r _ _ Hr|p _ _ _ _|cond f Hf|closed] Hc x Hx;
    try exact (Hc x Hx).
  - simpl in Hx. apply in_app_iff in Hx as [Hx|[<-|[]]];
      [exact (Hc x Hx)|exact Hr].
  - simpl in Hx. apply in_map_iff in Hx as (y & <- & Hy).
    specialize (Hc y Hy).
    destruct (String.eqb (Room.id y) closed); exact Hc.
Qed.

Lemma statement_cleanRooms s s' :
  statement s s' -> cleanRooms s -> cleanRooms s'.
Proof.
  intros [|r _ Hr _|p _ _ _ _|cond f Hf|closed] Hc x Hx;
    try exact (Hc x Hx).
  - simpl in Hx. apply in_app_iff in Hx as [Hx|[<-|[]]];
      [exact (Hc x Hx)|exact Hr].
  - simpl in Hx. apply in_map_iff in Hx as (y & <- & Hy).
    specialize (Hc y Hy).
    destruct (String.eqb (Room.id y) closed); exact Hc.
Qed.

(** Whatever statement runs, and whichever request issued it, ids stay
    keys, participants stay in stored rooms, and the stored texts and caps
    stay as the schemas left them. *)
Lemma statement_stable s s' : statement s s' -> stable s -> stable s'.
Proof.
  intros Hst [H1 H2 H3 H4 H5 H6]. split.
  - exact (statement_uniqueIds s s' Hst H1).
  - exact (statement_roomsKnown s s' Hst H2).
  - exact (statement_namesStored s s' Hst H3).
  - exact (statement_namesMatch s s' Hst H4).
  - exact (statement_capsInRange s s' Hst H5).
  - exact (statement_cleanRooms s s' Hst H6).
Qed.

Lemma empty_stable : stable emptyStore.
Proof.
  split.
  - split; apply NoDup_nil; exact I.
  - intros p [].
  - intros p [].
  - intros p [].
  - intros r [].
  - intros r [].
Qed.

(** *** The statements of each handler *)

Lemma sound_keepsRooms {A} (p : Async.Proc A) s s' :
  keepsRooms s s' -> sound p s -> sound p s'.
Proof.
  destruct p as [r|st next]; [trivial|].
  intros Hk Hp s'' Hk'. apply Hp. now apply (keepsRooms_trans s s' s'').
Qed.

Lemma sound_bind {A B} (p : Async.Proc A) (k : A -> Async.Proc B) s :
  sound p s ->
  (forall a s', keepsRooms s s' -> sound (k a) s') ->
  sound (Async.bind p k) s.
Proof.
  revert s. induction p as [[a|e]|st next IH]; intros s Hp Hk.
  - apply Hk, keepsRooms_refl.
  - exact I.
  - intros s' Hs'. destruct (Hp s' Hs') as [Hst Hnext].
    split; [exact Hst|]. apply IH; [exact Hnext|].
    intros a s'' Hs''. apply Hk.
    apply (keepsRooms_trans s s' s''); [exact Hs'|].
    apply (keepsRooms_trans s' (st s') s''); [|exact Hs''].
    now apply statement_keepsRooms.
Qed.

Lemma sound_forget {A} (p : Async.Proc A) s :
  sound p s -> sound (Async.forget p) s.
Proof.
  revert s. induction p as [[a|e]|st next IH]; intros s Hp;
    [exact I|exact I|].
  intros s' Hs'. destruct (Hp s' Hs') as [Hst Hnext].
  split; [exact Hst|]. now apply IH.
Qed.

Lemma sound_query {A} (q : Store -> A) s : sound (Async.query q) s.
Proof. intros s' _. split; [apply statement_select|exact I]. Qed.

Lemma sound_update cond f s :
  keepsIdentity f -> sound (Async.update cond f) s.
Proof. intros Hf s' _. split; [now apply statement_update|exact I]. Qed.

Lemma sound_exec_update cond f s :
  keepsIdentity f -> sound (Async.exec (Sql.updateParticipants cond f)) s.
Proof. intros Hf s' _. split; [now apply statement_update|exact I]. Qed.

Lemma sound_exec_deactivate roomId s :
  sound (Async.exec (Sql.deactivateRoom roomId)) s.
Proof. intros s' _. split; [apply statement_deactivate|exact I]. Qed.

Lemma sound_throwIf b e s : sound (Async.throwIf b e) s.
Proof. destruct b; exact I. Qed.

Lemma sound_defined {A} (o : option A) s : sound (Async.defined o) s.
Proof. destruct o; exact I. Qed.

(** An [INSERT INTO rooms] of a row made from a validated body. *)
Lemma insertRoom_statement r s :
  cleanRoom r -> 2 <= Room.max_participants r <= 10 ->
  statement s (default s (Sql.insertRoom r s)).
Proof.
  intros Hclean Hcap.
  destruct (Sql.insertRoom r s) as [s1|] eqn:Hins; simpl;
    [|apply statement_select].
  apply insertRoom_inv in Hins as [Hnew ->].
  now apply statement_insertRoom.
Qed.

(** An [INSERT INTO participants] into a room that is still stored. *)
Lemma insertParticipant_statement p s :
  Sql.roomById (Participant.room_id p) s <> None ->
  storedName (Participant.name p) ->
  Str.matchesName (Participant.name p) = true ->
  statement s (default s (Sql.insertParticipant p s)).
Proof.
  intros Hroom Hstored Hm.
  destruct (Sql.insertParticipant p s) as [s1|] eqn:Hins; simpl;
    [|apply statement_select].
  pose proof (insertParticipant_free p s s1 Hins) as Hfree.
  apply insertParticipant_inv in Hins as ->.
  now apply statement_insertParticipant.
Qed.

Lemma sound_createRoomRoute roomId creatorId now body s :
  sound (Async.createRoomRoute roomId creatorId now body) s.
Proof.
  unfold Async.createRoomRoute, Async.validateBody.
  destruct (createRoomSchema body) as [v|] eqn:Hv; [|exact I].
  destruct (createRoomSchema_cap body v Hv) as [Hcap _].
  unfold Async.createRoom, Async.insertAndReturnRoom.
  fold (createdRoom roomId creatorId now v).
  set (row := createdRoom roomId creatorId now v).
  cbn [Async.bind Async.execInsert Async.query].
  intros s1 _. split.
  { apply insertRoom_statement; [apply createdRoom_clean|exact Hcap]. }
  destruct (Sql.insertRoom row s1) as [s2|] eqn:Hins; simpl; [|exact I].
  destruct (insertRoom_inv row s1 s2 Hins) as [Hnew ->].
  intros s3 H3. split; [apply statement_select|].
  cbn [Async.bind Async.ret Async.execInsert].
  intros s4 H4. split.
  { apply insertParticipant_statement; [|apply storedName_Host|reflexivity].
    apply H4, H3. change roomId with (Room.id row).
    rewrite (roomById_app_new _ _ row Hnew). discriminate. }
  destruct (Sql.insertParticipant _ s4); cbn [Async.bind Async.ret];
    [|exact I].
  destruct (Sql.roomById _ s3); exact I.
Qed.

Lemma sound_joinRoomRoute participantId now body s :
  sound (Async.joinRoomRoute participantId now body) s.
Proof.
  unfold Async.joinRoomRoute, Async.validateBody.
  destruct (joinRoomSchema body) as [v|] eqn:Hv; [|exact I].
  destruct (joinRoomSchema_inv body v Hv) as (_ & _ & Hn & Hm & _).
  unfold Async.joinRoom, Async.insertAndReturnParticipant.
  set (rid := sanitizeRoomId (JoinRoomRequest.roomId v)).
  set (name := sanitizeString (JoinRoomRequest.participantName v)).
  cbn [Async.bind Async.query].
  intros s1 _. split; [apply statement_select|].
  cbn [Async.bind Async.ret].
  destruct (Sql.roomById rid s1) as [room|] eqn:Hroom; [|exact I].
  destruct (negb (Room.is_active room)); cbn [Async.bind Async.throwIf
    Async.throw Async.ret]; [exact I|].
  destruct (passwordRejected _ _); cbn [Async.bind Async.throwIf
    Async.throw Async.ret Async.query]; [exact I|].
  intros s2 H2. split; [apply statement_select|].
  cbn [Async.bind Async.ret].
  destruct (_ <=? _); cbn [Async.bind Async.throwIf Async.throw Async.ret
    Async.query]; [exact I|].
  intros s3 H3. split; [apply statement_select|].
  cbn [Async.bind Async.ret].
  destruct (Sql.selectPresentNamed rid name s3) as [|existing others];
    [|exact I].
  cbn [Async.bind Async.query Async.ret Async.execInsert].
  intros s4 H4. split; [apply statement_select|].
  cbn [Async.bind Async.ret].
  intros s5 H5. split.
  { apply insertParticipant_statement; simpl.
    - apply H5, H4, H3, H2. rewrite Hroom. discriminate.
    - unfold name. rewrite Hn. now apply sanitize_trim_stored.
    - unfold name. rewrite Hn. now apply sanitizeString_matchesName. }
  destruct (Sql.insertParticipant _ s5); cbn [Async.bind Async.ret
    Async.throw]; [|exact I].
  intros s6 _. split; [apply statement_select|].
  cbn [Async.bind Async.ret].
  destruct (List.find _ _); exact I.
Qed.

Lemma sound_leaveRoom now participantId s :
  sound (Async.leaveRoom now participantId) s.
Proof.
  unfold Async.leaveRoom.
  apply sound_bind; [apply sound_throwIf|]. intros _ s' _.
  apply sound_exec_update, keepsIdentity_left.
Qed.

Lemma sound_close roomId now s :
  sound
    (Async.bind (Async.exec (Sql.deactivateRoom roomId))
       (fun _ => Async.exec (Sql.markAllLeft roomId now))) s.
Proof.
  apply sound_bind; [apply sound_exec_deactivate|]. intros _ s' _.
  apply sound_exec_update, keepsIdentity_left.
Qed.

Lemma sound_checkTimeout now roomId s :
  sound (Async.checkTimeout now roomId) s.
Proof.
  unfold Async.checkTimeout.
  apply sound_bind; [apply sound_query|]. intros [room|] s' _; [|exact I].
  cbv zeta. destruct (30 <=? _); [|exact I].
  apply sound_bind; [apply sound_exec_deactivate|]. intros _ s1 _.
  apply sound_bind; [|intros; exact I].
  apply sound_exec_update, keepsIdentity_left.
Qed.

Lemma sound_endMeeting now roomId participantId s :
  sound (Async.endMeeting now roomId participantId) s.
Proof.
  unfold Async.endMeeting.
  apply sound_bind; [apply sound_throwIf|]. intros _ s1 _. cbv zeta.
  apply sound_bind; [apply sound_query|]. intros [|h ?] s2 _; [exact I|].
  apply sound_bind; [apply sound_throwIf|]. intros _ s3 _.
  apply sound_close.
Qed.

Lemma sound_updateParticipant participantId u s :
  sound (Async.updateParticipant participantId u) s.
Proof.
  unfold Async.updateParticipant.
  apply sound_bind; [apply sound_throwIf|]. intros _ s1 _. cbv zeta.
  apply sound_bind; [apply sound_update, keepsIdentity_updates|].
  intros rowCount s2 _. apply sound_throwIf.
Qed.

Lemma sound_admitHostAction hostId participantId s :
  sound (Async.admitHostAction hostId participantId) s.
Proof.
  unfold Async.admitHostAction.
  apply sound_bind; [apply sound_query|]. intros [|h ?] s1 _; [exact I|].
  apply sound_bind; [apply sound_throwIf|]. intros _ s2 _. cbv zeta.
  apply sound_bind; [apply sound_query|]. intros [|t ?] s3 _; [exact I|].
  apply sound_bind; [apply sound_throwIf|]. intros _ s4 _.
  apply sound_throwIf.
Qed.

Lemma sound_hostAction hostId participantId cond f s :
  keepsIdentity f ->
  sound
    (Async.bind (Async.admitHostAction hostId participantId)
       (fun _ => Async.exec (Sql.updateParticipants cond f))) s.
Proof.
  intros Hf. apply sound_bind; [apply sound_admitHostAction|].
  intros _ s' _. now apply sound_exec_update.
Qed.

(** Every statement of every request is one of [statement], whatever the
    store has become since the request last read it. *)
Lemma sound_handle e rq s : sound (Async.handle e rq) s.
Proof.
  destruct rq as
    [body|body|pid|rid|rid pid|pid body|pid hid|pid hid m|pid hid en
    |pid hid en]; unfold Async.handle.
  - apply sound_forget, sound_createRoomRoute.
  - apply sound_forget, sound_joinRoomRoute.
  - apply sound_leaveRoom.
  - apply sound_forget, sound_checkTimeout.
  - apply sound_endMeeting.
  - apply sound_updateParticipant.
  - unfold Async.kick.
    apply sound_bind; [apply sound_throwIf|]. intros _ s1 _.
    apply sound_hostAction, keepsIdentity_left.
  - unfold Async.mute.
    apply sound_bind; [apply sound_throwIf|]. intros _ s1 _.
    destruct m as [m|]; [|exact I].
    apply sound_hostAction, keepsIdentity_audio.
  - unfold Async.video.
    apply sound_bind; [apply sound_throwIf|]. intros _ s1 _.
    destruct en as [en|]; [|exact I].
    apply sound_hostAction, keepsIdentity_video.
  - unfold Async.screenshare.
    apply sound_bind; [apply sound_throwIf|]. intros _ s1 _.
    destruct en as [en|]; [|exact I].
    apply sound_hostAction, keepsIdentity_screen.
Qed.

(** *** What every interleaving keeps *)

Lemma attained_stable w :
  Async.attained w ->
  stable (Async.db w)
  /\ Forall (fun t => sound t (Async.db w)) (Async.inFlight w).
Proof.
  induction 1 as [|ev w Hw [Hst Hts]].
  - split; [apply empty_stable|constructor].
  - destruct ev as [e rq|i]; simpl.
    + split; [exact Hst|].
      apply Forall_app. split; [exact Hts|].
      constructor; [apply sound_handle|constructor].
    + destruct (Async.inFlight w !! i) as [[r|st next]|] eqn:Hi;
        [now split| |now split].
      assert (Hp : sound (Async.Await st next) (Async.db w))
        by exact (Forall_lookup_1 _ _ _ _ Hts Hi).
      destruct (Hp (Async.db w) (keepsRooms_refl _)) as [Hrun Hnext].
      simpl. split; [now apply (statement_stable (Async.db w))|].
      apply Forall_insert; [|exact Hnext].
      eapply Forall_impl; [exact Hts|].
      intros t Ht. eapply sound_keepsRooms; [|exact Ht].
      now apply statement_keepsRooms.
Qed.

Lemma attained_reachable w : Async.attained w -> reachable (Async.db w).
Proof. destruct w as [s ts]. intros Hw. now exists ts. Qed.

Lemma reachable_stable s : reachable s -> stable s.
Proof. intros [ts Hw]. exact (proj1 (attained_stable _ Hw)). Qed.

Lemma reachable_uniqueIds s : reachable s -> uniqueIds s.
Proof. intros Hs. exact (stable_uniqueIds s (reachable_stable s Hs)). Qed.

Lemma reachable_roomsKnown s : reachable s -> roomsKnown s.
Proof. intros Hs. exact (stable_roomsKnown s (reachable_stable s Hs)). Qed.

Lemma reachable_namesStored s : reachable s -> namesStored s.
Proof. intros Hs. exact (stable_namesStored s (reachable_stable s Hs)). Qed.

Lemma reachable_namesMatch s : reachable s -> namesMatch s.
Proof. intros Hs. exact (stable_namesMatch s (reachable_stable s Hs)). Qed.

Lemma reachable_capsInRange s : reachable s -> capsInRange s.
Proof. intros Hs. exact (stable_capsInRange s (reachable_stable s Hs)). Qed.

Lemma reachable_cleanRooms s : reachable s -> cleanRooms s.
Proof. intros Hs. exact (stable_cleanRooms s (reachable_stable s Hs)). Qed.

(** *** Requests served one at a time *)

Lemma step_runs_at n (ts1 ts2 : list Async.Thread) st next s :
  n = List.length ts1 ->
  Async.step (Async.Runs n)
    (Async.mkWorld s (ts1 ++ Async.Await st next :: ts2))
  = Async.mkWorld (st s) (ts1 ++ next s :: ts2).
Proof.
  intros ->. unfold Async.step. simpl.
  rewrite list_lookup_middle by reflexivity.
  rewrite (insert_app_r_alt ts1 _ (List.length ts1) _ (le_n _)).
  rewrite Nat.sub_diag. reflexivity.
Qed.

Lemma step_runs_after n (ts1 ts2 : list Async.Thread) a st next s :
  n = S (List.length ts1) ->
  Async.step (Async.Runs n)
    (Async.mkWorld s (ts1 ++ a :: Async.Await st next :: ts2))
  = Async.mkWorld (st s) (ts1 ++ a :: next s :: ts2).
Proof.
  intros ->.
  replace (ts1 ++ a :: Async.Await st next :: ts2)
    with ((ts1 ++ [a]) ++ Async.Await st next :: ts2)
    by (now rewrite <- List.app_assoc).
  rewrite (step_runs_at (S (List.length ts1)) (ts1 ++ [a]));
    [now rewrite <- List.app_assoc|].
  rewrite length_app. simpl. lia.
Qed.

Lemma steps_attained evs w :
  Async.attained w -> Async.attained (Async.steps evs w).
Proof.
  revert w. induction evs as [|ev evs IH]; intros w Hw; [exact Hw|].
  apply IH. now apply Async.attained_step.
Qed.

(** The request that arrived last can run to its answer before anything
    else does. *)
Lemma run_attained ts (p : Async.Thread) s :
  Async.attained (Async.mkWorld s (ts ++ [p])) ->
  exists p',
    Async.attained (Async.mkWorld (snd (Async.run p s)) (ts ++ [p'])).
Proof.
  revert s. induction p as [r|st next IH]; intros s Hw.
  - exists (Async.Return r). exact Hw.
  - simpl. apply (IH s (st s)).
    exact (eq_ind _ Async.attained
             (Async.attained_step (Async.Runs (List.length ts)) _ Hw) _
             (step_runs_at (List.length ts) ts [] st next s eq_refl)).
Qed.

Lemma reachable_empty : reachable emptyStore.
Proof. exists []. apply Async.attained_start. Qed.

(** What a request served without interruption leaves is a store the
    server can be in. *)
Lemma reachable_serve e rq s : reachable s -> reachable (serve e rq s).
Proof.
  intros [ts Hw].
  destruct (run_attained ts (Async.handle e rq) s) as [p' Hp'].
  - exact (Async.attained_step (Async.Arrives e rq) _ Hw).
  - rewrite run_handle in Hp'. now exists (ts ++ [p']).
Qed.

Lemma inTurn_reachable s : inTurn s -> reachable s.
Proof.
  induction 1 as [|e rq s _ IH]; [apply reachable_empty|].
  now apply reachable_serve.
Qed.

(** ** Room creation *)

(** A creation that answers went through both inserts. *)
Lemma createRoomRoute_ok roomId creatorId now body s resp :
  answer (createRoomRoute roomId creatorId now body) s = Ok resp ->
  exists v,
    createRoomSchema body = Some v
    /\ Sql.roomById roomId s = None
    /\ after (createRoomRoute roomId creatorId now body) s
       = mkStore (rooms s ++ [createdRoom roomId creatorId now v])
           (participants s
            ++ [newParticipant creatorId roomId "Host" (datetimeNow now) true])
    /\ (Str.truthy roomId = true ->
        resMaxParticipants resp
        = Room.max_participants (createdRoom roomId creatorId now v)).
Proof.
  unfold answer, after, createRoomRoute, validateBody.
  destruct (createRoomSchema body) as [v|] eqn:Hv; [|discriminate].
  unfold createRoom, insertAndReturnRoom, bind, execInsert, query, defined.
  fold (createdRoom roomId creatorId now v).
  set (row := createdRoom roomId creatorId now v).
  destruct (Sql.insertRoom row s) as [s1|] eqn:Hins; [|discriminate].
  destruct (insertRoom_inv row s s1 Hins) as [Hnew ->].
  set (s1 := mkStore (rooms s ++ [row]) (participants s)).
  destruct (Sql.insertParticipant _ s1) as [s2|] eqn:Hins2; [|discriminate].
  apply insertParticipant_inv in Hins2 as ->.
  destruct (Sql.roomById (idToUse _ _) s1) as [room|] eqn:Hread;
    simpl; [|discriminate].
  intros [= <-]. exists v. repeat split; auto.
  intros Ht. unfold idToUse in Hread. simpl in Hread. rewrite Ht in Hread.
  change roomId with (Room.id row) in Hread.
  unfold s1 in Hread. rewrite (roomById_app_new _ _ row Hnew) in Hread.
  injection Hread as <-. reflexivity.
Qed.

(** C5, counterexample: a request for 11 participants is answered
    with status 400 and leaves the store as it was; it is not clamped to
    10. *)
Lemma C5_cap_above_ten_rejected :
  createRoomRoute "abcdefghijkl" "k3j9x0a7bq1" 1700000000000
    (CreateRoomRequest.mk "Standup" None None None (Some 11)) emptyStore
  = (Err BadRequest, emptyStore).
Proof. reflexivity. Qed.

(** C5, as amended: a [maxParticipants] outside [2,10] makes the
    creation fail with [BadRequest] and no write; a creation that answers
    has stored, and reports, the requested value, or 10 when the field
    is absent, which lies in [2,10]; and every room of every reachable
    store has its [max_participants] in [2,10]. *)
Theorem C5_max_participants_in_range
    (roomId creatorId : string) (now : Z) (body : CreateRoomRequest.t)
    (s : Store) :
  (forall n, CreateRoomRequest.maxParticipants body = Some n ->
             n < 2 \/ 10 < n ->
             createRoomRoute roomId creatorId now body s
             = (Err BadRequest, s))
  /\ (forall resp,
        answer (createRoomRoute roomId creatorId now body) s = Ok resp ->
        exists room,
          Sql.roomById roomId
            (after (createRoomRoute roomId creatorId now body) s)
          = Some room
          /\ Room.max_participants room
             = default 10 (CreateRoomRequest.maxParticipants body)
          /\ 2 <= Room.max_participants room <= 10
          /\ (Str.truthy roomId = true ->
              resMaxParticipants resp = Room.max_participants room))
  /\ (reachable s ->
      forall room, In room (rooms s) ->
                   2 <= Room.max_participants room <= 10).
Proof.
  split; [|split].
  - intros n Hn Hrange. unfold createRoomRoute, validateBody, createRoomSchema.
    rewrite Hn. simpl.
    replace ((2 <=? n) && (n <=? 10)) with false
      by (symmetry; apply andb_false_iff; rewrite !Z.leb_gt; lia).
    rewrite !andb_false_r. reflexivity.
  - intros resp Hok.
    destruct (createRoomRoute_ok _ _ _ _ _ _ Hok)
      as (v & Hv & Hnew & -> & Hres).
    destruct (createRoomSchema_cap body v Hv) as [Hcap Hdef].
    exists (createdRoom roomId creatorId now v).
    split; [|split; [exact Hdef|split; [exact Hcap|exact Hres]]].
    unfold Sql.roomById. simpl.
    apply (roomById_app_new (rooms s) (participants s)
             (createdRoom roomId creatorId now v)).
    exact Hnew.
  - intros Hs. exact (reachable_capsInRange s Hs).
Qed.

(** A request for one participant is refused, one for four is stored as
    four, and the empty store has no room out of range. *)
Lemma C5_max_participants_in_range_witness :
  createRoomRoute "abcdefghijkl" "k3j9x0a7bq1" 1700000000000
    (CreateRoomRequest.mk "Standup" None None None (Some 1)) emptyStore
  = (Err BadRequest, emptyStore)
  /\ (exists room,
        Sql.roomById "abcdefghijkl"
          (after (createRoomRoute "abcdefghijkl" "k3j9x0a7bq1" 1700000000000
                    (CreateRoomRequest.mk "Standup" None None None (Some 4)))
             emptyStore) = Some room
        /\ Room.max_participants room = 4)
  /\ forall room, In room (rooms emptyStore) ->
                  2 <= Room.max_participants room <= 10.
Proof.
  destruct (C5_max_participants_in_range "abcdefghijkl" "k3j9x0a7bq1"
              1700000000000
              (CreateRoomRequest.mk "Standup" None None None (Some 1))
              emptyStore) as (H1 & _ & H3).
  destruct (C5_max_participants_in_range "abcdefghijkl" "k3j9x0a7bq1"
              1700000000000
              (CreateRoomRequest.mk "Standup" None None None (Some 4))
              emptyStore) as (_ & H2 & _).
  split; [|split].
  - apply (H1 1); [reflexivity|lia].
  - edestruct H2 as (room & Hroom & Hmax & _); [vm_compute; reflexivity|].
    exists room. split; [exact Hroom|exact Hmax].
  - apply H3. apply reachable_empty.
Defined.

(** ** Admission to a room *)

Lemma joinRoomRoute_valid participantId now body v s :
  joinRoomSchema body = Some v ->
  joinRoomRoute participantId now body s = joinRoom participantId now v s
  /\ sanitizeRoomId (JoinRoomRequest.roomId v) = JoinRoomRequest.roomId body.
Proof.
  intros Hv. unfold joinRoomRoute, validateBody. rewrite Hv.
  split; [reflexivity|].
  destruct (joinRoomSchema_inv body v Hv) as (-> & Hm & _).
  now apply sanitizeRoomId_valid.
Qed.




(** ** Timeout *)

Lemma activeRoomById_None roomId s :
  Sql.activeRoomById roomId s = None <-> noActiveRoom roomId s.
Proof.
  unfold Sql.activeRoomById, noActiveRoom.
  induction (rooms s) as [|r l IH]; simpl.
  - split; [intros _ r []|reflexivity].
  - destruct (String.eqb (Room.id r) roomId) eqn:E; simpl.
    + destruct (Room.is_active r) eqn:Ha.
      * split; [discriminate|]. intros H.
        apply String.eqb_eq in E. specialize (H r (or_introl eq_refl) E).
        congruence.
      * rewrite IH. split.
        -- intros H q [<-|Hq]; [auto|]. now apply H.
        -- intros H q Hq. apply H. now right.
    + rewrite IH. apply String.eqb_neq in E. split.
      * intros H q [<-|Hq]; [congruence|]. now apply H.
      * intros H q Hq. apply H. now right.
Qed.


Lemma deactivateRoom_noActive roomId s :
  noActiveRoom roomId (Sql.deactivateRoom roomId s).
Proof.
  intros r Hr Hid. simpl in Hr. apply in_map_iff in Hr as (q & <- & _).
  destruct (String.eqb (Room.id q) roomId) eqn:E; [reflexivity|].
  apply String.eqb_neq in E. destruct E. exact Hid.
Qed.

Lemma deactivateRoom_keeps_inactive roomId other s :
  noActiveRoom other s -> noActiveRoom other (Sql.deactivateRoom roomId s).
Proof.
  intros H r Hr Hid. simpl in Hr. apply in_map_iff in Hr as (q & <- & Hq).
  destruct (String.eqb (Room.id q) roomId); [reflexivity|].
  now apply H.
Qed.

Lemma markAllLeft_absent roomId t s p :
  In p (participants (Sql.markAllLeft roomId t s)) ->
  Participant.room_id p = roomId -> Participant.present p = false.
Proof.
  simpl. intros Hp Hid. apply in_map_iff in Hp as (q & <- & _).
  unfold Sql.rewriteRow, Sql.presentIn in *.
  destruct (String.eqb (Participant.room_id q) roomId) eqn:E; simpl.
  - destruct (Participant.present q) eqn:Hq; [reflexivity|exact Hq].
  - simpl in Hid. apply String.eqb_neq in E. destruct E. exact Hid.
Qed.

(** The handler, check by check. *)
Lemma checkTimeout_unfold now roomId s :
  checkTimeout now roomId s
  = match Sql.activeRoomById roomId s with
    | None => (Ok (mkCheckTimeoutResponse true 0), s)
    | Some room =>
        if 30 <=? minutesElapsed now room
        then (Ok (mkCheckTimeoutResponse true 0),
              Sql.markAllLeft roomId (datetimeNow now)
                (Sql.deactivateRoom roomId s))
        else (Ok (mkCheckTimeoutResponse false
                    (Z.max 0 (30 - minutesElapsed now room))), s)
    end.
Proof.
  unfold checkTimeout, bind, query, exec, ret, minutesElapsed. simpl.
  destruct (Sql.activeRoomById roomId s) as [room|]; [|reflexivity].
  destruct (30 <=? _); reflexivity.
Qed.





(** ** An inactive room stays inactive *)

Lemma write_keeps_inactive s s' roomId :
  write s s' ->
  Sql.roomById roomId s <> None -> noActiveRoom roomId s ->
  Sql.roomById roomId s' <> None /\ noActiveRoom roomId s'.
Proof.
  intros Hw Hknown Hno. destruct Hw as
    [r s s' Hins Hr
    |creatorId rid t s s' Hroom Hfresh Hins
    |participantId rid name t s s' Hroom Hnone Hname Hins
    |cond f s Hf
    |rid s].
  - destruct (insertRoom_inv r s s' Hins) as [Hnew ->]. split.
    + now apply roomById_app_known.
    + intros q Hq Hid. simpl in Hq.
      apply in_app_iff in Hq as [Hq|[<-|[]]]; [now apply Hno|].
      rewrite Hid in Hnew. contradiction.
  - apply insertParticipant_inv in Hins as ->. now split.
  - apply insertParticipant_inv in Hins as ->. now split.
  - now split.
  - split; [now apply roomById_deactivate|].
    now apply deactivateRoom_keeps_inactive.
Qed.

Lemma writes_keep_inactive s s' roomId :
  rtc write s s' ->
  Sql.roomById roomId s <> None -> noActiveRoom roomId s ->
  Sql.roomById roomId s' <> None /\ noActiveRoom roomId s'.
Proof.
  induction 1 as [|s1 s2 s3 Hstep _ IH]; [auto|].
  intros Hknown Hno.
  destruct (write_keeps_inactive s1 s2 roomId Hstep Hknown Hno).
  now apply IH.
Qed.

(** Whatever request comes next, a room that is known and inactive in a
    store whose participants are all in stored rooms is known and inactive
    after it. *)
Lemma inactive_room_stays_inactive e rq s roomId :
  roomsKnown s ->
  Sql.roomById roomId s <> None -> noActiveRoom roomId s ->
  Sql.roomById roomId (serve e rq s) <> None
  /\ noActiveRoom roomId (serve e rq s).
Proof.
  intros Hs. apply writes_keep_inactive.
  apply serve_writes. exact Hs.
Qed.

(** ** Host actions *)

Lemma admit_host_target hostId participantId s target :
  hd_error (Sql.selectPresentWithId participantId s) = Some target ->
  Participant.is_host target = true ->
  exists e,
    admitHostAction hostId participantId s = (Err e, s)
    /\ (forall host,
          hd_error (Sql.selectPresentWithId hostId s) = Some host ->
          Participant.room_id target = Participant.room_id host ->
          e = Forbidden).
Proof.
  intros Ht Hhost. unfold admitHostAction, bind, query, throwIf, throw, ret.
  destruct (Sql.selectPresentWithId hostId s) as [|h hs].
  { exists NotFound. split; [reflexivity|]. intros host [=]. }
  destruct (Participant.is_host h) eqn:Hh; simpl.
  2:{ exists Forbidden. split; [reflexivity|auto]. }
  destruct (Sql.selectPresentWithId participantId s) as [|t ts];
    [discriminate|].
  injection Ht as ->.
  destruct (String.eqb (Participant.room_id target) (Participant.room_id h))
    eqn:E; simpl.
  - rewrite Hhost. exists Forbidden. split; [reflexivity|auto].
  - exists BadRequest. split; [reflexivity|].
    intros host [= <-] Hroom. apply String.eqb_neq in E. contradiction.
Qed.

Lemma bind_ret {A B} (a : A) (k : A -> M B) s : bind (ret a) k s = k a s.
Proof. reflexivity. Qed.

Lemma hostAction_after_admit now a participantId hostId s e :
  admitHostAction (default EmptyString hostId) participantId s = (Err e, s) ->
  after (hostAction now a participantId hostId) s = s
  /\ isOk (answer (hostAction now a participantId hostId) s) = false
  /\ (Str.truthy (default EmptyString hostId) = true -> wellTyped a ->
      hostId <> None ->
      answer (hostAction now a participantId hostId) s = Err e).
Proof.
  intros Hadm. unfold after, answer.
  assert (Hrun : forall k : unit -> M unit,
             bind (admitHostAction (default EmptyString hostId) participantId)
               k s = (Err e, s))
    by (intros k; now apply bind_err).
  destruct (truthyOpt hostId) eqn:Hh.
  - destruct a as [|[m|]|[en|]|[en|]]; simpl;
      unfold kick, mute, video, screenshare;
      rewrite Hh; simpl; rewrite ?bind_ret, ?Hrun; simpl;
      (split; [reflexivity|split; [reflexivity|]]);
      intros _ Hw _; solve [reflexivity | now destruct Hw].
  - assert (Hbad : Str.truthy (default EmptyString hostId) = true ->
                   hostId <> None -> False).
    { destruct hostId as [h|]; simpl in *; congruence. }
    destruct a as [|m|en|en]; simpl;
      unfold kick, mute, video, screenshare;
      rewrite Hh; simpl;
      (split; [reflexivity|split; [reflexivity|]]);
      intros H1 _ H2; destruct (Hbad H1 H2).
Qed.

(** C4: when the target of a kick, mute, video or screen-share
    control resolves to a present participant that is a host, the operation
    fails and the store is left exactly as it was; the failure is
    [Forbidden] once the requester has resolved to a present participant
    of the target's room. *)
Theorem C4_host_target_untouched
    (now : Z) (a : HostAction) (participantId : string)
    (hostId : option string) (s : Store) (target : Participant.row)
    (Hresolved :
       hd_error (Sql.selectPresentWithId participantId s) = Some target)
    (Hhost : Participant.is_host target = true) :
  after (hostAction now a participantId hostId) s = s
  /\ isOk (answer (hostAction now a participantId hostId) s) = false
  /\ (forall h host,
        hostId = Some h -> Str.truthy h = true -> wellTyped a ->
        hd_error (Sql.selectPresentWithId h s) = Some host ->
        Participant.room_id target = Participant.room_id host ->
        answer (hostAction now a participantId hostId) s = Err Forbidden).
Proof.
  destruct (admit_host_target (default EmptyString hostId) participantId s
              target Hresolved Hhost) as (e & Hadm & Hforb).
  destruct (hostAction_after_admit now a participantId hostId s e Hadm)
    as (Hs & Hno & Herr).
  split; [exact Hs|split; [exact Hno|]].
  intros h host -> Ht Hw Hh Hroom. simpl in *.
  rewrite (Herr Ht Hw); [|discriminate].
  f_equal. exact (Hforb host Hh Hroom).
Qed.

(** The only host of the room as target of its own kick and mute. *)
Lemma C4_host_target_untouched_witness :
  after (hostAction (Scenario.t0 + 2 * Scenario.minute) DoKick
           "k3j9x0a7bq1" (Some "k3j9x0a7bq1")) Scenario.withBob
  = Scenario.withBob
  /\ answer (hostAction (Scenario.t0 + 2 * Scenario.minute) (DoMute (Some true))
              "k3j9x0a7bq1" (Some "k3j9x0a7bq1")) Scenario.withBob
     = Err Forbidden.
Proof.
  split.
  - edestruct (C4_host_target_untouched (Scenario.t0 + 2 * Scenario.minute)
                 DoKick "k3j9x0a7bq1" (Some "k3j9x0a7bq1") Scenario.withBob)
      as (H1 & _); [vm_compute; reflexivity|reflexivity|exact H1].
  - edestruct (C4_host_target_untouched (Scenario.t0 + 2 * Scenario.minute)
                 (DoMute (Some true)) "k3j9x0a7bq1" (Some "k3j9x0a7bq1")
                 Scenario.withBob)
      as (_ & _ & H3); [vm_compute; reflexivity|reflexivity|].
    eapply H3;
      [reflexivity|reflexivity|discriminate|vm_compute; reflexivity
      |reflexivity].
Defined.

(** ** Departed participants *)

(** C8, the failing input: Bob has left the room ([left_at] is
    set), yet a self-service update addressed to his id is answered with
    success and rewrites his [is_audio_enabled] from true to false: the
    statement of [updateParticipant] has no [left_at IS NULL] in its
    [WHERE], unlike the four host controls, [leaveRoom] and the sweeps. *)
Theorem C8_update_rewrites_departed :
  (Participant.left_at <$> Scenario.bob Scenario.bobGone)
  = Some (Some 1700000120)
  /\ (Participant.is_audio_enabled <$> Scenario.bob Scenario.bobGone)
     = Some true
  /\ answer Scenario.bobMutesHimself Scenario.bobGone = Ok tt
  /\ (Participant.is_audio_enabled
      <$> Scenario.bob (after Scenario.bobMutesHimself Scenario.bobGone))
     = Some false.
Proof. vm_compute. repeat split. Qed.

(** Departed rows stay as they are under the store [s'] that follows [s]. *)
Lemma frozen_append s x i p :
  participants s !! i = Some p ->
  (participants s ++ [x]) !! i = Some p.
Proof. intros H. now apply lookup_app_l_Some. Qed.

Lemma frozen_update cond f s i p :
  (forall q, cond q = true -> Participant.present q = true) ->
  participants s !! i = Some p -> Participant.present p = false ->
  participants (Sql.updateParticipants cond f s) !! i = Some p.
Proof.
  intros Hc Hi Hp. simpl. rewrite list_lookup_fmap, Hi. simpl.
  unfold Sql.rewriteRow. destruct (cond p) eqn:E; [|reflexivity].
  rewrite (Hc p E) in Hp. discriminate.
Qed.

Lemma presentWithId_present id q :
  Sql.presentWithId id q = true -> Participant.present q = true.
Proof. unfold Sql.presentWithId. intros H. now apply andb_prop in H. Qed.

Lemma presentIn_present roomId q :
  Sql.presentIn roomId q = true -> Participant.present q = true.
Proof. unfold Sql.presentIn. intros H. now apply andb_prop in H. Qed.

(** Every request other than the self-service update leaves each departed
    row exactly as it is. *)
Lemma departed_rows_frozen e rq s i p :
  (forall pid body, rq <> UpdateParticipant pid body) ->
  participants s !! i = Some p -> Participant.present p = false ->
  participants (serve e rq s) !! i = Some p.
Proof.
  intros Hrq Hi Hp.
  assert (Hclose : forall roomId t,
            participants
              (Sql.markAllLeft roomId t (Sql.deactivateRoom roomId s))
              !! i = Some p).
  { intros roomId t.
    apply frozen_update; [apply presentIn_present|exact Hi|exact Hp]. }
  assert (Hadmit : forall hid pid cond f,
            (forall q, cond q = true -> Participant.present q = true) ->
            participants
              (snd (bind (admitHostAction hid pid)
                      (fun _ => exec (Sql.updateParticipants cond f)) s))
              !! i = Some p).
  { intros hid pid cond f Hc. unfold bind.
    pose proof (admitHostAction_store hid pid s) as E.
    destruct (admitHostAction hid pid s) as [[[]|err] s1];
      simpl in *; subst s1; [|exact Hi].
    rewrite list_lookup_fmap, Hi. simpl.
    unfold Sql.rewriteRow. destruct (cond p) eqn:E; [|reflexivity].
    rewrite (Hc p E) in Hp. discriminate. }
  destruct rq as
    [body|body|pid|rid|rid pid|pid body|pid hid|pid hid m|pid hid en
    |pid hid en]; simpl.
  - unfold after, createRoomRoute, validateBody.
    destruct (createRoomSchema body) as [v|]; [|exact Hi].
    unfold createRoom, insertAndReturnRoom, bind, execInsert, query, defined.
    match goal with |- context [Sql.insertRoom ?r s] => set (row := r) end.
    destruct (Sql.insertRoom row s) as [s1|] eqn:Hins; [|exact Hi].
    apply insertRoom_inv in Hins as [_ ->].
    match goal with |- context [Sql.insertParticipant ?x ?st] =>
      destruct (Sql.insertParticipant x st) as [s2|] eqn:Hins2 end;
      [|exact Hi].
    apply insertParticipant_inv in Hins2 as ->.
    destruct (Sql.roomById _ _); simpl; now apply frozen_append.
  - unfold after, joinRoomRoute, validateBody.
    destruct (joinRoomSchema body) as [v|]; [|exact Hi].
    rewrite joinRoom_unfold. cbv zeta.
    destruct (Sql.roomById _ s) as [room|]; [|exact Hi].
    destruct (negb (Room.is_active room)); [exact Hi|].
    destruct (passwordRejected _ _); [exact Hi|].
    destruct (_ <=? _); [exact Hi|].
    destruct (Sql.selectPresentNamed _ _ s); [|exact Hi].
    destruct (Sql.insertParticipant _ s) as [s'|] eqn:Hins; [|exact Hi].
    apply insertParticipant_inv in Hins as ->. simpl.
    now apply frozen_append.
  - unfold after, leaveRoom, bind, throwIf, exec.
    destruct (negb (truthyOpt pid)); simpl; [exact Hi|].
    apply (frozen_update _ _ s);
      [apply presentWithId_present|exact Hi|exact Hp].
  - unfold after. rewrite checkTimeout_unfold.
    destruct (Sql.activeRoomById rid s) as [room|]; [|exact Hi].
    destruct (30 <=? _); [apply Hclose|exact Hi].
  - unfold after, endMeeting, bind, throwIf, query, exec.
    destruct (negb (truthyOpt pid)); simpl; [exact Hi|].
    destruct (List.filter _ (participants s)) as [|h ?]; simpl; [exact Hi|].
    destruct (negb (Participant.is_host h)); simpl; [exact Hi|apply Hclose].
  - destruct (Hrq pid body eq_refl).
  - unfold after, kick, bind at 1, throwIf.
    destruct (negb (truthyOpt hid)); simpl; [exact Hi|].
    apply Hadmit, presentWithId_present.
  - unfold after, mute, bind at 1, throwIf.
    destruct (negb (truthyOpt hid)); simpl; [exact Hi|].
    destruct m as [m|]; [|exact Hi].
    apply Hadmit, presentWithId_present.
  - unfold after, video, bind at 1, throwIf.
    destruct (negb (truthyOpt hid)); simpl; [exact Hi|].
    destruct en as [en|]; [|exact Hi].
    apply Hadmit, presentWithId_present.
  - unfold after, screenshare, bind at 1, throwIf.
    destruct (negb (truthyOpt hid)); simpl; [exact Hi|].
    destruct en as [en|]; [|exact Hi].
    apply Hadmit, presentWithId_present.
Qed.

(** ** Chat buffer *)

Lemma keepLast100_lastN ms : keepLast100 ms = lastN 100 ms.
Proof.
  unfold keepLast100, lastN. destruct (Nat.ltb_spec 100 (List.length ms)).
  - reflexivity.
  - replace (List.length ms - 100)%nat with 0%nat by lia. reflexivity.
Qed.

Lemma lastN_length {A} n (l : list A) :
  List.length (lastN n l) = Nat.min (List.length l) n.
Proof. unfold lastN. rewrite length_drop. lia. Qed.

Lemma lastN_all {A} n (l : list A) :
  (List.length l <= n)%nat -> lastN n l = l.
Proof.
  intros H. unfold lastN.
  replace (List.length l - n)%nat with 0%nat by lia. reflexivity.
Qed.

Lemma lastN_app_lastN {A} n (l r : list A) :
  lastN n (lastN n l ++ r) = lastN n (l ++ r).
Proof.
  destruct (Nat.le_gt_cases (List.length l) n) as [Hle|Hgt].
  - now rewrite (lastN_all n l Hle).
  - unfold lastN at 1 3. rewrite !length_app, lastN_length.
    unfold lastN.
    replace (Nat.min (List.length l) n + List.length r - n)%nat
      with (List.length r) by lia.
    replace (List.length l + List.length r - n)%nat
      with ((List.length l - n) + List.length r)%nat by lia.
    rewrite <- drop_drop. f_equal.
    rewrite drop_app_le by lia. reflexivity.
Qed.

Lemma lastN_snoc {A} n (l : list A) x :
  lastN (S n) (l ++ [x]) = lastN n l ++ [x].
Proof.
  unfold lastN. rewrite length_app. simpl.
  replace (List.length l + 1 - S n)%nat with (List.length l - n)%nat by lia.
  rewrite drop_app_le by lia. reflexivity.
Qed.

(** The send handler, outcome by outcome. *)
Lemma sendMessage_rejected now suffix rq sv :
  sendable rq = false -> sendMessage now suffix rq sv = (Err BadRequest, sv).
Proof.
  unfold sendable, sendMessage. intros H.
  destruct (truthyOpt (SendMessageRequest.roomId rq)),
           (truthyOpt (SendMessageRequest.sender rq)),
           (truthyOpt (SendMessageRequest.content rq));
    simpl in *; congruence.
Qed.

Lemma sendMessage_accepted now suffix rq sv :
  sendable rq = true ->
  exists roomId sender content,
    SendMessageRequest.roomId rq = Some roomId
    /\ SendMessageRequest.sender rq = Some sender
    /\ SendMessageRequest.content rq = Some content
    /\ let m := mkChatMessage (String.append (pretty now) suffix) roomId
                  sender content now in
       sendMessage now suffix rq sv
       = (Ok m,
          mkServer (database sv)
            (<[roomId := lastN 100 (listMessages roomId sv ++ [m])]>
               (roomMessages sv))).
Proof.
  unfold sendable, sendMessage. intros H.
  destruct rq as [[roomId|] [sender|] [content|]]; simpl in *;
    rewrite ?andb_false_r in H; try discriminate.
  exists roomId, sender, content. repeat split.
  destruct (Str.truthy roomId), (Str.truthy sender), (Str.truthy content);
    try discriminate.
  simpl. now rewrite keepLast100_lastN.
Qed.

Lemma listMessages_insert roomId other ms sv :
  listMessages other
    (mkServer (database sv) (<[roomId := ms]> (roomMessages sv)))
  = if String.eqb roomId other then ms else listMessages other sv.
Proof.
  unfold listMessages. simpl.
  destruct (String.eqb_spec roomId other) as [->|Hne].
  - now rewrite lookup_insert_eq.
  - now rewrite lookup_insert_ne.
Qed.

Lemma sendAll_list roomId sends sv :
  (List.length (listMessages roomId sv) <= 100)%nat ->
  listMessages roomId (snd (sendAll sends sv))
  = lastN 100 (listMessages roomId sv
               ++ ofRoom roomId (fst (sendAll sends sv))).
Proof.
  revert sv. induction sends as [|x later IH]; intros sv Hlen.
  - simpl. rewrite app_nil_r. symmetry. now apply lastN_all.
  - simpl. destruct (sendable (sendBody x)) eqn:Hs.
    + destruct (sendMessage_accepted (sendNow x) (sendSuffix x) (sendBody x)
                  sv Hs) as (room & sender & content & _ & _ & _ & E).
      cbv zeta in E. rewrite E. clear E.
      set (m := mkChatMessage _ room sender content _).
      set (sv1 := mkServer _ _).
      assert (Hsv1 : listMessages roomId sv1
                     = if String.eqb room roomId
                       then lastN 100 (listMessages room sv ++ [m])
                       else listMessages roomId sv)
        by apply listMessages_insert.
      specialize (IH sv1).
      destruct (sendAll later sv1) as [ms sv2]. simpl in *.
      rewrite IH.
      * rewrite Hsv1. unfold ofRoom. simpl.
        destruct (String.eqb_spec room roomId) as [->|Hne].
        -- rewrite lastN_app_lastN, <- app_assoc. reflexivity.
        -- reflexivity.
      * rewrite Hsv1. destruct (String.eqb room roomId); [|exact Hlen].
        rewrite lastN_length. lia.
    + rewrite (sendMessage_rejected _ _ _ sv Hs).
      specialize (IH sv Hlen).
      destruct (sendAll later sv) as [ms sv2]. exact IH.
Qed.

(** C9: starting from a room without history, after any run of
    sends the list of the room is the last [min(total, 100)] messages
    appended to it, oldest first; a room without history lists as empty;
    and [clear] drops the room's whole sequence and nothing else. *)
Theorem C9_chat_buffer (roomId : string) (sv : Server) :
  (roomMessages sv !! roomId = None ->
   listMessages roomId sv = []
   /\ forall sends,
        let appended := ofRoom roomId (fst (sendAll sends sv)) in
        listMessages roomId (snd (sendAll sends sv)) = lastN 100 appended
        /\ List.length (listMessages roomId (snd (sendAll sends sv)))
           = Nat.min (List.length appended) 100)
  /\ listMessages roomId (clearMessages roomId sv) = []
  /\ roomMessages (clearMessages roomId sv) !! roomId = None
  /\ (forall other, other <> roomId ->
        listMessages other (clearMessages roomId sv) = listMessages other sv).
Proof.
  split; [|split; [|split]].
  - intros Hnone.
    assert (Hempty : listMessages roomId sv = [])
      by (unfold listMessages; now rewrite Hnone).
    split; [exact Hempty|]. intros sends. cbv zeta.
    pose proof (sendAll_list roomId sends sv) as H.
    rewrite Hempty in H. simpl in H. specialize (H ltac:(lia)).
    split; [exact H|]. rewrite H. apply lastN_length.
  - unfold listMessages, clearMessages. simpl. now rewrite lookup_delete_eq.
  - unfold clearMessages. simpl. apply lookup_delete_eq.
  - intros other Hne. unfold listMessages, clearMessages. simpl.
    now rewrite lookup_delete_ne.
Qed.

(** After 101 lines the room lists 100, the oldest kept being the
    second one sent. *)
Lemma C9_chat_buffer_witness :
  listMessages "abcdefghijkl" Scenario.quiet = []
  /\ List.length
       (listMessages "abcdefghijkl"
          (snd (sendAll Scenario.chatter Scenario.quiet)))
     = 100%nat
  /\ (timestamp <$> head (listMessages "abcdefghijkl"
                            (snd (sendAll Scenario.chatter Scenario.quiet))))
     = Some (Scenario.t0 + 1).
Proof.
  destruct (C9_chat_buffer "abcdefghijkl" Scenario.quiet) as [H _].
  destruct (H eq_refl) as [Hempty Hsends].
  destruct (Hsends Scenario.chatter) as [Hlist Hlen].
  split; [exact Hempty|split].
  - rewrite Hlen. vm_compute. reflexivity.
  - rewrite Hlist. vm_compute. reflexivity.
Defined.

(** C10: a send whose three fields are present and non-empty
    succeeds whatever the database holds, leaves the database alone, and
    its message is the newest entry of the list of the room it names; a
    send with a missing or empty field fails [BadRequest] and changes
    nothing, and that is the only failure; the answer and the chat map
    after the call are the same under any other database. *)
Theorem C10_send_ignores_rooms
    (now : Z) (suffix : string) (rq : SendMessageRequest.t) (sv : Server) :
  (sendable rq = true ->
   exists roomId sender' content' m,
     rq = SendMessageRequest.mk (Some roomId) (Some sender') (Some content')
     /\ answer_of (sendMessage now suffix rq sv) = Ok m
     /\ msgRoomId m = roomId /\ sender m = sender' /\ content m = content'
     /\ last (listMessages roomId (snd (sendMessage now suffix rq sv)))
        = Some m
     /\ In m (listMessages roomId (snd (sendMessage now suffix rq sv)))
     /\ database (snd (sendMessage now suffix rq sv)) = database sv)
  /\ (sendable rq = false ->
      sendMessage now suffix rq sv = (Err BadRequest, sv))
  /\ (forall e, answer_of (sendMessage now suffix rq sv) = Err e ->
                e = BadRequest /\ sendable rq = false)
  /\ (forall db,
        answer_of (sendMessage now suffix rq (mkServer db (roomMessages sv)))
        = answer_of (sendMessage now suffix rq sv)
        /\ roomMessages
             (snd (sendMessage now suffix rq (mkServer db (roomMessages sv))))
           = roomMessages (snd (sendMessage now suffix rq sv))).
Proof.
  split; [|split; [|split]].
  - intros Hs.
    destruct (sendMessage_accepted now suffix rq sv Hs)
      as (roomId & sender' & content' & E1 & E2 & E3 & E).
    cbv zeta in E. rewrite E. clear E.
    set (m := mkChatMessage _ roomId sender' content' now).
    exists roomId, sender', content', m.
    assert (Hlist : listMessages roomId
                      (mkServer (database sv)
                         (<[roomId :=
                              lastN 100 (listMessages roomId sv ++ [m])]>
                            (roomMessages sv)))
                    = lastN 99 (listMessages roomId sv) ++ [m]).
    { rewrite listMessages_insert, String.eqb_refl. apply lastN_snoc. }
    unfold answer_of. simpl. rewrite Hlist.
    repeat split.
    + destruct rq; simpl in *; congruence.
    + apply last_snoc.
    + apply in_or_app. right. now left.
  - apply sendMessage_rejected.
  - intros e He. destruct (sendable rq) eqn:Hs.
    + destruct (sendMessage_accepted now suffix rq sv Hs)
        as (? & ? & ? & _ & _ & _ & E).
      cbv zeta in E. rewrite E in He. discriminate.
    + rewrite (sendMessage_rejected now suffix rq sv Hs) in He.
      injection He as <-. now split.
  - intros db. unfold sendMessage, answer_of. simpl.
    destruct (_ || _ || _); now split.
Qed.

(** A line to a room that does not exist is stored and listed; a send
    without content is refused. *)
Lemma C10_send_ignores_rooms_witness :
  (exists m,
      answer_of (sendMessage Scenario.t0 "x7f3"
                   (SendMessageRequest.mk (Some "nosuchroom") (Some "Eve")
                      (Some "anyone here?")) Scenario.quiet) = Ok m
      /\ In m (listMessages "nosuchroom"
                 (snd (sendMessage Scenario.t0 "x7f3"
                         (SendMessageRequest.mk (Some "nosuchroom")
                            (Some "Eve") (Some "anyone here?"))
                         Scenario.quiet))))
  /\ sendMessage Scenario.t0 "x7f3"
       (SendMessageRequest.mk (Some "abcdefghijkl") (Some "Eve") None)
       Scenario.quiet
     = (Err BadRequest, Scenario.quiet).
Proof.
  split.
  - destruct (C10_send_ignores_rooms Scenario.t0 "x7f3"
                (SendMessageRequest.mk (Some "nosuchroom") (Some "Eve")
                   (Some "anyone here?")) Scenario.quiet) as [H _].
    destruct (H eq_refl)
      as (r & sn & ct & m & Hrq & Hm & _ & _ & _ & _ & Hin & _).
    injection Hrq as <- _ _. exists m. split; [exact Hm|exact Hin].
  - destruct (C10_send_ignores_rooms Scenario.t0 "x7f3"
                (SendMessageRequest.mk (Some "abcdefghijkl") (Some "Eve") None)
                Scenario.quiet) as (_ & H & _).
    exact (H eq_refl).
Defined.

(** ** Fan-out hub *)

Section HubLemmas.
Import Hub.

Lemma get_setBinding_same clientId a b h c :
  get clientId h = Some c ->
  get clientId (setBinding clientId a b h)
  = Some (mkClient (isOpen c) a b (lastPing c) (isAlive c)).
Proof.
  unfold get, setBinding. simpl.
  induction (connectedClients h) as [|[k x] l IH]; simpl; [discriminate|].
  destruct (String.eqb k clientId) eqn:E; simpl.
  - rewrite E. simpl. now intros [= ->].
  - rewrite E. exact IH.
Qed.

Lemma get_setBinding_other clientId other a b h :
  other <> clientId ->
  get other (setBinding clientId a b h) = get other h.
Proof.
  intros Hne. unfold get, setBinding. simpl.
  induction (connectedClients h) as [|[k x] l IH]; simpl; [reflexivity|].
  destruct (String.eqb k clientId) eqn:E; simpl.
  - apply String.eqb_eq in E. subst k.
    assert (E' : String.eqb clientId other = false)
      by (apply String.eqb_neq; congruence).
    rewrite E'. exact IH.
  - destruct (String.eqb k other); [reflexivity|exact IH].
Qed.

Lemma get_broadcastToRoom k room frame x h :
  get k (broadcastToRoom room frame x h) = get k h.
Proof. reflexivity. Qed.

Lemma get_setCount k room n h : get k (setCount room n h) = get k h.
Proof. reflexivity. Qed.

Lemma audience_setCount room x r n h :
  audience room x (setCount r n h) = audience room x h.
Proof. reflexivity. Qed.

Lemma audience_setBinding room clientId a b h :
  audience room (Some clientId) (setBinding clientId a b h)
  = audience room (Some clientId) h.
Proof.
  unfold audience, setBinding. simpl.
  induction (connectedClients h) as [|[k x] l IH]; simpl; [reflexivity|].
  destruct (String.eqb k clientId) eqn:E; simpl; rewrite E; simpl.
  - rewrite !andb_false_r. simpl. exact IH.
  - destruct (boundTo room x && true && isOpen x); simpl; now rewrite IH.
Qed.

Lemma audience_excludes room clientId h :
  ~ In clientId (audience room (Some clientId) h).
Proof.
  unfold audience. intros H. apply in_map_iff in H as ([k x] & Hk & Hin).
  simpl in Hk. subst k. apply filter_In in Hin as [_ Hc]. simpl in Hc.
  rewrite String.eqb_refl, andb_false_r in Hc. discriminate.
Qed.

Lemma audience_spec room clientId h c :
  In c (audience room (Some clientId) h)
  <-> c <> clientId
      /\ exists x, In (c, x) (connectedClients h)
                   /\ roomId x = Some room /\ isOpen x = true.
Proof.
  unfold audience. rewrite in_map_iff. split.
  - intros ([k x] & Hk & Hin). simpl in Hk. subst k.
    apply filter_In in Hin as [Hin Hc]. simpl in Hc.
    apply andb_prop in Hc as [Hc Hopen]. apply andb_prop in Hc as [Hb Hx].
    split.
    + intros ->. rewrite String.eqb_refl in Hx. discriminate.
    + exists x. split; [exact Hin|split; [|exact Hopen]].
      unfold boundTo in Hb. destruct (roomId x) as [r|]; [|discriminate].
      apply String.eqb_eq in Hb. now subst r.
  - intros (Hne & x & Hin & Hroom & Hopen). exists (c, x).
    split; [reflexivity|].
    apply filter_In. split; [exact Hin|]. simpl.
    unfold boundTo. rewrite Hroom, String.eqb_refl, Hopen. simpl.
    apply String.eqb_neq in Hne. now rewrite Hne.
Qed.

(** What the leave inside a join does, field by field. *)
Lemma leave_before_join clientId client h :
  get clientId h = Some client ->
  let h1 := if truthyOpt (roomId client)
            then leaveRoomInternal clientId
                   (default EmptyString (roomId client)) h
            else h in
  sent h1 = sent h ++ leftFrames clientId client h
  /\ (exists c1, get clientId h1 = Some c1
                 /\ isOpen c1 = isOpen client
                 /\ lastPing c1 = lastPing client
                 /\ isAlive c1 = isAlive client)
  /\ (forall other, other <> clientId -> get other h1 = get other h)
  /\ (forall room, audience room (Some clientId) h1
                   = audience room (Some clientId) h).
Proof.
  intros Hget. cbv zeta. unfold leftFrames.
  destruct (truthyOpt (roomId client)).
  - unfold leaveRoomInternal. rewrite Hget.
    set (prev := default EmptyString (roomId client)).
    set (hb := broadcastToRoom prev _ (Some clientId) h).
    set (hc := if 0 <? countOf prev hb then _ else hb).
    assert (Hc : connectedClients hc = connectedClients h /\ sent hc = sent hb)
      by (unfold hc; destruct (0 <? countOf prev hb); now split).
    destruct Hc as [Hcl Hsent].
    assert (Hgetc : forall k, get k hc = get k h)
      by (intros k; unfold get; now rewrite Hcl).
    split; [|split; [|split]].
    + simpl. rewrite Hsent. reflexivity.
    + rewrite (get_setBinding_same clientId None None hc client);
        [|now rewrite Hgetc].
      eexists. split; [reflexivity|]. now repeat split.
    + intros other Hne. now rewrite get_setBinding_other, Hgetc.
    + intros room. rewrite audience_setBinding.
      unfold audience. now rewrite Hcl.
  - rewrite app_nil_r. split; [reflexivity|split; [|split]]; auto.
    exists client. now repeat split.
Qed.

End HubLemmas.

(** C7, counterexample: the room "Standup" admits two
    participants and two sockets are bound to it, yet the hub binds a third
    socket: the hub compares its counter with the constant 10, not with the
    room's [max_participants]. *)
Lemma C7_hub_ignores_room_cap : ~ hubCapIsRoomCap.
Proof.
  intros H.
  specialize (H Scenario.withBob Scenario.hubOfTwo "c3" "abcdefghijkl"
                "q7w1e4r9t2y").
  destruct (Sql.roomById "abcdefghijkl" Scenario.withBob) as [room|] eqn:E;
    [|vm_compute in E; discriminate].
  vm_compute in E. injection E as <-.
  specialize (H _ eq_refl).
  assert (Hrej : Hub.rejects "c3" "abcdefghijkl" "q7w1e4r9t2y"
                   Scenario.hubOfTwo).
  { apply H; [vm_compute; discriminate|vm_compute; discriminate]. }
  unfold Hub.rejects in Hrej.
  apply (f_equal Hub.connectedClients) in Hrej.
  vm_compute in Hrej. discriminate.
Qed.

(** C7, as amended: the join-room handler turns a bind request
    down, with one error frame to the requester and no other change, exactly
    when the room's counter has reached the constant
    [MAX_CLIENTS_PER_ROOM] = 10; otherwise it binds the connection to the
    room and participant, sets the room's counter to one more than it read,
    and hands a [participant-joined] frame to every other open connection
    bound to that room and not to the joiner, after the [participant-left]
    frames of the room the connection was bound to before, if any. *)
Theorem C7_hub_join
    (clientId room pid : string) (h : Hub.t) (client : Hub.ConnectedClient)
    (Hclient : Hub.get clientId h = Some client) :
  (Hub.MAX_CLIENTS_PER_ROOM <= Hub.countOf room h ->
   Hub.rejects clientId room pid h)
  /\ (Hub.countOf room h < Hub.MAX_CLIENTS_PER_ROOM ->
      let h' := Hub.handleJoinRoom clientId room pid h in
      Hub.get clientId h'
      = Some (Hub.mkClient (Hub.isOpen client) (Some room) (Some pid)
                (Hub.lastPing client) (Hub.isAlive client))
      /\ (forall other, other <> clientId ->
                        Hub.get other h' = Hub.get other h)
      /\ Hub.countOf room h' = Hub.countOf room h + 1
      /\ Hub.sent h'
         = Hub.sent h ++ Hub.leftFrames clientId client h
           ++ List.map (fun c => (c, Hub.ParticipantJoined pid room))
                (Hub.audience room (Some clientId) h)
      /\ ~ In clientId (Hub.audience room (Some clientId) h)
      /\ (forall c,
            In c (Hub.audience room (Some clientId) h)
            <-> c <> clientId
                /\ exists x, In (c, x) (Hub.connectedClients h)
                             /\ Hub.roomId x = Some room
                             /\ Hub.isOpen x = true)).
Proof.
  split.
  - intros Hfull. unfold Hub.rejects, Hub.handleJoinRoom. rewrite Hclient.
    apply Z.leb_le in Hfull. now rewrite Hfull.
  - intros Hroom. cbv zeta. unfold Hub.handleJoinRoom. rewrite Hclient.
    apply Z.leb_gt in Hroom. rewrite Hroom.
    destruct (leave_before_join clientId client h Hclient)
      as (Hsent & (c1 & Hget1 & Ho & Hp & Ha) & Hother & Haud).
    cbv zeta in Hsent, Hget1, Hother, Haud.
    set (h1 := if truthyOpt (Hub.roomId client) then _ else h) in *.
    split; [|split; [|split; [|split; [|split]]]].
    + rewrite get_broadcastToRoom, get_setCount.
      rewrite (get_setBinding_same clientId _ _ h1 c1 Hget1).
      now rewrite Ho, Hp, Ha.
    + intros other Hne. rewrite get_broadcastToRoom, get_setCount.
      now rewrite get_setBinding_other, Hother.
    + unfold Hub.countOf at 1. simpl. now rewrite lookup_insert_eq.
    + unfold Hub.broadcastToRoom at 1. simpl Hub.sent.
      rewrite audience_setCount, audience_setBinding, Haud.
      change (Hub.sent (Hub.setCount room (Hub.countOf room h + 1)
                          (Hub.setBinding clientId (Some room) (Some pid) h1)))
        with (Hub.sent h1).
      now rewrite Hsent, <- app_assoc.
    + apply audience_excludes.
    + intros c. apply audience_spec.
Qed.

(** A third socket joins the room of two: it is bound, and the two others
    are told. *)
Lemma C7_hub_join_witness :
  Hub.get "c3"
    (Hub.handleJoinRoom "c3" "abcdefghijkl" "q7w1e4r9t2y" Scenario.hubOfTwo)
  = Some (Scenario.socket (Some "abcdefghijkl") (Some "q7w1e4r9t2y"))
  /\ Hub.sent
       (Hub.handleJoinRoom "c3" "abcdefghijkl" "q7w1e4r9t2y"
          Scenario.hubOfTwo)
     = [("c1", Hub.ParticipantJoined "q7w1e4r9t2y" "abcdefghijkl");
        ("c2", Hub.ParticipantJoined "q7w1e4r9t2y" "abcdefghijkl")].
Proof.
  destruct (C7_hub_join "c3" "abcdefghijkl" "q7w1e4r9t2y" Scenario.hubOfTwo
              (Scenario.socket None None) eq_refl) as [_ H].
  destruct H as (Hbound & _ & _ & Hsent & _); [vm_compute; reflexivity|].
  split; [exact Hbound|]. rewrite Hsent. vm_compute. reflexivity.
Defined.

(** ** Host assignment *)

Lemma countPresentHosts_zero roomId s :
  Sql.countPresentHosts roomId s = 0
  <-> forall q, In q (participants s) -> Sql.presentIn roomId q = true ->
                Participant.is_host q = false.
Proof.
  unfold Sql.countPresentHosts. split.
  - intros H q Hq Hp.
    destruct (Participant.is_host q) eqn:Hh; [|reflexivity].
    assert (Hin : In q (List.filter (Sql.presentHostIn roomId)
                          (participants s))).
    { apply filter_In. split; [exact Hq|].
      unfold Sql.presentIn in Hp. apply andb_prop in Hp as [H1 H2].
      unfold Sql.presentHostIn. now rewrite H1, Hh, H2. }
    destruct (List.filter _ (participants s)); [destruct Hin|].
    simpl in H. lia.
  - intros H. rewrite filter_none; [reflexivity|].
    intros q Hq. unfold Sql.presentHostIn.
    destruct (String.eqb (Participant.room_id q) roomId) eqn:E1;
      [|reflexivity].
    destruct (Participant.present q) eqn:E2; [|now rewrite andb_false_r].
    rewrite (H q Hq); [reflexivity|].
    unfold Sql.presentIn. now rewrite E1, E2.
Qed.

(** A join either leaves the store as it is or appends one row, the one
    the handler built. *)
Lemma joinRoomRoute_store participantId now body s :
  after (joinRoomRoute participantId now body) s = s
  \/ exists v,
       joinRoomSchema body = Some v
       /\ after (joinRoomRoute participantId now body) s
          = mkStore (rooms s)
              (participants s
               ++ [newParticipant participantId (JoinRoomRequest.roomId body)
                     (sanitizeString (JoinRoomRequest.participantName v))
                     (datetimeNow now)
                     (Sql.countPresentHosts (JoinRoomRequest.roomId body) s
                      =? 0)]).
Proof.
  unfold after, joinRoomRoute, validateBody.
  destruct (joinRoomSchema body) as [v|] eqn:Hv; [|now left].
  destruct (joinRoomRoute_valid participantId now body v s Hv) as [_ Hrid].
  rewrite joinRoom_unfold. cbv zeta. rewrite Hrid.
  destruct (Sql.roomById _ s) as [room|]; [|now left].
  destruct (negb (Room.is_active room)); [now left|].
  destruct (passwordRejected _ _); [now left|].
  destruct (_ <=? _); [now left|].
  destruct (Sql.selectPresentNamed _ _ s); [|now left].
  destruct (Sql.insertParticipant _ s) as [s'|] eqn:Hins; [|now left].
  apply insertParticipant_inv in Hins as ->.
  right. exists v. split; [reflexivity|]. reflexivity.
Qed.

(** As long as the requests are served one at a time, each room has at
    most one present host, and so it has after one more request served
    alone; a creation that answers leaves the creator as the only present
    host of the new room; and a join that creates a participant makes it a
    host exactly when no present participant of the room is one in the
    store the handler runs on. *)
Lemma single_host_in_turn (s : Store) (Hs : inTurn s) :
  (forall roomId, 0 <= Sql.countPresentHosts roomId s <= 1)
  /\ (forall e rq roomId,
        0 <= Sql.countPresentHosts roomId (serve e rq s) <= 1)
  /\ (forall roomId creatorId now body resp,
        answer (createRoomRoute roomId creatorId now body) s = Ok resp ->
        List.filter (Sql.presentHostIn roomId)
          (participants (after (createRoomRoute roomId creatorId now body) s))
        = [newParticipant creatorId roomId "Host" (datetimeNow now) true])
  /\ (forall participantId now body,
        let s' := after (joinRoomRoute participantId now body) s in
        participants s' = participants s
        \/ exists p,
             participants s' = participants s ++ [p]
             /\ Participant.id p = participantId
             /\ Participant.room_id p = JoinRoomRequest.roomId body
             /\ Participant.left_at p = None
             /\ (Participant.is_host p = true
                 <-> forall q, In q (participants s) ->
                               Sql.presentIn (JoinRoomRequest.roomId body) q
                               = true ->
                               Participant.is_host q = false)).
Proof.
  pose proof (inTurn_invariant s Hs) as Hinv.
  assert (Hnonneg : forall roomId s0, 0 <= Sql.countPresentHosts roomId s0)
    by (intros; unfold Sql.countPresentHosts; lia).
  split; [|split; [|split]].
  - intros roomId. split; [apply Hnonneg|apply (inv_singleHost s Hinv)].
  - intros e rq roomId. split; [apply Hnonneg|].
    apply (inv_singleHost _
             (inTurn_invariant _ (inTurn_serve e rq s Hs))).
  - intros roomId creatorId now body resp Hok.
    destruct (createRoomRoute_ok _ _ _ _ _ _ Hok) as (v & _ & Hnew & -> & _).
    simpl. rewrite List.filter_app.
    assert (Hfresh : forall p, In p (participants s) ->
                               Participant.room_id p <> roomId).
    { intros p Hp E. apply (inv_roomsKnown s Hinv p Hp).
      rewrite E. exact Hnew. }
    destruct (empty_room_filters roomId s Hfresh) as (_ & -> & _).
    simpl. unfold Sql.presentHostIn. simpl.
    now rewrite String.eqb_refl.
  - intros participantId now body. cbv zeta.
    destruct (joinRoomRoute_store participantId now body s)
      as [->|(v & _ & ->)]; [now left|].
    right. eexists. split; [reflexivity|]. simpl.
    repeat split; try reflexivity.
    + intros H. apply Z.eqb_eq in H. now apply countPresentHosts_zero.
    + intros H. apply Z.eqb_eq. now apply countPresentHosts_zero.
Qed.

(** ** Generated room ids pass the join schema *)

Lemma alphabet_get d :
  (d < 36)%nat ->
  exists c, String.get d roomIdAlphabet = Some c
            /\ Str.isRoomIdChar c = true.
Proof.
  intros H.
  do 36 (destruct d as [|d]; [eexists; split; reflexivity|]).
  lia.
Qed.

Lemma generateRoomIdLoop_chars rounds draws :
  Forall (fun d => (d < 36)%nat) draws ->
  (rounds <= List.length draws)%nat ->
  String.length (generateRoomIdLoop rounds draws) = rounds
  /\ forallb Str.isRoomIdChar
       (list_ascii_of_string (generateRoomIdLoop rounds draws)) = true.
Proof.
  revert draws. induction rounds as [|n IH]; intros draws Hd Hlen.
  - now split.
  - destruct draws as [|d draws]; [simpl in Hlen; lia|].
    apply Forall_cons in Hd as [Hd Hds]. simpl in Hlen.
    destruct (alphabet_get d Hd) as (c & Hc & Hok).
    destruct (IH draws Hds ltac:(lia)) as [IH1 IH2].
    change (generateRoomIdLoop (S n) (d :: draws))
      with (match String.get d roomIdAlphabet with
            | Some c => String c (generateRoomIdLoop n draws)
            | None => generateRoomIdLoop n draws
            end).
    rewrite Hc. simpl. rewrite IH1, Hok, IH2. now split.
Qed.

Lemma generateRoomId_valid draws :
  Forall (fun d => (d < 36)%nat) draws -> List.length draws = 12%nat ->
  lengthBetween 1 20 (generateRoomIdFrom draws)
  && Str.matchesRoomId (generateRoomIdFrom draws) = true.
Proof.
  intros Hd Hlen. unfold generateRoomIdFrom.
  destruct (generateRoomIdLoop_chars 12 draws Hd ltac:(lia)) as [H1 H2].
  unfold lengthBetween, Str.matchesRoomId.
  rewrite H2, H1.
  replace (List.length (list_ascii_of_string (generateRoomIdLoop 12 draws)))
    with 12%nat; [reflexivity|].
  rewrite <- H1 at 1.
  generalize (generateRoomIdLoop 12 draws). intros x.
  induction x as [|c x IHx]; simpl; congruence.
Qed.

Example generateRoomId_sample :
  generateRoomIdFrom [0; 1; 2; 3; 4; 5; 6; 7; 8; 9; 10; 11]%nat
  = "abcdefghijkl".
Proof. reflexivity. Qed.

(** ** Rejoining under a name already present *)

Lemma filter_single {A} (P : A -> bool) (l : list A) x :
  In x l -> P x = true -> (List.length (List.filter P l) <= 1)%nat ->
  List.filter P l = [x].
Proof.
  intros Hin Hx Hlen.
  assert (Hf : In x (List.filter P l)) by (apply filter_In; now split).
  destruct (List.filter P l) as [|y [|z t]]; simpl in *.
  - destruct Hf.
  - destruct Hf as [->|[]]. reflexivity.
  - lia.
Qed.

Lemma passwordRejected_own pw : passwordRejected (orNull pw) pw = false.
Proof.
  unfold passwordRejected, orNull. destruct pw as [x|]; simpl; [|reflexivity].
  destruct (Str.truthy x) eqn:E; [|reflexivity].
  now rewrite E, String.eqb_refl.
Qed.

Lemma createRoomSchema_password body v :
  createRoomSchema body = Some v ->
  CreateRoomRequest.password v = CreateRoomRequest.password body
  /\ optional (lengthBetween 0 50) (CreateRoomRequest.password body) = true.
Proof.
  unfold createRoomSchema.
  destruct (lengthBetween 1 100 _ && _ && _ && _) eqn:E; [|discriminate].
  intros [= <-]. simpl. split; [reflexivity|].
  apply andb_prop in E as [E _]. apply andb_prop in E as [_ E].
  destruct (CreateRoomRequest.password body) as [p|]; [|reflexivity].
  simpl in *. now apply andb_prop in E as [E _].
Qed.

(** The rule proper: a join that passes the admission checks and names a
    present participant of the room answers with the first present
    participant of that name in the room and writes nothing. *)
Lemma rejoin_returns_first s participantId now body room p :
  storedName (Participant.name p) ->
  (exists v, joinRoomSchema body = Some v) ->
  Sql.roomById (JoinRoomRequest.roomId body) s = Some room ->
  Room.is_active room = true ->
  passwordRejected (Room.password room) (JoinRoomRequest.password body)
  = false ->
  Sql.countPresent (JoinRoomRequest.roomId body) s
  < Room.max_participants room ->
  In p (participants s) ->
  Participant.room_id p = JoinRoomRequest.roomId body ->
  Participant.left_at p = None ->
  Participant.name p = JoinRoomRequest.participantName body ->
  exists q others,
    Sql.selectPresentNamed (JoinRoomRequest.roomId body)
      (JoinRoomRequest.participantName body) s = q :: others
    /\ joinRoomRoute participantId now body s
       = (Ok (joinResponse room q), s)
    /\ (others = [] -> q = p).
Proof.
  intros [Hstored _] [v Hv] Hroom Hactive Hpw Hcount Hin Hrid Hleft Hname.
  destruct (joinRoomRoute_valid participantId now body v s Hv) as [-> Hsan].
  destruct (joinRoomSchema_inv body v Hv) as (_ & _ & Hn & _ & Hp).
  rewrite joinRoom_unfold. cbv zeta.
  rewrite Hsan, Hroom, Hactive, Hp, Hpw. simpl.
  apply Z.leb_gt in Hcount. rewrite Hcount.
  rewrite Hn, <- Hname, Hstored.
  assert (Hmatch : In p (Sql.selectPresentNamed (JoinRoomRequest.roomId body)
                           (Participant.name p) s)).
  { apply filter_In. split; [exact Hin|].
    unfold Sql.presentNamed, Participant.present.
    now rewrite Hrid, Hleft, !String.eqb_refl. }
  destruct (Sql.selectPresentNamed _ _ s) as [|q others]; [destruct Hmatch|].
  exists q, others. split; [reflexivity|]. split; [reflexivity|].
  intros ->. now destruct Hmatch as [->|[]].
Qed.

(** C6, counterexample: the room for two is full and its host
    is present under the name "Host"; a join under the name "Host" is
    answered [Conflict], not with the host's record. *)
Lemma C6_rejoin_refused_when_full :
  Sql.selectPresentNamed "abcdefghijkl" "Host" Scenario.withBob
  = [newParticipant "k3j9x0a7bq1" "abcdefghijkl" "Host" 1700000000 true]
  /\ joinRoomRoute "q7w1e4r9t2y" (Scenario.t0 + 3 * Scenario.minute)
       (Scenario.joinAs "Host") Scenario.withBob
     = (Err Conflict, Scenario.withBob).
Proof. split; vm_compute; reflexivity. Qed.

(** C6, as amended: in every store the server can reach, a
    well-formed join that passes the admission checks (room known and
    active, password accepted, fewer present participants than
    [maxParticipants]) and whose name is exactly the name of a present
    participant of the room is answered with the first present participant
    of that name in the room, which is that participant unless another
    present participant of the room carries the name, and the store is
    unchanged; in particular every join under the name "Host", with the
    password the room was created with, to a room just created under an id
    of the generator's shape is answered with the creator's id, however
    often it is repeated. *)
Theorem C6_rejoin_same_name (s : Store) (Hs : reachable s) :
  (forall participantId now body room p,
      (exists v, joinRoomSchema body = Some v) ->
      Sql.roomById (JoinRoomRequest.roomId body) s = Some room ->
      Room.is_active room = true ->
      passwordRejected (Room.password room) (JoinRoomRequest.password body)
      = false ->
      Sql.countPresent (JoinRoomRequest.roomId body) s
      < Room.max_participants room ->
      In p (participants s) ->
      Participant.room_id p = JoinRoomRequest.roomId body ->
      Participant.left_at p = None ->
      Participant.name p = JoinRoomRequest.participantName body ->
      exists q others,
        Sql.selectPresentNamed (JoinRoomRequest.roomId body)
          (JoinRoomRequest.participantName body) s = q :: others
        /\ joinRoomRoute participantId now body s
           = (Ok (joinResponse room q), s)
        /\ (others = [] -> q = p))
  /\ (forall roomId creatorId t body resp,
        answer (createRoomRoute roomId creatorId t body) s = Ok resp ->
        lengthBetween 1 20 roomId && Str.matchesRoomId roomId = true ->
        let s1 := after (createRoomRoute roomId creatorId t body) s in
        let rejoin :=
          JoinRoomRequest.mk roomId "Host" (CreateRoomRequest.password body) in
        forall participantId now,
          after (joinRoomRoute participantId now rejoin) s1 = s1
          /\ exists r,
               answer (joinRoomRoute participantId now rejoin) s1 = Ok r
               /\ partId (participant r) = creatorId
               /\ partIsHost (participant r) = true).
Proof.
  split.
  - intros participantId now body room p Hv Hroom Hactive Hpw Hcount Hin.
    apply rejoin_returns_first; try assumption.
    exact (reachable_namesStored s Hs p Hin).
  - intros roomId creatorId t body resp Hok Hid. cbv zeta.
    intros participantId now.
    pose proof (reachable_roomsKnown s Hs) as Hknown.
    destruct (createRoomRoute_ok _ _ _ _ _ _ Hok) as (v & Hv & Hnew & Hs' & _).
    destruct (createRoomSchema_cap body v Hv) as [Hcap _].
    destruct (createRoomSchema_password body v Hv) as [Hpw Hlen].
    set (s1 := after (createRoomRoute roomId creatorId t body) s) in *.
    set (host := newParticipant creatorId roomId "Host" (datetimeNow t) true).
    set (room := createdRoom roomId creatorId t v).
    assert (Hfresh : forall p, In p (participants s) ->
                               Participant.room_id p <> roomId).
    { intros p Hp E. apply (Hknown p Hp).
      rewrite E. exact Hnew. }
    assert (Hjoin : joinRoomRoute participantId now
                      (JoinRoomRequest.mk roomId "Host"
                         (CreateRoomRequest.password body)) s1
                    = (Ok (joinResponse room host), s1)).
    { unshelve epose proof
        (rejoin_returns_first s1 participantId now
           (JoinRoomRequest.mk roomId "Host"
              (CreateRoomRequest.password body)) room host
           storedName_Host _ _ _ _ _ _ _ _ _)
        as (q & others & Hsel & Hq & _); simpl.
      - unfold joinRoomSchema. simpl. apply andb_prop in Hid as [H1 H2].
        rewrite H1, H2, Hlen. simpl. eexists. reflexivity.
      - rewrite Hs'. unfold Sql.roomById. simpl.
        apply (roomById_app_new (rooms s) (participants s) room Hnew).
      - reflexivity.
      - unfold room, createdRoom. simpl. rewrite Hpw.
        apply passwordRejected_own.
      - rewrite Hs'. unfold Sql.countPresent. simpl.
        rewrite List.filter_app.
        destruct (empty_room_filters roomId s Hfresh) as (_ & _ & ->).
        simpl. unfold Sql.presentIn at 1. simpl. rewrite String.eqb_refl.
        simpl. unfold room, createdRoom. simpl. lia.
      - rewrite Hs'. simpl. apply in_or_app. right. now left.
      - reflexivity.
      - reflexivity.
      - reflexivity.
      - rewrite Hs' in Hsel. unfold Sql.selectPresentNamed in Hsel.
        simpl in Hsel. rewrite List.filter_app in Hsel.
        destruct (empty_room_filters roomId s Hfresh) as (Hnone & _ & _).
        unfold Sql.selectPresentNamed in Hnone. rewrite Hnone in Hsel.
        simpl in Hsel. unfold Sql.presentNamed in Hsel at 1.
        simpl in Hsel. rewrite String.eqb_refl in Hsel. simpl in Hsel.
        injection Hsel as <- _. exact Hq. }
    unfold after, answer. rewrite Hjoin. simpl.
    split; [reflexivity|]. eexists. split; [reflexivity|]. now split.
Qed.

(** Any join as "Host" to the room just created is answered with the
    creator; so is one made after Bob has left. *)
Lemma C6_rejoin_same_name_witness :
  (forall participantId now,
        after (joinRoomRoute participantId now (Scenario.joinAs "Host"))
          Scenario.created = Scenario.created
        /\ exists r,
             answer (joinRoomRoute participantId now (Scenario.joinAs "Host"))
               Scenario.created = Ok r
             /\ partId (participant r) = "k3j9x0a7bq1"
             /\ partIsHost (participant r) = true)
  /\ (exists room,
        joinRoomRoute "q7w1e4r9t2y" (Scenario.t0 + 2 * Scenario.minute)
          (Scenario.joinAs "Host") Scenario.bobGone
        = (Ok (joinResponse room
                 (newParticipant "k3j9x0a7bq1" "abcdefghijkl" "Host"
                    1700000000 true)),
           Scenario.bobGone)).
Proof.
  split.
  - destruct (C6_rejoin_same_name emptyStore reachable_empty) as [_ H].
    eapply (H "abcdefghijkl" "k3j9x0a7bq1" Scenario.t0 Scenario.standup);
      vm_compute; reflexivity.
  - destruct (C6_rejoin_same_name Scenario.bobGone Scenario.bobGone_reachable)
      as [H _].
    destruct (Sql.roomById "abcdefghijkl" Scenario.bobGone) as [room|]
      eqn:Hroom; [|vm_compute in Hroom; discriminate].
    exists room.
    unshelve epose proof
      (H "q7w1e4r9t2y" (Scenario.t0 + 2 * Scenario.minute)
         (Scenario.joinAs "Host") room
         (newParticipant "k3j9x0a7bq1" "abcdefghijkl" "Host"
            1700000000 true) _ _ _ _ _ _ _ _ _)
      as (q & others & Hsel & Hjoin & Hq).
    + eexists. vm_compute. reflexivity.
    + exact Hroom.
    + vm_compute in Hroom. now injection Hroom as <-.
    + vm_compute in Hroom. now injection Hroom as <-.
    + vm_compute in Hroom. injection Hroom as <-. vm_compute. reflexivity.
    + vm_compute. auto.
    + reflexivity.
    + reflexivity.
    + reflexivity.
    + rewrite <- Hq; [exact Hjoin|].
      vm_compute in Hsel. now injection Hsel as _ <-.
Defined.

(** ** The session of the specification, step by step *)

(** The room for two: the creator is host, Bob joins as a guest, Carol
    finds the room full, and gets in once the host has kicked Bob. *)
Example standup_session :
  (Participant.is_host <$> head (participants Scenario.created)) = Some true
  /\ (partIsHost <$> (participant
        <$> match answer (joinRoomRoute "m2c8v5n1zs4"
                            (Scenario.t0 + Scenario.minute)
                            (Scenario.joinAs "Bob")) Scenario.created with
            | Ok r => Some r
            | Err _ => None
            end)) = Some false
  /\ answer (joinRoomRoute "q7w1e4r9t2y" (Scenario.t0 + 2 * Scenario.minute)
               (Scenario.joinAs "Carol")) Scenario.withBob
     = Err Conflict
  /\ (let kicked :=
        after (kick (Scenario.t0 + 3 * Scenario.minute) "m2c8v5n1zs4"
                 (Some "k3j9x0a7bq1")) Scenario.withBob in
      Sql.countPresent "abcdefghijkl" kicked = 1
      /\ isOk (answer (joinRoomRoute "q7w1e4r9t2y"
                         (Scenario.t0 + 4 * Scenario.minute)
                         (Scenario.joinAs "Carol")) kicked) = true).
Proof. vm_compute. repeat split. Qed.

(* ===================================================================== *)
(** * Further properties of the handlers *)
(* ===================================================================== *)

(** ** The effect of a request *)

(** Whatever the request, the store after it has one of the shapes of
    [effect]. *)
Lemma serve_effect e rq s : effect s (serve e rq s).
Proof.
  assert (Hadmit : forall hid pid cond f, keepsIdentity f ->
            effect s
              (snd (bind (admitHostAction hid pid)
                      (fun _ => exec (Sql.updateParticipants cond f)) s))).
  { intros hid pid cond f Hf. unfold bind.
    pose proof (admitHostAction_store hid pid s) as E.
    destruct (admitHostAction hid pid s) as [[[]|err] s1];
      simpl in *; subst s1; [now apply effect_update|apply effect_none]. }
  destruct rq as
    [body|body|pid|rid|rid pid|pid body|pid hid|pid hid m|pid hid en
    |pid hid en]; simpl.
  - unfold after, createRoomRoute, validateBody.
    destruct (createRoomSchema body) as [v|] eqn:Hv; [|apply effect_none].
    destruct (createRoomSchema_cap body v Hv) as [Hcap _].
    unfold createRoom, insertAndReturnRoom, bind, execInsert, query, defined.
    fold (createdRoom (generateRoomId e) (generateParticipantId e)
            (now e) v).
    set (row := createdRoom _ _ _ v).
    destruct (Sql.insertRoom row s) as [s1|] eqn:Hins; [|apply effect_none].
    destruct (insertRoom_inv row s s1 Hins) as [Hnew ->].
    destruct (Sql.insertParticipant _ _) as [s2|] eqn:Hins2.
    + pose proof (insertParticipant_free _ _ _ Hins2) as Hfree.
      apply insertParticipant_inv in Hins2 as ->.
      assert (Heff : effect s
                (mkStore (rooms s ++ [row])
                   (participants s
                    ++ [newParticipant (generateParticipantId e) (Room.id row)
                          "Host" (datetimeNow (now e)) true]))).
      { apply effect_create;
          [exact Hnew|apply createdRoom_clean|reflexivity|exact Hcap
          |exact Hfree]. }
      destruct (Sql.roomById (idToUse _ _) _); exact Heff.
    + simpl. apply effect_room;
        [exact Hnew|apply createdRoom_clean|reflexivity|exact Hcap].
  - unfold after, joinRoomRoute, validateBody.
    destruct (joinRoomSchema body) as [v|] eqn:Hv; [|apply effect_none].
    destruct (joinRoomRoute_valid (generateParticipantId e) (now e) body v s Hv)
      as [_ Hrid].
    destruct (joinRoomSchema_inv body v Hv) as (_ & _ & Hn & Hm & _).
    rewrite joinRoom_unfold. cbv zeta. rewrite Hrid.
    destruct (Sql.roomById _ s) as [room|] eqn:Hroom; [|apply effect_none].
    destruct (negb (Room.is_active room)) eqn:Ha; [apply effect_none|].
    destruct (passwordRejected _ _); [apply effect_none|].
    destruct (_ <=? _) eqn:Hc; [apply effect_none|].
    destruct (Sql.selectPresentNamed _ _ s) eqn:Hnone; [|apply effect_none].
    destruct (Sql.insertParticipant _ s) as [s'|] eqn:Hins;
      [|apply effect_none].
    pose proof (insertParticipant_free _ _ _ Hins) as Hfree.
    apply insertParticipant_inv in Hins as ->. simpl.
    assert (Hid : Room.id room = JoinRoomRequest.roomId body).
    { unfold Sql.roomById in Hroom. apply find_some in Hroom as [_ E].
      now apply String.eqb_eq in E. }
    rewrite <- Hid in *.
    apply effect_join; auto.
    + now apply negb_false_iff in Ha.
    + now apply Z.leb_gt in Hc.
    + rewrite Hn. now apply sanitizeString_matchesName.
  - unfold after, leaveRoom, bind, throwIf, exec.
    destruct (negb (truthyOpt pid)); simpl; [apply effect_none|].
    apply effect_update, keepsIdentity_left.
  - unfold after. rewrite checkTimeout_unfold.
    destruct (Sql.activeRoomById rid s) as [room|]; [|apply effect_none].
    destruct (30 <=? _); [apply effect_close|apply effect_none].
  - unfold after, endMeeting, bind, throwIf, query, exec.
    destruct (negb (truthyOpt pid)); simpl; [apply effect_none|].
    destruct (List.filter _ (participants s)) as [|h ?]; simpl;
      [apply effect_none|].
    destruct (negb (Participant.is_host h)); simpl;
      [apply effect_none|apply effect_close].
  - unfold after, updateParticipant, bind, throwIf, query, exec.
    destruct (noUpdates body); simpl; [apply effect_none|].
    destruct (_ =? 0); simpl; apply effect_update, keepsIdentity_updates.
  - unfold after, kick, bind at 1, throwIf.
    destruct (negb (truthyOpt hid)); simpl; [apply effect_none|].
    apply Hadmit, keepsIdentity_left.
  - unfold after, mute, bind at 1, throwIf.
    destruct (negb (truthyOpt hid)); simpl; [apply effect_none|].
    destruct m as [m|]; [|apply effect_none].
    apply Hadmit, keepsIdentity_audio.
  - unfold after, video, bind at 1, throwIf.
    destruct (negb (truthyOpt hid)); simpl; [apply effect_none|].
    destruct en as [en|]; [|apply effect_none].
    apply Hadmit, keepsIdentity_video.
  - unfold after, screenshare, bind at 1, throwIf.
    destruct (negb (truthyOpt hid)); simpl; [apply effect_none|].
    destruct en as [en|]; [|apply effect_none].
    apply Hadmit, keepsIdentity_screen.
Qed.

(** ** Invariants read off the effects *)

Lemma roomById_deactivated roomId closed s room' :
  Sql.roomById roomId (Sql.deactivateRoom closed s) = Some room' ->
  exists room,
    Sql.roomById roomId s = Some room
    /\ room' = (if String.eqb (Room.id room) closed
                then Room.set_is_active false room else room).
Proof.
  unfold Sql.roomById, Sql.deactivateRoom. simpl.
  induction (rooms s) as [|x l IH]; simpl; [discriminate|].
  assert (E : Room.id (if String.eqb (Room.id x) closed
                       then Room.set_is_active false x else x) = Room.id x)
    by (destruct (String.eqb (Room.id x) closed); reflexivity).
  rewrite E. destruct (String.eqb (Room.id x) roomId).
  - intros [= <-]. now exists x.
  - exact IH.
Qed.

Lemma unknown_room_empty roomId s :
  roomsKnown s -> Sql.roomById roomId s = None ->
  forall p, In p (participants s) -> Participant.room_id p <> roomId.
Proof.
  intros Hknown Hnone p Hp E.
  apply (Hknown p Hp). now rewrite E.
Qed.

Lemma countPresent_app roomId rs ps p :
  Sql.countPresent roomId (mkStore rs (ps ++ [p]))
  = Sql.countPresent roomId (mkStore rs ps)
    + (if Sql.presentIn roomId p then 1 else 0).
Proof.
  unfold Sql.countPresent. simpl. rewrite List.filter_app, length_app.
  simpl. destruct (Sql.presentIn roomId p); simpl; lia.
Qed.

Lemma countPresent_rooms roomId rs rs' ps :
  Sql.countPresent roomId (mkStore rs ps)
  = Sql.countPresent roomId (mkStore rs' ps).
Proof. reflexivity. Qed.

Lemma countPresent_update roomId cond f s :
  keepsIdentity f ->
  Sql.countPresent roomId (Sql.updateParticipants cond f s)
  <= Sql.countPresent roomId s.
Proof.
  intros Hf. unfold Sql.countPresent. simpl.
  pose proof (filter_map_shrinks (Sql.presentIn roomId)
                (Sql.rewriteRow cond f) (participants s)) as H.
  assert (Hshrink : forall x, Sql.presentIn roomId (Sql.rewriteRow cond f x)
                              = true -> Sql.presentIn roomId x = true).
  { intros x. unfold Sql.presentIn. rewrite (updated_room cond f Hf).
    intros E. apply andb_prop in E as [E1 E2]. rewrite E1. simpl.
    now apply (updated_present cond f Hf). }
  specialize (H Hshrink). lia.
Qed.

Lemma effect_capacity s s' :
  effect s s' -> roomsKnown s -> withinCapacity s -> withinCapacity s'.
Proof.
  intros Heff Hinv Hcap.
  destruct Heff as
    [|r Hnew _ _ Hr
     |r creatorId t Hnew _ _ Hr _
     |room participantId name t Hroom _ Hlt _ _ _
     |cond f Hf
     |closed t].
  - exact Hcap.
  - intros roomId room. rewrite roomById_app.
    change (Sql.roomById roomId (mkStore (rooms s) (participants s)))
      with (Sql.roomById roomId s).
    destruct (Sql.roomById roomId s) as [x|] eqn:Hx.
    + intros [= <-]. exact (Hcap roomId x Hx).
    + destruct (String.eqb (Room.id r) roomId); [|discriminate].
      intros [= <-].
      destruct (empty_room_filters roomId s
                  (unknown_room_empty roomId s Hinv Hx)) as (_ & _ & E).
      unfold Sql.countPresent. simpl. rewrite E. simpl. lia.
  - intros roomId room. rewrite roomById_app, countPresent_app.
    change (Sql.roomById roomId (mkStore (rooms s) _))
      with (Sql.roomById roomId s).
    rewrite (countPresent_rooms roomId _ (rooms s)).
    change (Sql.countPresent roomId (mkStore (rooms s) (participants s)))
      with (Sql.countPresent roomId s).
    unfold Sql.presentIn at 1. simpl.
    destruct (Sql.roomById roomId s) as [x|] eqn:Hx.
    + intros [= <-].
      destruct (String.eqb_spec (Room.id r) roomId) as [E|E].
      * rewrite E in Hnew. congruence.
      * simpl. specialize (Hcap roomId x Hx). lia.
    + destruct (String.eqb (Room.id r) roomId); [|discriminate].
      intros [= <-].
      destruct (empty_room_filters roomId s
                  (unknown_room_empty roomId s Hinv Hx)) as (_ & _ & E).
      unfold Sql.countPresent. rewrite E. simpl. lia.
  - intros roomId x. rewrite countPresent_app.
    change (Sql.roomById roomId (mkStore (rooms s) _))
      with (Sql.roomById roomId s).
    change (Sql.countPresent roomId (mkStore (rooms s) (participants s)))
      with (Sql.countPresent roomId s).
    intros Hx. unfold Sql.presentIn at 1. simpl.
    destruct (String.eqb_spec (Room.id room) roomId) as [E|E]; simpl.
    + rewrite <- E in Hx. rewrite Hroom in Hx. injection Hx as Hx.
      subst x. rewrite <- E. lia.
    + specialize (Hcap roomId x Hx). lia.
  - intros roomId x Hx.
    change (Sql.roomById roomId (Sql.updateParticipants cond f s))
      with (Sql.roomById roomId s) in Hx.
    pose proof (countPresent_update roomId cond f s Hf).
    specialize (Hcap roomId x Hx). lia.
  - intros roomId x Hx.
    change (Sql.roomById roomId
              (Sql.markAllLeft closed t (Sql.deactivateRoom closed s)))
      with (Sql.roomById roomId (Sql.deactivateRoom closed s)) in Hx.
    destruct (roomById_deactivated roomId closed s x Hx) as (room & Hroom & ->).
    pose proof (countPresent_update roomId (Sql.presentIn closed)
                  (Participant.set_left_at (Some t))
                  (Sql.deactivateRoom closed s) (keepsIdentity_left t)) as Hle.
    change (Sql.countPresent roomId (Sql.deactivateRoom closed s))
      with (Sql.countPresent roomId s) in Hle.
    specialize (Hcap roomId room Hroom).
    unfold Sql.markAllLeft.
    destruct (String.eqb (Room.id room) closed); simpl; lia.
Qed.

(** Served one at a time, the requests never fill a room beyond its
    [max_participants]. *)
Lemma inTurn_capacity s : inTurn s -> withinCapacity s.
Proof.
  induction 1 as [|e rq s Hs IH].
  - intros roomId room H. discriminate.
  - eapply effect_capacity;
      [apply serve_effect
      |exact (inv_roomsKnown s (inTurn_invariant s Hs))|exact IH].
Qed.

Lemma effect_uniqueIds s s' : effect s s' -> uniqueIds s -> uniqueIds s'.
Proof.
  intros Heff [Hr Hp].
  destruct Heff as
    [|r Hnew _ _ _
     |r creatorId t Hnew _ _ _ Hfree
     |room participantId name t _ _ _ _ _ Hfree
     |cond f Hf
     |closed t]; split; simpl; rewrite ?List.map_app; simpl;
    rewrite ?map_id_deactivate, ?(map_id_update _ _ _ (keepsIdentity_left t));
    auto using NoDup_snoc, fresh_room_id, fresh_participant_id.
  rewrite map_id_update; auto.
Qed.

Lemma effect_cleanRooms s s' : effect s s' -> cleanRooms s -> cleanRooms s'.
Proof.
  intros Heff Hc.
  assert (Happ : forall r, cleanRoom r ->
                           forall x, In x (rooms s ++ [r]) -> cleanRoom x).
  { intros r Hr x Hx. apply in_app_iff in Hx as [Hx|[<-|[]]]; auto. }
  destruct Heff as
    [|r _ Hr _ _|r creatorId t _ Hr _ _ _|? ? ? ? _ _ _ _ _ _|cond f Hf
    |closed t]; auto.
  - intros x Hx. simpl in Hx. eauto.
  - intros x Hx. simpl in Hx. eauto.
  - intros x Hx. simpl in Hx. apply in_map_iff in Hx as (y & <- & Hy).
    specialize (Hc y Hy).
    destruct (String.eqb (Room.id y) closed); exact Hc.
Qed.

Lemma effect_namesMatch s s' : effect s s' -> namesMatch s -> namesMatch s'.
Proof.
  intros Heff Hn.
  assert (Happ : forall p, Str.matchesName (Participant.name p) = true ->
                           forall x, In x (participants s ++ [p]) ->
                                     Str.matchesName (Participant.name x)
                                     = true).
  { intros p Hp x Hx. apply in_app_iff in Hx as [Hx|[<-|[]]]; auto. }
  destruct Heff as
    [|r _ _ _ _|r creatorId t _ _ _ _ _|? ? name t _ _ _ _ Hm _|cond f Hf
    |closed t]; auto.
  - intros x Hx. simpl in Hx.
    apply (Happ (newParticipant creatorId (Room.id r) "Host" t true));
      [reflexivity|exact Hx].
  - intros x Hx. simpl in Hx.
    eapply Happ; [|exact Hx]. exact Hm.
  - intros x Hx. simpl in Hx. apply in_map_iff in Hx as (y & <- & Hy).
    rewrite (updated_name cond f Hf). exact (Hn y Hy).
  - intros x Hx. simpl in Hx. apply in_map_iff in Hx as (y & <- & Hy).
    rewrite (updated_name _ _ (keepsIdentity_left t)). exact (Hn y Hy).
Qed.

(** ** Room details *)

(** The details handler, check by check. *)
Lemma getRoomRoute_unfold id s :
  getRoomRoute id s
  = if roomIdParamSchema id
    then match Sql.roomById id s with
         | None => (Err NotFound, s)
         | Some room =>
             (Ok (mkRoomInfo (Room.id room) (Room.title room)
                    (Room.description room) (truthyOpt (Room.password room))
                    (Room.is_recording_enabled room)
                    (Room.max_participants room) (Room.created_at room)
                    (Room.is_active room) (Sql.countPresent id s)), s)
         end
    else (Err BadRequest, s).
Proof.
  unfold getRoomRoute, getRoom, bind, query, ret, throw.
  destruct (roomIdParamSchema id); [|reflexivity].
  destruct (Sql.roomById id s); reflexivity.
Qed.

(** As long as the requests are served one at a time, the participants
    present in a room never outnumber the room's [max_participants], itself
    at most 10, and the details of a room never report more participants
    than its maximum. *)
Lemma capacity_in_turn (s : Store) (Hs : inTurn s) :
  (forall roomId room,
      Sql.roomById roomId s = Some room ->
      0 <= Sql.countPresent roomId s <= Room.max_participants room
      /\ Room.max_participants room <= 10)
  /\ (forall id info,
        answer (getRoomRoute id) s = Ok info ->
        0 <= participantCount info <= infoMaxParticipants info
        /\ infoMaxParticipants info <= 10).
Proof.
  assert (H : forall roomId room,
             Sql.roomById roomId s = Some room ->
             0 <= Sql.countPresent roomId s <= Room.max_participants room
             /\ Room.max_participants room <= 10).
  { intros roomId room Hroom. split; [split|].
    - unfold Sql.countPresent. lia.
    - exact (inTurn_capacity s Hs roomId room Hroom).
    - destruct (roomById_id roomId s room Hroom) as [Hin _].
      apply (inv_capsInRange s (inTurn_invariant s Hs) room Hin). }
  split; [exact H|].
  intros id info. unfold answer. rewrite getRoomRoute_unfold.
  destruct (roomIdParamSchema id); [|discriminate].
  destruct (Sql.roomById id s) as [room|] eqn:Hroom; [|discriminate].
  simpl. intros [= <-]. simpl. exact (H id room Hroom).
Qed.

(** What a creation answers when it answers. *)
Lemma createRoomRoute_response roomId creatorId now body s resp :
  answer (createRoomRoute roomId creatorId now body) s = Ok resp ->
  Str.truthy roomId = true ->
  exists v,
    createRoomSchema body = Some v
    /\ let room := createdRoom roomId creatorId now v in
       resp = mkRoomResponse roomId (Room.title room) (Room.description room)
                (truthyOpt (Room.password room))
                (Room.is_recording_enabled room) (Room.max_participants room)
                (Room.created_at room) true creatorId.
Proof.
  unfold answer, createRoomRoute, validateBody. intros Hok Ht.
  destruct (createRoomSchema body) as [v|] eqn:Hv; [|discriminate].
  exists v. split; [reflexivity|]. cbv zeta.
  revert Hok.
  unfold createRoom, insertAndReturnRoom, bind, execInsert, query, defined.
  fold (createdRoom roomId creatorId now v).
  set (row := createdRoom roomId creatorId now v).
  destruct (Sql.insertRoom row s) as [s1|] eqn:Hins; [|discriminate].
  destruct (insertRoom_inv row s s1 Hins) as [Hnew ->].
  destruct (Sql.insertParticipant _ _) as [s2|]; [|discriminate].
  unfold idToUse. change (Room.id row) with roomId. rewrite Ht.
  pose proof (roomById_app_new (rooms s) (participants s) row Hnew) as Hread.
  change (Room.id row) with roomId in Hread. rewrite Hread.
  simpl. now intros [= <-].
Qed.

(** X2: a room just created can be read back: for an id of the
    shape [roomIdParamSchema] admits, the details handler answers with the
    fields the creation answered with and a participant count of one (the
    creator); it reports a password exactly when a non-empty one was
    given. *)
Theorem X2_created_room_reads_back
    (s : Store) (roomId creatorId : string) (now : Z)
    (body : CreateRoomRequest.t) (resp : RoomResponse)
    (Hs : reachable s)
    (Hok : answer (createRoomRoute roomId creatorId now body) s = Ok resp)
    (Hid : roomIdParamSchema roomId = true) :
  let s' := after (createRoomRoute roomId creatorId now body) s in
  getRoomRoute roomId s'
  = (Ok (mkRoomInfo roomId (resTitle resp) (resDescription resp)
           (hasPassword resp) (resIsRecordingEnabled resp)
           (resMaxParticipants resp) (resCreatedAt resp) true 1), s')
  /\ resId resp = roomId
  /\ resIsActive resp = true
  /\ hasPassword resp = truthyOpt (CreateRoomRequest.password body)
  /\ resCreatedAt resp = datetimeNow now.
Proof.
  cbv zeta.
  assert (Ht : Str.truthy roomId = true).
  { unfold roomIdParamSchema, lengthBetween in Hid.
    apply andb_prop in Hid as [Hid _]. apply andb_prop in Hid as [Hid _].
    unfold Str.truthy. destruct (String.length roomId); [discriminate|].
    reflexivity. }
  destruct (createRoomRoute_response _ _ _ _ _ _ Hok Ht) as (v & Hv & Hresp).
  destruct (createRoomRoute_ok _ _ _ _ _ _ Hok) as (v' & Hv' & Hnew & Hs' & _).
  rewrite Hv in Hv'. injection Hv' as <-.
  destruct (createRoomSchema_password body v Hv) as [Hpw _].
  cbv zeta in Hresp. subst resp. simpl.
  rewrite getRoomRoute_unfold, Hid, Hs'.
  change roomId with (Room.id (createdRoom roomId creatorId now v)) at 2.
  rewrite (roomById_app_new (rooms s) _
             (createdRoom roomId creatorId now v) Hnew).
  rewrite countPresent_app.
  destruct (empty_room_filters roomId s
              (unknown_room_empty roomId s (reachable_roomsKnown s Hs) Hnew))
    as (_ & _ & E).
  unfold Sql.countPresent at 1. simpl. rewrite E. simpl.
  unfold Sql.presentIn. simpl. rewrite String.eqb_refl. simpl.
  repeat split. rewrite Hpw. unfold orNull.
  destruct (truthyOpt (CreateRoomRequest.password body)) eqn:Ep;
    [exact Ep|reflexivity].
Qed.

(** The room "Standup" read back after its creation. *)
Lemma X2_created_room_reads_back_witness :
  getRoomRoute "abcdefghijkl" Scenario.created
  = (Ok (mkRoomInfo "abcdefghijkl" "Standup" None false false 2 1700000000
           true 1), Scenario.created).
Proof.
  destruct (X2_created_room_reads_back emptyStore "abcdefghijkl"
              "k3j9x0a7bq1" Scenario.t0 Scenario.standup
              (mkRoomResponse "abcdefghijkl" "Standup" None false false 2
                 1700000000 true "k3j9x0a7bq1")
              reachable_empty eq_refl eq_refl) as [H _].
  exact H.
Defined.

(** ** A creation whose second insert fails *)

Lemma insertParticipant_taken p s :
  (exists q, In q (participants s) /\ Participant.id q = Participant.id p) ->
  Sql.insertParticipant p s = None.
Proof.
  intros (q & Hq & Hid). unfold Sql.insertParticipant.
  replace (existsb _ (participants s)) with true; [reflexivity|].
  symmetry. apply existsb_exists. exists q. split; [exact Hq|].
  rewrite Hid. apply String.eqb_refl.
Qed.

(** X3: the two inserts of a creation are not one transaction.
    When the room id drawn is taken the creation fails with status 500 and
    writes nothing; when the room id is free but the participant id drawn
    for the creator is taken, it fails with status 500 after the room row
    has been written: the store then holds a new active room with no
    participant. *)
Theorem X3_creation_is_not_atomic
    (s : Store) (roomId creatorId : string) (now : Z)
    (body v : CreateRoomRequest.t)
    (Hs : reachable s) (Hv : createRoomSchema body = Some v) :
  (Sql.roomById roomId s <> None ->
   createRoomRoute roomId creatorId now body s = (Err Internal, s))
  /\ (Sql.roomById roomId s = None ->
      (exists q, In q (participants s) /\ Participant.id q = creatorId) ->
      let s' := mkStore (rooms s ++ [createdRoom roomId creatorId now v])
                  (participants s) in
      createRoomRoute roomId creatorId now body s = (Err Internal, s')
      /\ Sql.roomById roomId s' = Some (createdRoom roomId creatorId now v)
      /\ Room.is_active (createdRoom roomId creatorId now v) = true
      /\ Sql.countPresent roomId s' = 0).
Proof.
  unfold createRoomRoute, validateBody. rewrite Hv.
  unfold createRoom, insertAndReturnRoom, bind, execInsert, query, defined.
  fold (createdRoom roomId creatorId now v).
  set (row := createdRoom roomId creatorId now v).
  split.
  - intros Hknown. unfold Sql.insertRoom.
    apply roomById_known in Hknown. simpl Room.id. now rewrite Hknown.
  - intros Hnew Htaken. cbv zeta.
    assert (Hins : Sql.insertRoom row s
                   = Some (mkStore (rooms s ++ [row]) (participants s))).
    { unfold Sql.insertRoom. apply roomById_unknown in Hnew.
      simpl Room.id. now rewrite Hnew. }
    rewrite Hins.
    rewrite insertParticipant_taken; [|exact Htaken].
    split; [reflexivity|]. split.
    + change roomId with (Room.id row) at 1.
      now apply roomById_app_new.
    + split; [reflexivity|].
      destruct (empty_room_filters roomId s
                  (unknown_room_empty roomId s (reachable_roomsKnown s Hs)
                     Hnew))
        as (_ & _ & E).
      unfold Sql.countPresent. simpl. now rewrite E.
Qed.

(** A second room whose creator draws the id of the first room's host. *)
Lemma X3_creation_is_not_atomic_witness :
  answer (createRoomRoute "zyxwvutsrqpo" "k3j9x0a7bq1" Scenario.t0
            Scenario.standup) Scenario.created = Err Internal
  /\ Sql.countPresent "zyxwvutsrqpo"
       (after (createRoomRoute "zyxwvutsrqpo" "k3j9x0a7bq1" Scenario.t0
                 Scenario.standup) Scenario.created) = 0
  /\ createRoomRoute "abcdefghijkl" "n5b2v8c1x4z" Scenario.t0
       Scenario.standup Scenario.created
     = (Err Internal, Scenario.created).
Proof.
  edestruct (X3_creation_is_not_atomic Scenario.created "zyxwvutsrqpo"
               "k3j9x0a7bq1" Scenario.t0 Scenario.standup)
    as [_ H]; [exact Scenario.created_reachable|reflexivity|].
  edestruct (X3_creation_is_not_atomic Scenario.created "abcdefghijkl"
               "n5b2v8c1x4z" Scenario.t0 Scenario.standup)
    as [H' _]; [exact Scenario.created_reachable|reflexivity|].
  destruct H as (H1 & _ & _ & H4).
  - reflexivity.
  - eexists. split; [left; reflexivity|reflexivity].
  - unfold answer, after. rewrite H1. split; [reflexivity|].
    split; [exact H4|]. apply H'. vm_compute. discriminate.
Defined.

(** ** Leaving *)

Lemma update_nothing cond f s :
  (forall p, In p (participants s) -> cond p = false) ->
  Sql.updateParticipants cond f s = s.
Proof.
  intros H. unfold Sql.updateParticipants. destruct s as [rs ps]. simpl in *.
  f_equal. rewrite <- (List.map_id ps) at 2. apply List.map_ext_in.
  intros p Hp. unfold Sql.rewriteRow. now rewrite (H p Hp).
Qed.

Lemma markLeft_absent id t s :
  Sql.selectPresentWithId id (Sql.markLeft id t s) = [].
Proof.
  unfold Sql.selectPresentWithId, Sql.markLeft. simpl.
  apply filter_none. intros p Hp. apply in_map_iff in Hp as (q & <- & _).
  unfold Sql.rewriteRow.
  destruct (Sql.presentWithId id q) eqn:E; [|exact E].
  unfold Sql.presentWithId. simpl. apply andb_false_r.
Qed.

Lemma markLeft_twice id t t' s :
  Sql.markLeft id t' (Sql.markLeft id t s) = Sql.markLeft id t s.
Proof.
  apply update_nothing. intros p Hp.
  pose proof (markLeft_absent id t s) as H.
  unfold Sql.selectPresentWithId in H.
  destruct (Sql.presentWithId id p) eqn:E; [|reflexivity].
  assert (Hin : In p (List.filter (Sql.presentWithId id)
                        (participants (Sql.markLeft id t s))))
    by (apply filter_In; now split).
  rewrite H in Hin. destruct Hin.
Qed.

Lemma markLeft_row id t s i p :
  participants s !! i = Some p ->
  participants (Sql.markLeft id t s) !! i
  = Some (if String.eqb (Participant.id p) id && Participant.present p
          then Participant.set_left_at (Some t) p else p).
Proof.
  intros Hi. simpl. rewrite list_lookup_fmap, Hi. reflexivity.
Qed.

(** X4: leaving is safe to repeat. A leave with a participant id
    always answers success, known id or not; it stamps [left_at] on the
    present row of that id and on nothing else; after it no present row has
    the id; and a second leave of the same id, at any later time, changes
    nothing, so the first departure time stays. Without an id the request
    fails [BadRequest] and writes nothing. *)
Theorem X4_leave_is_idempotent (now : Z) (participantId : string) (s : Store)
    (Hid : Str.truthy participantId = true) :
  let s' := after (leaveRoom now (Some participantId)) s in
  answer (leaveRoom now (Some participantId)) s = Ok tt
  /\ Sql.selectPresentWithId participantId s' = []
  /\ (forall later, leaveRoom later (Some participantId) s' = (Ok tt, s'))
  /\ (forall i p,
        participants s !! i = Some p ->
        participants s' !! i
        = Some (if String.eqb (Participant.id p) participantId
                   && Participant.present p
                then Participant.set_left_at (Some (datetimeNow now)) p
                else p))
  /\ rooms s' = rooms s
  /\ ((forall p, In p (participants s) ->
                 Sql.presentWithId participantId p = false) -> s' = s)
  /\ leaveRoom now None s = (Err BadRequest, s)
  /\ leaveRoom now (Some EmptyString) s = (Err BadRequest, s).
Proof.
  cbv zeta.
  assert (E : forall t s0, leaveRoom t (Some participantId) s0
                           = (Ok tt, Sql.markLeft participantId
                                       (datetimeNow t) s0)).
  { intros t s0. unfold leaveRoom, bind, throwIf, exec. simpl.
    now rewrite Hid. }
  unfold answer, after. rewrite E. simpl fst. simpl snd.
  split; [reflexivity|]. split; [apply markLeft_absent|].
  split; [intros later; rewrite E; now rewrite markLeft_twice|].
  split; [intros i p; apply markLeft_row|].
  split; [reflexivity|]. split; [apply update_nothing|].
  split; reflexivity.
Qed.

(** Bob leaves; a second leave five minutes later changes nothing, and
    neither does the leave of an id nobody has. *)
Lemma X4_leave_is_idempotent_witness :
  leaveRoom (Scenario.t0 + 7 * Scenario.minute) (Some "m2c8v5n1zs4")
    Scenario.bobGone
  = (Ok tt, Scenario.bobGone)
  /\ after (leaveRoom Scenario.t0 (Some "nobody")) Scenario.withBob
     = Scenario.withBob.
Proof.
  split.
  - destruct (X4_leave_is_idempotent (Scenario.t0 + 2 * Scenario.minute)
                "m2c8v5n1zs4" Scenario.withBob eq_refl) as (_ & _ & H & _).
    exact (H (Scenario.t0 + 7 * Scenario.minute)).
  - destruct (X4_leave_is_idempotent Scenario.t0 "nobody" Scenario.withBob
                eq_refl) as (_ & _ & _ & _ & _ & H & _).
    apply H. intros p Hp. vm_compute in Hp.
    destruct Hp as [<-|[<-|[]]]; reflexivity.
Defined.

(** ** Ending a meeting *)

(** The handler, check by check. *)
Lemma endMeeting_unfold now roomId participantId s :
  endMeeting now roomId (Some participantId) s
  = if negb (Str.truthy participantId) then (Err BadRequest, s)
    else match List.filter
                 (fun p => Sql.presentWithId participantId p
                           && String.eqb (Participant.room_id p) roomId)
                 (participants s) with
         | [] => (Err NotFound, s)
         | h :: _ =>
             if Participant.is_host h
             then (Ok tt,
                   Sql.markAllLeft roomId (datetimeNow now)
                     (Sql.deactivateRoom roomId s))
             else (Err Forbidden, s)
         end.
Proof.
  unfold endMeeting, bind, throwIf, query, exec, throw, ret. simpl.
  destruct (negb (Str.truthy participantId)); [reflexivity|]. simpl.
  destruct (List.filter _ (participants s)) as [|h l]; [reflexivity|].
  destruct (Participant.is_host h); reflexivity.
Qed.

Lemma roomById_closed roomId s room :
  Sql.roomById roomId (Sql.deactivateRoom roomId s) = Some room ->
  Room.is_active room = false.
Proof.
  intros H. destruct (roomById_id _ _ _ H) as [Hin Hid].
  exact (deactivateRoom_noActive roomId s room Hin Hid).
Qed.

(** X5: only a present host of the room can end its meeting, and
    ending is final. The request fails [NotFound] when the id is not that
    of a participant present in the room and [Forbidden] when that
    participant is not a host, in both cases writing nothing. When it
    succeeds the room is inactive and none of its participants is present
    any more, rows of other rooms are untouched, a well-formed join to
    the room, if it is stored, then fails [Gone], and a timeout check
    answers [shouldClose] with nothing left to do. *)
Theorem X5_end_meeting (now : Z) (roomId participantId : string) (s : Store)
    (Hid : Str.truthy participantId = true) :
  let requester :=
    hd_error
      (List.filter (fun p => Sql.presentWithId participantId p
                             && String.eqb (Participant.room_id p) roomId)
         (participants s)) in
  let s' := after (endMeeting now roomId (Some participantId)) s in
  (requester = None ->
   endMeeting now roomId (Some participantId) s = (Err NotFound, s))
  /\ (forall h, requester = Some h -> Participant.is_host h = false ->
        endMeeting now roomId (Some participantId) s = (Err Forbidden, s))
  /\ (forall h, requester = Some h -> Participant.is_host h = true ->
        answer (endMeeting now roomId (Some participantId)) s = Ok tt
        /\ noActiveRoom roomId s'
        /\ Sql.countPresent roomId s' = 0
        /\ (forall i p, participants s !! i = Some p ->
                        Participant.room_id p <> roomId ->
                        participants s' !! i = Some p)
        /\ (forall i r, rooms s !! i = Some r -> Room.id r <> roomId ->
                        rooms s' !! i = Some r)
        /\ (forall pid t body v,
              joinRoomSchema body = Some v ->
              JoinRoomRequest.roomId body = roomId ->
              Sql.roomById roomId s <> None ->
              joinRoomRoute pid t body s' = (Err Gone, s'))
        /\ (forall t, checkTimeout t roomId s'
                      = (Ok (mkCheckTimeoutResponse true 0), s'))).
Proof.
  cbv zeta. unfold answer, after. rewrite endMeeting_unfold, Hid. simpl negb.
  cbv iota.
  destruct (List.filter _ (participants s)) as [|h0 l]; simpl hd_error.
  - split; [reflexivity|]. split; intros h [=].
  - split; [discriminate|]. split.
    + intros h [= <-] ->. reflexivity.
    + intros h [= <-] ->. simpl fst. simpl snd.
      set (s' := Sql.markAllLeft roomId (datetimeNow now)
                   (Sql.deactivateRoom roomId s)).
      assert (Hno : noActiveRoom roomId s').
      { intros r Hr. apply (deactivateRoom_noActive roomId s r Hr). }
      split; [reflexivity|]. split; [exact Hno|]. split.
      { unfold Sql.countPresent. rewrite filter_none; [reflexivity|].
        intros p Hp. unfold Sql.presentIn.
        destruct (String.eqb_spec (Participant.room_id p) roomId) as [E|E];
          [|reflexivity].
        simpl. exact (markAllLeft_absent roomId _ _ p Hp E). }
      split.
      { intros i p Hi Hne. unfold s'. simpl.
        rewrite list_lookup_fmap, Hi. simpl. unfold Sql.rewriteRow.
        unfold Sql.presentIn. apply String.eqb_neq in Hne.
        now rewrite Hne. }
      split.
      { intros i r Hi Hne. unfold s'. simpl.
        rewrite list_lookup_fmap, Hi. simpl. apply String.eqb_neq in Hne.
        now rewrite Hne. }
      split.
      { intros pid t body v Hv Hbody Hknown.
        destruct (joinRoomRoute_valid pid t body v s' Hv) as [-> Hsan].
        rewrite joinRoom_unfold. cbv zeta. rewrite Hsan, Hbody.
        assert (Hk : Sql.roomById roomId s' <> None).
        { unfold s'. now apply roomById_deactivate. }
        destruct (Sql.roomById roomId s') as [room|] eqn:Hroom;
          [|congruence].
        unfold s' in Hroom.
        change (Sql.roomById roomId
                  (Sql.markAllLeft roomId (datetimeNow now)
                     (Sql.deactivateRoom roomId s)))
          with (Sql.roomById roomId (Sql.deactivateRoom roomId s)) in Hroom.
        now rewrite (roomById_closed roomId s room Hroom). }
      intros t. rewrite checkTimeout_unfold.
      apply activeRoomById_None in Hno. now rewrite Hno.
Qed.

(** The host ends the meeting of the room with Bob: nobody is present
    afterwards and Carol's join is answered 410; Bob could not have ended
    it. *)
Lemma X5_end_meeting_witness :
  Sql.countPresent "abcdefghijkl" Scenario.ended = 0
  /\ joinRoomRoute "q7w1e4r9t2y" (Scenario.t0 + 6 * Scenario.minute)
       (Scenario.joinAs "Carol") Scenario.ended
     = (Err Gone, Scenario.ended)
  /\ endMeeting (Scenario.t0 + 5 * Scenario.minute) "abcdefghijkl"
       (Some "m2c8v5n1zs4") Scenario.withBob
     = (Err Forbidden, Scenario.withBob).
Proof.
  destruct (X5_end_meeting (Scenario.t0 + 5 * Scenario.minute)
              "abcdefghijkl" "k3j9x0a7bq1" Scenario.withBob eq_refl)
    as (_ & _ & H).
  edestruct H as (_ & _ & Hcount & _ & _ & Hjoin & _);
    [vm_compute; reflexivity|reflexivity|].
  destruct (X5_end_meeting (Scenario.t0 + 5 * Scenario.minute)
              "abcdefghijkl" "m2c8v5n1zs4" Scenario.withBob eq_refl)
    as (_ & Hforb & _).
  split; [exact Hcount|split].
  - apply (Hjoin "q7w1e4r9t2y" (Scenario.t0 + 6 * Scenario.minute)
             (Scenario.joinAs "Carol") (Scenario.joinAs "Carol"));
      [reflexivity|reflexivity|vm_compute; discriminate].
  - eapply Hforb; [vm_compute; reflexivity|reflexivity].
Defined.

(** ** Host controls that pass admission *)

Lemma admission_passes hostId participantId s host target :
  passesAdmission hostId participantId s host target ->
  admitHostAction hostId participantId s = (Ok tt, s).
Proof.
  intros (_ & Hh & Hhost & Ht & Hroom & Htarget).
  unfold admitHostAction, bind, query, throwIf, throw, ret.
  destruct (Sql.selectPresentWithId hostId s) as [|h hs]; [discriminate|].
  injection Hh as ->. rewrite Hhost. simpl.
  destruct (Sql.selectPresentWithId participantId s) as [|x xs];
    [discriminate|].
  injection Ht as ->. rewrite Hroom, String.eqb_refl, Htarget. reflexivity.
Qed.

Lemma hd_filter_In {A} (P : A -> bool) (l : list A) x :
  hd_error (List.filter P l) = Some x -> In x l /\ P x = true.
Proof.
  intros H. apply filter_In.
  destruct (List.filter P l) as [|y t]; [discriminate|].
  injection H as ->. now left.
Qed.

Lemma same_id_same_row s p q :
  NoDup (List.map Participant.id (participants s)) ->
  In p (participants s) -> In q (participants s) ->
  Participant.id p = Participant.id q -> p = q.
Proof.
  induction (participants s) as [|x l IH]; intros Hnd Hp Hq Hid;
    [destruct Hp|].
  simpl in Hnd. apply NoDup_cons in Hnd as [Hx Hl].
  assert (Hout : forall y, In y l -> Participant.id y <> Participant.id x).
  { intros y Hy E. apply Hx. rewrite <- E.
    apply list_elem_of_In, in_map. exact Hy. }
  destruct Hp as [->|Hp], Hq as [->|Hq]; auto.
  - destruct (Hout q Hq). now symmetry.
  - destruct (Hout p Hp). exact Hid.
Qed.

Lemma markLeft_count s id t roomId target :
  NoDup (List.map Participant.id (participants s)) ->
  In target (participants s) ->
  Sql.presentWithId id target = true ->
  Participant.room_id target = roomId ->
  Sql.countPresent roomId (Sql.markLeft id t s)
  = Sql.countPresent roomId s - 1.
Proof.
  unfold Sql.countPresent, Sql.markLeft. simpl.
  intros Hnd Hin Hpw Hroom.
  assert (Hsame : forall q, In q (participants s) ->
                            Sql.presentWithId id q = true -> q = target).
  { intros q Hq Hpq. apply (same_id_same_row s q target Hnd Hq Hin).
    unfold Sql.presentWithId in *.
    apply andb_prop in Hpw as [E1 _]. apply andb_prop in Hpq as [E2 _].
    apply String.eqb_eq in E1, E2. congruence. }
  assert (Hpresent : Sql.presentIn roomId target = true).
  { unfold Sql.presentIn. unfold Sql.presentWithId in Hpw.
    apply andb_prop in Hpw as [_ Hp]. now rewrite Hroom, String.eqb_refl. }
  clear Hroom.
  induction (participants s) as [|x l IH]; [destruct Hin|].
  simpl in Hnd. apply NoDup_cons in Hnd as [Hx Hl].
  simpl. unfold Sql.rewriteRow at 1.
  destruct (Sql.presentWithId id x) eqn:Ex.
  - assert (x = target) by (apply Hsame; [now left|exact Ex]). subst x.
    rewrite Hpresent.
    replace (Sql.presentIn roomId (Participant.set_left_at (Some t) target))
      with false by (unfold Sql.presentIn; simpl; now rewrite andb_false_r).
    assert (Hrest : List.map (Sql.rewriteRow (Sql.presentWithId id)
                                (Participant.set_left_at (Some t))) l = l).
    { rewrite <- (List.map_id l) at 2. apply List.map_ext_in.
      intros q Hq. unfold Sql.rewriteRow.
      destruct (Sql.presentWithId id q) eqn:Eq; [|reflexivity].
      assert (q = target) by (apply Hsame; [now right|exact Eq]). subst q.
      destruct Hx. apply list_elem_of_In, in_map. exact Hq. }
    rewrite Hrest. simpl. lia.
  - destruct Hin as [->|Hin]; [congruence|].
    specialize (IH Hl Hin (fun q Hq => Hsame q (or_intror Hq))).
    destruct (Sql.presentIn roomId x); simpl; lia.
Qed.

Lemma markLeft_other id other t s :
  other <> id ->
  Sql.selectPresentWithId other (Sql.markLeft id t s)
  = Sql.selectPresentWithId other s.
Proof.
  intros Hne. unfold Sql.selectPresentWithId, Sql.markLeft. simpl.
  induction (participants s) as [|x l IH]; [reflexivity|]. simpl.
  assert (E : Sql.presentWithId other
                (Sql.rewriteRow (Sql.presentWithId id)
                   (Participant.set_left_at (Some t)) x)
              = Sql.presentWithId other x).
  { unfold Sql.rewriteRow.
    destruct (Sql.presentWithId id x) eqn:Ex; [|reflexivity].
    unfold Sql.presentWithId in *. simpl.
    apply andb_prop in Ex as [Ex _]. apply String.eqb_eq in Ex.
    assert (E' : String.eqb (Participant.id x) other = false)
      by (apply String.eqb_neq; congruence).
    now rewrite E'. }
  rewrite E. destruct (Sql.presentWithId other x) eqn:Eo; [|exact IH].
  f_equal; [|exact IH].
  unfold Sql.rewriteRow. destruct (Sql.presentWithId id x) eqn:Ex;
    [|reflexivity].
  unfold Sql.presentWithId in *.
  apply andb_prop in Ex as [Ex _]. apply andb_prop in Eo as [Eo _].
  apply String.eqb_eq in Ex, Eo. congruence.
Qed.

(** X6: a kick that passes admission removes exactly its target,
    participant ids being the key of their table. The target's id is no
    longer present, every row of another id is as it was, the requester is
    still present, the room's count of present participants drops by one,
    and a second kick of the same target fails [NotFound] and writes
    nothing. *)
Theorem X6_kick_removes_target
    (now : Z) (hostId participantId : string) (s : Store)
    (host target : Participant.row)
    (Hkey : NoDup (List.map Participant.id (participants s)))
    (Hadm : passesAdmission hostId participantId s host target) :
  let s' := after (kick now participantId (Some hostId)) s in
  let roomId := Participant.room_id target in
  answer (kick now participantId (Some hostId)) s = Ok tt
  /\ Sql.selectPresentWithId participantId s' = []
  /\ (forall i p, participants s !! i = Some p ->
                  Participant.id p <> participantId ->
                  participants s' !! i = Some p)
  /\ hd_error (Sql.selectPresentWithId hostId s') = Some host
  /\ Sql.countPresent roomId s' = Sql.countPresent roomId s - 1
  /\ (forall later,
        kick later participantId (Some hostId) s' = (Err NotFound, s')).
Proof.
  cbv zeta.
  pose proof Hadm as (Hid & Hh & Hhost & Ht & Hroom & Htarget).
  destruct (hd_filter_In _ _ _ Hh) as [Hhin Hhp].
  destruct (hd_filter_In _ _ _ Ht) as [Htin Htp].
  assert (Hne : hostId <> participantId).
  { intros E. subst participantId. rewrite Hh in Ht. injection Ht as ->.
    congruence. }
  assert (Hkick : forall t s0 h x,
             passesAdmission hostId participantId s0 h x ->
             kick t participantId (Some hostId) s0
             = (Ok tt, Sql.markLeft participantId (datetimeNow t) s0)).
  { intros t s0 h x Hadm0. pose proof Hadm0 as (Hid0 & _).
    unfold kick, bind at 1, throwIf. simpl. rewrite Hid0. simpl.
    unfold bind. rewrite (admission_passes _ _ _ _ _ Hadm0). reflexivity. }
  unfold answer, after. rewrite (Hkick now s host target Hadm).
  simpl fst. simpl snd.
  set (s' := Sql.markLeft participantId (datetimeNow now) s).
  assert (Hkeep : forall p, Participant.id p <> participantId ->
            Sql.rewriteRow (Sql.presentWithId participantId)
              (Participant.set_left_at (Some (datetimeNow now))) p = p).
  { intros p Hp. unfold Sql.rewriteRow, Sql.presentWithId.
    apply String.eqb_neq in Hp. now rewrite Hp. }
  assert (Hhost' : Sql.selectPresentWithId hostId s'
                   = Sql.selectPresentWithId hostId s)
    by (apply markLeft_other; congruence).
  pose proof (markLeft_count s participantId (datetimeNow now)
                (Participant.room_id target) target
                Hkey Htin Htp eq_refl)
    as Hcount.
  fold s' in Hcount.
  split; [reflexivity|]. split; [apply markLeft_absent|].
  split.
  { intros i p Hi Hp. unfold s'. simpl.
    rewrite list_lookup_fmap, Hi. simpl. now rewrite (Hkeep p Hp). }
  split; [now rewrite Hhost'|]. split; [exact Hcount|].
  intros later.
  assert (Hadm' : admitHostAction hostId participantId s'
                  = (Err NotFound, s')).
  { unfold admitHostAction, bind, query, throwIf, throw, ret. cbv beta.
    rewrite Hhost'.
    destruct (Sql.selectPresentWithId hostId s) as [|h hs]; [discriminate|].
    injection Hh as ->. rewrite Hhost. simpl.
    unfold s'. now rewrite markLeft_absent. }
  unfold kick, bind at 1, throwIf. simpl. rewrite Hid. simpl.
  unfold bind. now rewrite Hadm'.
Qed.

(** The host kicks Bob out of the full room: one participant is left, and
    kicking Bob again is answered 404. *)
Lemma X6_kick_removes_target_witness :
  Sql.countPresent "abcdefghijkl"
    (after (kick (Scenario.t0 + 3 * Scenario.minute) "m2c8v5n1zs4"
              (Some "k3j9x0a7bq1")) Scenario.withBob) = 1
  /\ answer (kick (Scenario.t0 + 4 * Scenario.minute) "m2c8v5n1zs4"
               (Some "k3j9x0a7bq1"))
       (after (kick (Scenario.t0 + 3 * Scenario.minute) "m2c8v5n1zs4"
                 (Some "k3j9x0a7bq1")) Scenario.withBob)
     = Err NotFound.
Proof.
  edestruct (X6_kick_removes_target (Scenario.t0 + 3 * Scenario.minute)
               "k3j9x0a7bq1" "m2c8v5n1zs4" Scenario.withBob)
    as (_ & _ & _ & _ & Hcount & Hagain).
  - exact (proj2 (reachable_uniqueIds Scenario.withBob
                    Scenario.withBob_reachable)).
  - repeat split; vm_compute; reflexivity.
  - split; [exact Hcount|].
    unfold answer. now rewrite Hagain.
Defined.

Lemma count_same {A} (P : A -> bool) (g : A -> A) (l : list A) :
  (forall x, P (g x) = P x) ->
  List.length (List.filter P (List.map g l)) = List.length (List.filter P l).
Proof.
  intros H. induction l as [|x l IH]; [reflexivity|]. simpl.
  rewrite H. destruct (P x); simpl; now rewrite IH.
Qed.

Lemma controlEffect_flag a f :
  controlEffect a = Some f ->
  wellTyped a
  /\ (forall p, f (f p) = f p)
  /\ (forall p, Participant.id (f p) = Participant.id p
                /\ Participant.room_id (f p) = Participant.room_id p
                /\ Participant.name (f p) = Participant.name p
                /\ Participant.joined_at (f p) = Participant.joined_at p
                /\ Participant.left_at (f p) = Participant.left_at p
                /\ Participant.is_host (f p) = Participant.is_host p).
Proof.
  destruct a as [|[m|]|[en|]|[en|]]; simpl; try discriminate;
    intros [= <-]; (split; [discriminate|]); split; intros p;
    repeat split.
Qed.

Lemma hostAction_flag now a f hostId participantId s host target :
  controlEffect a = Some f ->
  passesAdmission hostId participantId s host target ->
  hostAction now a participantId (Some hostId) s
  = (Ok tt, Sql.updateParticipants (Sql.presentWithId participantId) f s).
Proof.
  intros Hf Hadm. pose proof Hadm as (Hid & _).
  pose proof (admission_passes _ _ _ _ _ Hadm) as Hpass.
  destruct a as [|[m|]|[en|]|[en|]]; simpl in Hf; try discriminate;
    injection Hf as <-; simpl;
    unfold mute, video, screenshare, setFlag, bind at 1, throwIf; simpl;
    rewrite Hid; simpl; unfold bind; rewrite Hpass; reflexivity.
Qed.

(** X7: a mute, video or screen-share control that passes
    admission writes its one flag on the present row of the target and
    nothing else: [mute: true] switches [is_audio_enabled] off, the other
    two write the value given; identity, room, name, times and host flag
    of the target stay, as do all other rows and the rooms; nobody leaves;
    and giving the same control again changes nothing further. *)
Theorem X7_flag_control_writes_one_flag
    (now : Z) (a : HostAction) (f : Participant.row -> Participant.row)
    (hostId participantId : string) (s : Store)
    (host target : Participant.row)
    (Hf : controlEffect a = Some f)
    (Hadm : passesAdmission hostId participantId s host target) :
  let s' := after (hostAction now a participantId (Some hostId)) s in
  answer (hostAction now a participantId (Some hostId)) s = Ok tt
  /\ (forall i p,
        participants s !! i = Some p ->
        participants s' !! i
        = Some (if String.eqb (Participant.id p) participantId
                   && Participant.present p
                then f p else p))
  /\ rooms s' = rooms s
  /\ (forall roomId, Sql.countPresent roomId s' = Sql.countPresent roomId s)
  /\ after (hostAction now a participantId (Some hostId)) s' = s'
  /\ (forall p, Participant.id (f p) = Participant.id p
                /\ Participant.room_id (f p) = Participant.room_id p
                /\ Participant.name (f p) = Participant.name p
                /\ Participant.joined_at (f p) = Participant.joined_at p
                /\ Participant.left_at (f p) = Participant.left_at p
                /\ Participant.is_host (f p) = Participant.is_host p)
  /\ match a with
     | DoMute (Some m) =>
         forall p, Participant.is_audio_enabled (f p) = negb m
                   /\ Participant.is_video_enabled (f p)
                      = Participant.is_video_enabled p
                   /\ Participant.is_screen_sharing (f p)
                      = Participant.is_screen_sharing p
     | DoVideo (Some en) =>
         forall p, Participant.is_video_enabled (f p) = en
                   /\ Participant.is_audio_enabled (f p)
                      = Participant.is_audio_enabled p
                   /\ Participant.is_screen_sharing (f p)
                      = Participant.is_screen_sharing p
     | DoScreenshare (Some en) =>
         forall p, Participant.is_screen_sharing (f p) = en
                   /\ Participant.is_audio_enabled (f p)
                      = Participant.is_audio_enabled p
                   /\ Participant.is_video_enabled (f p)
                      = Participant.is_video_enabled p
     | _ => True
     end.
Proof.
  cbv zeta. unfold answer, after.
  rewrite (hostAction_flag now a f _ _ _ _ _ Hf Hadm). simpl fst. simpl snd.
  destruct (controlEffect_flag a f Hf) as (_ & Hidem & Hkeep).
  set (s' := Sql.updateParticipants (Sql.presentWithId participantId) f s).
  assert (Hrow : forall p,
             Sql.presentWithId participantId
               (Sql.rewriteRow (Sql.presentWithId participantId) f p)
             = Sql.presentWithId participantId p).
  { intros p. unfold Sql.rewriteRow.
    destruct (Sql.presentWithId participantId p) eqn:E; [|exact E].
    unfold Sql.presentWithId, Participant.present in *.
    destruct (Hkeep p) as (-> & _ & _ & _ & -> & _). exact E. }
  split; [reflexivity|]. split.
  { intros i p Hi. unfold s'. simpl. rewrite list_lookup_fmap, Hi.
    reflexivity. }
  split; [reflexivity|]. split.
  { intros roomId. unfold Sql.countPresent, s'. simpl. f_equal.
    apply count_same. intros p. unfold Sql.rewriteRow.
    destruct (Sql.presentWithId participantId p); [|reflexivity].
    unfold Sql.presentIn, Participant.present.
    now destruct (Hkeep p) as (_ & -> & _ & _ & -> & _). }
  split.
  { assert (Hagain : Sql.updateParticipants
                       (Sql.presentWithId participantId) f s' = s').
    { unfold s', Sql.updateParticipants. simpl. f_equal.
      rewrite List.map_map. apply List.map_ext. intros p.
      unfold Sql.rewriteRow at 1. rewrite Hrow. unfold Sql.rewriteRow.
      destruct (Sql.presentWithId participantId p); [apply Hidem|reflexivity]. }
    destruct a as [|[m|]|[en|]|[en|]]; simpl in Hf; try discriminate;
      injection Hf as Hf; subst f; simpl;
      unfold mute, video, screenshare, setFlag, bind at 1, throwIf;
      destruct Hadm as (Hid & _); simpl; rewrite Hid; simpl;
      unfold bind;
      pose proof (admitHostAction_store hostId participantId s') as Est;
      destruct (admitHostAction hostId participantId s') as [[[]|e] s1];
      simpl in *; subst s1; auto. }
  split; [exact Hkeep|].
  destruct a as [|[m|]|[en|]|[en|]]; simpl in Hf; try discriminate;
    try exact I; injection Hf as <-; intros p; repeat split.
Qed.

(** The host mutes Bob: Bob's microphone is off, his camera as it was. *)
Lemma X7_flag_control_writes_one_flag_witness :
  participants
    (after (hostAction Scenario.t0 (DoMute (Some true)) "m2c8v5n1zs4"
              (Some "k3j9x0a7bq1")) Scenario.withBob) !! 1%nat
  = Some (Participant.mk "m2c8v5n1zs4" "abcdefghijkl" "Bob" 1700000060 None
            false true false false)
  /\ Sql.countPresent "abcdefghijkl"
       (after (hostAction Scenario.t0 (DoMute (Some true)) "m2c8v5n1zs4"
                 (Some "k3j9x0a7bq1")) Scenario.withBob) = 2.
Proof.
  edestruct (X7_flag_control_writes_one_flag Scenario.t0 (DoMute (Some true))
               (Participant.set_is_audio_enabled false)
               "k3j9x0a7bq1" "m2c8v5n1zs4" Scenario.withBob)
    as (_ & Hrows & _ & Hcount & _).
  - reflexivity.
  - repeat split; vm_compute; reflexivity.
  - split; [|now rewrite Hcount].
    exact (Hrows 1%nat
             (newParticipant "m2c8v5n1zs4" "abcdefghijkl" "Bob" 1700000060
                false) eq_refl).
Defined.

(** ** The self-service update *)

(** The handler, check by check. *)
Lemma updateParticipant_unfold participantId u s :
  updateParticipant participantId u s
  = if noUpdates u then (Err BadRequest, s)
    else
      let cond := fun p => String.eqb (Participant.id p) participantId in
      (if Sql.changes cond s =? 0 then Err NotFound else Ok tt,
       Sql.updateParticipants cond (applyUpdates u) s).
Proof.
  unfold updateParticipant, bind, throwIf, query, exec, throw, ret.
  destruct (noUpdates u); [reflexivity|]. simpl.
  destruct (_ =? 0); reflexivity.
Qed.

Lemma changes_zero cond s :
  Sql.changes cond s = 0 <-> forall p, In p (participants s) -> cond p = false.
Proof.
  unfold Sql.changes. split.
  - intros H p Hp. destruct (cond p) eqn:E; [|reflexivity].
    assert (Hin : In p (List.filter cond (participants s)))
      by (apply filter_In; now split).
    destruct (List.filter cond (participants s)); [destruct Hin|].
    simpl in H. lia.
  - intros H. now rewrite filter_none.
Qed.

(** X8: the self-service update fails [BadRequest] when the body
    names no flag and [NotFound] when no row has the id, writing nothing in
    either case; otherwise it succeeds, writes the flags the body names on
    the row of that id and keeps the flags it does not name. It never
    touches a row of another id, the rooms, or the id, room, name, times
    and host flag of any row: nobody becomes host or returns to a room by
    it. *)
Theorem X8_update_writes_named_flags
    (participantId : string) (u : UpdateParticipantRequest.t) (s : Store) :
  let s' := after (updateParticipant participantId u) s in
  (noUpdates u = true ->
   updateParticipant participantId u s = (Err BadRequest, s))
  /\ (noUpdates u = false ->
      (forall p, In p (participants s) ->
                 Participant.id p <> participantId) ->
      updateParticipant participantId u s = (Err NotFound, s))
  /\ (noUpdates u = false ->
      (exists p, In p (participants s) /\ Participant.id p = participantId) ->
      answer (updateParticipant participantId u) s = Ok tt)
  /\ rooms s' = rooms s
  /\ (forall i p,
        participants s !! i = Some p ->
        exists p',
          participants s' !! i = Some p'
          /\ Participant.id p' = Participant.id p
          /\ Participant.room_id p' = Participant.room_id p
          /\ Participant.name p' = Participant.name p
          /\ Participant.joined_at p' = Participant.joined_at p
          /\ Participant.left_at p' = Participant.left_at p
          /\ Participant.is_host p' = Participant.is_host p
          /\ (Participant.id p <> participantId -> p' = p)
          /\ (Participant.id p = participantId -> noUpdates u = false ->
              Participant.is_audio_enabled p'
              = default (Participant.is_audio_enabled p)
                  (UpdateParticipantRequest.isAudioEnabled u)
              /\ Participant.is_video_enabled p'
                 = default (Participant.is_video_enabled p)
                     (UpdateParticipantRequest.isVideoEnabled u)
              /\ Participant.is_screen_sharing p'
                 = default (Participant.is_screen_sharing p)
                     (UpdateParticipantRequest.isScreenSharing u))).
Proof.
  cbv zeta. unfold answer, after. rewrite updateParticipant_unfold.
  set (cond := fun p => String.eqb (Participant.id p) participantId).
  split; [intros ->; reflexivity|]. split.
  { intros -> Hnone. cbv zeta.
    assert (Hc : forall p, In p (participants s) -> cond p = false).
    { intros p Hp. apply String.eqb_neq. now apply Hnone. }
    rewrite (update_nothing _ _ s Hc).
    apply changes_zero in Hc. now rewrite Hc. }
  split.
  { intros -> (p & Hp & Hid). cbv zeta. simpl.
    destruct (Sql.changes cond s =? 0) eqn:E; [|reflexivity].
    apply Z.eqb_eq in E.
    pose proof (proj1 (changes_zero cond s) E p Hp) as Hcp.
    unfold cond in Hcp. rewrite Hid, String.eqb_refl in Hcp. discriminate. }
  split; [destruct (noUpdates u); reflexivity|].
  intros i p Hi. destruct (noUpdates u) eqn:Hno.
  - exists p. simpl. repeat split; auto; intros; congruence.
  - cbv zeta. simpl. rewrite list_lookup_fmap, Hi. simpl.
    eexists. split; [reflexivity|]. unfold Sql.rewriteRow.
    destruct (cond p) eqn:Hc.
    + assert (Hid : Participant.id p = participantId)
        by (now apply String.eqb_eq).
      destruct u as [[a|] [v|] [sc|]]; destruct p; simpl in *;
        repeat split; auto; intros; congruence.
    + assert (Hid : Participant.id p <> participantId)
        by (now apply String.eqb_neq).
      repeat split; auto; intros; contradiction.
Qed.

(** Bob switches his camera off: his microphone stays on; an update of an
    id nobody has is answered 404. *)
Lemma X8_update_writes_named_flags_witness :
  updateParticipant "nobody"
    (UpdateParticipantRequest.mk None (Some false) None) Scenario.withBob
  = (Err NotFound, Scenario.withBob)
  /\ answer (updateParticipant "m2c8v5n1zs4"
               (UpdateParticipantRequest.mk None (Some false) None))
       Scenario.withBob = Ok tt.
Proof.
  destruct (X8_update_writes_named_flags "nobody"
              (UpdateParticipantRequest.mk None (Some false) None)
              Scenario.withBob) as (_ & H404 & _).
  destruct (X8_update_writes_named_flags "m2c8v5n1zs4"
              (UpdateParticipantRequest.mk None (Some false) None)
              Scenario.withBob) as (_ & _ & Hok & _).
  split.
  - apply H404; [reflexivity|].
    intros p Hp. vm_compute in Hp.
    destruct Hp as [<-|[<-|[]]]; discriminate.
  - apply Hok; [reflexivity|].
    eexists. split; [right; left; reflexivity|reflexivity].
Defined.

(** ** The list of participants *)

Lemma insertByJoinedAt_perm p l : Permutation (insertByJoinedAt p l) (p :: l).
Proof.
  induction l as [|q l IH]; simpl; [reflexivity|].
  destruct (_ <=? _); [reflexivity|].
  rewrite IH. apply perm_swap.
Qed.

Lemma orderByJoinedAt_perm l : Permutation (orderByJoinedAt l) l.
Proof.
  induction l as [|p l IH]; simpl; [reflexivity|].
  rewrite insertByJoinedAt_perm. now constructor.
Qed.

Lemma insertByJoinedAt_sorted p l :
  StronglySorted (fun a b => Participant.joined_at a
                             <= Participant.joined_at b) l ->
  StronglySorted (fun a b => Participant.joined_at a
                             <= Participant.joined_at b)
    (insertByJoinedAt p l).
Proof.
  induction 1 as [|q l Hl IH Hq]; simpl.
  - constructor; constructor.
  - destruct (Z.leb_spec (Participant.joined_at p) (Participant.joined_at q)).
    + constructor; [now constructor|].
      constructor; [assumption|].
      eapply Forall_impl; [exact Hq|]. simpl. intros x Hx. lia.
    + constructor; [exact IH|].
      eapply Permutation_Forall;
        [symmetry; apply insertByJoinedAt_perm|].
      constructor; [lia|exact Hq].
Qed.

Lemma orderByJoinedAt_sorted l :
  StronglySorted (fun a b => Participant.joined_at a
                             <= Participant.joined_at b)
    (orderByJoinedAt l).
Proof.
  induction l as [|p l IH]; simpl; [constructor|].
  now apply insertByJoinedAt_sorted.
Qed.

Lemma StronglySorted_map {A B} (f : A -> B) (R : B -> B -> Prop) l :
  StronglySorted (fun a b => R (f a) (f b)) l ->
  StronglySorted R (List.map f l).
Proof.
  induction 1 as [|x l Hl IH Hx]; simpl; constructor; auto.
  clear Hl IH. induction Hx; simpl; constructor; auto.
Qed.

(** X9: the list of a room's participants is the present rows of
    that room, each exactly once, in ascending order of joining time; its
    length is the participant count the room's details report; reading it
    changes nothing; and as many of its entries are hosts as the room
    has present hosts. *)
Theorem X9_participant_list (roomId : string) (s : Store) :
  exists l,
    listParticipants roomId s = (Ok l, s)
    /\ StronglySorted (fun a b => viewJoinedAt a <= viewJoinedAt b) l
    /\ Permutation l
         (List.map viewOf
            (List.filter (Sql.presentIn roomId) (participants s)))
    /\ Z.of_nat (List.length l) = Sql.countPresent roomId s
    /\ (forall info, answer (getRoomRoute roomId) s = Ok info ->
                     participantCount info = Z.of_nat (List.length l))
    /\ Z.of_nat (List.length (List.filter viewIsHost l))
       = Sql.countPresentHosts roomId s.
Proof.
  set (rows := List.filter (Sql.presentIn roomId) (participants s)).
  exists (List.map viewOf (orderByJoinedAt rows)).
  assert (Hperm : Permutation (List.map viewOf (orderByJoinedAt rows))
                    (List.map viewOf rows))
    by (apply Permutation_map, orderByJoinedAt_perm).
  assert (Hlen : Z.of_nat (List.length (List.map viewOf (orderByJoinedAt rows)))
                 = Sql.countPresent roomId s).
  { rewrite (Permutation_length Hperm), length_map. reflexivity. }
  split; [reflexivity|]. split.
  { apply (StronglySorted_map viewOf
             (fun a b => viewJoinedAt a <= viewJoinedAt b)).
    apply orderByJoinedAt_sorted. }
  split; [exact Hperm|]. split; [exact Hlen|]. split.
  { intros info. unfold answer. rewrite getRoomRoute_unfold.
    destruct (roomIdParamSchema roomId); [|discriminate].
    destruct (Sql.roomById roomId s); [|discriminate].
    simpl. intros [= <-]. simpl. now rewrite Hlen. }
  assert (Hf : Permutation
                 (List.filter viewIsHost
                    (List.map viewOf (orderByJoinedAt rows)))
                 (List.filter viewIsHost (List.map viewOf rows))).
  { clear Hlen. induction Hperm as [|x a b Hab IH|x y a|a b c H1 IH1 H2 IH2];
      simpl.
    - constructor.
    - destruct (viewIsHost x); [now constructor|exact IH].
    - destruct (viewIsHost x), (viewIsHost y);
        try reflexivity. apply perm_swap.
    - now transitivity (List.filter viewIsHost b). }
  rewrite (Permutation_length Hf).
  unfold Sql.countPresentHosts.
  assert (E : List.length (List.filter viewIsHost (List.map viewOf rows))
              = List.length (List.filter (Sql.presentHostIn roomId)
                               (participants s))).
  { unfold rows. clear. induction (participants s) as [|p l IH];
      [reflexivity|]. simpl.
    replace (Sql.presentHostIn roomId p)
      with (Sql.presentIn roomId p && Participant.is_host p)
      by (unfold Sql.presentIn, Sql.presentHostIn;
          destruct (String.eqb (Participant.room_id p) roomId),
                   (Participant.present p), (Participant.is_host p);
          reflexivity).
    destruct (Sql.presentIn roomId p); simpl; [|exact IH].
    destruct (Participant.is_host p); simpl; now rewrite IH. }
  now rewrite E.
Qed.

(** In the standing session the list has two entries and one host. *)
Lemma X9_participant_list_witness :
  exists l,
    answer (listParticipants "abcdefghijkl") Scenario.withBob = Ok l
    /\ List.length l = 2%nat
    /\ List.length (List.filter viewIsHost l) = 1%nat.
Proof.
  destruct (X9_participant_list "abcdefghijkl" Scenario.withBob)
    as (l & Hl & _ & _ & Hlen & _ & Hhost).
  exists l. split; [unfold answer; now rewrite Hl|]. split.
  - apply Nat2Z.inj. rewrite Hlen. reflexivity.
  - apply Nat2Z.inj. rewrite Hhost. reflexivity.
Defined.

(** ** Ids are keys *)

Lemma filter_key_le1 {A} (key : A -> string) (P : A -> bool) id (l : list A) :
  NoDup (List.map key l) ->
  (forall x, P x = true -> key x = id) ->
  (List.length (List.filter P l) <= 1)%nat.
Proof.
  intros Hnd HP. induction l as [|x l IH]; simpl; [lia|].
  simpl in Hnd. apply NoDup_cons in Hnd as [Hx Hl].
  specialize (IH Hl). destruct (P x) eqn:Ex; [|exact IH].
  assert (Hnil : List.filter P l = []).
  { apply filter_none. intros y Hy.
    destruct (P y) eqn:Ey; [|reflexivity]. exfalso. apply Hx.
    rewrite list_elem_of_In. apply in_map_iff. exists y.
    split; [|exact Hy]. rewrite (HP x Ex), (HP y Ey). reflexivity. }
  simpl. rewrite Hnil. simpl. lia.
Qed.

(** X10: in a reachable store an id is a key of its table: no two
    rooms and no two participant rows share an id, every room row is the
    one its id selects, an update by participant id changes at most one
    row and the selection of a present participant by id, of which the
    handlers take the first row, has at most one. Every participant row
    belongs to a stored room. *)
Theorem X10_ids_are_keys (s : Store) (Hs : reachable s) :
  NoDup (List.map Room.id (rooms s))
  /\ NoDup (List.map Participant.id (participants s))
  /\ (forall room, In room (rooms s) ->
                   Sql.roomById (Room.id room) s = Some room)
  /\ (forall id,
        Sql.changes (fun p => String.eqb (Participant.id p) id) s <= 1)
  /\ (forall id, (List.length (Sql.selectPresentWithId id s) <= 1)%nat)
  /\ (forall p, In p (participants s) ->
                exists room, Sql.roomById (Participant.room_id p) s
                             = Some room).
Proof.
  destruct (reachable_uniqueIds s Hs) as [Hr Hp].
  split; [exact Hr|]. split; [exact Hp|]. split.
  { intros room Hin. unfold Sql.roomById.
    induction (rooms s) as [|x l IH]; [destruct Hin|].
    simpl in Hr. apply NoDup_cons in Hr as [Hx Hl]. simpl.
    destruct (String.eqb_spec (Room.id x) (Room.id room)) as [E|E].
    - destruct Hin as [->|Hin]; [reflexivity|].
      exfalso. apply Hx. rewrite list_elem_of_In, E.
      apply in_map. exact Hin.
    - destruct Hin as [->|Hin]; [congruence|]. now apply IH. }
  split.
  { intros id. unfold Sql.changes.
    pose proof (filter_key_le1 Participant.id
                  (fun p => String.eqb (Participant.id p) id) id
                  (participants s) Hp) as H.
    assert (forall x, String.eqb (Participant.id x) id = true ->
                      Participant.id x = id)
      by (intros x Hx; now apply String.eqb_eq).
    specialize (H H0). lia. }
  split.
  { intros id. apply (filter_key_le1 Participant.id _ id _ Hp).
    intros x Hx. unfold Sql.presentWithId in Hx.
    apply andb_true_iff in Hx as [Hx _]. now apply String.eqb_eq. }
  intros p Hin.
  pose proof (reachable_roomsKnown s Hs p Hin) as Hk.
  destruct (Sql.roomById (Participant.room_id p) s) as [room|];
    [now exists room|congruence].
Qed.

(** In the standing session Bob's id selects one row. *)
Lemma X10_ids_are_keys_witness :
  Sql.changes (fun p => String.eqb (Participant.id p) "m2c8v5n1zs4")
    Scenario.withBob <= 1.
Proof.
  destruct (X10_ids_are_keys Scenario.withBob Scenario.withBob_reachable)
    as (_ & _ & _ & H & _).
  exact (H "m2c8v5n1zs4").
Defined.

(** ** Stored text *)

(** X11: every text the server has stored went through
    [sanitizeString]: in a reachable store no room title or description
    contains [<] or [>]; every participant name is non-empty, made of the
    characters of the join schema, free of [<] and [>], and unchanged by
    trimming and sanitizing it again; and the reading endpoints hand out
    only such titles and names. *)
Theorem X11_stored_text_is_clean (s : Store) (Hs : reachable s) :
  (forall r, In r (rooms s) ->
     cleanText (Room.title r)
     /\ forall d, Room.description r = Some d -> cleanText d)
  /\ (forall p, In p (participants s) ->
        Str.matchesName (Participant.name p) = true
        /\ cleanText (Participant.name p)
        /\ sanitizeString (Str.trim (Participant.name p))
           = Participant.name p)
  /\ (forall id info, answer (getRoomRoute id) s = Ok info ->
                      cleanText (infoTitle info))
  /\ (forall roomId l, answer (listParticipants roomId) s = Ok l ->
                       forall v, In v l -> cleanText (viewName v)).
Proof.
  pose proof (reachable_cleanRooms s Hs) as Hrooms.
  pose proof (reachable_namesMatch s Hs) as Hnames.
  assert (Hclean : forall p, In p (participants s) ->
                             cleanText (Participant.name p)).
  { intros p Hp. specialize (Hnames p Hp).
    unfold Str.matchesName in Hnames.
    apply andb_prop in Hnames as [_ Hchars].
    now apply nameChars_noAngles. }
  split.
  { intros r Hr. destruct (Hrooms r Hr) as [Ht Hd]. split; [exact Ht|].
    intros d Ed. now rewrite Ed in Hd. }
  split.
  { intros p Hp. split; [now apply Hnames|]. split; [now apply Hclean|].
    exact (proj1 (reachable_namesStored s Hs p Hp)). }
  split.
  { intros id info. unfold answer. rewrite getRoomRoute_unfold.
    destruct (roomIdParamSchema id); [|discriminate].
    destruct (Sql.roomById id s) as [room|] eqn:E; [|discriminate].
    simpl. intros [= <-]. simpl.
    apply (Hrooms room). unfold Sql.roomById in E.
    apply find_some in E as [Hin _]. exact Hin. }
  intros roomId l. unfold answer, listParticipants, bind, query, ret.
  simpl. intros [= <-] v Hv.
  apply in_map_iff in Hv as (p & <- & Hp). simpl.
  apply Hclean.
  apply (Permutation_in p (orderByJoinedAt_perm _)) in Hp.
  apply filter_In in Hp as [Hp _]. exact Hp.
Qed.

(** The title read back in the standing session carries no tag. *)
Lemma X11_stored_text_is_clean_witness :
  exists info,
    answer (getRoomRoute "abcdefghijkl") Scenario.withBob = Ok info
    /\ cleanText (infoTitle info).
Proof.
  destruct (X11_stored_text_is_clean Scenario.withBob
              Scenario.withBob_reachable) as (_ & _ & H & _).
  eexists. split; [vm_compute; reflexivity|].
  apply (H "abcdefghijkl"). reflexivity.
Defined.

(** ** Joining under a new name *)

Lemma find_snoc_id participantId s p :
  idFree participantId s -> Participant.id p = participantId ->
  List.find (fun p' => String.eqb (Participant.id p') participantId)
    (participants s ++ [p]) = Some p.
Proof.
  intros Hfree Hid. unfold idFree in Hfree.
  induction (participants s) as [|x l IH]; simpl.
  - now rewrite Hid, String.eqb_refl.
  - destruct (String.eqb_spec (Participant.id x) participantId) as [E|_].
    + exfalso. apply (Hfree x); [now left|exact E].
    + apply IH. intros q Hq. apply Hfree. now right.
Qed.

Lemma insertParticipant_fresh p s :
  idFree (Participant.id p) s ->
  Sql.insertParticipant p s
  = Some (mkStore (rooms s) (participants s ++ [p])).
Proof.
  intros Hfree. unfold Sql.insertParticipant.
  destruct (existsb _ (participants s)) eqn:E; [|reflexivity].
  apply existsb_exists in E as (q & Hq & Hid).
  apply String.eqb_eq in Hid. exfalso. exact (Hfree q Hq Hid).
Qed.

(** X12: a join that passes the admission checks under a name
    nobody present in the room carries, with a fresh participant id,
    appends exactly one row and answers with it: the id drawn, the
    sanitized name, the time of the request, audio and video on. The
    newcomer is host exactly when the room had no present host: a room
    without a host gets one, and a room with hosts keeps their number; the
    room's count of present participants grows by one, and the newcomer
    is in the list of participants. *)
Theorem X12_fresh_join
    (s : Store) (participantId : string) (now : Z)
    (body v : JoinRoomRequest.t) (room : Room.row)
    (Hv : joinRoomSchema body = Some v)
    (Hid : Str.truthy participantId = true)
    (Hfree : idFree participantId s)
    (Hroom : Sql.roomById (JoinRoomRequest.roomId body) s = Some room)
    (Hactive : Room.is_active room = true)
    (Hpw : passwordRejected (Room.password room)
             (JoinRoomRequest.password body) = false)
    (Hcap : Sql.countPresent (JoinRoomRequest.roomId body) s
            < Room.max_participants room)
    (Hnew : Sql.selectPresentNamed (JoinRoomRequest.roomId body)
              (sanitizeString (JoinRoomRequest.participantName v)) s = []) :
  let roomId := JoinRoomRequest.roomId body in
  let p := newParticipant participantId roomId
             (sanitizeString (JoinRoomRequest.participantName v))
             (datetimeNow now) (Sql.countPresentHosts roomId s =? 0) in
  let s' := mkStore (rooms s) (participants s ++ [p]) in
  joinRoomRoute participantId now body s = (Ok (joinResponse room p), s')
  /\ Sql.countPresent roomId s' = Sql.countPresent roomId s + 1
  /\ Sql.countPresent roomId s' <= Room.max_participants room
  /\ Sql.countPresentHosts roomId s'
     = Sql.countPresentHosts roomId s
       + (if Sql.countPresentHosts roomId s =? 0 then 1 else 0)
  /\ (Participant.is_host p = true
      <-> forall q, In q (participants s) ->
                    Sql.presentIn roomId q = true ->
                    Participant.is_host q = false)
  /\ (exists l, listParticipants roomId s' = (Ok l, s')
                /\ In (viewOf p) l).
Proof.
  cbv zeta.
  destruct (joinRoomRoute_valid participantId now body v s Hv) as [-> Hrid].
  destruct (joinRoomSchema_inv body v Hv) as (_ & _ & _ & _ & Epw).
  rewrite joinRoom_unfold. cbv zeta. rewrite Hrid, Hroom, Hactive. simpl negb.
  cbv iota. rewrite Epw, Hpw.
  destruct (Z.leb_spec (Room.max_participants room)
              (Sql.countPresent (JoinRoomRequest.roomId body) s)) as [H|_];
    [lia|].
  rewrite Hnew.
  set (p := newParticipant participantId (JoinRoomRequest.roomId body)
              (sanitizeString (JoinRoomRequest.participantName v))
              (datetimeNow now)
              (Sql.countPresentHosts (JoinRoomRequest.roomId body) s =? 0)).
  rewrite (insertParticipant_fresh p s Hfree).
  unfold idToUse. rewrite Hid. simpl participants.
  rewrite (find_snoc_id participantId s p Hfree eq_refl).
  assert (Hin : Sql.presentIn (JoinRoomRequest.roomId body) p = true).
  { unfold Sql.presentIn, p. simpl. now rewrite String.eqb_refl. }
  assert (Hcount :
            Sql.countPresent (JoinRoomRequest.roomId body)
              (mkStore (rooms s) (participants s ++ [p]))
            = Sql.countPresent (JoinRoomRequest.roomId body) s + 1).
  { rewrite countPresent_app, Hin. reflexivity. }
  split; [reflexivity|]. split; [exact Hcount|]. split; [lia|]. split.
  { unfold Sql.countPresentHosts in *. simpl participants.
    rewrite List.filter_app, length_app. simpl.
    unfold Sql.presentHostIn at 2. unfold p at 1 2 3. simpl.
    rewrite String.eqb_refl. simpl.
    set (n := List.length
                (List.filter
                   (Sql.presentHostIn (JoinRoomRequest.roomId body))
                   (participants s))) in *.
    destruct (Z.eqb_spec (Z.of_nat n) 0) as [E|E]; simpl; lia. }
  split.
  { unfold p. simpl. rewrite Z.eqb_eq. apply countPresentHosts_zero. }
  eexists. split; [reflexivity|].
  apply in_map.
  apply (Permutation_in p (Permutation_sym (orderByJoinedAt_perm _))).
  apply filter_In. split; [|exact Hin].
  simpl. apply in_or_app. right. now left.
Qed.

(** Carol joins the room Bob has left and is not its host, the creator
    being still there. *)
Lemma X12_fresh_join_witness :
  answer (joinRoomRoute "q7w1e4r9t2y" (Scenario.t0 + 3 * Scenario.minute)
            (Scenario.joinAs "Carol")) Scenario.bobGone
  = Ok (mkJoinRoomResponse "abcdefghijkl" 2
          (mkParticipantResponse "q7w1e4r9t2y" "Carol" 1700000180 false)).
Proof.
  edestruct (X12_fresh_join Scenario.bobGone "q7w1e4r9t2y"
               (Scenario.t0 + 3 * Scenario.minute) (Scenario.joinAs "Carol"))
    as (H & _).
  - reflexivity.
  - reflexivity.
  - intros q Hq. vm_compute in Hq.
    destruct Hq as [<-|[<-|[]]]; discriminate.
  - reflexivity.
  - reflexivity.
  - reflexivity.
  - reflexivity.
  - reflexivity.
  - unfold answer. rewrite H. reflexivity.
Defined.

(** ** What [sanitizeString] returns *)

Lemma collapse_single b l :
  singleSpaced b (Str.collapseSpaces b l) = true.
Proof.
  revert b. induction l as [|c l IH]; intros b; [reflexivity|].
  simpl. destruct (Str.isSpace c) eqn:Hc.
  - destruct b; [apply IH|].
    change (singleSpaced false (" "%char :: Str.collapseSpaces true l))
      with (true && true && singleSpaced true (Str.collapseSpaces true l)).
    simpl. apply IH.
  - simpl. rewrite Hc. apply IH.
Qed.

Lemma collapse_fixed b l :
  singleSpaced b l = true -> Str.collapseSpaces b l = l.
Proof.
  revert b. induction l as [|c l IH]; intros b; [reflexivity|].
  simpl. destruct (Str.isSpace c) eqn:Hc.
  - intros H. apply andb_prop in H as [H Hl]. apply andb_prop in H as [Hb Hsp].
    destruct b; [discriminate|]. apply Ascii.eqb_eq in Hsp. subst c.
    f_equal. now apply IH.
  - intros H. f_equal. now apply IH.
Qed.

Lemma single_weaken l :
  singleSpaced true l = true -> singleSpaced false l = true.
Proof.
  destruct l as [|c l]; [reflexivity|]. simpl.
  destruct (Str.isSpace c); [discriminate|auto].
Qed.

Lemma trimStart_single b l :
  singleSpaced b l = true -> singleSpaced false (Str.trimStart l) = true.
Proof.
  revert b. induction l as [|c l IH]; intros b; [reflexivity|].
  simpl. destruct (Str.isSpace c) eqn:Hc.
  - intros H. apply andb_prop in H as [_ Hl]. exact (IH true Hl).
  - intros H. simpl. now rewrite Hc.
Qed.

Lemma trimEnd_single b l :
  singleSpaced b l = true -> singleSpaced b (Str.trimEnd l) = true.
Proof.
  revert b. induction l as [|c l IH]; intros b; [reflexivity|].
  rewrite trimEnd_cons. simpl. destruct (Str.isSpace c) eqn:Hc.
  - intros H. apply andb_prop in H as [H Hl]. specialize (IH true Hl).
    destruct (Str.trimEnd l); [reflexivity|].
    simpl singleSpaced at 1. rewrite Hc, H. exact IH.
  - intros H. specialize (IH false H).
    destruct (Str.trimEnd l); simpl; rewrite Hc; [reflexivity|exact IH].
Qed.

Lemma trimStart_noAngles l :
  Str.noAngles l = true -> Str.noAngles (Str.trimStart l) = true.
Proof.
  unfold Str.noAngles. induction l as [|c l IH]; [reflexivity|].
  simpl. intros H. apply andb_prop in H as [Hc Hl].
  destruct (Str.isSpace c); [auto|]. simpl. now rewrite Hc, Hl.
Qed.

Lemma trimEnd_noAngles l :
  Str.noAngles l = true -> Str.noAngles (Str.trimEnd l) = true.
Proof.
  unfold Str.noAngles. induction l as [|c l IH]; [reflexivity|].
  rewrite trimEnd_cons. simpl. intros H. apply andb_prop in H as [Hc Hl].
  specialize (IH Hl).
  destruct (Str.trimEnd l); [destruct (Str.isSpace c)|]; simpl;
    rewrite ?Hc; auto.
Qed.

Lemma trimEnd_length l :
  (List.length (Str.trimEnd l) <= List.length l)%nat.
Proof.
  induction l as [|c l IH]; [reflexivity|].
  rewrite trimEnd_cons.
  destruct (Str.trimEnd l); [destruct (Str.isSpace c)|]; simpl in *; lia.
Qed.

Lemma collapse_length b l :
  (List.length (Str.collapseSpaces b l) <= List.length l)%nat.
Proof.
  revert b. induction l as [|c l IH]; intros b; [reflexivity|].
  simpl. destruct (Str.isSpace c); [destruct b|]; simpl;
    [specialize (IH true)|specialize (IH true)|specialize (IH false)]; lia.
Qed.

Lemma string_length_list s :
  String.length s = List.length (list_ascii_of_string s).
Proof. induction s as [|c s IH]; simpl; congruence. Qed.

(** X13: what [sanitizeString] returns, for every input: it holds
    no [<] and no [>]; white space occurs in it only as single plain
    spaces; it is no longer than the input; and sanitizing it again only
    trims it. For an input free of [<] and [>] the result has no space at
    either end and sanitizing is idempotent; with them it is not: removing
    a [<] can bring an inner space to the front. *)
Theorem X13_sanitizeString_result (input : string) :
  let out := sanitizeString input in
  cleanText out
  /\ singleSpaced false (list_ascii_of_string out) = true
  /\ (String.length out <= String.length input)%nat
  /\ sanitizeString out = Str.trim out
  /\ (cleanText input ->
      Str.trim out = out /\ sanitizeString out = out).
Proof.
  cbv zeta.
  assert (Hclean : cleanText (sanitizeString input))
    by apply sanitizeString_clean.
  assert (Hsingle : singleSpaced false
                      (list_ascii_of_string (sanitizeString input)) = true).
  { unfold sanitizeString. rewrite list_ascii_of_string_of_list_ascii.
    apply collapse_single. }
  assert (Hagain : sanitizeString (sanitizeString input)
                   = Str.trim (sanitizeString input)).
  { unfold sanitizeString at 1. unfold Str.trim.
    set (y := list_ascii_of_string (sanitizeString input)) in *.
    unfold cleanText in Hclean. fold y in Hclean. f_equal.
    rewrite stripAngles_noAngles
      by (unfold Str.trimL; apply trimEnd_noAngles, trimStart_noAngles,
          Hclean).
    apply collapse_fixed. unfold Str.trimL.
    apply trimEnd_single, (trimStart_single false), Hsingle. }
  split; [exact Hclean|]. split; [exact Hsingle|]. split.
  { rewrite !string_length_list. unfold sanitizeString.
    rewrite list_ascii_of_string_of_list_ascii.
    set (l := list_ascii_of_string input).
    pose proof (collapse_length false (Str.stripAngles (Str.trimL l))).
    pose proof (filter_length_le (fun c => negb (Str.isAngle c))
                  (Str.trimL l)) as Hf.
    pose proof (trimEnd_length (Str.trimStart l)).
    pose proof (trimStart_length l).
    unfold Str.stripAngles, Str.trimL in *. lia. }
  split; [exact Hagain|].
  intros Hin.
  assert (Htrim : Str.trim (sanitizeString input) = sanitizeString input).
  { unfold Str.trim, sanitizeString.
    rewrite list_ascii_of_string_of_list_ascii. f_equal.
    unfold cleanText in Hin.
    set (l := list_ascii_of_string input) in *.
    rewrite stripAngles_noAngles
      by (unfold Str.trimL; apply trimEnd_noAngles, trimStart_noAngles, Hin).
    destruct (trimL_fixed (Str.trimL l) (trimL_idem l)) as [Hs He].
    unfold Str.trimL at 1.
    rewrite (trimStart_collapse _ Hs). apply trimEnd_collapse, He. }
  split; [exact Htrim|]. now rewrite Hagain.
Qed.

(** A title without tags is trimmed and stable; the title [< a] is stored
    with a space in front, which a second pass removes. *)
Lemma X13_sanitizeString_result_witness :
  (Str.trim (sanitizeString "  Daily   standup ")
   = sanitizeString "  Daily   standup "
   /\ sanitizeString (sanitizeString "  Daily   standup ")
      = sanitizeString "  Daily   standup ")
  /\ sanitizeString "< a" = " a"
  /\ sanitizeString (sanitizeString "< a") = "a".
Proof.
  split; [|split; reflexivity].
  destruct (X13_sanitizeString_result "  Daily   standup ")
    as (_ & _ & _ & _ & H).
  apply H. reflexivity.
Defined.

(* ===================================================================== *)
(** * The socket server *)
(* ===================================================================== *)

(** ** Counters and bound connections *)

Lemma get_In clientId h c :
  Hub.get clientId h = Some c -> In (clientId, c) (Hub.connectedClients h).
Proof.
  unfold Hub.get.
  destruct (List.find _ (Hub.connectedClients h)) as [[k x]|] eqn:E;
    [|discriminate].
  simpl. intros [= <-]. apply find_some in E as [Hin Hk].
  simpl in Hk. apply String.eqb_eq in Hk. now subst k.
Qed.

Lemma get_None clientId h :
  Hub.get clientId h = None ->
  forall kc, In kc (Hub.connectedClients h) -> fst kc <> clientId.
Proof.
  unfold Hub.get.
  destruct (List.find _ (Hub.connectedClients h)) as [kc|] eqn:E;
    [discriminate|].
  intros _ kc Hin Hk.
  pose proof (find_none _ _ E kc Hin) as Hf. simpl in Hf.
  rewrite Hk, String.eqb_refl in Hf. discriminate.
Qed.

Lemma key_In (l : list (string * Hub.ConnectedClient)) k c :
  In (k, c) l -> In k (List.map fst l).
Proof. intros H. apply in_map_iff. now exists (k, c). Qed.

(** Rewriting fields other than the room leaves keys and bound counts. *)
Lemma rewrite_keeps (f : string * Hub.ConnectedClient
                         -> string * Hub.ConnectedClient) l room :
  (forall kc, fst (f kc) = fst kc
              /\ Hub.roomId (snd (f kc)) = Hub.roomId (snd kc)) ->
  List.map fst (List.map f l) = List.map fst l
  /\ List.length (List.filter (fun kc => Hub.boundTo room (snd kc))
                    (List.map f l))
     = List.length (List.filter (fun kc => Hub.boundTo room (snd kc)) l).
Proof.
  intros Hf. induction l as [|kc l [IH1 IH2]]; [now split|].
  destruct (Hf kc) as [Hk Hr]. simpl. rewrite Hk, IH1.
  split; [reflexivity|].
  assert (Hb : Hub.boundTo room (snd (f kc)) = Hub.boundTo room (snd kc))
    by (unfold Hub.boundTo; now rewrite Hr).
  rewrite Hb. destruct (Hub.boundTo room (snd kc)); simpl; now rewrite IH2.
Qed.

Lemma rebind_absent clientId room pid
    (l : list (string * Hub.ConnectedClient)) :
  ~ In clientId (List.map fst l) ->
  List.map (fun kc =>
              if String.eqb (fst kc) clientId
              then (fst kc,
                    Hub.mkClient (Hub.isOpen (snd kc)) room pid
                      (Hub.lastPing (snd kc)) (Hub.isAlive (snd kc)))
              else kc) l = l.
Proof.
  induction l as [|kc l IH]; [reflexivity|]. simpl. intros Hn.
  destruct (String.eqb_spec (fst kc) clientId) as [E|_];
    [exfalso; apply Hn; now left|].
  f_equal. apply IH. intros H. apply Hn. now right.
Qed.

(** Binding one connection moves it from the count of its old room to the
    count of its new one. *)
Lemma rebind_count clientId room pid c
    (l : list (string * Hub.ConnectedClient)) r :
  NoDup (List.map fst l) -> In (clientId, c) l ->
  Z.of_nat
    (List.length
       (List.filter (fun kc => Hub.boundTo r (snd kc))
          (List.map (fun kc =>
                       if String.eqb (fst kc) clientId
                       then (fst kc,
                             Hub.mkClient (Hub.isOpen (snd kc)) room pid
                               (Hub.lastPing (snd kc))
                               (Hub.isAlive (snd kc)))
                       else kc) l)))
  = Z.of_nat
      (List.length (List.filter (fun kc => Hub.boundTo r (snd kc)) l))
    - (if Hub.boundTo r c then 1 else 0)
    + (if match room with Some x => String.eqb x r | None => false end
       then 1 else 0).
Proof.
  induction l as [|kc l IH]; intros Hnd Hin; [destruct Hin|].
  simpl in Hnd. apply NoDup_cons in Hnd as [Hk Hl].
  rewrite list_elem_of_In in Hk.
  cbn [List.map].
  destruct (String.eqb_spec (fst kc) clientId) as [E|E].
  - assert (kc = (clientId, c)).
    { destruct Hin as [H|H]; [exact H|].
      exfalso. apply Hk. rewrite E. exact (key_In l clientId c H). }
    subst kc. simpl in Hk.
    rewrite (rebind_absent clientId room pid l Hk).
    cbn [List.filter snd]. unfold Hub.boundTo at 1. cbn [Hub.roomId].
    destruct (match room with Some x => String.eqb x r | None => false end);
      destruct (Hub.boundTo r c); cbn [List.length]; lia.
  - destruct Hin as [H|H]; [subst kc; simpl in E; congruence|].
    specialize (IH Hl H). cbn [List.filter].
    destruct (Hub.boundTo r (snd kc)); cbn [List.length]; lia.
Qed.

Lemma delete_keys clientId (l : list (string * Hub.ConnectedClient)) :
  NoDup (List.map fst l) ->
  NoDup (List.map fst (Ws.mapDelete clientId l)).
Proof.
  unfold Ws.mapDelete. induction l as [|kc l IH]; [auto|].
  simpl. intros Hnd. apply NoDup_cons in Hnd as [Hk Hl].
  destruct (negb (String.eqb (fst kc) clientId)); [|auto].
  simpl. apply NoDup_cons. split; [|auto].
  rewrite list_elem_of_In in *. intros Hin. apply Hk.
  apply in_map_iff in Hin as (x & Hx & Hin).
  apply filter_In in Hin as [Hin _]. apply in_map_iff. now exists x.
Qed.

Lemma delete_count clientId (l : list (string * Hub.ConnectedClient)) r :
  (List.length (List.filter (fun kc => Hub.boundTo r (snd kc))
                  (Ws.mapDelete clientId l))
   <= List.length (List.filter (fun kc => Hub.boundTo r (snd kc)) l))%nat.
Proof.
  unfold Ws.mapDelete. induction l as [|kc l IH]; [reflexivity|].
  simpl. destruct (negb (String.eqb (fst kc) clientId)); simpl;
    destruct (Hub.boundTo r (snd kc)); simpl; lia.
Qed.

Lemma mapSet_keys clientId c (l : list (string * Hub.ConnectedClient)) :
  NoDup (List.map fst l) -> NoDup (List.map fst (Ws.mapSet clientId c l)).
Proof.
  intros Hnd. unfold Ws.mapSet.
  destruct (existsb _ l) eqn:E.
  - replace (List.map fst (List.map _ l)) with (List.map fst l);
      [exact Hnd|].
    rewrite List.map_map. apply List.map_ext. intros kc.
    destruct (String.eqb_spec (fst kc) clientId); simpl; congruence.
  - rewrite List.map_app. simpl. apply NoDup_snoc; [exact Hnd|].
    intros Hin. apply in_map_iff in Hin as (kc & Hk & Hin).
    assert (existsb (fun kc => String.eqb (fst kc) clientId) l = true).
    { apply existsb_exists. exists kc. split; [exact Hin|].
      rewrite Hk. apply String.eqb_refl. }
    congruence.
Qed.

Lemma mapSet_count clientId c (l : list (string * Hub.ConnectedClient)) r :
  Hub.roomId c = None ->
  (List.length (List.filter (fun kc => Hub.boundTo r (snd kc))
                  (Ws.mapSet clientId c l))
   <= List.length (List.filter (fun kc => Hub.boundTo r (snd kc)) l))%nat.
Proof.
  intros Hc. unfold Ws.mapSet.
  assert (Hb : Hub.boundTo r c = false) by (unfold Hub.boundTo; now rewrite Hc).
  destruct (existsb _ l).
  - induction l as [|kc l IH]; [reflexivity|]. simpl.
    destruct (String.eqb (fst kc) clientId); simpl; rewrite ?Hb;
      destruct (Hub.boundTo r (snd kc)); simpl; lia.
  - rewrite List.filter_app, length_app. simpl. rewrite Hb. simpl. lia.
Qed.

Lemma countOf_setCount r' r n h :
  Hub.countOf r' (Hub.setCount r n h)
  = if String.eqb r' r then n else Hub.countOf r' h.
Proof.
  unfold Hub.countOf, Hub.setCount. simpl.
  destruct (String.eqb_spec r' r) as [->|Hne].
  - now rewrite lookup_insert_eq.
  - rewrite lookup_insert_ne by congruence. reflexivity.
Qed.

Lemma filter_has {A} (P : A -> bool) (l : list A) x :
  In x l -> P x = true -> (1 <= List.length (List.filter P l))%nat.
Proof.
  intros Hin Hx.
  assert (H : In x (List.filter P l)) by (apply filter_In; now split).
  destruct (List.filter P l); [destruct H|simpl; lia].
Qed.

Lemma boundTo_room r c room :
  Hub.roomId c = Some r -> Hub.boundTo room c = String.eqb room r.
Proof.
  intros H. unfold Hub.boundTo. rewrite H. apply String.eqb_sym.
Qed.

(** What [leaveRoomInternal] does to a client bound to the room named:
    the counter and the bound connections of that room both drop by one,
    other rooms are untouched, and the client is unbound. *)
Lemma leave_counts clientId client r h :
  Ws.consistent h ->
  Hub.get clientId h = Some client -> Hub.roomId client = Some r ->
  let h' := Hub.leaveRoomInternal clientId r h in
  List.map fst (Hub.connectedClients h')
  = List.map fst (Hub.connectedClients h)
  /\ (forall r', Ws.boundCount r' h'
                 = Ws.boundCount r' h - (if String.eqb r' r then 1 else 0))
  /\ (forall r', Hub.countOf r' h'
                 = Hub.countOf r' h - (if String.eqb r' r then 1 else 0))
  /\ Hub.get clientId h'
     = Some (Hub.mkClient (Hub.isOpen client) None None
               (Hub.lastPing client) (Hub.isAlive client)).
Proof.
  intros [Hnd Hle] Hget Hroom. cbv zeta.
  pose proof (get_In clientId h client Hget) as Hin.
  assert (Hone : 1 <= Ws.boundCount r h).
  { unfold Ws.boundCount.
    pose proof (filter_has (fun kc => Hub.boundTo r (snd kc))
                  (Hub.connectedClients h) (clientId, client) Hin) as H.
    simpl in H. rewrite (boundTo_room r client r Hroom), String.eqb_refl in H.
    specialize (H eq_refl). lia. }
  specialize (Hle r) as Hr.
  unfold Hub.leaveRoomInternal. rewrite Hget.
  set (hb := Hub.broadcastToRoom r _ (Some clientId) h).
  assert (Hcount : Hub.countOf r hb = Hub.countOf r h) by reflexivity.
  rewrite Hcount.
  destruct (Z.ltb_spec 0 (Hub.countOf r h)) as [_|Hneg]; [|lia].
  set (hc := Hub.setCount r (Hub.countOf r h - 1) hb).
  split; [|split; [|split]].
  - unfold Hub.setBinding. simpl. rewrite List.map_map.
    apply List.map_ext. intros kc.
    destruct (String.eqb (fst kc) clientId); reflexivity.
  - intros r'. unfold Ws.boundCount, Hub.setBinding. simpl.
    rewrite (rebind_count clientId None None client _ r' Hnd Hin).
    rewrite (boundTo_room r client r' Hroom). lia.
  - intros r'.
    change (Hub.countOf r' (Hub.setBinding clientId None None hc))
      with (Hub.countOf r' hc).
    unfold hc. rewrite countOf_setCount.
    destruct (String.eqb_spec r' r) as [->|Hne]; [lia|].
    change (Hub.countOf r' hb) with (Hub.countOf r' h). lia.
  - apply (get_setBinding_same clientId None None hc client). exact Hget.
Qed.

Lemma leave_consistent clientId client r h :
  Ws.consistent h ->
  Hub.get clientId h = Some client -> Hub.roomId client = Some r ->
  Ws.consistent (Hub.leaveRoomInternal clientId r h).
Proof.
  intros Hc Hget Hroom.
  destruct (leave_counts clientId client r h Hc Hget Hroom)
    as (Hk & Hb & Hn & _).
  destruct Hc as [Hnd Hle]. split; [now rewrite Hk|].
  intros r'. rewrite Hb, Hn. specialize (Hle r').
  destruct (String.eqb r' r); lia.
Qed.

(** The optional leave at the head of a join and of a cleanup. *)
Lemma optional_leave clientId client h :
  Ws.consistent h -> Hub.get clientId h = Some client ->
  let h1 := if truthyOpt (Hub.roomId client)
            then Hub.leaveRoomInternal clientId
                   (default EmptyString (Hub.roomId client)) h
            else h in
  Ws.consistent h1
  /\ (forall r', Ws.boundCount r' h1 <= Ws.boundCount r' h)
  /\ (forall r', Hub.countOf r' h1 <= Hub.countOf r' h)
  /\ exists c1,
       Hub.get clientId h1 = Some c1
       /\ forall r',
            Ws.boundCount r' h1 - (if Hub.boundTo r' c1 then 1 else 0)
            = Ws.boundCount r' h - (if Hub.boundTo r' client then 1 else 0)
            /\ (Hub.boundTo r' client = false ->
                Hub.countOf r' h1 = Hub.countOf r' h).
Proof.
  intros Hc Hget. cbv zeta.
  destruct (Hub.roomId client) as [r0|] eqn:Hroom; simpl truthyOpt.
  - destruct (Str.truthy r0) eqn:Ht.
    + simpl default.
      destruct (leave_counts clientId client r0 h Hc Hget Hroom)
        as (_ & Hb & Hn & Hg).
      split; [now apply (leave_consistent clientId client)|].
      split; [intros r'; rewrite Hb; destruct (String.eqb r' r0); lia|].
      split; [intros r'; rewrite Hn; destruct (String.eqb r' r0); lia|].
      eexists. split; [exact Hg|]. intros r'.
      rewrite Hb, Hn, (boundTo_room r0 client r' Hroom).
      unfold Hub.boundTo. simpl.
      destruct (String.eqb r' r0); split; intros; try discriminate; lia.
    + split; [exact Hc|]. split; [intros; lia|]. split; [intros; lia|].
      exists client. split; [exact Hget|]. intros r'. split; auto.
  - split; [exact Hc|]. split; [intros; lia|]. split; [intros; lia|].
    exists client. split; [exact Hget|]. intros r'. split; auto.
Qed.

(** A join that is not turned down, counter by counter. *)
Lemma join_counts clientId room pid h client :
  Ws.consistent h -> Hub.get clientId h = Some client ->
  Hub.countOf room h < Hub.MAX_CLIENTS_PER_ROOM ->
  let h' := Hub.handleJoinRoom clientId room pid h in
  Hub.countOf room h' = Hub.countOf room h + 1
  /\ Ws.boundCount room h'
     = Ws.boundCount room h + (if Hub.boundTo room client then 0 else 1)
  /\ Ws.consistent h'.
Proof.
  intros Hc Hget Hlt. cbv zeta. unfold Hub.handleJoinRoom. rewrite Hget.
  destruct (Z.leb_spec Hub.MAX_CLIENTS_PER_ROOM (Hub.countOf room h))
    as [Hge|_]; [lia|].
  destruct (optional_leave clientId client h Hc Hget)
    as ([Hnd1 Hle1] & Hb1 & Hn1 & c1 & Hg1 & Hrel).
  set (h1 := if truthyOpt (Hub.roomId client) then _ else h) in *.
  pose proof (get_In clientId h1 c1 Hg1) as Hin1.
  assert (Hbound : forall r',
             Ws.boundCount r'
               (Hub.broadcastToRoom room (Hub.ParticipantJoined pid room)
                  (Some clientId)
                  (Hub.setCount room (Hub.countOf room h + 1)
                     (Hub.setBinding clientId (Some room) (Some pid) h1)))
             = Ws.boundCount r' h1
               - (if Hub.boundTo r' c1 then 1 else 0)
               + (if String.eqb room r' then 1 else 0)).
  { intros r'. unfold Ws.boundCount. simpl.
    exact (rebind_count clientId (Some room) (Some pid) c1 _ r' Hnd1 Hin1). }
  assert (Hcnt : forall r',
             Hub.countOf r'
               (Hub.broadcastToRoom room (Hub.ParticipantJoined pid room)
                  (Some clientId)
                  (Hub.setCount room (Hub.countOf room h + 1)
                     (Hub.setBinding clientId (Some room) (Some pid) h1)))
             = if String.eqb r' room then Hub.countOf room h + 1
               else Hub.countOf r' h1).
  { intros r'.
    change (Hub.countOf r'
              (Hub.broadcastToRoom room (Hub.ParticipantJoined pid room)
                 (Some clientId)
                 (Hub.setCount room (Hub.countOf room h + 1)
                    (Hub.setBinding clientId (Some room) (Some pid) h1))))
      with (Hub.countOf r'
              (Hub.setCount room (Hub.countOf room h + 1)
                 (Hub.setBinding clientId (Some room) (Some pid) h1))).
    rewrite countOf_setCount. reflexivity. }
  split; [|split; [|split]].
  - rewrite Hcnt, String.eqb_refl. reflexivity.
  - rewrite Hbound, String.eqb_refl.
    destruct (Hrel room) as [E _].
    destruct (Hub.boundTo room client), (Hub.boundTo room c1); lia.
  - simpl. rewrite List.map_map.
    replace (List.map _ (Hub.connectedClients h1))
      with (List.map fst (Hub.connectedClients h1)); [exact Hnd1|].
    apply List.map_ext. intros kc.
    destruct (String.eqb (fst kc) clientId); reflexivity.
  - intros r'. rewrite Hbound, Hcnt.
    destruct Hc as [_ Hle]. specialize (Hle r') as Hr'.
    specialize (Hle1 r'). specialize (Hb1 r'). specialize (Hle room) as Hr.
    rewrite (String.eqb_sym room r').
    destruct (String.eqb_spec r' room) as [->|Hne].
    + destruct (Hub.boundTo room c1); lia.
    + destruct (Hub.boundTo r' c1); lia.
Qed.

Lemma join_consistent clientId room pid h :
  Ws.consistent h -> Ws.consistent (Hub.handleJoinRoom clientId room pid h).
Proof.
  intros Hc. destruct (Hub.get clientId h) as [client|] eqn:Hget.
  - destruct (Z.leb_spec Hub.MAX_CLIENTS_PER_ROOM (Hub.countOf room h))
      as [Hge|Hlt].
    + unfold Hub.handleJoinRoom. rewrite Hget.
      destruct (Z.leb_spec Hub.MAX_CLIENTS_PER_ROOM (Hub.countOf room h));
        [exact Hc|lia].
    + exact (proj2 (proj2 (join_counts clientId room pid h client Hc Hget
                             Hlt))).
  - unfold Hub.handleJoinRoom. now rewrite Hget.
Qed.

Lemma handleLeaveRoom_consistent clientId h :
  Ws.consistent h -> Ws.consistent (Ws.handleLeaveRoom clientId h).
Proof.
  intros Hc. unfold Ws.handleLeaveRoom.
  destruct (Hub.get clientId h) as [client|] eqn:Hget; [|exact Hc].
  pose proof (proj1 (optional_leave clientId client h Hc Hget)) as H.
  destruct (truthyOpt (Hub.roomId client)); exact H.
Qed.

Lemma cleanupClient_consistent clientId w :
  Ws.consistent (Ws.hub w) ->
  Ws.consistent (Ws.hub (Ws.cleanupClient clientId w)).
Proof.
  intros Hc. unfold Ws.cleanupClient. cbv zeta. simpl Ws.hub.
  set (h1 := match Hub.get clientId (Ws.hub w) with
             | Some client => _
             | None => Ws.hub w
             end).
  assert (H1 : Ws.consistent h1).
  { unfold h1. destruct (Hub.get clientId (Ws.hub w)) as [client|] eqn:Hget;
      [|exact Hc].
    exact (proj1 (optional_leave clientId client (Ws.hub w) Hc Hget)). }
  destruct H1 as [Hnd Hle]. split.
  - simpl. now apply delete_keys.
  - intros r. specialize (Hle r).
    pose proof (delete_count clientId (Hub.connectedClients h1) r) as Hd.
    unfold Ws.boundCount in *. simpl.
    change (Hub.countOf r (Ws.withClients _ h1)) with (Hub.countOf r h1).
    lia.
Qed.

Lemma fold_consistent {A} (f : Ws.t -> A -> Ws.t) (l : list A) w :
  (forall w' a, Ws.consistent (Ws.hub w') -> Ws.consistent (Ws.hub (f w' a))) ->
  Ws.consistent (Ws.hub w) ->
  Ws.consistent (Ws.hub (List.fold_left f l w)).
Proof.
  intros Hf. revert w. induction l as [|a l IH]; intros w Hw; [exact Hw|].
  simpl. apply IH, Hf, Hw.
Qed.

Lemma setHeartbeat_consistent clientId alive ping h :
  Ws.consistent h -> Ws.consistent (Ws.setHeartbeat clientId alive ping h).
Proof.
  intros [Hnd Hle].
  set (f := fun kc : string * Hub.ConnectedClient =>
              if String.eqb (fst kc) clientId
              then (fst kc,
                    Hub.mkClient (Hub.isOpen (snd kc))
                      (Hub.roomId (snd kc)) (Hub.participantId (snd kc))
                      (default (Hub.lastPing (snd kc)) ping) alive)
              else kc).
  assert (Hf : forall kc, fst (f kc) = fst kc
                          /\ Hub.roomId (snd (f kc)) = Hub.roomId (snd kc)).
  { intros kc. unfold f. destruct (String.eqb (fst kc) clientId); now split. }
  split.
  - simpl. fold f.
    now rewrite (proj1 (rewrite_keeps f (Hub.connectedClients h)
                          EmptyString Hf)).
  - intros r. unfold Ws.boundCount. simpl. fold f.
    rewrite (proj2 (rewrite_keeps f (Hub.connectedClients h) r Hf)).
    exact (Hle r).
Qed.

Lemma onDrop_consistent clientId w :
  Ws.consistent (Ws.hub w) -> Ws.consistent (Ws.hub (Ws.onDrop clientId w)).
Proof.
  intros [Hnd Hle].
  set (f := fun kc : string * Hub.ConnectedClient =>
              if String.eqb (fst kc) clientId
              then (fst kc,
                    Hub.mkClient false (Hub.roomId (snd kc))
                      (Hub.participantId (snd kc))
                      (Hub.lastPing (snd kc)) (Hub.isAlive (snd kc)))
              else kc).
  assert (Hf : forall kc, fst (f kc) = fst kc
                          /\ Hub.roomId (snd (f kc)) = Hub.roomId (snd kc)).
  { intros kc. unfold f. destruct (String.eqb (fst kc) clientId); now split. }
  split.
  - simpl. fold f.
    now rewrite (proj1 (rewrite_keeps f (Hub.connectedClients (Ws.hub w))
                          EmptyString Hf)).
  - intros r. unfold Ws.boundCount. simpl. fold f.
    rewrite (proj2 (rewrite_keeps f (Hub.connectedClients (Ws.hub w)) r Hf)).
    exact (Hle r).
Qed.

Lemma pingOne_consistent w clientId :
  Ws.consistent (Ws.hub w) -> Ws.consistent (Ws.hub (Ws.pingOne w clientId)).
Proof.
  intros Hc. unfold Ws.pingOne.
  destruct (Hub.get clientId (Ws.hub w)) as [client|]; [|exact Hc].
  destruct (Hub.isOpen client).
  - simpl. now apply setHeartbeat_consistent.
  - now apply cleanupClient_consistent.
Qed.

Lemma heartbeat_consistent now w :
  Ws.consistent (Ws.hub w) -> Ws.consistent (Ws.hub (Ws.heartbeat now w)).
Proof.
  intros Hc. unfold Ws.heartbeat, Ws.pingConnections.
  apply fold_consistent; [intros; now apply pingOne_consistent|].
  unfold Ws.cleanupDeadConnections.
  apply fold_consistent; [intros; now apply cleanupClient_consistent|].
  exact Hc.
Qed.

Lemma onMessage_hub clientId now data w :
  Ws.hub (fst (Ws.onMessage clientId now data w))
  = match data with
    | None => Hub.send clientId (Hub.ErrorFrame "Invalid message format")
                (Ws.hub w)
    | Some message =>
        if fst (Ws.rateLimitCheck clientId now (Ws.clientMessageCounts w))
        then fst (Ws.handleWebSocketMessage clientId message (Ws.hub w))
        else Hub.send clientId (Hub.ErrorFrame "Rate limit exceeded")
               (Ws.hub w)
    end.
Proof.
  unfold Ws.onMessage. destruct data as [message|]; [|reflexivity].
  destruct (Ws.rateLimitCheck clientId now (Ws.clientMessageCounts w))
    as [[] counts]; [|reflexivity].
  simpl. destruct (Ws.handleWebSocketMessage clientId message (Ws.hub w)).
  reflexivity.
Qed.

Lemma step_consistent e w :
  Ws.consistent (Ws.hub w) -> Ws.consistent (Ws.hub (Ws.step e w)).
Proof.
  intros Hc. destruct e as [c now|c now data|c now|c|c|now]; simpl.
  - destruct Hc as [Hnd Hle]. split.
    + simpl. now apply mapSet_keys.
    + intros r. specialize (Hle r).
      pose proof (mapSet_count c (Hub.mkClient true None None now true)
                    (Hub.connectedClients (Ws.hub w)) r eq_refl) as Hm.
      unfold Ws.boundCount in *. simpl.
      change (Hub.countOf r (Ws.withClients _ (Ws.hub w)))
        with (Hub.countOf r (Ws.hub w)).
      lia.
  - rewrite onMessage_hub. destruct data as [message|]; [|exact Hc].
    destruct (fst (Ws.rateLimitCheck c now (Ws.clientMessageCounts w)));
      [|exact Hc].
    unfold Ws.handleWebSocketMessage.
    destruct (Hub.get c (Ws.hub w)); [|exact Hc].
    destruct message; simpl; try exact Hc.
    + now apply join_consistent.
    + now apply handleLeaveRoom_consistent.
  - now apply setHeartbeat_consistent.
  - now apply onDrop_consistent.
  - now apply cleanupClient_consistent.
  - now apply heartbeat_consistent.
Qed.

Lemma attainable_consistent w : Ws.attainable w -> Ws.consistent (Ws.hub w).
Proof.
  induction 1 as [|e w _ IH]; [|now apply step_consistent].
  split; [apply NoDup_nil; exact I|].
  intros r. unfold Ws.boundCount, Hub.countOf. simpl.
  rewrite lookup_empty. simpl. unfold Hub.MAX_CLIENTS_PER_ROOM. lia.
Qed.

Lemma join_rejected clientId room pid h client :
  Hub.get clientId h = Some client ->
  Hub.MAX_CLIENTS_PER_ROOM <= Hub.countOf room h ->
  Hub.handleJoinRoom clientId room pid h
  = Hub.send clientId (Hub.ErrorFrame "Room is full") h.
Proof.
  intros Hget Hge. unfold Hub.handleJoinRoom. rewrite Hget.
  destruct (Z.leb_spec Hub.MAX_CLIENTS_PER_ROOM (Hub.countOf room h));
    [reflexivity|lia].
Qed.

Lemma join_binds clientId room pid h client :
  Hub.get clientId h = Some client ->
  Hub.countOf room h < Hub.MAX_CLIENTS_PER_ROOM ->
  Hub.get clientId (Hub.handleJoinRoom clientId room pid h)
  = Some (Hub.mkClient (Hub.isOpen client) (Some room) (Some pid)
            (Hub.lastPing client) (Hub.isAlive client)).
Proof.
  intros Hget Hlt. unfold Hub.handleJoinRoom. rewrite Hget.
  destruct (Z.leb_spec Hub.MAX_CLIENTS_PER_ROOM (Hub.countOf room h));
    [lia|].
  destruct (leave_before_join clientId client h Hget)
    as (_ & (c1 & Hg1 & E1 & E2 & E3) & _).
  rewrite get_broadcastToRoom, get_setCount.
  rewrite (get_setBinding_same clientId (Some room) (Some pid) _ c1 Hg1).
  now rewrite E1, E2, E3.
Qed.

(** X14: the hub counts join requests, not connections. A join
    that is not turned down raises the room's counter by one whatever the
    connection was bound to before, while the connections bound to the room
    grow by one only if the connection was not bound to it already. So a
    single connection that joins the same room again and again drives the
    counter to the maximum, after which the hub turns down every join to
    that room, from any connection. *)
Theorem X14_hub_counts_joins
    (w : Ws.t) (clientId room pid : string) (client : Hub.ConnectedClient)
    (Hw : Ws.attainable w)
    (Hget : Hub.get clientId (Ws.hub w) = Some client) :
  let h := Ws.hub w in
  let again := fun k => Nat.iter k (Hub.handleJoinRoom clientId room pid) h in
  (Hub.countOf room h < Hub.MAX_CLIENTS_PER_ROOM ->
   Hub.countOf room (again 1%nat) = Hub.countOf room h + 1
   /\ Ws.boundCount room (again 1%nat)
      = Ws.boundCount room h + (if Hub.boundTo room client then 0 else 1))
  /\ (forall k,
        Hub.countOf room (again k)
        = Z.min Hub.MAX_CLIENTS_PER_ROOM (Hub.countOf room h + Z.of_nat k)
        /\ Ws.boundCount room (again k) <= Ws.boundCount room h + 1)
  /\ (forall k other pid' c',
        Hub.MAX_CLIENTS_PER_ROOM <= Hub.countOf room h + Z.of_nat k ->
        Hub.get other (again k) = Some c' ->
        Hub.rejects other room pid' (again k)).
Proof.
  cbv zeta. pose proof (attainable_consistent w Hw) as Hc.
  set (h := Ws.hub w) in *.
  set (again := fun k => Nat.iter k (Hub.handleJoinRoom clientId room pid) h).
  assert (Hmax : Hub.countOf room h <= Hub.MAX_CLIENTS_PER_ROOM)
    by (destruct Hc as [_ Hle]; specialize (Hle room); lia).
  assert (Hiter : forall k,
             Ws.consistent (again k)
             /\ Hub.countOf room (again k)
                = Z.min Hub.MAX_CLIENTS_PER_ROOM
                    (Hub.countOf room h + Z.of_nat k)
             /\ exists ck,
                  Hub.get clientId (again k) = Some ck
                  /\ ((Hub.boundTo room ck = Hub.boundTo room client
                       /\ Ws.boundCount room (again k)
                          = Ws.boundCount room h)
                      \/ (Hub.boundTo room ck = true
                          /\ Ws.boundCount room (again k)
                             = Ws.boundCount room h
                               + (if Hub.boundTo room client
                                  then 0 else 1)))).
  { induction k as [|k (Hck & Hn & ck & Hgk & Hb)].
    - split; [exact Hc|]. split; [simpl; lia|].
      exists client. split; [exact Hget|]. left. now split.
    - change (again (S k))
        with (Hub.handleJoinRoom clientId room pid (again k)).
      destruct (Z.leb_spec Hub.MAX_CLIENTS_PER_ROOM
                  (Hub.countOf room (again k))) as [Hfull|Hfree].
      + rewrite (join_rejected clientId room pid (again k) ck Hgk Hfull).
        split; [exact Hck|]. split.
        * change (Hub.countOf room (Hub.send clientId _ (again k)))
            with (Hub.countOf room (again k)).
          rewrite Hn in *. lia.
        * exists ck. split; [exact Hgk|exact Hb].
      + destruct (join_counts clientId room pid (again k) ck Hck Hgk Hfree)
          as (Hn' & Hb' & Hc').
        split; [exact Hc'|]. split; [rewrite Hn', Hn in *; lia|].
        eexists. split;
          [exact (join_binds clientId room pid (again k) ck Hgk Hfree)|].
        right. split; [unfold Hub.boundTo; simpl; apply String.eqb_refl|].
        rewrite Hb'. destruct Hb as [[E ->]|[E ->]]; rewrite E; [lia|].
        lia. }
  split; [|split].
  - intros Hlt.
    destruct (join_counts clientId room pid h client Hc Hget Hlt)
      as (Hn & Hb & _).
    now split.
  - intros k. destruct (Hiter k) as (_ & Hn & ck & _ & Hb).
    split; [exact Hn|].
    destruct Hb as [[_ ->]|[_ ->]]; [lia|].
    destruct (Hub.boundTo room client); lia.
  - intros k other pid' c' Hk Hother. unfold Hub.rejects.
    apply (join_rejected other room pid' (again k) c' Hother).
    destruct (Hiter k) as (_ & Hn & _). fold again. rewrite Hn. lia.
Qed.

(** X15: whatever connects, joins, leaves, drops or times out,
    client ids stay keys of the connection table and no room ever has more
    than ten connections bound to it: the bound connections are at most the
    room's counter, the counter at most [MAX_CLIENTS_PER_ROOM], and a
    broadcast reaches at most that many connections. *)
Theorem X15_hub_room_bound (w : Ws.t) (Hw : Ws.attainable w) :
  NoDup (List.map fst (Hub.connectedClients (Ws.hub w)))
  /\ forall room,
       0 <= Ws.boundCount room (Ws.hub w) <= Hub.countOf room (Ws.hub w)
       /\ Hub.countOf room (Ws.hub w) <= Hub.MAX_CLIENTS_PER_ROOM
       /\ forall excludeClientId,
            Z.of_nat (List.length
                        (Hub.audience room excludeClientId (Ws.hub w)))
            <= Hub.MAX_CLIENTS_PER_ROOM.
Proof.
  destruct (attainable_consistent w Hw) as [Hnd Hle].
  split; [exact Hnd|]. intros room. specialize (Hle room).
  split; [unfold Ws.boundCount in *; lia|]. split; [lia|].
  intros x.
  assert (Ha : Z.of_nat (List.length (Hub.audience room x (Ws.hub w)))
               <= Ws.boundCount room (Ws.hub w)).
  { unfold Hub.audience, Ws.boundCount. rewrite length_map.
    apply inj_le. clear Hnd Hle.
    induction (Hub.connectedClients (Ws.hub w)) as [|kc l IH];
      [reflexivity|].
    simpl. destruct (Hub.boundTo room (snd kc)); simpl; [|exact IH].
    destruct (negb _ && Hub.isOpen (snd kc)); simpl; lia. }
  lia.
Qed.

(** A lone connection that joins its room a second time: the counter says
    two, one connection is bound. *)
Lemma X14_hub_counts_joins_witness :
  Hub.countOf "abcdefghijkl"
    (Hub.handleJoinRoom "c1" "abcdefghijkl" "k3j9x0a7bq1"
       (Ws.hub Sockets.alone)) = 2
  /\ Ws.boundCount "abcdefghijkl"
       (Hub.handleJoinRoom "c1" "abcdefghijkl" "k3j9x0a7bq1"
          (Ws.hub Sockets.alone)) = 1.
Proof.
  destruct (X14_hub_counts_joins Sockets.alone "c1" "abcdefghijkl"
              "k3j9x0a7bq1"
              (Hub.mkClient true (Some "abcdefghijkl") (Some "k3j9x0a7bq1")
                 Sockets.t0 true)
              Sockets.alone_attainable eq_refl) as [H _].
  destruct (H ltac:(vm_compute; reflexivity)) as [Hn Hb].
  split; [exact Hn|exact Hb].
Defined.

(** With three connections in two rooms the counters are two and one. *)
Lemma X15_hub_room_bound_witness :
  0 <= Ws.boundCount "abcdefghijkl" (Ws.hub Sockets.three)
  <= Hub.countOf "abcdefghijkl" (Ws.hub Sockets.three)
  /\ Hub.countOf "abcdefghijkl" (Ws.hub Sockets.three) = 2.
Proof.
  destruct (X15_hub_room_bound Sockets.three Sockets.three_attainable)
    as [_ H].
  split; [exact (proj1 (H "abcdefghijkl"))|reflexivity].
Defined.

(** ** Heartbeat and disconnection *)

Lemma delete_rebind clientId room pid
    (l : list (string * Hub.ConnectedClient)) :
  Ws.mapDelete clientId
    (List.map (fun kc =>
                 if String.eqb (fst kc) clientId
                 then (fst kc,
                       Hub.mkClient (Hub.isOpen (snd kc)) room pid
                         (Hub.lastPing (snd kc)) (Hub.isAlive (snd kc)))
                 else kc) l)
  = Ws.mapDelete clientId l.
Proof.
  unfold Ws.mapDelete. induction l as [|kc l IH]; [reflexivity|].
  simpl. destruct (String.eqb (fst kc) clientId) eqn:E; simpl; rewrite E;
    simpl; [exact IH|now rewrite IH].
Qed.

Lemma leave_clients clientId r h :
  Ws.mapDelete clientId
    (Hub.connectedClients (Hub.leaveRoomInternal clientId r h))
  = Ws.mapDelete clientId (Hub.connectedClients h).
Proof.
  unfold Hub.leaveRoomInternal.
  destruct (Hub.get clientId h) as [client|]; [|reflexivity].
  unfold Hub.setBinding. cbn [Hub.connectedClients].
  rewrite delete_rebind.
  destruct (0 <? Hub.countOf r _); reflexivity.
Qed.

(** A cleanup removes the entry of the client and no other entry. *)
Lemma cleanupClient_clients clientId w :
  Hub.connectedClients (Ws.hub (Ws.cleanupClient clientId w))
  = Ws.mapDelete clientId (Hub.connectedClients (Ws.hub w)).
Proof.
  unfold Ws.cleanupClient. cbv zeta. cbn [Ws.hub Ws.withClients
                                           Hub.connectedClients].
  destruct (Hub.get clientId (Ws.hub w)) as [client|]; [|reflexivity].
  destruct (truthyOpt (Hub.roomId client)); [|reflexivity].
  apply leave_clients.
Qed.

Lemma delete_middle clientId c
    (done rest : list (string * Hub.ConnectedClient)) :
  NoDup (List.map fst (done ++ (clientId, c) :: rest)) ->
  Ws.mapDelete clientId (done ++ (clientId, c) :: rest) = done ++ rest.
Proof.
  intros Hnd. rewrite List.map_app in Hnd. simpl in Hnd.
  apply NoDup_app in Hnd as (_ & Hdis & Hr).
  apply NoDup_cons in Hr as [Hk _].
  assert (Hd : forall l : list (string * Hub.ConnectedClient),
             ~ In clientId (List.map fst l) -> Ws.mapDelete clientId l = l).
  { intros l Hl. unfold Ws.mapDelete. induction l as [|kc l IH];
      [reflexivity|].
    simpl. destruct (String.eqb_spec (fst kc) clientId) as [E|_].
    - exfalso. apply Hl. now left.
    - simpl. f_equal. apply IH. intros H. apply Hl. now right. }
  unfold Ws.mapDelete in *. rewrite List.filter_app. simpl.
  rewrite String.eqb_refl. simpl.
  rewrite Hd, Hd; [reflexivity| |].
  - now rewrite <- list_elem_of_In.
  - intros Hin. apply (Hdis clientId); [now rewrite list_elem_of_In|].
    left.
Qed.

Lemma get_middle clientId c
    (done rest : list (string * Hub.ConnectedClient)) h :
  Hub.connectedClients h = done ++ (clientId, c) :: rest ->
  NoDup (List.map fst (done ++ (clientId, c) :: rest)) ->
  Hub.get clientId h = Some c.
Proof.
  intros Hl Hnd. unfold Hub.get. rewrite Hl.
  rewrite List.map_app in Hnd. simpl in Hnd.
  apply NoDup_app in Hnd as (_ & Hdis & _).
  assert (Hn : ~ In clientId (List.map fst done)).
  { intros Hin. apply (Hdis clientId); [now rewrite list_elem_of_In|left]. }
  clear Hdis Hl. induction done as [|kc done IH]; simpl.
  - now rewrite String.eqb_refl.
  - destruct (String.eqb_spec (fst kc) clientId) as [E|_].
    + exfalso. apply Hn. now left.
    + apply IH. intros H. apply Hn. now right.
Qed.

Lemma heartbeat_middle clientId c alive ping
    (done rest : list (string * Hub.ConnectedClient)) :
  NoDup (List.map fst (done ++ (clientId, c) :: rest)) ->
  List.map (fun kc =>
              if String.eqb (fst kc) clientId
              then (fst kc,
                    Hub.mkClient (Hub.isOpen (snd kc))
                      (Hub.roomId (snd kc)) (Hub.participantId (snd kc))
                      (default (Hub.lastPing (snd kc)) ping) alive)
              else kc) (done ++ (clientId, c) :: rest)
  = done
    ++ (clientId,
        Hub.mkClient (Hub.isOpen c) (Hub.roomId c) (Hub.participantId c)
          (default (Hub.lastPing c) ping) alive) :: rest.
Proof.
  intros Hnd. rewrite List.map_app in Hnd. simpl in Hnd.
  apply NoDup_app in Hnd as (_ & Hdis & Hr).
  apply NoDup_cons in Hr as [Hk _].
  assert (Hid : forall l : list (string * Hub.ConnectedClient),
             ~ In clientId (List.map fst l) ->
             List.map (fun kc =>
                         if String.eqb (fst kc) clientId
                         then (fst kc,
                               Hub.mkClient (Hub.isOpen (snd kc))
                                 (Hub.roomId (snd kc))
                                 (Hub.participantId (snd kc))
                                 (default (Hub.lastPing (snd kc)) ping)
                                 alive)
                         else kc) l = l).
  { intros l Hl. induction l as [|kc l IH]; [reflexivity|]. simpl.
    destruct (String.eqb_spec (fst kc) clientId) as [E|_].
    - exfalso. apply Hl. now left.
    - f_equal. apply IH. intros H. apply Hl. now right. }
  rewrite List.map_app. simpl. rewrite String.eqb_refl.
  rewrite Hid, Hid; [reflexivity| |].
  - now rewrite <- list_elem_of_In.
  - intros Hin. apply (Hdis clientId); [now rewrite list_elem_of_In|].
    left.
Qed.

(** The sweep removes exactly the dead entries. *)
Lemma sweep_fold now (rest done : list (string * Hub.ConnectedClient)) w :
  Hub.connectedClients (Ws.hub w) = done ++ rest ->
  NoDup (List.map fst (done ++ rest)) ->
  Hub.connectedClients
    (Ws.hub
       (List.fold_left (fun w' clientId => Ws.cleanupClient clientId w')
          (List.map fst
             (List.filter (fun kc => Ws.isDead now (snd kc)) rest)) w))
  = done
    ++ List.filter (fun kc => negb (Ws.isDead now (snd kc))) rest.
Proof.
  revert done w. induction rest as [|[k c] rest IH]; intros done w Hl Hnd.
  - simpl. exact Hl.
  - simpl. destruct (Ws.isDead now c); simpl.
    + apply IH.
      * rewrite cleanupClient_clients, Hl. now apply delete_middle.
      * rewrite List.map_app in *. simpl in Hnd.
        apply NoDup_app in Hnd as (H1 & H2 & H3).
        apply NoDup_cons in H3 as [_ H3].
        apply NoDup_app. split; [exact H1|]. split; [|exact H3].
        intros x Hx Hx'. apply (H2 x Hx). now right.
    + rewrite (IH (done ++ [(k, c)]) w).
      * now rewrite <- List.app_assoc.
      * now rewrite <- List.app_assoc.
      * now rewrite <- List.app_assoc.
Qed.

(** The round of pings removes the entries that are not open and marks the
    others as waiting for their pong. *)
Lemma ping_fold (rest done : list (string * Hub.ConnectedClient)) w :
  Hub.connectedClients (Ws.hub w) = done ++ rest ->
  NoDup (List.map fst (done ++ rest)) ->
  Hub.connectedClients
    (Ws.hub (List.fold_left Ws.pingOne (List.map fst rest) w))
  = done
    ++ List.map (fun kc =>
                   (fst kc,
                    Hub.mkClient (Hub.isOpen (snd kc))
                      (Hub.roomId (snd kc)) (Hub.participantId (snd kc))
                      (Hub.lastPing (snd kc)) false))
         (List.filter (fun kc => Hub.isOpen (snd kc)) rest).
Proof.
  revert done w. induction rest as [|[k c] rest IH]; intros done w Hl Hnd.
  - simpl. exact Hl.
  - cbn [List.map fst List.fold_left].
    assert (Hget : Hub.get k (Ws.hub w) = Some c)
      by (now apply (get_middle k c done rest)).
    unfold Ws.pingOne at 2. rewrite Hget. cbn [List.filter snd].
    destruct (Hub.isOpen c) eqn:Hopen.
    + rewrite (IH (done ++ [(k, Hub.mkClient (Hub.isOpen c) (Hub.roomId c)
                                  (Hub.participantId c) (Hub.lastPing c)
                                  false)])).
      * rewrite <- List.app_assoc. reflexivity.
      * cbn [Ws.hub Ws.setHeartbeat Ws.withClients Hub.connectedClients].
        rewrite Hl, (heartbeat_middle k c false None done rest Hnd).
        now rewrite <- List.app_assoc.
      * rewrite <- List.app_assoc. simpl.
        rewrite List.map_app in *. exact Hnd.
    + apply IH.
      * rewrite cleanupClient_clients, Hl. now apply delete_middle.
      * rewrite List.map_app in *. simpl in Hnd.
        apply NoDup_app in Hnd as (H1 & H2 & H3).
        apply NoDup_cons in H3 as [_ H3].
        apply NoDup_app. split; [exact H1|]. split; [|exact H3].
        intros x Hx Hx'. apply (H2 x Hx). now right.
Qed.

Lemma filter_keys_NoDup {A} (P : string * A -> bool)
    (l : list (string * A)) :
  NoDup (List.map fst l) -> NoDup (List.map fst (List.filter P l)).
Proof.
  induction l as [|kc l IH]; [auto|]. simpl. intros Hnd.
  apply NoDup_cons in Hnd as [Hk Hl].
  destruct (P kc); [|auto]. simpl. apply NoDup_cons. split; [|auto].
  rewrite list_elem_of_In in *. intros Hin. apply Hk.
  apply in_map_iff in Hin as (x & Hx & Hin).
  apply filter_In in Hin as [Hin _]. apply in_map_iff. now exists x.
Qed.

(** The connection table after one heartbeat. *)
Lemma heartbeat_clients now w :
  NoDup (List.map fst (Hub.connectedClients (Ws.hub w))) ->
  Hub.connectedClients (Ws.hub (Ws.heartbeat now w))
  = List.map (fun kc =>
                (fst kc,
                 Hub.mkClient (Hub.isOpen (snd kc))
                   (Hub.roomId (snd kc)) (Hub.participantId (snd kc))
                   (Hub.lastPing (snd kc)) false))
      (List.filter (fun kc => Hub.isOpen (snd kc))
         (List.filter (fun kc => negb (Ws.isDead now (snd kc)))
            (Hub.connectedClients (Ws.hub w)))).
Proof.
  intros Hnd. unfold Ws.heartbeat, Ws.pingConnections.
  set (w1 := Ws.cleanupDeadConnections now w).
  assert (H1 : Hub.connectedClients (Ws.hub w1)
               = List.filter (fun kc => negb (Ws.isDead now (snd kc)))
                   (Hub.connectedClients (Ws.hub w))).
  { unfold w1, Ws.cleanupDeadConnections.
    exact (sweep_fold now (Hub.connectedClients (Ws.hub w)) [] w eq_refl
             Hnd). }
  rewrite (ping_fold (Hub.connectedClients (Ws.hub w1)) [] w1 eq_refl).
  - simpl. now rewrite H1.
  - simpl. rewrite H1. now apply filter_keys_NoDup.
Qed.

(** X16: one heartbeat keeps exactly the connections that are
    open, have answered the last ping and were heard of within
    [CLIENT_TIMEOUT], in their order and with their bindings, and marks
    each as waiting for its pong. So a second heartbeat with no pong in
    between empties the table, whatever the times; and a connection that
    answers the ping in time is still there after the next heartbeat. *)
Theorem X16_heartbeat (w : Ws.t) (now : Z) (Hw : Ws.attainable w) :
  let w1 := Ws.heartbeat now w in
  Hub.connectedClients (Ws.hub w1)
  = List.map (fun kc =>
                (fst kc,
                 Hub.mkClient true (Hub.roomId (snd kc))
                   (Hub.participantId (snd kc)) (Hub.lastPing (snd kc))
                   false))
      (List.filter
         (fun kc => Hub.isOpen (snd kc) && Hub.isAlive (snd kc)
                    && (now - Hub.lastPing (snd kc) <=? Ws.CLIENT_TIMEOUT))
         (Hub.connectedClients (Ws.hub w)))
  /\ (forall later,
        Hub.connectedClients (Ws.hub (Ws.heartbeat later w1)) = [])
  /\ (forall clientId c t later,
        In (clientId, c) (Hub.connectedClients (Ws.hub w1)) ->
        later - t <= Ws.CLIENT_TIMEOUT ->
        In (clientId,
            Hub.mkClient true (Hub.roomId c) (Hub.participantId c) t false)
          (Hub.connectedClients
             (Ws.hub (Ws.heartbeat later (Ws.onPong clientId t w1))))).
Proof.
  cbv zeta.
  assert (Hnd : forall w', Ws.attainable w' ->
                  NoDup (List.map fst (Hub.connectedClients (Ws.hub w'))))
    by (intros w' H'; exact (proj1 (attainable_consistent w' H'))).
  assert (H1 : Ws.attainable (Ws.heartbeat now w))
    by exact (Ws.attainable_step (Ws.Heartbeat now) w Hw).
  assert (Hfirst :
            Hub.connectedClients (Ws.hub (Ws.heartbeat now w))
            = List.map (fun kc =>
                          (fst kc,
                           Hub.mkClient true (Hub.roomId (snd kc))
                             (Hub.participantId (snd kc))
                             (Hub.lastPing (snd kc)) false))
                (List.filter
                   (fun kc => Hub.isOpen (snd kc) && Hub.isAlive (snd kc)
                              && (now - Hub.lastPing (snd kc)
                                  <=? Ws.CLIENT_TIMEOUT))
                   (Hub.connectedClients (Ws.hub w)))).
  { rewrite (heartbeat_clients now w (Hnd w Hw)).
    induction (Hub.connectedClients (Ws.hub w)) as [|[k c] l IH];
      [reflexivity|].
    cbn [List.filter snd]. unfold Ws.isDead at 1.
    destruct (Hub.isAlive c); cbn [negb orb andb];
      [|rewrite andb_false_r; exact IH].
    rewrite andb_true_r.
    destruct (Z.ltb_spec Ws.CLIENT_TIMEOUT (now - Hub.lastPing c)) as [Hd|Hd].
    - destruct (Z.leb_spec (now - Hub.lastPing c) Ws.CLIENT_TIMEOUT);
        [lia|]. rewrite andb_false_r. exact IH.
    - destruct (Z.leb_spec (now - Hub.lastPing c) Ws.CLIENT_TIMEOUT);
        [|lia]. rewrite andb_true_r. cbn [negb List.filter snd].
      destruct (Hub.isOpen c) eqn:Hopen; [|exact IH].
      cbn [List.map fst snd]. rewrite Hopen, IH. reflexivity. }
  assert (Hwaiting : forall k c,
             In (k, c) (Hub.connectedClients (Ws.hub (Ws.heartbeat now w))) ->
             Hub.isOpen c = true /\ Hub.isAlive c = false).
  { intros k c Hin. rewrite Hfirst in Hin.
    apply in_map_iff in Hin as (kc & [= <- <-] & _). now split. }
  split; [exact Hfirst|]. split.
  - intros later.
    rewrite (heartbeat_clients later _ (Hnd _ H1)).
    rewrite (filter_none (fun kc => negb (Ws.isDead later (snd kc))));
      [reflexivity|].
    intros [k c] Hin. destruct (Hwaiting k c Hin) as [_ Ha].
    unfold Ws.isDead. simpl. now rewrite Ha.
  - intros clientId c t later Hin Hlate.
    destruct (Hwaiting clientId c Hin) as [Hopen _].
    set (w2 := Ws.onPong clientId t (Ws.heartbeat now w)).
    assert (H2 : Ws.attainable w2)
      by exact (Ws.attainable_step (Ws.Pong clientId t) _ H1).
    rewrite (heartbeat_clients later w2 (Hnd w2 H2)).
    apply in_map_iff.
    exists (clientId,
            Hub.mkClient (Hub.isOpen c) (Hub.roomId c) (Hub.participantId c)
              t true).
    split; [simpl; now rewrite Hopen|].
    apply filter_In. split; [|exact Hopen].
    apply filter_In. split.
    + unfold w2, Ws.onPong, Ws.setHeartbeat. simpl.
      apply in_map_iff. exists (clientId, c). split; [|exact Hin].
      simpl. now rewrite String.eqb_refl.
    + unfold Ws.isDead. simpl.
      destruct (Z.ltb_spec Ws.CLIENT_TIMEOUT (later - t)); [lia|reflexivity].
Qed.

(** Three connections that stay silent are gone after two heartbeats. *)
Lemma X16_heartbeat_witness :
  List.length
    (Hub.connectedClients
       (Ws.hub (Ws.heartbeat (Sockets.t0 + 30000) Sockets.three))) = 3%nat
  /\ Hub.connectedClients
       (Ws.hub (Ws.heartbeat (Sockets.t0 + 60000)
                  (Ws.heartbeat (Sockets.t0 + 30000) Sockets.three))) = [].
Proof.
  destruct (X16_heartbeat Sockets.three (Sockets.t0 + 30000)
              Sockets.three_attainable) as (H1 & H2 & _).
  split; [rewrite H1; reflexivity|apply H2].
Defined.

Lemma get_delete_same clientId h0 l :
  Hub.get clientId (Ws.withClients (Ws.mapDelete clientId l) h0) = None.
Proof.
  unfold Hub.get, Ws.withClients, Ws.mapDelete. simpl.
  induction l as [|kc l IH]; [reflexivity|]. simpl.
  destruct (String.eqb (fst kc) clientId) eqn:E; simpl; [exact IH|].
  now rewrite E.
Qed.

Lemma get_delete_other clientId other h0 l :
  other <> clientId ->
  Hub.get other (Ws.withClients (Ws.mapDelete clientId l) h0)
  = snd <$> List.find (fun kc => String.eqb (fst kc) other) l.
Proof.
  intros Hne. unfold Hub.get, Ws.withClients, Ws.mapDelete. simpl.
  induction l as [|kc l IH]; [reflexivity|]. simpl.
  destruct (String.eqb_spec (fst kc) clientId) as [E|E]; simpl.
  - destruct (String.eqb_spec (fst kc) other) as [E'|_]; [congruence|].
    exact IH.
  - destruct (String.eqb (fst kc) other); [reflexivity|exact IH].
Qed.

Lemma delete_bound clientId c (l : list (string * Hub.ConnectedClient)) r :
  NoDup (List.map fst l) -> In (clientId, c) l ->
  Z.of_nat (List.length (List.filter (fun kc => Hub.boundTo r (snd kc))
                           (Ws.mapDelete clientId l)))
  = Z.of_nat (List.length (List.filter (fun kc => Hub.boundTo r (snd kc)) l))
    - (if Hub.boundTo r c then 1 else 0).
Proof.
  intros Hnd Hin. apply in_split in Hin as (done & rest & ->).
  rewrite (delete_middle clientId c done rest Hnd).
  rewrite !List.filter_app, !length_app. simpl.
  destruct (Hub.boundTo r c); simpl; lia.
Qed.

(** X17: when a connection closes, its entry and its message
    count are removed and no other connection is touched. If it was bound
    to a room, the room's counter and its bound connections drop by one and
    every other open connection of the room is told that the participant
    left; the counters of all other rooms stay. Cleaning up the same
    connection again changes nothing. *)
Theorem X17_disconnect
    (w : Ws.t) (clientId : string) (client : Hub.ConnectedClient)
    (Hw : Ws.attainable w)
    (Hget : Hub.get clientId (Ws.hub w) = Some client) :
  let w' := Ws.cleanupClient clientId w in
  Hub.get clientId (Ws.hub w') = None
  /\ Ws.clientMessageCounts w' !! clientId = None
  /\ (forall other, other <> clientId ->
        Hub.get other (Ws.hub w') = Hub.get other (Ws.hub w)
        /\ Ws.clientMessageCounts w' !! other
           = Ws.clientMessageCounts w !! other)
  /\ (forall room,
        Hub.roomId client = Some room -> Str.truthy room = true ->
        Hub.countOf room (Ws.hub w') = Hub.countOf room (Ws.hub w) - 1
        /\ Ws.boundCount room (Ws.hub w')
           = Ws.boundCount room (Ws.hub w) - 1
        /\ Hub.sent (Ws.hub w')
           = Hub.sent (Ws.hub w)
             ++ List.map
                  (fun c => (c, Hub.ParticipantLeft
                                  (Hub.participantId client) room))
                  (Hub.audience room (Some clientId) (Ws.hub w)))
  /\ (forall room,
        Hub.roomId client <> Some room ->
        Hub.countOf room (Ws.hub w') = Hub.countOf room (Ws.hub w))
  /\ (Hub.roomId client = None -> Hub.sent (Ws.hub w') = Hub.sent (Ws.hub w))
  /\ Ws.cleanupClient clientId w' = w'.
Proof.
  cbv zeta. pose proof (attainable_consistent w Hw) as Hc.
  set (h := Ws.hub w) in *.
  destruct (leave_before_join clientId client h Hget)
    as (Hsent & _ & Hothers & _).
  destruct (optional_leave clientId client h Hc Hget)
    as ([Hnd1 _] & _ & _ & c1 & Hg1 & _).
  set (h1 := if truthyOpt (Hub.roomId client) then _ else h) in *.
  assert (Hw' : Ws.cleanupClient clientId w
                = Ws.mk (Ws.withClients
                           (Ws.mapDelete clientId (Hub.connectedClients h1))
                           h1)
                    (delete clientId (Ws.clientMessageCounts w))).
  { unfold Ws.cleanupClient. cbv zeta. fold h. rewrite Hget. reflexivity. }
  rewrite Hw'. cbn [Ws.hub Ws.clientMessageCounts].
  assert (Hgone : Hub.get clientId
                    (Ws.withClients
                       (Ws.mapDelete clientId (Hub.connectedClients h1)) h1)
                  = None) by apply get_delete_same.
  split; [exact Hgone|]. split; [apply lookup_delete_eq|]. split.
  { intros other Hne. split.
    - rewrite (get_delete_other clientId other h1 _ Hne).
      exact (Hothers other Hne).
    - apply lookup_delete_ne. congruence. }
  split.
  { intros room Hroom Htruthy.
    assert (Ht : truthyOpt (Hub.roomId client) = true)
      by (rewrite Hroom; exact Htruthy).
    unfold Hub.leftFrames in Hsent. unfold h1 in *. rewrite Ht in *.
    rewrite Hroom in *. simpl default in *.
    destruct (leave_counts clientId client room h Hc Hget Hroom)
      as (_ & Hb & Hn & Hg).
    split; [|split].
    - change (Hub.countOf room (Ws.withClients _ ?x))
        with (Hub.countOf room x).
      rewrite Hn, String.eqb_refl. reflexivity.
    - unfold Ws.boundCount at 1. cbn [Ws.withClients Hub.connectedClients].
      rewrite (delete_bound clientId _ _ room Hnd1
                 (get_In clientId _ _ Hg)).
      fold (Ws.boundCount room (Hub.leaveRoomInternal clientId room h)).
      rewrite Hb, String.eqb_refl. unfold Hub.boundTo. simpl. lia.
    - exact Hsent. }
  split.
  { intros room Hroom.
    change (Hub.countOf room (Ws.withClients _ ?x)) with (Hub.countOf room x).
    unfold h1. destruct (Hub.roomId client) as [r0|] eqn:Er; simpl truthyOpt;
      [|reflexivity].
    destruct (Str.truthy r0); [|reflexivity]. simpl default.
    destruct (leave_counts clientId client r0 h Hc Hget Er) as (_ & _ & Hn & _).
    rewrite Hn. destruct (String.eqb_spec room r0) as [->|_];
      [congruence|lia]. }
  split.
  { intros Hnone. unfold Hub.leftFrames in Hsent. rewrite Hnone in Hsent.
    simpl in Hsent. rewrite app_nil_r in Hsent. exact Hsent. }
  unfold Ws.cleanupClient. cbv zeta. cbn [Ws.hub Ws.clientMessageCounts].
  rewrite Hgone. rewrite delete_delete_eq. f_equal.
  unfold Ws.withClients. cbn [Hub.connectedClients Hub.roomClientCount
                                Hub.sent].
  f_equal. unfold Ws.mapDelete. clear.
  induction (Hub.connectedClients h1) as [|kc l IH]; [reflexivity|].
  simpl. destruct (String.eqb (fst kc) clientId) eqn:E; simpl;
    [exact IH|]. rewrite E. simpl. now rewrite IH.
Qed.

(** The second connection of the room closes: the first is told, the
    counter falls back to one. *)
Lemma X17_disconnect_witness :
  Hub.countOf "abcdefghijkl" (Ws.hub (Ws.cleanupClient "c2" Sockets.three))
  = 1
  /\ Hub.get "c2" (Ws.hub (Ws.cleanupClient "c2" Sockets.three)) = None.
Proof.
  destruct (X17_disconnect Sockets.three "c2"
              (Hub.mkClient true (Some "abcdefghijkl") (Some "m2c8v5n1zs4")
                 (Sockets.t0 + 1000) true)
              Sockets.three_attainable eq_refl) as (Hgone & _ & _ & H & _).
  split; [|exact Hgone].
  destruct (H "abcdefghijkl" eq_refl eq_refl) as (Hn & _).
  rewrite Hn. reflexivity.
Defined.

(** ** The message rate of a connection *)

Lemma verdicts_window clientId ts : forall counts n r,
  counts !! clientId = Some (n, r) ->
  Forall (fun t => t <= r) ts ->
  Ws.verdicts clientId ts counts
  = List.map (fun i => Z.of_nat i + n <? Ws.RATE_LIMIT_MAX_MESSAGES)
      (seq 0 (List.length ts)).
Proof.
  induction ts as [|t ts IH]; intros counts n r Hc Hts; [reflexivity|].
  apply Forall_cons in Hts as [Ht Hts].
  cbn [Ws.verdicts List.length seq List.map].
  unfold Ws.rateLimitCheck. rewrite Hc.
  destruct (Z.ltb_spec r t) as [Hlt|_]; [lia|].
  rewrite <- seq_shift, List.map_map.
  destruct (Z.leb_spec Ws.RATE_LIMIT_MAX_MESSAGES n) as [Hfull|Hroom].
  - rewrite (IH counts n r Hc Hts). f_equal.
    + symmetry. apply Z.ltb_ge. simpl. lia.
    + apply List.map_ext. intros i.
      destruct (Z.ltb_spec (Z.of_nat i + n) Ws.RATE_LIMIT_MAX_MESSAGES);
        destruct (Z.ltb_spec (Z.of_nat (S i) + n)
                    Ws.RATE_LIMIT_MAX_MESSAGES); auto; lia.
  - rewrite (IH (<[clientId := (n + 1, r)]> counts) (n + 1) r
               (lookup_insert_eq _ _ _) Hts).
    f_equal.
    + symmetry. apply Z.ltb_lt. simpl. lia.
    + apply List.map_ext. intros i. f_equal. lia.
Qed.

Lemma fold_keeps {A} (P : Ws.t -> Prop) (f : Ws.t -> A -> Ws.t)
    (l : list A) w :
  (forall w' a, P w' -> P (f w' a)) -> P w -> P (List.fold_left f l w).
Proof.
  intros Hf. revert w. induction l as [|a l IH]; intros w Hw; [exact Hw|].
  simpl. apply IH, Hf, Hw.
Qed.

Lemma counts_in_range w :
  Ws.attainable w ->
  forall clientId n r,
    Ws.clientMessageCounts w !! clientId = Some (n, r) ->
    1 <= n <= Ws.RATE_LIMIT_MAX_MESSAGES.
Proof.
  set (P := fun w : Ws.t =>
              forall clientId n r,
                Ws.clientMessageCounts w !! clientId = Some (n, r) ->
                1 <= n <= Ws.RATE_LIMIT_MAX_MESSAGES).
  assert (Hclean : forall w' c, P w' -> P (Ws.cleanupClient c w')).
  { intros w' c Hp k n r. unfold Ws.cleanupClient. cbv zeta. simpl.
    intros H. apply lookup_delete_Some in H as [_ H]. exact (Hp k n r H). }
  assert (Hping : forall w' c, P w' -> P (Ws.pingOne w' c)).
  { intros w' c Hp. unfold Ws.pingOne.
    destruct (Hub.get c (Ws.hub w')) as [client|]; [|exact Hp].
    destruct (Hub.isOpen client); [exact Hp|now apply Hclean]. }
  intros Hw. change (P w). induction Hw as [|e w _ IH].
  - intros k n r. simpl. rewrite lookup_empty. discriminate.
  - destruct e as [c now|c now data|c now|c|c|now]; simpl;
      try exact IH.
    + destruct data as [message|]; [|exact IH].
      unfold Ws.onMessage, Ws.rateLimitCheck.
      destruct (Ws.clientMessageCounts w !! c) as [[n0 r0]|] eqn:E.
      * destruct (r0 <? now).
        -- destruct (Ws.handleWebSocketMessage c message (Ws.hub w)).
           intros k n r. simpl.
           destruct (String.eqb_spec c k) as [->|Hne].
           ++ rewrite lookup_insert_eq. intros [= <- <-].
              unfold Ws.RATE_LIMIT_MAX_MESSAGES. lia.
           ++ rewrite lookup_insert_ne by exact Hne. apply IH.
        -- destruct (Z.leb_spec Ws.RATE_LIMIT_MAX_MESSAGES n0);
             [exact IH|].
           destruct (Ws.handleWebSocketMessage c message (Ws.hub w)).
           intros k n r. simpl.
           destruct (String.eqb_spec c k) as [->|Hne].
           ++ rewrite lookup_insert_eq. intros [= <- <-].
              specialize (IH k n0 r0 E). lia.
           ++ rewrite lookup_insert_ne by exact Hne. apply IH.
      * destruct (Ws.handleWebSocketMessage c message (Ws.hub w)).
        intros k n r. simpl.
        destruct (String.eqb_spec c k) as [->|Hne].
        -- rewrite lookup_insert_eq. intros [= <- <-].
           unfold Ws.RATE_LIMIT_MAX_MESSAGES. lia.
        -- rewrite lookup_insert_ne by exact Hne. apply IH.
    + now apply Hclean.
    + unfold Ws.heartbeat, Ws.pingConnections.
      apply (fold_keeps P); [exact Hping|].
      unfold Ws.cleanupDeadConnections.
      apply (fold_keeps P); [|exact IH].
      intros w' c Hp. now apply Hclean.
Qed.

(** X18: a connection may send [RATE_LIMIT_MAX_MESSAGES] messages
    per window. Of the messages of a connection not counted before, the
    first opens a window of [RATE_LIMIT_WINDOW] milliseconds; of those that
    arrive up to and including its end exactly the first hundred are let
    through, and the first one after its end is let through and opens the
    next window. The count of a connection never leaves 1..100, other
    connections are not affected, a refused message is neither handled nor
    relayed, and a frame that does not parse is not counted. *)
Theorem X18_socket_rate_limit (clientId : string) :
  (forall t0 ts counts,
     counts !! clientId = None ->
     Forall (fun t => t <= t0 + Ws.RATE_LIMIT_WINDOW) ts ->
     Ws.verdicts clientId (t0 :: ts) counts
     = List.map (fun i => Nat.ltb i 100) (seq 0 (S (List.length ts))))
  /\ (forall counts n r now,
        counts !! clientId = Some (n, r) -> r < now ->
        Ws.rateLimitCheck clientId now counts
        = (true, <[clientId := (1, now + Ws.RATE_LIMIT_WINDOW)]> counts))
  /\ (forall counts now other,
        other <> clientId ->
        snd (Ws.rateLimitCheck clientId now counts) !! other
        = counts !! other)
  /\ (forall w n r,
        Ws.attainable w ->
        Ws.clientMessageCounts w !! clientId = Some (n, r) ->
        1 <= n <= Ws.RATE_LIMIT_MAX_MESSAGES)
  /\ (forall w now message,
        fst (Ws.rateLimitCheck clientId now (Ws.clientMessageCounts w))
        = false ->
        Ws.onMessage clientId now (Some message) w
        = (Ws.mk (Hub.send clientId (Hub.ErrorFrame "Rate limit exceeded")
                    (Ws.hub w))
             (Ws.clientMessageCounts w), []))
  /\ (forall w now,
        Ws.clientMessageCounts (fst (Ws.onMessage clientId now None w))
        = Ws.clientMessageCounts w).
Proof.
  split; [|split; [|split; [|split; [|split]]]].
  - intros t0 ts counts Hnone Hts.
    cbn [Ws.verdicts]. unfold Ws.rateLimitCheck at 1. rewrite Hnone.
    rewrite (verdicts_window clientId ts _ 1 (t0 + Ws.RATE_LIMIT_WINDOW)
               (lookup_insert_eq _ _ _) Hts).
    cbn [seq List.map]. f_equal.
    rewrite <- seq_shift, List.map_map. apply List.map_ext. intros i.
    unfold Ws.RATE_LIMIT_MAX_MESSAGES.
    destruct (Z.ltb_spec (Z.of_nat i + 1) 100);
      destruct (Nat.ltb_spec (S i) 100); auto; lia.
  - intros counts n r now Hc Hlt. unfold Ws.rateLimitCheck. rewrite Hc.
    destruct (Z.ltb_spec r now); [reflexivity|lia].
  - intros counts now other Hne. unfold Ws.rateLimitCheck.
    destruct (counts !! clientId) as [[n r]|].
    + destruct (r <? now); simpl;
        [rewrite lookup_insert_ne by congruence; reflexivity|].
      destruct (Ws.RATE_LIMIT_MAX_MESSAGES <=? n); simpl; [reflexivity|].
      rewrite lookup_insert_ne by congruence. reflexivity.
    + simpl. rewrite lookup_insert_ne by congruence. reflexivity.
  - intros w n r Hw. apply counts_in_range. exact Hw.
  - intros w now message Hno. unfold Ws.onMessage.
    destruct (Ws.rateLimitCheck clientId now (Ws.clientMessageCounts w))
      as [ok counts] eqn:E.
    simpl in Hno. subst ok. f_equal. f_equal.
    unfold Ws.rateLimitCheck in E.
    destruct (Ws.clientMessageCounts w !! clientId) as [[n r]|];
      [|discriminate].
    destruct (r <? now); [discriminate|].
    destruct (Ws.RATE_LIMIT_MAX_MESSAGES <=? n); [|discriminate].
    now injection E as <-.
  - reflexivity.
Qed.

(** Of 120 messages sent by a new connection within one second the first
    hundred pass. *)
Lemma X18_socket_rate_limit_witness :
  List.length
    (List.filter id
       (Ws.verdicts "c1"
          (List.map (fun i => Sockets.t0 + Z.of_nat i) (seq 0 120)) ∅))
  = 100%nat.
Proof.
  destruct (X18_socket_rate_limit "c1") as [H _].
  change (List.map (fun i => Sockets.t0 + Z.of_nat i) (seq 0 120))
    with ((Sockets.t0 + 0)
          :: List.map (fun i => Sockets.t0 + Z.of_nat i) (seq 1 119)).
  rewrite H.
  - vm_compute. reflexivity.
  - apply lookup_empty.
  - apply Forall_forall. intros t Ht. rewrite list_elem_of_In in Ht.
    apply in_map_iff in Ht as (i & <- & Hi).
    apply in_seq in Hi. unfold Ws.RATE_LIMIT_WINDOW. lia.
Defined.

(** ** Relayed messages *)

Lemma get_iff h k c :
  NoDup (List.map fst (Hub.connectedClients h)) ->
  Hub.get k h = Some c <-> In (k, c) (Hub.connectedClients h).
Proof.
  intros Hnd. split; [apply get_In|].
  intros Hin. destruct (in_split _ _ Hin) as (done & rest & Hl).
  apply (get_middle k c done rest h Hl). now rewrite <- Hl.
Qed.

Lemma audience_In room x h k :
  In k (Hub.audience room x h)
  <-> x <> Some k
      /\ exists c, In (k, c) (Hub.connectedClients h)
                   /\ Hub.roomId c = Some room /\ Hub.isOpen c = true.
Proof.
  unfold Hub.audience. rewrite in_map_iff. split.
  - intros ([k' c] & Hk & Hin). simpl in Hk. subst k'.
    apply filter_In in Hin as [Hin Hc]. simpl in Hc.
    apply andb_prop in Hc as [Hc Hopen]. apply andb_prop in Hc as [Hb Hx].
    split.
    + intros ->. rewrite String.eqb_refl in Hx. discriminate.
    + exists c. split; [exact Hin|split; [|exact Hopen]].
      unfold Hub.boundTo in Hb. destruct (Hub.roomId c) as [r|];
        [|discriminate].
      apply String.eqb_eq in Hb. now subst r.
  - intros (Hne & c & Hin & Hroom & Hopen). exists (k, c).
    split; [reflexivity|].
    apply filter_In. split; [exact Hin|]. simpl.
    unfold Hub.boundTo. rewrite Hroom, String.eqb_refl, Hopen. simpl.
    destruct x as [y|]; [|reflexivity].
    destruct (String.eqb_spec k y) as [->|_]; [congruence|reflexivity].
Qed.

Lemma relayToRoom_In room frame x h k f :
  In (k, f) (Ws.relayToRoom room frame x h)
  <-> f = frame /\ In k (Hub.audience room x h).
Proof.
  unfold Ws.relayToRoom. rewrite in_map_iff. split.
  - intros (c & [= <- <-] & Hin). now split.
  - intros [-> Hin]. now exists k.
Qed.

Lemma sendToParticipant_In pid frame h k f :
  In (k, f) (Ws.sendToParticipant pid frame h) ->
  f = frame
  /\ exists c, In (k, c) (Hub.connectedClients h)
               /\ Hub.participantId c = pid /\ Hub.isOpen c = true.
Proof.
  unfold Ws.sendToParticipant.
  destruct (List.find _ (Hub.connectedClients h)) as [[k' c]|] eqn:E;
    [|intros []].
  intros [[= <- <-]|[]]. split; [reflexivity|].
  apply find_some in E as [Hin Hc]. simpl in Hc.
  apply andb_prop in Hc as [Hid Hopen].
  exists c. split; [exact Hin|]. split; [|exact Hopen].
  unfold Ws.sameId in Hid.
  destruct (Hub.participantId c) as [a|], pid as [b|];
    try discriminate; [|reflexivity].
  apply String.eqb_eq in Hid. now subst.
Qed.

Lemma sendToParticipant_length pid frame h :
  (List.length (Ws.sendToParticipant pid frame h) <= 1)%nat.
Proof.
  unfold Ws.sendToParticipant.
  destruct (List.find _ (Hub.connectedClients h)); simpl; lia.
Qed.

(** X19: how the hub relays. A relayed message never changes
    bindings or counters, reaches open connections only, and is dropped
    when its sender is unknown or bound to no room. A chat line and a
    control message go to every open connection of the sender's room, the
    sender included; an update, an untargeted signal and the notice that
    follows a kick go to the others of the room, never back to the sender.
    A signal with a target goes to at most one connection, one that
    carries the target's participant id, whatever room it is bound to; the
    hub stamps the sender's own participant id on it. *)
Theorem X19_relay_routing
    (w : Ws.t) (clientId : string) (message : Ws.Message)
    (Hw : Ws.attainable w) :
  let h := Ws.hub w in
  let out := snd (Ws.handleWebSocketMessage clientId message h) in
  let inRoom := fun room k =>
    exists c, Hub.get k h = Some c
              /\ Hub.roomId c = Some room /\ Hub.isOpen c = true in
  match message with
  | Ws.MsgJoinRoom _ _ | Ws.MsgLeaveRoom => out = []
  | _ => fst (Ws.handleWebSocketMessage clientId message h) = h
  end
  /\ (forall k f, In (k, f) out ->
        exists c, Hub.get k h = Some c /\ Hub.isOpen c = true)
  /\ ((forall client, Hub.get clientId h = Some client ->
                      truthyOpt (Hub.roomId client) = false) ->
      out = [])
  /\ (forall client room,
        Hub.get clientId h = Some client ->
        Hub.roomId client = Some room -> Str.truthy room = true ->
        let from := Hub.participantId client in
        match message with
        | Ws.MsgChat data =>
            forall k f, In (k, f) out
                        <-> f = Ws.RelayChat data /\ inRoom room k
        | Ws.MsgParticipantControl data =>
            forall k f, In (k, f) out
                        <-> f = Ws.RelayControl data from /\ inRoom room k
        | Ws.MsgParticipantUpdate data =>
            forall k f, In (k, f) out
                        <-> f = Ws.RelayUpdate data from
                            /\ k <> clientId /\ inRoom room k
        | Ws.MsgSignal target signal =>
            if truthyOpt target
            then (List.length out <= 1)%nat
                 /\ forall k f, In (k, f) out ->
                      f = Ws.RelaySignal signal from
                      /\ exists c, Hub.get k h = Some c
                                   /\ Hub.participantId c = target
                                   /\ Hub.isOpen c = true
            else forall k f, In (k, f) out
                             <-> f = Ws.RelaySignal signal from
                                 /\ k <> clientId /\ inRoom room k
        | Ws.MsgParticipantKicked participantId =>
            (forall k, In (k, Ws.RelayLeftKicked participantId room) out
                       <-> k <> clientId /\ inRoom room k)
            /\ (forall k, In (k, Ws.RelayKicked) out ->
                  exists c, Hub.get k h = Some c
                            /\ Hub.participantId c = participantId
                            /\ Hub.isOpen c = true)
        | _ => out = []
        end).
Proof.
  cbv zeta. destruct (attainable_consistent w Hw) as [Hnd _].
  set (h := Ws.hub w) in *.
  assert (Hroomwide : forall room x k,
             In k (Hub.audience room x h)
             <-> x <> Some k
                 /\ exists c, Hub.get k h = Some c
                              /\ Hub.roomId c = Some room
                              /\ Hub.isOpen c = true).
  { intros room x k. rewrite audience_In. split.
    - intros (Hx & c & Hin & Hc). split; [exact Hx|]. exists c.
      split; [now apply get_iff|exact Hc].
    - intros (Hx & c & Hg & Hc). split; [exact Hx|]. exists c.
      split; [now apply get_iff|exact Hc]. }
  assert (Hopen : forall room frame x k f,
             In (k, f) (Ws.relayToRoom room frame x h) ->
             exists c, Hub.get k h = Some c /\ Hub.isOpen c = true).
  { intros room frame x k f Hin. apply relayToRoom_In in Hin as [_ Hin].
    apply Hroomwide in Hin as (_ & c & Hg & _ & Ho). now exists c. }
  assert (Htarget : forall pid frame k f,
             In (k, f) (Ws.sendToParticipant pid frame h) ->
             f = frame
             /\ exists c, Hub.get k h = Some c
                          /\ Hub.participantId c = pid
                          /\ Hub.isOpen c = true).
  { intros pid frame k f Hin.
    apply sendToParticipant_In in Hin as (-> & c & Hin & Hc).
    split; [reflexivity|]. exists c. split; [now apply get_iff|exact Hc]. }
  unfold Ws.handleWebSocketMessage.
  split; [|split; [|split]].
  - destruct (Hub.get clientId h); destruct message; reflexivity.
  - intros k f.
    destruct (Hub.get clientId h) as [client|] eqn:Hget; [|intros []].
    destruct message; simpl; try (intros []);
      unfold Ws.handleChatMessage, Ws.handleSignaling,
        Ws.handleParticipantUpdate, Ws.handleParticipantControl,
        Ws.handleParticipantKicked; rewrite Hget;
      destruct (negb (truthyOpt (Hub.roomId client))); try (intros []);
      try (now apply Hopen).
    + destruct (truthyOpt targetParticipantId); [|now apply Hopen].
      intros Hin. apply Htarget in Hin as (_ & c & Hg & _ & Ho).
      now exists c.
    + cbv zeta. intros Hin. apply in_app_or in Hin as [Hin|Hin].
      * apply Htarget in Hin as (_ & c & Hg & _ & Ho). now exists c.
      * now apply Hopen in Hin.
  - intros Hunbound.
    destruct (Hub.get clientId h) as [client|] eqn:Hget; [|reflexivity].
    specialize (Hunbound client eq_refl).
    destruct message; simpl; try reflexivity;
      unfold Ws.handleChatMessage, Ws.handleSignaling,
        Ws.handleParticipantUpdate, Ws.handleParticipantControl,
        Ws.handleParticipantKicked; rewrite Hget, Hunbound; reflexivity.
  - intros client room Hget Hroom Htruthy. cbv zeta. rewrite Hget.
    assert (Ht : negb (truthyOpt (Hub.roomId client)) = false)
      by (rewrite Hroom; simpl; now rewrite Htruthy).
    destruct message; simpl; try reflexivity;
      unfold Ws.handleChatMessage, Ws.handleSignaling,
        Ws.handleParticipantUpdate, Ws.handleParticipantControl,
        Ws.handleParticipantKicked; rewrite Hget, Ht, ?Hroom;
      simpl default.
    + intros k f. rewrite relayToRoom_In, Hroomwide. split.
      * intros (-> & _ & H). now split.
      * intros (-> & H). split; [reflexivity|]. split; [discriminate|exact H].
    + destruct (truthyOpt targetParticipantId).
      * split; [apply sendToParticipant_length|]. intros k f. apply Htarget.
      * intros k f. rewrite relayToRoom_In, Hroomwide. split.
        -- intros (-> & Hne & H). split; [reflexivity|].
           split; [congruence|exact H].
        -- intros (-> & Hne & H). split; [reflexivity|].
           split; [congruence|exact H].
    + intros k f. rewrite relayToRoom_In, Hroomwide. split.
      * intros (-> & Hne & H). split; [reflexivity|].
        split; [congruence|exact H].
      * intros (-> & Hne & H). split; [reflexivity|].
        split; [congruence|exact H].
    + intros k f. rewrite relayToRoom_In, Hroomwide. split.
      * intros (-> & _ & H). now split.
      * intros (-> & H). split; [reflexivity|]. split; [discriminate|exact H].
    + split.
      * intros k. rewrite in_app_iff, relayToRoom_In, Hroomwide. split.
        -- intros [Hin|(_ & Hne & H)].
           ++ apply Htarget in Hin as [Hf _]. discriminate.
           ++ split; [congruence|exact H].
        -- intros (Hne & H). right. split; [reflexivity|].
           split; [congruence|exact H].
      * intros k Hin. apply in_app_or in Hin as [Hin|Hin].
        -- now apply Htarget in Hin as [_ H].
        -- apply relayToRoom_In in Hin as [Hf _]. discriminate.
Qed.

(** A signal from the first room, addressed to the participant of the
    connection in the second room, is delivered there; a chat line comes
    back to its sender. *)
Lemma X19_relay_routing_witness :
  snd (Ws.handleWebSocketMessage "c1"
         (Ws.MsgSignal (Some "q7w1e4r9t2y") "offer") (Ws.hub Sockets.three))
  = [("c3", Ws.RelaySignal "offer" (Some "k3j9x0a7bq1"))]
  /\ In ("c1", Ws.RelayChat "hello")
       (snd (Ws.handleWebSocketMessage "c1" (Ws.MsgChat "hello")
               (Ws.hub Sockets.three))).
Proof.
  split; [reflexivity|].
  destruct (X19_relay_routing Sockets.three "c1" (Ws.MsgChat "hello")
              Sockets.three_attainable) as (_ & _ & _ & H).
  apply (H (Hub.mkClient true (Some "abcdefghijkl") (Some "k3j9x0a7bq1")
              Sockets.t0 true) "abcdefghijkl" eq_refl eq_refl eq_refl).
  split; [reflexivity|].
  eexists. split; [reflexivity|]. split; reflexivity.
Defined.

(* ===================================================================== *)
(** * Request rate limiting *)
(* ===================================================================== *)

Lemma createRateLimit_live config key now store c r :
  store !! key = Some (RateLimit.mkEntry c r) -> now <= r ->
  RateLimit.createRateLimit config key now store
  = (if RateLimit.maxRequests config <? c + 1
     then RateLimit.TooManyRequests (- ((now - r) / 1000))
     else RateLimit.Next (Z.max 0 (RateLimit.maxRequests config - (c + 1))),
     <[key := RateLimit.mkEntry (c + 1) r]> store).
Proof.
  intros Hs Hr. unfold RateLimit.createRateLimit, RateLimit.increment.
  rewrite Hs. simpl.
  destruct (Z.ltb_spec r now); [lia|]. simpl.
  destruct (RateLimit.maxRequests config <? c + 1); reflexivity.
Qed.

Lemma createRateLimit_fresh config key now store :
  (forall e, store !! key = Some e -> RateLimit.resetTime e < now) ->
  RateLimit.createRateLimit config key now store
  = (if RateLimit.maxRequests config <? 1
     then RateLimit.TooManyRequests
            (- ((now - (now + RateLimit.windowMs config)) / 1000))
     else RateLimit.Next (Z.max 0 (RateLimit.maxRequests config - 1)),
     <[key := RateLimit.mkEntry 1 (now + RateLimit.windowMs config)]> store).
Proof.
  intros Hs. unfold RateLimit.createRateLimit, RateLimit.increment.
  destruct (store !! key) as [e|] eqn:E.
  - specialize (Hs e eq_refl).
    destruct (Z.ltb_spec (RateLimit.resetTime e) now); [|lia]. simpl.
    destruct (RateLimit.maxRequests config <? 1); reflexivity.
  - simpl. destruct (RateLimit.maxRequests config <? 1); reflexivity.
Qed.

(** A chain of limiters met by a request inside a running window. *)
Lemma through_live
    (chain : list RateLimit.RateLimitConfig) (key : string) (now : Z)
    (store : gmap string RateLimit.Entry) (c r : Z)
    (Hlive : store !! key = Some (RateLimit.mkEntry c r))
    (Hnow : now <= r) :
  let out := RateLimit.through chain key now store in
  (fst out = true
   <-> forall i config,
         chain !! i = Some config ->
         c + Z.of_nat i + 1 <= RateLimit.maxRequests config)
  /\ (fst out = true ->
      snd out !! key
      = Some (RateLimit.mkEntry (c + Z.of_nat (List.length chain)) r))
  /\ (fst out = false ->
      exists c', snd out !! key = Some (RateLimit.mkEntry c' r)
                 /\ c < c' <= c + Z.of_nat (List.length chain))
  /\ (forall other, other <> key -> snd out !! other = store !! other).
Proof.
  cbv zeta. revert c store Hlive.
  induction chain as [|config rest IH]; intros c store Hlive.
  - simpl. split; [|split; [|split]].
    + split; [intros _ i config H; discriminate|reflexivity].
    + intros _. rewrite Hlive. do 2 f_equal. lia.
    + discriminate.
    + reflexivity.
  - cbn [RateLimit.through].
    rewrite (createRateLimit_live config key now store c r Hlive Hnow).
    destruct (Z.ltb_spec (RateLimit.maxRequests config) (c + 1)) as [Hover|Hok].
    + simpl. split; [|split; [|split]].
      * split; [discriminate|]. intros H.
        specialize (H 0%nat config eq_refl). simpl in H. lia.
      * discriminate.
      * intros _. exists (c + 1). rewrite lookup_insert_eq.
        split; [reflexivity|lia].
      * intros other Hne. apply lookup_insert_ne. congruence.
    + destruct (IH (c + 1) (<[key := RateLimit.mkEntry (c + 1) r]> store)
                  (lookup_insert_eq _ _ _)) as (H1 & H2 & H3 & H4).
      split; [|split; [|split]].
      * rewrite H1. split.
        -- intros H [|i] cfg Hi.
           ++ injection Hi as <-. simpl. lia.
           ++ specialize (H i cfg Hi). lia.
        -- intros H i cfg Hi. specialize (H (S i) cfg Hi). lia.
      * intros Hpass. rewrite (H2 Hpass). do 2 f_equal.
        simpl List.length. lia.
      * intros Hfail. destruct (H3 Hfail) as (c' & Hc' & Hrange).
        exists c'. split; [exact Hc'|]. simpl List.length. lia.
      * intros other Hne. rewrite (H4 other Hne).
        apply lookup_insert_ne. congruence.
Qed.

(** X20: the limiters share one counter per address. Within a
    running window every limiter a request passes adds one to the same
    count, whatever its own configuration: a request is let through by a
    chain of limiters exactly if the count it meets, plus its place in the
    chain, stays within the maximum of each; it then leaves the count
    raised by the length of the chain. A request that is refused has been
    counted as well. The end of the window and the entries of other
    addresses are never touched. *)
Theorem X20_limiters_share_counter
    (chain : list RateLimit.RateLimitConfig) (key : string) (now : Z)
    (store : gmap string RateLimit.Entry) (c r : Z)
    (Hlive : store !! key = Some (RateLimit.mkEntry c r))
    (Hnow : now <= r) :
  let out := RateLimit.through chain key now store in
  (fst out = true
   <-> forall i config,
         chain !! i = Some config ->
         c + Z.of_nat i + 1 <= RateLimit.maxRequests config)
  /\ (fst out = true ->
      snd out !! key
      = Some (RateLimit.mkEntry (c + Z.of_nat (List.length chain)) r))
  /\ (fst out = false ->
      exists c', snd out !! key = Some (RateLimit.mkEntry c' r)
                 /\ c < c' <= c + Z.of_nat (List.length chain))
  /\ (forall other, other <> key -> snd out !! other = store !! other).
Proof.
  exact (through_live chain key now store c r Hlive Hnow).
Qed.

(** A signaling request passes the general limiter and the limiter of its
    path: at a count of 58 it is let through and leaves 60; at 59 the
    second limiter refuses it. *)
Lemma X20_limiters_share_counter_witness :
  RateLimit.through [RateLimit.generalLimiter; RateLimit.apiLimiter]
    "10.0.0.7" 1700000000000
    {[ "10.0.0.7" := RateLimit.mkEntry 58 1700000600000 ]}
  = (true, {[ "10.0.0.7" := RateLimit.mkEntry 60 1700000600000 ]})
  /\ fst (RateLimit.through
            [RateLimit.generalLimiter; RateLimit.apiLimiter]
            "10.0.0.7" 1700000000000
            {[ "10.0.0.7" := RateLimit.mkEntry 59 1700000600000 ]})
     = false.
Proof.
  split; [vm_compute; reflexivity|].
  set (store := {[ "10.0.0.7" := RateLimit.mkEntry 59 1700000600000 ]}
                : gmap string RateLimit.Entry).
  assert (Hlive : store !! "10.0.0.7"
                  = Some (RateLimit.mkEntry 59 1700000600000))
    by (vm_compute; reflexivity).
  destruct (X20_limiters_share_counter
              [RateLimit.generalLimiter; RateLimit.apiLimiter]
              "10.0.0.7" 1700000000000 store 59 1700000600000 Hlive
              ltac:(lia)) as [H _].
  destruct (fst _) eqn:E; [|reflexivity].
  pose proof (proj1 H eq_refl 1%nat RateLimit.apiLimiter eq_refl) as Hc.
  simpl in Hc. lia.
Defined.

(** X21: the window of an address belongs to the limiter that
    meets no running window. When an address has no entry, or one whose
    window is over, the first limiter of the chain opens a window of its
    own length, and the limiters behind it count in that window whatever
    their own [windowMs]: the request is let through exactly if its place
    in the chain stays within the maximum of each. *)
Theorem X21_window_of_first_limiter
    (first : RateLimit.RateLimitConfig)
    (rest : list RateLimit.RateLimitConfig) (key : string) (now : Z)
    (store : gmap string RateLimit.Entry)
    (Hwindow : 0 <= RateLimit.windowMs first)
    (Hmax : 1 <= RateLimit.maxRequests first)
    (Hover : forall e, store !! key = Some e -> RateLimit.resetTime e < now) :
  let out := RateLimit.through (first :: rest) key now store in
  (exists c, snd out !! key
             = Some (RateLimit.mkEntry c (now + RateLimit.windowMs first))
             /\ 1 <= c <= 1 + Z.of_nat (List.length rest))
  /\ (fst out = true
      <-> forall i config,
            rest !! i = Some config ->
            Z.of_nat i + 2 <= RateLimit.maxRequests config)
  /\ (fst out = true ->
      snd out !! key
      = Some (RateLimit.mkEntry (1 + Z.of_nat (List.length rest))
                (now + RateLimit.windowMs first))).
Proof.
  cbv zeta. cbn [RateLimit.through].
  rewrite (createRateLimit_fresh first key now store Hover).
  destruct (Z.ltb_spec (RateLimit.maxRequests first) 1) as [H|_]; [lia|].
  set (store1 := <[key := RateLimit.mkEntry 1
                            (now + RateLimit.windowMs first)]> store).
  destruct (through_live rest key now store1 1
              (now + RateLimit.windowMs first)
              (lookup_insert_eq _ _ _) ltac:(lia))
    as (H1 & H2 & H3 & _).
  split; [|split].
  - destruct (fst (RateLimit.through rest key now store1)) eqn:E.
    + eexists. split; [exact (H2 eq_refl)|lia].
    + destruct (H3 eq_refl) as (c' & Hc' & Hr). exists c'.
      split; [exact Hc'|lia].
  - rewrite H1. split; intros H i cfg Hi; specialize (H i cfg Hi); lia.
  - exact H2.
Qed.

(** A first request to a signaling path meets the general limiter and
    then the one-minute limiter: the window it counts in lasts fifteen
    minutes. *)
Lemma X21_window_of_first_limiter_witness :
  snd (RateLimit.through [RateLimit.generalLimiter; RateLimit.apiLimiter]
         "10.0.0.7" 1700000000000 ∅) !! "10.0.0.7"
  = Some (RateLimit.mkEntry 2 1700000900000).
Proof.
  destruct (X21_window_of_first_limiter RateLimit.generalLimiter
              [RateLimit.apiLimiter] "10.0.0.7" 1700000000000 ∅)
    as (_ & Hpass & Hentry).
  - vm_compute. discriminate.
  - vm_compute. discriminate.
  - intros e He. rewrite lookup_empty in He. discriminate.
  - apply Hentry. reflexivity.
Defined.

(** ** Expired entries *)

Lemma createRateLimit_key config key now
    (s1 s2 : gmap string RateLimit.Entry) :
  s1 !! key = s2 !! key ->
  fst (RateLimit.createRateLimit config key now s1)
  = fst (RateLimit.createRateLimit config key now s2)
  /\ snd (RateLimit.createRateLimit config key now s1) !! key
     = snd (RateLimit.createRateLimit config key now s2) !! key.
Proof.
  intros H. unfold RateLimit.createRateLimit, RateLimit.increment.
  rewrite H. destruct (s2 !! key) as [e|].
  - destruct (RateLimit.resetTime e <? now); simpl;
      destruct (_ <? _); simpl; split; try reflexivity;
      now rewrite !lookup_insert_eq.
  - simpl. destruct (_ <? _); simpl; split; try reflexivity;
      now rewrite !lookup_insert_eq.
Qed.

Lemma through_key chain key now :
  forall s1 s2 : gmap string RateLimit.Entry,
    s1 !! key = s2 !! key ->
    fst (RateLimit.through chain key now s1)
    = fst (RateLimit.through chain key now s2)
    /\ snd (RateLimit.through chain key now s1) !! key
       = snd (RateLimit.through chain key now s2) !! key.
Proof.
  induction chain as [|config rest IH]; intros s1 s2 H; [now split|].
  cbn [RateLimit.through].
  destruct (createRateLimit_key config key now s1 s2 H) as [Hv Hk].
  destruct (RateLimit.createRateLimit config key now s1) as [v1 t1].
  destruct (RateLimit.createRateLimit config key now s2) as [v2 t2].
  simpl in Hv, Hk. subst v2. destruct v1; [now apply IH|now split].
Qed.

Lemma cleanup_lookup now (store : gmap string RateLimit.Entry) key e :
  RateLimit.cleanup now store !! key = Some e
  <-> store !! key = Some e /\ now <= RateLimit.resetTime e.
Proof. unfold RateLimit.cleanup. apply map_lookup_filter_Some. Qed.

(** X22: the periodic clean-up deletes exactly the entries whose
    window is over, and no request can tell: a request that arrives after
    a clean-up gets from every chain of limiters the verdict, and leaves
    for its address the entry, it would have without the clean-up. *)
Theorem X22_cleanup_is_unobservable
    (store : gmap string RateLimit.Entry) (swept : Z) :
  (forall key e,
     RateLimit.cleanup swept store !! key = Some e
     <-> store !! key = Some e /\ swept <= RateLimit.resetTime e)
  /\ (forall config rest key later,
        swept <= later ->
        let chain := config :: rest in
        fst (RateLimit.through chain key later
               (RateLimit.cleanup swept store))
        = fst (RateLimit.through chain key later store)
        /\ snd (RateLimit.through chain key later
                  (RateLimit.cleanup swept store)) !! key
           = snd (RateLimit.through chain key later store) !! key).
Proof.
  split; [intros key e; apply cleanup_lookup|].
  intros config rest key later Hle. cbv zeta. cbn [RateLimit.through].
  assert (Hfirst :
            fst (RateLimit.createRateLimit config key later
                   (RateLimit.cleanup swept store))
            = fst (RateLimit.createRateLimit config key later store)
            /\ snd (RateLimit.createRateLimit config key later
                      (RateLimit.cleanup swept store)) !! key
               = snd (RateLimit.createRateLimit config key later store)
                 !! key).
  { destruct (RateLimit.cleanup swept store !! key) as [e|] eqn:E.
    - apply createRateLimit_key. rewrite E.
      apply cleanup_lookup in E as [E _]. now rewrite E.
    - destruct (store !! key) as [e|] eqn:E'.
      + assert (Hold : RateLimit.resetTime e < swept).
        { destruct (Z.lt_ge_cases (RateLimit.resetTime e) swept) as [H|H];
            [exact H|].
          assert (RateLimit.cleanup swept store !! key = Some e)
            by (apply cleanup_lookup; split; [exact E'|lia]).
          congruence. }
        unfold RateLimit.createRateLimit, RateLimit.increment.
        rewrite E, E'.
        destruct (Z.ltb_spec (RateLimit.resetTime e) later); [|lia].
        simpl. destruct (_ <? _); simpl; split; try reflexivity;
          now rewrite !lookup_insert_eq.
      + apply createRateLimit_key. now rewrite E, E'. }
  destruct Hfirst as [Hv Hk].
  destruct (RateLimit.createRateLimit config key later
              (RateLimit.cleanup swept store)) as [v1 t1].
  destruct (RateLimit.createRateLimit config key later store) as [v2 t2].
  simpl in Hv, Hk. subst v2.
  destruct v1; [now apply through_key|now split].
Qed.

(** An entry whose window ended is swept; the next request opens a new
    window either way. *)
Lemma X22_cleanup_is_unobservable_witness :
  RateLimit.cleanup 1700000700000
    {[ "10.0.0.7" := RateLimit.mkEntry 48 1700000600000 ]} !! "10.0.0.7"
  = None
  /\ fst (RateLimit.through [RateLimit.generalLimiter] "10.0.0.7"
            1700000800000
            (RateLimit.cleanup 1700000700000
               {[ "10.0.0.7" := RateLimit.mkEntry 48 1700000600000 ]}))
     = fst (RateLimit.through [RateLimit.generalLimiter] "10.0.0.7"
              1700000800000
              {[ "10.0.0.7" := RateLimit.mkEntry 48 1700000600000 ]}).
Proof.
  destruct (X22_cleanup_is_unobservable
              {[ "10.0.0.7" := RateLimit.mkEntry 48 1700000600000 ]}
              1700000700000) as [_ H].
  split; [vm_compute; reflexivity|].
  apply (H RateLimit.generalLimiter [] "10.0.0.7" 1700000800000). lia.
Defined.

(** ** Responses that are not counted *)

(** X23: a limiter configured to skip a kind of response gives
    the count back when such a response is sent. For a request let through
    inside a running window, the count after the response is the count the
    request met if the response is skipped (a 2xx under
    [skipSuccessfulRequests], a status of 400 or more under
    [skipFailedRequests]) and one more otherwise; a limiter with neither
    option, as all the mounted ones are, never lowers a count. *)
Theorem X23_skipped_responses
    (config : RateLimit.RateLimitConfig) (key : string)
    (now statusCode c r : Z) (store : gmap string RateLimit.Entry)
    (Hlive : store !! key = Some (RateLimit.mkEntry c r))
    (Hnow : now <= r) (Hc : 0 <= c)
    (Hpass : c + 1 <= RateLimit.maxRequests config) :
  let skipped :=
    (RateLimit.skipSuccessfulRequests config
     && (200 <=? statusCode) && (statusCode <? 300))
    || (RateLimit.skipFailedRequests config && (400 <=? statusCode)) in
  let served := RateLimit.createRateLimit config key now store in
  let after := RateLimit.onSend config key statusCode (snd served) in
  fst served
  = RateLimit.Next (RateLimit.maxRequests config - (c + 1))
  /\ after !! key
     = Some (RateLimit.mkEntry (if skipped then c else c + 1) r)
  /\ (forall other, other <> key -> after !! other = store !! other)
  /\ (RateLimit.skipSuccessfulRequests config = false ->
      RateLimit.skipFailedRequests config = false ->
      after = snd served).
Proof.
  cbv zeta.
  rewrite (createRateLimit_live config key now store c r Hlive Hnow).
  destruct (Z.ltb_spec (RateLimit.maxRequests config) (c + 1)); [lia|].
  cbn [fst snd]. unfold RateLimit.onSend.
  split; [f_equal; lia|].
  destruct (RateLimit.skipSuccessfulRequests config && (200 <=? statusCode)
            && (statusCode <? 300)
            || RateLimit.skipFailedRequests config && (400 <=? statusCode))
    eqn:Hskip.
  - rewrite lookup_insert_eq. cbn [RateLimit.count RateLimit.resetTime].
    split; [|split].
    + rewrite lookup_insert_eq. do 2 f_equal. lia.
    + intros other Hne. rewrite !lookup_insert_ne by congruence. reflexivity.
    + intros H1 H2. rewrite H1, H2 in Hskip. discriminate.
  - split; [apply lookup_insert_eq|]. split; [|reflexivity].
    intros other Hne. apply lookup_insert_ne. congruence.
Qed.

(** Under the limiter for authentication a request answered 200 is not
    counted, one answered 401 is. *)
Lemma X23_skipped_responses_witness :
  RateLimit.onSend RateLimit.authLimiter "10.0.0.7" 200
    (snd (RateLimit.createRateLimit RateLimit.authLimiter "10.0.0.7"
            1700000000000
            (<["10.0.0.7" := RateLimit.mkEntry 3 1700000600000]> ∅)))
  !! "10.0.0.7" = Some (RateLimit.mkEntry 3 1700000600000)
  /\ RateLimit.onSend RateLimit.authLimiter "10.0.0.7" 401
       (snd (RateLimit.createRateLimit RateLimit.authLimiter "10.0.0.7"
               1700000000000
               (<["10.0.0.7" := RateLimit.mkEntry 3 1700000600000]> ∅)))
     !! "10.0.0.7" = Some (RateLimit.mkEntry 4 1700000600000).
Proof.
  split.
  - exact (proj1 (proj2 (X23_skipped_responses RateLimit.authLimiter
                           "10.0.0.7" 1700000000000 200 3 1700000600000
                           (<["10.0.0.7" := RateLimit.mkEntry 3
                                              1700000600000]> ∅)
                           (lookup_insert_eq _ _ _) ltac:(lia) ltac:(lia)
                           ltac:(vm_compute; discriminate)))).
  - vm_compute. reflexivity.
Defined.


(* ===================================================================== *)
(** * Two joins at once *)
(* ===================================================================== *)

Lemma joinRoomSchema_roomId body v :
  joinRoomSchema body = Some v ->
  roomIdParamSchema (JoinRoomRequest.roomId body) = true.
Proof.
  unfold joinRoomSchema, roomIdParamSchema. intros H.
  destruct (lengthBetween 1 20 (JoinRoomRequest.roomId body));
    [|discriminate].
  destruct (Str.matchesRoomId (JoinRoomRequest.roomId body));
    [reflexivity|discriminate].
Qed.

Lemma presentIn_new participantId roomId name t host :
  Sql.presentIn roomId (newParticipant participantId roomId name t host)
  = true.
Proof. unfold Sql.presentIn. simpl. now rewrite String.eqb_refl. Qed.

Lemma presentHostIn_new participantId roomId name t host :
  Sql.presentHostIn roomId (newParticipant participantId roomId name t host)
  = host.
Proof.
  unfold Sql.presentHostIn. simpl. rewrite String.eqb_refl.
  now destruct host.
Qed.

(** The statements of two joins, each running its [SELECT]s on the store
    the other has not yet written to: both pass the checks, both insert. *)
Lemma racing_joins (ts : list Async.Thread) (s : Store)
    (eA eB : Env) (bodyA bodyB vA vB : JoinRoomRequest.t) (room : Room.row)
    (HvA : joinRoomSchema bodyA = Some vA)
    (HvB : joinRoomSchema bodyB = Some vB)
    (HsameRoom : JoinRoomRequest.roomId bodyB = JoinRoomRequest.roomId bodyA)
    (Hroom : Sql.roomById (JoinRoomRequest.roomId bodyA) s = Some room)
    (Hactive : Room.is_active room = true)
    (HpwA : passwordRejected (Room.password room)
              (JoinRoomRequest.password bodyA) = false)
    (HpwB : passwordRejected (Room.password room)
              (JoinRoomRequest.password bodyB) = false)
    (Hcap : Sql.countPresent (JoinRoomRequest.roomId bodyA) s
            < Room.max_participants room)
    (HnewA : Sql.selectPresentNamed (JoinRoomRequest.roomId bodyA)
               (sanitizeString (JoinRoomRequest.participantName vA)) s = [])
    (HnewB : Sql.selectPresentNamed (JoinRoomRequest.roomId bodyA)
               (sanitizeString (JoinRoomRequest.participantName vB)) s = [])
    (HidA : Str.truthy (generateParticipantId eA) = true)
    (HidB : Str.truthy (generateParticipantId eB) = true)
    (Hdistinct : generateParticipantId eA <> generateParticipantId eB)
    (HfreeA : idFree (generateParticipantId eA) s)
    (HfreeB : idFree (generateParticipantId eB) s) :
  let rid := JoinRoomRequest.roomId bodyA in
  let host := Sql.countPresentHosts rid s =? 0 in
  let pA := newParticipant (generateParticipantId eA) rid
              (sanitizeString (JoinRoomRequest.participantName vA))
              (datetimeNow (now eA)) host in
  let pB := newParticipant (generateParticipantId eB) rid
              (sanitizeString (JoinRoomRequest.participantName vB))
              (datetimeNow (now eB)) host in
  Async.steps (Async.racingJoins eA eB bodyA bodyB (List.length ts))
    (Async.mkWorld s ts)
  = Async.mkWorld (mkStore (rooms s) (participants s ++ [pA; pB]))
      (ts ++ [Async.Return (Ok tt); Async.Return (Ok tt)]).
Proof.
  cbv zeta.
  destruct (joinRoomRoute_valid (generateParticipantId eA) (now eA) bodyA vA
              s HvA) as [_ HridA].
  destruct (joinRoomRoute_valid (generateParticipantId eB) (now eB) bodyB vB
              s HvB) as [_ HridB].
  destruct (joinRoomSchema_inv bodyA vA HvA) as (_ & _ & _ & _ & EpwA).
  destruct (joinRoomSchema_inv bodyB vB HvB) as (_ & _ & _ & _ & EpwB).
  assert (Hfull : (Room.max_participants room
                   <=? Sql.countPresent (JoinRoomRequest.roomId bodyA) s)
                  = false) by (apply Z.leb_gt; exact Hcap).
  set (rid := JoinRoomRequest.roomId bodyA) in *.
  set (host := Sql.countPresentHosts rid s =? 0).
  set (pA := newParticipant (generateParticipantId eA) rid
               (sanitizeString (JoinRoomRequest.participantName vA))
               (datetimeNow (now eA)) host).
  set (pB := newParticipant (generateParticipantId eB) rid
               (sanitizeString (JoinRoomRequest.participantName vB))
               (datetimeNow (now eB)) host).
  set (s1 := mkStore (rooms s) (participants s ++ [pA])).
  assert (HinsA : Sql.insertParticipant pA s = Some s1)
    by (apply insertParticipant_fresh; exact HfreeA).
  assert (HfreeB1 : idFree (generateParticipantId eB) s1).
  { intros q Hq. simpl in Hq. apply in_app_or in Hq as [Hq|[<-|[]]].
    - now apply HfreeB.
    - simpl. exact Hdistinct. }
  assert (HinsB : Sql.insertParticipant pB s1
                  = Some (mkStore (rooms s) (participants s ++ [pA; pB]))).
  { rewrite (insertParticipant_fresh pB s1 HfreeB1). simpl.
    now rewrite <- List.app_assoc. }
  assert (HfindA : List.find
                     (fun p' => String.eqb (Participant.id p')
                                  (generateParticipantId eA))
                     (participants s1) = Some pA)
    by (apply (find_snoc_id _ s pA HfreeA); reflexivity).
  assert (HfindB : List.find
                     (fun p' => String.eqb (Participant.id p')
                                  (generateParticipantId eB))
                     (participants s ++ [pA; pB]) = Some pB).
  { replace (participants s ++ [pA; pB]) with (participants s1 ++ [pB])
      by (simpl; now rewrite <- List.app_assoc).
    apply (find_snoc_id _ s1 pB HfreeB1). reflexivity. }
  unfold Async.racingJoins, Async.steps. cbn [List.fold_left].
  unfold Async.step at 14. unfold Async.step at 13.
  cbn [Async.db Async.inFlight].
  rewrite <- List.app_assoc. cbn [List.app].
  unfold Async.handle, Async.joinRoomRoute, Async.validateBody.
  rewrite HvA, HvB.
  unfold Async.joinRoom, Async.insertAndReturnParticipant.
  rewrite HridA, HridB, HsameRoom. fold rid.
  cbn [Async.forget Async.bind Async.query Async.execInsert].
  (* the four SELECTs of the first join *)
  rewrite (step_runs_at _ ts _ _ _ s eq_refl). cbv beta. rewrite Hroom.
  cbn [Async.forget Async.bind Async.ret Async.throwIf Async.throw].
  rewrite Hactive, EpwA, HpwA.
  cbn [Async.forget Async.bind Async.ret Async.throwIf Async.throw negb].
  rewrite (step_runs_at _ ts _ _ _ s eq_refl). cbv beta. rewrite Hfull.
  cbn [Async.forget Async.bind Async.ret Async.throwIf Async.throw].
  rewrite (step_runs_at _ ts _ _ _ s eq_refl). cbv beta. rewrite HnewA.
  cbn [Async.forget Async.bind Async.ret Async.throwIf Async.throw].
  rewrite (step_runs_at _ ts _ _ _ s eq_refl). cbv beta.
  cbn [Async.forget Async.bind Async.ret Async.throwIf Async.throw].
  (* the four SELECTs of the second join *)
  rewrite (step_runs_after _ ts _ _ _ _ s eq_refl). cbv beta. rewrite Hroom.
  cbn [Async.forget Async.bind Async.ret Async.throwIf Async.throw].
  rewrite Hactive, EpwB, HpwB.
  cbn [Async.forget Async.bind Async.ret Async.throwIf Async.throw negb].
  rewrite (step_runs_after _ ts _ _ _ _ s eq_refl). cbv beta. rewrite Hfull.
  cbn [Async.forget Async.bind Async.ret Async.throwIf Async.throw].
  rewrite (step_runs_after _ ts _ _ _ _ s eq_refl). cbv beta. rewrite HnewB.
  cbn [Async.forget Async.bind Async.ret Async.throwIf Async.throw].
  rewrite (step_runs_after _ ts _ _ _ _ s eq_refl). cbv beta.
  cbn [Async.forget Async.bind Async.ret Async.throwIf Async.throw].
  fold host. fold pA. fold pB.
  (* the INSERT and the read-back of the first join *)
  rewrite (step_runs_at _ ts _ _ _ s eq_refl). cbv beta. rewrite HinsA.
  cbn [Async.forget Async.bind Async.ret Async.throwIf Async.throw
       Async.query default].
  unfold id.
  rewrite (step_runs_at _ ts _ _ _ s1 eq_refl). cbv beta.
  unfold idToUse at 1.
  change (Participant.id pA) with (generateParticipantId eA).
  rewrite HidA, HfindA.
  cbn [Async.forget Async.bind Async.ret Async.defined].
  (* the INSERT and the read-back of the second join *)
  rewrite (step_runs_after _ ts _ _ _ _ s1 eq_refl). cbv beta. rewrite HinsB.
  cbn [Async.forget Async.bind Async.ret Async.throwIf Async.throw
       Async.query default].
  rewrite (step_runs_after _ ts _ _ _ _ _ eq_refl). cbv beta.
  unfold idToUse at 1.
  change (Participant.id pB) with (generateParticipantId eB).
  unfold id. cbn [participants].
  rewrite HidB, HfindB.
  cbn [Async.forget Async.bind Async.ret Async.defined].
  reflexivity.
Qed.

(** X1: the checks of a join and its insert are separate
    statements, and nothing keeps two joins apart. In any state of the
    server, with any requests in flight, let two well-formed joins to one
    room arrive with two fresh ids, under two names no present participant
    of the room carries, each passing the admission checks on the store as
    it is. When each runs its four [SELECT]s before the other runs its
    [INSERT], both joins are answered and both rows are stored: the room
    has two more present participants, so with one place left it ends
    above its [max_participants] and the details of the room report more
    participants than the maximum; and when the room had no present host,
    it ends with two. *)
Theorem X1_racing_joins_both_enter
    (w : Async.World) (eA eB : Env)
    (bodyA bodyB vA vB : JoinRoomRequest.t) (room : Room.row)
    (Hw : Async.attained w)
    (HvA : joinRoomSchema bodyA = Some vA)
    (HvB : joinRoomSchema bodyB = Some vB)
    (HsameRoom : JoinRoomRequest.roomId bodyB = JoinRoomRequest.roomId bodyA)
    (Hroom : Sql.roomById (JoinRoomRequest.roomId bodyA) (Async.db w)
             = Some room)
    (Hactive : Room.is_active room = true)
    (HpwA : passwordRejected (Room.password room)
              (JoinRoomRequest.password bodyA) = false)
    (HpwB : passwordRejected (Room.password room)
              (JoinRoomRequest.password bodyB) = false)
    (Hcap : Sql.countPresent (JoinRoomRequest.roomId bodyA) (Async.db w)
            < Room.max_participants room)
    (HnewA : Sql.selectPresentNamed (JoinRoomRequest.roomId bodyA)
               (sanitizeString (JoinRoomRequest.participantName vA))
               (Async.db w) = [])
    (HnewB : Sql.selectPresentNamed (JoinRoomRequest.roomId bodyA)
               (sanitizeString (JoinRoomRequest.participantName vB))
               (Async.db w) = [])
    (HidA : Str.truthy (generateParticipantId eA) = true)
    (HidB : Str.truthy (generateParticipantId eB) = true)
    (Hdistinct : generateParticipantId eA <> generateParticipantId eB)
    (HfreeA : idFree (generateParticipantId eA) (Async.db w))
    (HfreeB : idFree (generateParticipantId eB) (Async.db w)) :
  let rid := JoinRoomRequest.roomId bodyA in
  let host := Sql.countPresentHosts rid (Async.db w) =? 0 in
  let pA := newParticipant (generateParticipantId eA) rid
              (sanitizeString (JoinRoomRequest.participantName vA))
              (datetimeNow (now eA)) host in
  let pB := newParticipant (generateParticipantId eB) rid
              (sanitizeString (JoinRoomRequest.participantName vB))
              (datetimeNow (now eB)) host in
  let w' := Async.steps
              (Async.racingJoins eA eB bodyA bodyB
                 (List.length (Async.inFlight w))) w in
  Async.attained w'
  /\ Async.inFlight w'
     = Async.inFlight w ++ [Async.Return (Ok tt); Async.Return (Ok tt)]
  /\ Async.db w'
     = mkStore (rooms (Async.db w)) (participants (Async.db w) ++ [pA; pB])
  /\ Sql.countPresent rid (Async.db w')
     = Sql.countPresent rid (Async.db w) + 2
  /\ (Sql.countPresent rid (Async.db w) + 1 = Room.max_participants room ->
      exists info,
        answer (getRoomRoute rid) (Async.db w') = Ok info
        /\ infoMaxParticipants info < participantCount info)
  /\ (Sql.countPresentHosts rid (Async.db w) = 0 ->
      Sql.countPresentHosts rid (Async.db w') = 2).
Proof.
  cbv zeta. split; [now apply steps_attained|].
  destruct w as [s ts]. cbn [Async.db Async.inFlight] in *.
  rewrite (racing_joins ts s eA eB bodyA bodyB vA vB room); try assumption.
  cbn [Async.db Async.inFlight].
  set (rid := JoinRoomRequest.roomId bodyA) in *.
  set (pA := newParticipant (generateParticipantId eA) rid _ _ _).
  set (pB := newParticipant (generateParticipantId eB) rid _ _ _).
  assert (Hcount : Sql.countPresent rid
                     (mkStore (rooms s) (participants s ++ [pA; pB]))
                   = Sql.countPresent rid s + 2).
  { unfold Sql.countPresent. simpl. rewrite List.filter_app, length_app.
    simpl. unfold pA, pB. rewrite !presentIn_new. simpl. lia. }
  split; [reflexivity|]. split; [reflexivity|]. split; [exact Hcount|].
  split.
  - intros Hlast. unfold answer. rewrite getRoomRoute_unfold.
    pose proof (joinRoomSchema_roomId bodyA vA HvA) as Hparam.
    fold rid in Hparam. rewrite Hparam.
    change (Sql.roomById rid (mkStore (rooms s) (participants s ++ [pA; pB])))
      with (Sql.roomById rid s).
    rewrite Hroom. eexists. split; [reflexivity|]. simpl.
    rewrite Hcount. lia.
  - intros Hnone. unfold Sql.countPresentHosts in *. simpl.
    rewrite List.filter_app, length_app. simpl. unfold pA, pB.
    rewrite !presentHostIn_new.
    replace (Z.of_nat (List.length
                         (List.filter (Sql.presentHostIn rid)
                            (participants s))) =? 0) with true
      by (symmetry; now apply Z.eqb_eq).
    simpl. lia.
Qed.

(** The creator sits in the room for two; Bob and Carol join at once: the
    room for two holds three, and says so. *)
Lemma X1_racing_joins_both_enter_witness :
  exists info,
    answer (getRoomRoute "abcdefghijkl")
      (Async.db
         (Async.steps
            (Async.racingJoins Race.envBob Race.envCarol Race.bob Race.carol
               1) Race.created)) = Ok info
    /\ infoMaxParticipants info = 2
    /\ participantCount info = 3.
Proof.
  assert (Hw : Async.attained Race.created)
    by (apply steps_attained, Async.attained_start).
  assert (Hroom : exists room,
             Sql.roomById "abcdefghijkl" (Async.db Race.created) = Some room
             /\ Room.is_active room = true
             /\ Room.password room = None
             /\ Room.max_participants room = 2).
  { eexists. split; [vm_compute; reflexivity|]. now repeat split. }
  destruct Hroom as (room & Hroom & Hactive & Hpw & Hmax).
  assert (Hone : Sql.countPresent "abcdefghijkl" (Async.db Race.created) = 1)
    by (vm_compute; reflexivity).
  assert (Hids : forall p, In p (participants (Async.db Race.created)) ->
                           Participant.id p = "k3j9x0a7bq1").
  { intros p Hp. vm_compute in Hp. now destruct Hp as [<-|[]]. }
  destruct (X1_racing_joins_both_enter Race.created Race.envBob Race.envCarol
              Race.bob Race.carol Race.bob Race.carol room Hw)
    as (_ & _ & _ & _ & Hover & _).
  - vm_compute. reflexivity.
  - vm_compute. reflexivity.
  - reflexivity.
  - exact Hroom.
  - exact Hactive.
  - rewrite Hpw. reflexivity.
  - rewrite Hpw. reflexivity.
  - change (JoinRoomRequest.roomId Race.bob) with "abcdefghijkl".
    rewrite Hone, Hmax. lia.
  - vm_compute. reflexivity.
  - vm_compute. reflexivity.
  - reflexivity.
  - reflexivity.
  - vm_compute. discriminate.
  - intros p Hp E. rewrite (Hids p Hp) in E. vm_compute in E. discriminate.
  - intros p Hp E. rewrite (Hids p Hp) in E. vm_compute in E. discriminate.
  - destruct Hover as (info & Hinfo & Hmore).
    + change (JoinRoomRequest.roomId Race.bob) with "abcdefghijkl".
      rewrite Hone, Hmax. reflexivity.
    + exists info. split; [exact Hinfo|].
      change (JoinRoomRequest.roomId Race.bob) with "abcdefghijkl" in Hinfo.
      change (List.length (Async.inFlight Race.created)) with 1%nat in Hinfo.
      vm_compute in Hinfo. injection Hinfo as <-. now split.
Defined.

(** C1: whether a joiner becomes host is decided on the host
    count the handler read before its insert, and nothing keeps another
    join from running between the two statements. The creator of the room
    for two has left it; Bob and Carol join at once, each reading the host
    count before the other inserts. The server reaches that state; it has
    answered both joins; the room is active and has two present hosts. *)
Theorem C1_racing_joins_two_hosts :
  reachable (Async.db Race.hostless)
  /\ Sql.countPresentHosts "abcdefghijkl" (Async.db Race.hostless) = 0
  /\ Async.attained Race.twoHosts
  /\ reachable (Async.db Race.twoHosts)
  /\ Async.inFlight Race.twoHosts
     = [Async.Return (Ok tt); Async.Return (Ok tt); Async.Return (Ok tt);
        Async.Return (Ok tt)]
  /\ (Room.is_active <$> Sql.roomById "abcdefghijkl" (Async.db Race.twoHosts))
     = Some true
  /\ List.filter (Sql.presentHostIn "abcdefghijkl")
       (participants (Async.db Race.twoHosts))
     = [newParticipant "m2c8v5n1zs4" "abcdefghijkl" "Bob" 1700000120 true;
        newParticipant "q7w1e4r9t2y" "abcdefghijkl" "Carol" 1700000120 true]
  /\ Sql.countPresentHosts "abcdefghijkl" (Async.db Race.twoHosts) = 2.
Proof.
  assert (H1 : Async.attained Race.hostless)
    by (do 2 apply steps_attained; apply Async.attained_start).
  assert (H2 : Async.attained Race.twoHosts)
    by (apply steps_attained; exact H1).
  split; [exact (attained_reachable _ H1)|].
  split; [vm_compute; reflexivity|].
  split; [exact H2|].
  split; [exact (attained_reachable _ H2)|].
  repeat split; vm_compute; reflexivity.
Qed.
